(** * A shallow embedding of the multi-agent rostering system

    The development follows the Python sources module by module:
    [models/employee.py], [models/shift.py], [models/schedule.py],
    [models/constraints.py], [agents/compliance_validator.py],
    [communication/message_bus.py], [config.py],
    [agents/conflict_resolver.py] and [agents/staff_matcher.py]; then the
    rest of the models, of the validator and of [config.py],
    [agents/coordinator.py] (the escalation to the manager) and
    [agents/base_agent.py] (the life cycle).

    Conventions of the embedding.
    - A Python [float] is an exact rational ([Q]); numeric results are
      stated up to [Qeq].  Every constant of the sources ([0.85], [0.05],
      [38.1], ...) is the rational its decimal literal denotes.  Where an
      operation on floats raises on a result out of range (the power and
      the sleep of [retry_with_backoff]), the exception is modelled.
    - A [str] is a [string]; a character that is not ASCII stands as the
      bytes of its UTF-8 encoding, and [str.upper()] and [str.strip()] are
      modelled on ASCII text only.
    - A [datetime.date] is its proleptic Gregorian ordinal
      ([date.toordinal()], a [Z]); a [datetime.time] is a number of minutes
      after midnight (the sources only build whole-minute times); a
      [datetime] is a number of minutes, [1440 * ordinal + minutes].
    - A [dict] is a [gmap] (read with a default where the source uses
      [.get(k, d)] or a [defaultdict]); a dict whose iteration order matters
      is an association list in first-insertion order; the dict of the
      subscribers of the bus, which handlers may change while [send]
      iterates over it, has the table of entries that CPython gives it.
    - Objects that the sources mutate while several lists refer to them
      (the [Violation]s of a [ComplianceResult]) live in an explicit store
      and the lists hold references.
    - A call that can raise returns an [outcome] together with the state
      reached when the exception left the call. *)

From Stdlib Require Import ZArith QArith Qminmax Qpower Lqa Lia.
From Stdlib Require Import String Ascii List Bool Sorted.
From stdpp Require Import gmap strings list fin_maps pretty.
Import ListNotations.

Local Open Scope string_scope.
Local Open Scope list_scope.
Local Open Scope Z_scope.

(** ** Python prelude *)

Inductive PyExc := ValueError | TypeError | RuntimeError | OtherError.

Inductive outcome (A : Type) : Type :=
| Returns (a : A)
| Raises (e : PyExc).
Arguments Returns {A} a.
Arguments Raises {A} e.

Definition Qlt_bool (a b : Q) : bool := negb (Qle_bool b a).

(** [max(a, b)] and [min(a, b)] of Python: the first argument wins ties. *)
Definition py_max (a b : Q) : Q := if Qlt_bool a b then b else a.
Definition py_min (a b : Q) : Q := if Qlt_bool b a then b else a.

Definition Zq (z : Z) : Q := inject_Z z.

(** [sum(l)] over numbers. *)
Definition qsum (l : list Q) : Q := fold_left Qplus l 0%Q.

(** [x in l] and [l.remove(x)] for an equality test [eqb]: the first element
    equal to [x] goes; [None] stands for the [ValueError] of a missing one. *)
Section ListOps.
Context {A : Type} (eqb : A -> A -> bool).

Definition contains (x : A) (l : list A) : bool := existsb (eqb x) l.

Fixpoint list_remove (x : A) (l : list A) : option (list A) :=
  match l with
  | [] => None
  | y :: t =>
      if eqb y x then Some t
      else match list_remove x t with
           | Some t' => Some (y :: t')
           | None => None
           end
  end.

(** [sorted(l, key=...)] as a stable insertion sort for the order [le] on
    keys: an element is placed before the first one it is [le] to, so equal
    keys keep the order of the input, as Python's sort guarantees. *)
Fixpoint insert_sorted (le : A -> A -> bool) (x : A) (l : list A) : list A :=
  match l with
  | [] => [x]
  | y :: t => if le x y then x :: y :: t else y :: insert_sorted le x t
  end.

Definition sorted_by (le : A -> A -> bool) (l : list A) : list A :=
  fold_right (insert_sorted le) [] l.
End ListOps.

(** *** Text rendering used by the f-strings of the sources *)

Definition str_int (z : Z) : string := pretty z.

Definition pad2 (z : Z) : string :=
  if z <? 10 then "0" +:+ str_int z else str_int z.

Definition pad4 (z : Z) : string :=
  if z <? 10 then "000" +:+ str_int z
  else if z <? 100 then "00" +:+ str_int z
  else if z <? 1000 then "0" +:+ str_int z
  else str_int z.

Definition Qfloor_ (q : Q) : Z := Qnum q / Z.pos (Qden q).

(** [q] rounded to a whole number, ties to even. *)
Definition round_half_even (q : Q) : Z :=
  let f := Qfloor_ q in
  let r := (q - Zq f)%Q in
  if Qlt_bool r (1 # 2) then f
  else if Qlt_bool (1 # 2) r then f + 1
  else if Z.even f then f else f + 1.

(** [f"{q:.1f}"]. *)
Definition fmt_1f (q : Q) : string :=
  let neg := Qlt_bool q 0 in
  let a := if neg then (- q)%Q else q in
  let t := round_half_even (a * 10)%Q in
  (if neg then "-" else "") +:+ str_int (t / 10) +:+ "." +:+ str_int (t mod 10).

(** [f"{q:.2f}"]. *)
Definition fmt_2f (q : Q) : string :=
  let neg := Qlt_bool q 0 in
  let a := if neg then (- q)%Q else q in
  let t := round_half_even (a * 100)%Q in
  (if neg then "-" else "") +:+ str_int (t / 100) +:+ "." +:+ pad2 (t mod 100).

(** [repr] of a float whose decimal expansion ends within [fuel] digits
    ([9.0], [8.5], ...); a longer expansion is cut there. *)
Fixpoint frac_digits (fuel : nat) (num den : Z) : string :=
  match fuel with
  | O => ""
  | S k =>
      if num =? 0 then ""
      else str_int (num * 10 / den) +:+ frac_digits k (num * 10 mod den) den
  end.

Definition repr_float (q : Q) : string :=
  let neg := Qlt_bool q 0 in
  let a := if neg then (- q)%Q else q in
  let ip := Qfloor_ a in
  let num := Qnum a - ip * Z.pos (Qden a) in
  let fr := frac_digits 17 num (Z.pos (Qden a)) in
  (if neg then "-" else "") +:+ str_int ip +:+ "." +:+ (if (fr =? "")%string then "0" else fr).

(** *** Calendar: [datetime.date] as an ordinal *)

(** Year, month and day of an ordinal (day 1 is 0001-01-01). *)
Definition civil (ordinal : Z) : Z * Z * Z :=
  let z := ordinal + 305 in
  let era := z / 146097 in
  let doe := z mod 146097 in
  let yoe := (doe - doe / 1460 + doe / 36524 - doe / 146096) / 365 in
  let doy := doe - (365 * yoe + yoe / 4 - yoe / 100) in
  let mp := (5 * doy + 2) / 153 in
  let d := doy - (153 * mp + 2) / 5 + 1 in
  let m := if mp <? 10 then mp + 3 else mp - 9 in
  let y := yoe + era * 400 in
  (if m <=? 2 then y + 1 else y, m, d).

(** [date.weekday()]: Monday is 0. *)
Definition weekday (d : Z) : Z := (d + 6) mod 7.

(** [str(d)], i.e. [d.isoformat()]. *)
Definition isoformat (d : Z) : string :=
  let '(y, m, dd) := civil d in
  pad4 y +:+ "-" +:+ pad2 m +:+ "-" +:+ pad2 dd.

Definition day_abbr (d : Z) : string :=
  nth (Z.to_nat (weekday d)) ["Mon"; "Tue"; "Wed"; "Thu"; "Fri"; "Sat"; "Sun"] "".

(** [d.strftime('%a %d/%m')]. *)
Definition strftime_a_dm (d : Z) : string :=
  let '(_, m, dd) := civil d in
  day_abbr d +:+ " " +:+ pad2 dd +:+ "/" +:+ pad2 m.

(** [time(h, m)] and [t.strftime('%H:%M')]. *)
Definition time (h m : Z) : Z := h * 60 + m.
Definition strftime_HM (t : Z) : string := pad2 (t / 60) +:+ ":" +:+ pad2 (t mod 60).

(** [datetime.combine(d, t)], in minutes. *)
Definition combine (d t : Z) : Z := 1440 * d + t.

(** [(a - b).total_seconds() / 3600] for two datetimes. *)
Definition hours_between (a b : Z) : Q := ((a - b) # 60)%Q.

(** *** [str.upper()] and [str.strip()] *)

(** The two methods are modelled on ASCII text ([ascii_text]): there
    [str.upper()] changes the letters [a] to [z] only, and [str.strip()]
    removes the characters 9 to 13 and 28 to 32 from both ends, which is
    what [upper] and [strip] do.  On text with other characters the
    methods of Python do more (they strip U+00A0 and turn the long s into
    [S], for instance), which [upper] and [strip] do not follow: a
    statement about every text asks for ASCII text. *)
Fixpoint ascii_text (s : string) : bool :=
  match s with
  | EmptyString => true
  | String c t => (nat_of_ascii c <? 128)%nat && ascii_text t
  end.

Definition upper_ascii (c : ascii) : ascii :=
  let n := nat_of_ascii c in
  if ((97 <=? n) && (n <=? 122))%nat then ascii_of_nat (n - 32) else c.

Fixpoint upper (s : string) : string :=
  match s with
  | EmptyString => EmptyString
  | String c t => String (upper_ascii c) (upper t)
  end.

Definition is_space (c : ascii) : bool :=
  let n := nat_of_ascii c in
  (((9 <=? n) && (n <=? 13)) || ((28 <=? n) && (n <=? 32)))%nat.

Fixpoint lstrip (s : string) : string :=
  match s with
  | EmptyString => EmptyString
  | String c t => if is_space c then lstrip t else s
  end.

Fixpoint rstrip (s : string) : string :=
  match s with
  | EmptyString => EmptyString
  | String c t =>
      match rstrip t with
      | EmptyString => if is_space c then EmptyString else String c EmptyString
      | t' => String c t'
      end
  end.

Definition strip (s : string) : string := rstrip (lstrip s).

(** ** models/employee.py *)

Inductive EmployeeType := FULL_TIME | PART_TIME | CASUAL.

Inductive Station := KITCHEN | COUNTER | MCCAFE | DESSERT.

#[global] Instance EmployeeType_eq_dec : EqDecision EmployeeType.
Proof. solve_decision. Defined.

#[global] Instance Station_eq_dec : EqDecision Station.
Proof. solve_decision. Defined.

Definition Station_code (s : Station) : nat :=
  match s with KITCHEN => 0 | COUNTER => 1 | MCCAFE => 2 | DESSERT => 3 end.

Definition Station_decode (n : nat) : Station :=
  match n with O => KITCHEN | 1%nat => COUNTER | 2%nat => MCCAFE | _ => DESSERT end.

#[global] Instance Station_countable : Countable Station.
Proof. apply (inj_countable' Station_code Station_decode). by intros []. Defined.

(** [Station.value]. *)
Definition Station_value (s : Station) : string :=
  match s with
  | KITCHEN => "Kitchen"
  | COUNTER => "Counter"
  | MCCAFE => "Multi-Station McCafe"
  | DESSERT => "Dessert Station"
  end.

Definition EmployeeType_value (t : EmployeeType) : string :=
  match t with
  | FULL_TIME => "Full-Time"
  | PART_TIME => "Part-Time"
  | CASUAL => "Casual"
  end.

(** The dataclass [Employee]; [skills] is a set, read only through
    membership.  The two projections [id] and [name] of the source are
    [emp_id] and [emp_name]. *)
Record Employee := {
  emp_id : string;
  emp_name : string;
  employee_type : EmployeeType;
  primary_station : Station;
  availability : gmap Z (list string);
  skills : list Station;
  weekly_hours_target : Q * Q;
  current_week_hours : Q
}.

Definition _get_hours_target (t : EmployeeType) : Q * Q :=
  match t with
  | FULL_TIME => (35, 38)
  | PART_TIME => (20, 32)
  | CASUAL => (8, 24)
  end%Q.

(** Construction followed by [__post_init__]: the primary station joins the
    skills and a target left at [(0, 0)] is derived from the type. *)
Definition new_Employee (i n : string) (t : EmployeeType) (p : Station)
    (av : gmap Z (list string)) (sk : list Station) (target : Q * Q) : Employee :=
  {| emp_id := i; emp_name := n; employee_type := t; primary_station := p;
     availability := av; skills := p :: sk;
     weekly_hours_target :=
       if Qeq_bool (fst target) 0 && Qeq_bool (snd target) 0
       then _get_hours_target t else target;
     current_week_hours := 0 |}.

(** [Employee.__eq__]: by id. *)
Definition Employee_eqb (a b : Employee) : bool := String.eqb (emp_id a) (emp_id b).

Definition Station_eqb (a b : Station) : bool := bool_decide (a = b).

Definition is_available (e : Employee) (target_date : Z) (shift_code : string) : bool :=
  match availability e !! target_date with
  | None => false
  | Some available_shifts =>
      if contains String.eqb "/" available_shifts
         || (length available_shifts =? 0)%nat
      then false
      else contains String.eqb shift_code available_shifts
  end.

Definition get_available_shifts (e : Employee) (target_date : Z) : list string :=
  match availability e !! target_date with
  | None => []
  | Some shifts =>
      if contains String.eqb "/" shifts then []
      else List.filter (fun s => negb (String.eqb s "/")) shifts
  end.

Definition can_work_station (e : Employee) (station : Station) : bool :=
  contains Station_eqb station (skills e).

(** ** models/shift.py *)

Inductive ShiftType :=
  FIRST_HALF | SECOND_HALF | FULL_DAY | DAY_SHIFT | SHIFT_CHANGE | MEETING.

#[global] Instance ShiftType_eq_dec : EqDecision ShiftType.
Proof. solve_decision. Defined.

Definition ShiftType_value (t : ShiftType) : string :=
  match t with
  | FIRST_HALF => "1F"
  | SECOND_HALF => "2F"
  | FULL_DAY => "3F"
  | DAY_SHIFT => "S"
  | SHIFT_CHANGE => "SC"
  | MEETING => "M"
  end.

Definition ShiftType_from_code (code : string) : option ShiftType :=
  let c := strip (upper code) in
  if String.eqb c "1F" then Some FIRST_HALF
  else if String.eqb c "2F" then Some SECOND_HALF
  else if String.eqb c "3F" then Some FULL_DAY
  else if String.eqb c "S" then Some DAY_SHIFT
  else if String.eqb c "SC" then Some SHIFT_CHANGE
  else if String.eqb c "M" then Some MEETING
  else None.

Record TimeSlot := {
  slot_start : Z;
  slot_end : Z;
  is_peak : bool;
  slot_name : string
}.

Record Shift := {
  shift_type : ShiftType;
  date : Z;
  start_time : Z;
  end_time : Z;
  hours : Q;
  break_minutes : Z
}.

Definition shift_configs (c : string) : option (Z * Z * Q) :=
  if String.eqb c "1F" then Some (time 6 30, time 15 30, 9%Q)
  else if String.eqb c "2F" then Some (time 14 0, time 23 0, 9%Q)
  else if String.eqb c "3F" then Some (time 8 0, time 20 0, 12%Q)
  else if String.eqb c "S" then Some (time 6 30, time 15 0, (17 # 2)%Q)
  else if String.eqb c "SC" then Some (time 11 0, time 20 0, 9%Q)
  else if String.eqb c "M" then Some (time 9 0, time 17 0, 8%Q)
  else None.

(** [Shift.from_code]. *)
Definition from_code (code : string) (shift_date : Z) : option Shift :=
  if contains String.eqb code ["/"; "NA"; ""] then None
  else
    match shift_configs (strip (upper code)) with
    | None => None
    | Some (st, en, h) =>
        match ShiftType_from_code code with
        | None => None
        | Some ty =>
            Some {| shift_type := ty; date := shift_date; start_time := st;
                    end_time := en; hours := h;
                    break_minutes := if Qlt_bool 5 h then 30 else 0 |}
        end
    end.

Definition get_end_datetime (s : Shift) : Z := combine (date s) (end_time s).
Definition get_start_datetime (s : Shift) : Z := combine (date s) (start_time s).

(** [Shift.hours_until_next]. *)
Definition hours_until_next (s next_shift : Shift) : Q :=
  let this_end := get_end_datetime s in
  let next_start := get_start_datetime next_shift in
  hours_between next_start this_end.

Definition overlaps_time_slot (s : Shift) (slot : TimeSlot) : bool :=
  (start_time s <? slot_end slot) && (slot_start slot <? end_time s).

(** [Shift.__str__]. *)
Definition Shift_str (s : Shift) : string :=
  ShiftType_value (shift_type s) +:+ " on " +:+ strftime_a_dm (date s) +:+ ": "
  +:+ strftime_HM (start_time s) +:+ "-" +:+ strftime_HM (end_time s)
  +:+ " (" +:+ repr_float (hours s) +:+ "h)".

(** The generated [__eq__] of the dataclass: field by field. *)
Definition Shift_eqb (a b : Shift) : bool :=
  bool_decide (shift_type a = shift_type b)
  && (date a =? date b) && (start_time a =? start_time b)
  && (end_time a =? end_time b) && Qeq_bool (hours a) (hours b)
  && (break_minutes a =? break_minutes b).

(** ** models/schedule.py *)

Record Assignment := {
  employee : Employee;
  shift : Shift;
  station : Station;
  is_locked : bool;
  notes : string
}.

(** [Assignment(employee=..., shift=..., station=...)]. *)
Definition new_Assignment (e : Employee) (s : Shift) (st : Station) : Assignment :=
  {| employee := e; shift := s; station := st; is_locked := false; notes := "" |}.

(** The generated [__eq__] of [Assignment]: the employees by id, the shifts
    field by field, then station, lock and notes. *)
Definition Assignment_eqb (a b : Assignment) : bool :=
  Employee_eqb (employee a) (employee b)
  && Shift_eqb (shift a) (shift b)
  && Station_eqb (station a) (station b)
  && Bool.eqb (is_locked a) (is_locked b)
  && String.eqb (notes a) (notes b).

Record Schedule := {
  start_date : Z;
  end_date : Z;
  assignments : list Assignment;
  store_id : string;
  _by_date : gmap Z (list Assignment);
  _by_employee : gmap string (list Assignment);
  _by_station : gmap Station (list Assignment)
}.

(** [Schedule(start_date=..., end_date=..., store_id=...)]. *)
Definition new_Schedule (s e : Z) (sid : string) : Schedule :=
  {| start_date := s; end_date := e; assignments := []; store_id := sid;
     _by_date := ∅; _by_employee := ∅; _by_station := ∅ |}.

Definition get_assignments_by_date (s : Schedule) (target_date : Z) : list Assignment :=
  default [] (_by_date s !! target_date).

Definition get_assignments_by_employee (s : Schedule) (employee_id : string)
    : list Assignment :=
  default [] (_by_employee s !! employee_id).

Definition get_assignments_by_station (s : Schedule) (st : Station) : list Assignment :=
  default [] (_by_station s !! st).

(** [Schedule.add_assignment]: the list and the three indexes all grow. *)
Definition add_assignment (a : Assignment) (s : Schedule) : Schedule :=
  {| start_date := start_date s; end_date := end_date s;
     assignments := assignments s ++ [a];
     store_id := store_id s;
     _by_date :=
       <[date (shift a) := get_assignments_by_date s (date (shift a)) ++ [a]]> (_by_date s);
     _by_employee :=
       <[emp_id (employee a) :=
           get_assignments_by_employee s (emp_id (employee a)) ++ [a]]> (_by_employee s);
     _by_station :=
       <[station a := get_assignments_by_station s (station a) ++ [a]]> (_by_station s) |}.

Definition with_assignments (s : Schedule) (l : list Assignment) : Schedule :=
  {| start_date := start_date s; end_date := end_date s; assignments := l;
     store_id := store_id s; _by_date := _by_date s;
     _by_employee := _by_employee s; _by_station := _by_station s |}.

Definition with_by_date (s : Schedule) (m : gmap Z (list Assignment)) : Schedule :=
  {| start_date := start_date s; end_date := end_date s; assignments := assignments s;
     store_id := store_id s; _by_date := m;
     _by_employee := _by_employee s; _by_station := _by_station s |}.

Definition with_by_employee (s : Schedule) (m : gmap string (list Assignment)) : Schedule :=
  {| start_date := start_date s; end_date := end_date s; assignments := assignments s;
     store_id := store_id s; _by_date := _by_date s;
     _by_employee := m; _by_station := _by_station s |}.

Definition with_by_station (s : Schedule) (m : gmap Station (list Assignment)) : Schedule :=
  {| start_date := start_date s; end_date := end_date s; assignments := assignments s;
     store_id := store_id s; _by_date := _by_date s;
     _by_employee := _by_employee s; _by_station := m |}.

(** [Schedule.remove_assignment].  A locked assignment is refused before
    anything is read.  Each [.remove] of the source can raise [ValueError];
    the state returned with it is the one reached so far (an index read
    through the [defaultdict] has created its key by then). *)
Definition remove_assignment (a : Assignment) (s : Schedule) : Schedule * outcome bool :=
  if is_locked a then (s, Returns false)
  else if contains Assignment_eqb a (assignments s) then
    match list_remove Assignment_eqb a (assignments s) with
    | None => (s, Raises ValueError)
    | Some l =>
        let s1 := with_assignments s l in
        let d := date (shift a) in
        match list_remove Assignment_eqb a (get_assignments_by_date s1 d) with
        | None => (with_by_date s1 (<[d := get_assignments_by_date s1 d]> (_by_date s1)),
                   Raises ValueError)
        | Some ld =>
            let s2 := with_by_date s1 (<[d := ld]> (_by_date s1)) in
            let i := emp_id (employee a) in
            match list_remove Assignment_eqb a (get_assignments_by_employee s2 i) with
            | None =>
                (with_by_employee s2
                   (<[i := get_assignments_by_employee s2 i]> (_by_employee s2)),
                 Raises ValueError)
            | Some le =>
                let s3 := with_by_employee s2 (<[i := le]> (_by_employee s2)) in
                let st := station a in
                match list_remove Assignment_eqb a (get_assignments_by_station s3 st) with
                | None =>
                    (with_by_station s3
                       (<[st := get_assignments_by_station s3 st]> (_by_station s3)),
                     Raises ValueError)
                | Some ls =>
                    (with_by_station s3 (<[st := ls]> (_by_station s3)), Returns true)
                end
            end
        end
    end
  else (s, Returns false).

(** [Schedule.get_employee_hours(employee_id)], without a week. *)
Definition get_employee_hours (s : Schedule) (employee_id : string) : Q :=
  qsum (map (fun a => hours (shift a)) (get_assignments_by_employee s employee_id)).

Definition is_employee_assigned (s : Schedule) (employee_id : string) (target_date : Z)
    : bool :=
  existsb (fun a => date (shift a) =? target_date)
    (get_assignments_by_employee s employee_id).

(** [Schedule.get_dates_in_range]: every date from the first to the last. *)
Definition get_dates_in_range (s : Schedule) : list Z :=
  seqZ (start_date s) (end_date s - start_date s + 1).

(** ** models/constraints.py *)

Inductive ConstraintType :=
| LEGAL | AVAILABILITY | SKILL | HOURS_MAX | REST_PERIOD | CONSECUTIVE_DAYS | MIN_STAFF
| PREFERENCE | HOURS_MIN | COST | COVERAGE | FAIRNESS.

#[global] Instance ConstraintType_eq_dec : EqDecision ConstraintType.
Proof. solve_decision. Defined.

Definition ConstraintType_value (c : ConstraintType) : string :=
  match c with
  | LEGAL => "legal" | AVAILABILITY => "availability" | SKILL => "skill"
  | HOURS_MAX => "hours_max" | REST_PERIOD => "rest_period"
  | CONSECUTIVE_DAYS => "consecutive" | MIN_STAFF => "min_staff"
  | PREFERENCE => "preference" | HOURS_MIN => "hours_min" | COST => "cost"
  | COVERAGE => "coverage" | FAIRNESS => "fairness"
  end.

(** The values the sources store in a [details] dict. *)
Inductive PyVal :=
| VNone
| VBool (b : bool)
| VInt (z : Z)
| VFloat (q : Q)
| VStr (s : string)
| VStrList (l : list string).

(** A value read as a number ([bool] is an [int] in Python); [None] for a
    value on which arithmetic or ordering raises [TypeError]. *)
Definition as_number (v : PyVal) : option Q :=
  match v with
  | VBool b => Some (if b then 1 else 0)%Q
  | VInt z => Some (Zq z)
  | VFloat q => Some q
  | VNone | VStr _ | VStrList _ => None
  end.

Definition list_eqb {A : Type} (eqb : A -> A -> bool) : list A -> list A -> bool :=
  fix go (l1 l2 : list A) : bool :=
    match l1, l2 with
    | [], [] => true
    | x :: t1, y :: t2 => eqb x y && go t1 t2
    | _, _ => false
    end.

(** [a == b] on such values: numbers compare by value across [bool], [int]
    and [float]. *)
Definition PyVal_eqb (a b : PyVal) : bool :=
  match as_number a, as_number b with
  | Some x, Some y => Qeq_bool x y
  | None, None =>
      match a, b with
      | VNone, VNone => true
      | VStr s, VStr t => String.eqb s t
      | VStrList l, VStrList m => list_eqb String.eqb l m
      | _, _ => false
      end
  | _, _ => false
  end.

Definition option_eqb {A : Type} (eqb : A -> A -> bool) (a b : option A) : bool :=
  match a, b with
  | None, None => true
  | Some x, Some y => eqb x y
  | _, _ => false
  end.

(** Equality of two [details] dicts: the same keys with equal values. *)
Definition dict_eqb (d1 d2 : gmap string PyVal) : bool :=
  bool_decide (dom d1 = dom d2)
  && forallb (fun kv => option_eqb PyVal_eqb (Some (snd kv)) (d2 !! fst kv))
       (map_to_list d1).

Record Violation := {
  constraint_type : ConstraintType;
  severity : Z;
  description : string;
  affected_entity : string;
  affected_date : option Z;
  details : gmap string PyVal;
  suggestions : list string
}.

Definition is_hard_constraint (v : Violation) : bool :=
  match constraint_type v with
  | LEGAL | AVAILABILITY | SKILL | HOURS_MAX | REST_PERIOD | CONSECUTIVE_DAYS
  | MIN_STAFF => true
  | PREFERENCE | HOURS_MIN | COST | COVERAGE | FAIRNESS => false
  end.

(** The generated [__eq__] of [Violation]. *)
Definition Violation_eqb (a b : Violation) : bool :=
  bool_decide (constraint_type a = constraint_type b)
  && (severity a =? severity b)
  && String.eqb (description a) (description b)
  && String.eqb (affected_entity a) (affected_entity b)
  && option_eqb Z.eqb (affected_date a) (affected_date b)
  && dict_eqb (details a) (details b)
  && list_eqb String.eqb (suggestions a) (suggestions b).

(** *** The store of [Violation] objects

    [escalate_to_manager] writes into a violation that the result's lists
    (and the caller) keep referring to, so violations are objects of a
    store and the lists of a [ComplianceResult] hold references. *)

Definition ref := nat.
Definition store := list Violation.

(** Allocation of a new object. *)
Definition alloc (h : store) (v : Violation) : store * ref := (h ++ [v], length h).

(** [a is b or a == b], the test behind [in] and [list.remove]. *)
Definition same_or_equal (h : store) (a b : ref) : bool :=
  (a =? b)%nat
  || match h !! a, h !! b with
     | Some x, Some y => Violation_eqb x y
     | _, _ => false
     end.

Record ComplianceResult := {
  is_compliant : bool;
  violations : list ref;
  warnings : list ref;
  pending_approvals : list ref;
  score : Q;
  fairness_metrics : gmap string PyVal
}.

(** [ComplianceResult(is_compliant=True)]; the time stamp [checked_at] is
    not kept. *)
Definition new_ComplianceResult (c : bool) : ComplianceResult :=
  {| is_compliant := c; violations := []; warnings := []; pending_approvals := [];
     score := 100; fairness_metrics := ∅ |}.

(** [ComplianceResult._is_informational_warning]; [Raises TypeError] where
    Python cannot order or subtract the values found in [details]. *)
Definition _is_informational_warning (v : Violation) : outcome bool :=
  if option_eqb PyVal_eqb (details v !! "alert_type") (Some (VStr "approaching_limit"))
  then Returns true
  else
    let fairness : outcome bool :=
      if bool_decide (constraint_type v = FAIRNESS) then
        match as_number (default (VInt 0) (details v !! "gini_coefficient")) with
        | None => Raises TypeError
        | Some gini => Returns (Qlt_bool gini (4 # 10))
        end
      else Returns false in
    match fairness with
    | Raises e => Raises e
    | Returns true => Returns true
    | Returns false =>
        if bool_decide (constraint_type v = COVERAGE) then
          match as_number (default (VInt 0) (details v !! "current_coverage")),
                as_number (default (VInt 0) (details v !! "required_coverage")) with
          | Some current, Some required =>
              let shortfall := (required - current)%Q in
              if Qle_bool shortfall 1
                 && option_eqb PyVal_eqb (Some (default VNone (details v !! "peak_type")))
                      (Some VNone)
              then Returns true
              else Returns false
          | _, _ => Raises TypeError
          end
        else Returns false
    end.

(** The table [weights] with its default. *)
Definition weights (c : ConstraintType) : Q :=
  match c with
  | COVERAGE => 8 # 10
  | HOURS_MIN => 5 # 10
  | FAIRNESS => 3 # 10
  | PREFERENCE => 2 # 10
  | COST => 4 # 10
  | _ => 5 # 10
  end%Q.

(** [ComplianceResult._calculate_soft_penalty]. *)
Definition _calculate_soft_penalty (v : Violation) : outcome Q :=
  match _is_informational_warning v with
  | Raises e => Raises e
  | Returns true => Returns 0%Q
  | Returns false =>
      let base_penalty := (Zq (severity v) * (5 # 100))%Q in
      let multiplier := weights (constraint_type v) in
      let penalty := (base_penalty * multiplier)%Q in
      Returns (py_min penalty (5 # 10))
  end.

Definition set_score (r : ComplianceResult) (q : Q) : ComplianceResult :=
  {| is_compliant := is_compliant r; violations := violations r;
     warnings := warnings r; pending_approvals := pending_approvals r;
     score := q; fairness_metrics := fairness_metrics r |}.

(** [ComplianceResult.add_violation] for the object at [x].  When the
    penalty computation raises, the warning is already in the list and the
    score is the old one. *)
Definition add_violation (h : store) (x : ref) (r : ComplianceResult)
    : ComplianceResult * outcome unit :=
  match h !! x with
  | None => (r, Raises OtherError)
  | Some v =>
      if is_hard_constraint v then
        ({| is_compliant := false; violations := violations r ++ [x];
            warnings := warnings r; pending_approvals := pending_approvals r;
            score := py_max 0 (score r - Zq (severity v * 2));
            fairness_metrics := fairness_metrics r |}, Returns tt)
      else
        let r1 := {| is_compliant := is_compliant r; violations := violations r;
                     warnings := warnings r ++ [x];
                     pending_approvals := pending_approvals r;
                     score := score r; fairness_metrics := fairness_metrics r |} in
        match _calculate_soft_penalty v with
        | Raises e => (r1, Raises e)
        | Returns penalty => (set_score r1 (py_max 0 (score r1 - penalty)), Returns tt)
        end
  end.

(** The first line of text put in front of an escalated violation's
    suggestions: a warning sign (U+26A0 U+FE0F, six bytes of UTF-8), a
    space, and the words. *)
Definition approval_banner : string := "⚠️ MANAGER APPROVAL REQUIRED: ".

(** The writes of [escalate_to_manager] into the violation object. *)
Definition mark_escalated (v : Violation) (reason : string) : Violation :=
  {| constraint_type := constraint_type v; severity := severity v;
     description := description v; affected_entity := affected_entity v;
     affected_date := affected_date v;
     details :=
       <["requires_manager_approval" := VBool true]>
         (<["escalation_reason" := VStr reason]> (details v));
     suggestions := (approval_banner +:+ reason) :: suggestions v |}.

(** [ComplianceResult.escalate_to_manager] for the object at [x]. *)
Definition escalate_to_manager (h : store) (x : ref) (reason : string)
    (r : ComplianceResult) : store * ComplianceResult :=
  if contains (same_or_equal h) x (violations r) then
    match list_remove (same_or_equal h) x (violations r), h !! x with
    | Some vs, Some v =>
        let h' := <[x := mark_escalated v reason]> h in
        let s1 := py_min 100 (score r + Zq (severity v * 2)) in
        let s2 := py_max 0 (s1 - Zq (severity v) * (5 # 10)) in
        (h', {| is_compliant := (length vs =? 0)%nat; violations := vs;
                warnings := warnings r;
                pending_approvals := pending_approvals r ++ [x];
                score := s2; fairness_metrics := fairness_metrics r |})
    | _, _ => (h, r)
    end
  else (h, r).

(** [ComplianceResult.summary], the counts only. *)
Definition hard_violations (r : ComplianceResult) : nat := length (violations r).

(** ** agents/compliance_validator.py *)

(** A dict in first-insertion order: [d[k] = f(d.get(k, dflt))]. *)
Fixpoint assoc_update {K V : Type} (eqb : K -> K -> bool) (k : K) (f : V -> V)
    (dflt : V) (l : list (K * V)) : list (K * V) :=
  match l with
  | [] => [(k, f dflt)]
  | (k', v) :: t =>
      if eqb k' k then (k', f v) :: t
      else (k', v) :: assoc_update eqb k f dflt t
  end.

(** [{e.id: e for e in employees}]: a later employee replaces an earlier one
    of the same id. *)
Definition employees_by_id (employees : list Employee) : gmap string Employee :=
  fold_left (fun m e => <[emp_id e := e]> m) employees ∅.

Module Validator.

(** The fields of [ComplianceValidatorAgent] the checks read. *)
Record Agent := {
  schedule : Schedule;
  employees : gmap string Employee
}.

Definition min_rest_hours : Z := 10.

(** [self.params["hours_limits"].get(employee_type, (0, 40))]. *)
Definition hours_limits (t : EmployeeType) : Z * Z :=
  match t with
  | FULL_TIME => (35, 38)
  | PART_TIME => (20, 32)
  | CASUAL => (8, 24)
  end.

Definition _get_week_number (self : Agent) (target_date : Z) : Z :=
  (target_date - start_date (schedule self)) / 7.

(** A new violation object is created and handed to [add_violation]. *)
Definition report (v : Violation) (st : store * ComplianceResult)
    : store * ComplianceResult * outcome unit :=
  let '(h, r) := st in
  let '(h', x) := alloc h v in
  let '(r', o) := add_violation h' x r in
  (h', r', o).

(** The violations of a check are reported one after the other; an
    exception ends the check. *)
Fixpoint report_all (vs : list Violation) (st : store * ComplianceResult)
    : store * ComplianceResult * outcome unit :=
  match vs with
  | [] => (st, Returns tt)
  | v :: t =>
      match report v st with
      | (h, r, Returns _) => report_all t (h, r)
      | (h, r, Raises e) => (h, r, Raises e)
      end
  end.

(** *** The hours check *)

(** [employee_weekly_hours[emp_id][week_num] += hours], both levels in
    first-insertion order. *)
Definition weekly_hours_table (self : Agent) : list (string * list (Z * Q)) :=
  fold_left
    (fun tbl a =>
       assoc_update String.eqb (emp_id (employee a))
         (assoc_update Z.eqb (_get_week_number self (date (shift a)))
            (fun h => (h + hours (shift a))%Q) 0%Q)
         [] tbl)
    (assignments (schedule self)) [].

Definition max_hours_violation (e : Employee) (emp_id : string)
    (week_num : Z) (hours : Q) (max_hours : Z) : Violation :=
  {| constraint_type := HOURS_MAX;
     severity := 9;
     description :=
       emp_name e +:+ " exceeds max hours: " +:+ fmt_1f hours +:+ "/"
       +:+ str_int max_hours +:+ "h in week " +:+ str_int (week_num + 1);
     affected_entity := emp_id;
     affected_date := None;
     details :=
       <["excess_hours" := VFloat (hours - Zq max_hours)]>
       (<["week" := VInt (week_num + 1)]>
       (<["max_hours" := VInt max_hours]>
       (<["current_hours" := VFloat hours]>
       (<["employee_type" := VStr (EmployeeType_value (employee_type e))]>
       (<["employee_name" := VStr (emp_name e)]> ∅)))));
     suggestions :=
       [ "Remove " +:+ fmt_1f (hours - Zq max_hours) +:+ " hours from "
         +:+ emp_name e +:+ "'s schedule";
         "Reassign some shifts to other employees" ] |}.

Definition min_hours_warning (e : Employee) (emp_id : string)
    (week_num : Z) (hours : Q) (min_hours : Z) : Violation :=
  {| constraint_type := HOURS_MIN;
     severity := 4;
     description :=
       emp_name e +:+ " below target hours: " +:+ fmt_1f hours +:+ "/"
       +:+ str_int min_hours +:+ "h in week " +:+ str_int (week_num + 1);
     affected_entity := emp_id;
     affected_date := None;
     details :=
       <["shortfall" := VFloat (Zq min_hours - hours)]>
       (<["week" := VInt (week_num + 1)]>
       (<["min_hours" := VInt min_hours]>
       (<["current_hours" := VFloat hours]>
       (<["employee_type" := VStr (EmployeeType_value (employee_type e))]>
       (<["employee_name" := VStr (emp_name e)]> ∅)))));
     suggestions :=
       [ "Add " +:+ fmt_1f (Zq min_hours - hours) +:+ " more hours for "
         +:+ emp_name e ] |}.

Definition approaching_limit_alert (e : Employee) (emp_id : string)
    (week_num : Z) (hours : Q) (max_hours : Z) : Violation :=
  let remaining := (Zq max_hours - hours)%Q in
  {| constraint_type := HOURS_MAX;
     severity := 2;
     description :=
       "⚠️ " +:+ emp_name e +:+ " approaching max hours: " +:+ fmt_1f hours
       +:+ "/" +:+ str_int max_hours +:+ "h (" +:+ fmt_1f remaining
       +:+ "h remaining)";
     affected_entity := emp_id;
     affected_date := None;
     details :=
       <["alert_type" := VStr "approaching_limit"]>
       (<["utilization_pct" := VFloat (hours / Zq max_hours * 100)]>
       (<["week" := VInt (week_num + 1)]>
       (<["remaining_hours" := VFloat remaining]>
       (<["max_hours" := VInt max_hours]>
       (<["current_hours" := VFloat hours]>
       (<["employee_type" := VStr (EmployeeType_value (employee_type e))]>
       (<["employee_name" := VStr (emp_name e)]> ∅)))))));
     suggestions :=
       [ "Avoid assigning additional shifts to " +:+ emp_name e +:+ " this week";
         "Only " +:+ fmt_1f remaining +:+ "h remaining before max limit" ] |}.

(** The [if / elif / elif] of the check for one employee and one week. *)
Definition check_week (e : Employee) (emp_id : string) (week_num : Z) (hours : Q)
    : option Violation :=
  let '(min_hours, max_hours) := hours_limits (employee_type e) in
  if Qlt_bool (Zq max_hours) hours then
    Some (max_hours_violation e emp_id week_num hours max_hours)
  else if Qlt_bool hours (Zq min_hours) then
    Some (min_hours_warning e emp_id week_num hours min_hours)
  else if Qle_bool (Zq max_hours * (85 # 100)) hours then
    Some (approaching_limit_alert e emp_id week_num hours max_hours)
  else None.

(** The violations of the check, in the order the loops meet them. *)
Definition hours_violations (self : Agent) : list Violation :=
  flat_map
    (fun '(emp_id, weekly_hours) =>
       match employees self !! emp_id with
       | None => []
       | Some e =>
           flat_map
             (fun '(week_num, hours) =>
                match check_week e emp_id week_num hours with
                | Some v => [v]
                | None => []
                end)
             weekly_hours
       end)
    (weekly_hours_table self).

Definition _check_hours_compliance (self : Agent) (st : store * ComplianceResult)
    : store * ComplianceResult * outcome unit :=
  report_all (hours_violations self) st.

(** *** The rest-period check *)

(** [employee_assignments[a.employee.id].append(a)]. *)
Definition assignments_by_employee (self : Agent) : list (string * list Assignment) :=
  fold_left
    (fun tbl a =>
       assoc_update String.eqb (emp_id (employee a)) (fun l => l ++ [a]) [] tbl)
    (assignments (schedule self)) [].

(** The sort key [(a.shift.date, a.shift.start_time)], compared as tuples. *)
Definition key_le (a b : Assignment) : bool :=
  (date (shift a) <? date (shift b))
  || ((date (shift a) =? date (shift b))
      && (start_time (shift a) <=? start_time (shift b))).

Definition rest_violation (e : Employee) (emp_id : string)
    (current next_shift : Assignment) (rest_hours : Q) : Violation :=
  {| constraint_type := REST_PERIOD;
     severity := 10;
     description :=
       emp_name e +:+ " has only " +:+ fmt_1f rest_hours +:+ "h rest (min: "
       +:+ str_int min_rest_hours +:+ "h)";
     affected_entity := emp_id;
     affected_date := Some (date (shift next_shift));
     details :=
       <["min_required" := VInt min_rest_hours]>
       (<["rest_hours" := VFloat rest_hours]>
       (<["shift_2" := VStr (Shift_str (shift next_shift))]>
       (<["shift_1" := VStr (Shift_str (shift current))]>
       (<["employee_name" := VStr (emp_name e)]> ∅))));
     suggestions :=
       [ "Change " +:+ emp_name e +:+ "'s shift on "
         +:+ isoformat (date (shift next_shift)) +:+ " to a later start time";
         "Reassign one of the shifts to another employee" ] |}.

(** The loop over [range(len(sorted_assignments) - 1)]. *)
Fixpoint consecutive_rest (e : Employee) (emp_id : string) (l : list Assignment)
    : list Violation :=
  match l with
  | current :: ((next_shift :: _) as t) =>
      let rest_hours := hours_until_next (shift current) (shift next_shift) in
      (if Qlt_bool rest_hours (Zq min_rest_hours)
       then [rest_violation e emp_id current next_shift rest_hours]
       else [])
      ++ consecutive_rest e emp_id t
  | _ => []
  end.

Definition rest_violations (self : Agent) : list Violation :=
  flat_map
    (fun '(emp_id, assignments) =>
       match employees self !! emp_id with
       | None => []
       | Some e => consecutive_rest e emp_id (sorted_by key_le assignments)
       end)
    (assignments_by_employee self).

Definition _check_rest_period_compliance (self : Agent)
    (st : store * ComplianceResult) : store * ComplianceResult * outcome unit :=
  report_all (rest_violations self) st.

(** *** The Gini coefficient *)

(** [sum((i + 1) * val for i, val in enumerate(l))], from index [i]. *)
Fixpoint rank_weighted_sum (i : Z) (l : list Q) : Q :=
  match l with
  | [] => 0
  | val :: t => (Zq (i + 1) * val + rank_weighted_sum (i + 1) t)%Q
  end.

Definition _calculate_gini (values : list Q) : Q :=
  if (length values =? 0)%nat then 0%Q
  else
    let sorted_values := sorted_by Qle_bool values in
    let n := Zq (Z.of_nat (length sorted_values)) in
    let cumsum := rank_weighted_sum 0 sorted_values in
    let total := qsum sorted_values in
    if Qeq_bool total 0 then 0%Q
    else
      let gini := ((2 * cumsum) / (n * total) - (n + 1) / n)%Q in
      py_max 0 (py_min 1 gini).

End Validator.

(** ** models/store.py *)

Record Store := {
  store_ident : string;
  store_name : string;
  has_mccafe : bool;
  has_dessert_station : bool
}.

Definition get_active_stations (s : Store) : list Station :=
  [KITCHEN; COUNTER]
  ++ (if has_mccafe s then [MCCAFE] else [])
  ++ (if has_dessert_station s then [DESSERT] else []).

(** ** A dict that is changed while it is iterated

    [MessageBus.send] iterates over [self.subscribers.items()] while the
    handlers it calls may register and unregister agents, so the dict of the
    subscribers is modelled with the layout CPython (3.8 and later) gives
    it: a table of entries in insertion order, in which a deletion leaves a
    hole and which is rebuilt without its holes when an insertion finds no
    free slot. *)

Module Dict.
Section Dict.
Context {V : Type}.

(** [entries]: the table, [None] for a hole; [usable]: the free slots
    left. *)
Record t := {
  entries : list (option (string * V));
  usable : Z
}.

(** [{}]: no table yet. *)
Definition empty : t := {| entries := []; usable := 0 |}.

(** [d.items()] as a list. *)
Definition items (d : t) : list (string * V) := omap id (entries d).

(** [len(d)]. *)
Definition used (d : t) : nat := length (items d).

(** [k in d] and [d[k]]. *)
Definition get (k : string) (d : t) : option V :=
  match List.find (fun kv => String.eqb (fst kv) k) (items d) with
  | Some kv => Some (snd kv)
  | None => None
  end.

(** The size of a rebuilt table: the smallest power of two, from 8 on,
    that is at least [minsize]; two thirds of its slots hold entries. *)
Fixpoint keysize_from (fuel : nat) (size minsize : Z) : Z :=
  match fuel with
  | O => size
  | S fuel' =>
      if minsize <=? size then size else keysize_from fuel' (2 * size) minsize
  end.

Definition keysize (minsize : Z) : Z := keysize_from (Z.to_nat minsize) 8 minsize.

Definition usable_fraction (size : Z) : Z := 2 * size / 3.

(** The table rebuilt for an insertion: room for three times the
    entries in use, and no hole. *)
Definition resize (d : t) : t :=
  let n := Z.of_nat (used d) in
  {| entries := map Some (items d);
     usable := usable_fraction (keysize (3 * n)) - n |}.

(** The value under a key that is in the table is replaced in place. *)
Fixpoint replace_value (k : string) (v : V) (es : list (option (string * V)))
    : list (option (string * V)) :=
  match es with
  | [] => []
  | Some (k', v') :: t =>
      if String.eqb k' k then Some (k', v) :: t
      else Some (k', v') :: replace_value k v t
  | None :: t => None :: replace_value k v t
  end.

(** [d[k] = v]. *)
Definition setitem (k : string) (v : V) (d : t) : t :=
  match get k d with
  | Some _ => {| entries := replace_value k v (entries d); usable := usable d |}
  | None =>
      let d1 := if usable d <=? 0 then resize d else d in
      {| entries := entries d1 ++ [Some (k, v)]; usable := usable d1 - 1 |}
  end.

(** [del d[k]], for a key that is in the table: its entry becomes a
    hole. *)
Definition delitem (k : string) (d : t) : t :=
  {| entries :=
       map (fun e => match e with
                     | Some (k', v) => if String.eqb k' k then None else Some (k', v)
                     | None => None
                     end)
         (entries d);
     usable := usable d |}.

(** The first entry of [es] that is not a hole, with its index when
    [es] starts at index [i]. *)
Fixpoint first_entry (es : list (option (string * V))) (i : nat)
    : option (nat * (string * V)) :=
  match es with
  | [] => None
  | Some kv :: _ => Some (i, kv)
  | None :: t => first_entry t (S i)
  end.

(** The entry an iterator at position [pos] finds next. *)
Definition next_entry (d : t) (pos : nat) : option (nat * (string * V)) :=
  first_entry (drop pos (entries d)) pos.
End Dict.

Arguments t V : clear implicits.
End Dict.

(** ** communication/message.py and communication/message_bus.py *)

Module Bus.

Inductive MessageType :=
| REQUEST | RESPONSE | BROADCAST | DATA | SCHEDULE
| VALIDATION_REQUEST | VALIDATION_RESULT | VIOLATION
| CONFLICT | RESOLUTION_OPTIONS | RESOLUTION_SELECTED
| STATUS | ERROR | COMPLETE
| APPROVAL_REQUEST | APPROVAL_RESPONSE
| NEGOTIATE_PROPOSE | NEGOTIATE_COUNTER | NEGOTIATE_ACCEPT | NEGOTIATE_REJECT
| BID_REQUEST | BID_SUBMIT | BID_RESULT.

#[global] Instance MessageType_eq_dec : EqDecision MessageType.
Proof. solve_decision. Defined.

(** The payload [content] is kept through its text [str(content)]; the
    time stamp is a number. *)
Record Message := {
  msg_type : MessageType;
  sender : string;
  receiver : option string;
  content : string;
  correlation_id : string;
  timestamp : Z
}.

(** What the console receives; the markup is not modelled. *)
Inductive ConsoleLine :=
| AgentRegistered (agent_name : string)
| MessageHeader (m : Message)
| MessagePreview (m : Message)
| AgentNotFound (agent_name : string).

(** A call of a handler by [send], and its return. *)
Inductive Event :=
| Called (agent_name : string)
| Returned (agent_name : string).

Section Dispatch.
(** A handler is a callable of the program: [H] names the handlers,
    [World] is the state of the program outside the bus, and [run] is
    what calling a handler does to the bus and that state (a handler may
    itself send, register or unregister), with how the call ends. *)
Context {H World : Type}.

(** [subscribers_dict] is the dict [self.subscribers]: the attribute
    is bound once, in [__init__], and the dict is changed in place. *)
Record MessageBus := {
  subscribers_dict : Dict.t H;
  message_history : list Message;
  verbose : bool;
  console : list ConsoleLine
}.

(** [MessageBus(verbose)]. *)
Definition new_MessageBus (verbose : bool) : MessageBus :=
  {| subscribers_dict := Dict.empty; message_history := [];
     verbose := verbose; console := [] |}.

(** The items of [self.subscribers], in the order of iteration. *)
Definition subscribers (b : MessageBus) : list (string * H) :=
  Dict.items (subscribers_dict b).

Variable run : H -> Message -> MessageBus * World -> MessageBus * World * outcome unit.

Definition print (line : ConsoleLine) (b : MessageBus) : MessageBus :=
  {| subscribers_dict := subscribers_dict b; message_history := message_history b;
     verbose := verbose b; console := console b ++ [line] |}.

(** What [d[k] = h] and [d[k]] are on the items of a dict. *)
Fixpoint dict_set (k : string) (h : H) (l : list (string * H)) : list (string * H) :=
  match l with
  | [] => [(k, h)]
  | (k', h') :: t => if String.eqb k' k then (k', h) :: t else (k', h') :: dict_set k h t
  end.

Definition dict_get (k : string) (l : list (string * H)) : option H :=
  match List.find (fun kv => String.eqb (fst kv) k) l with
  | Some kv => Some (snd kv)
  | None => None
  end.

Definition register (agent_name : string) (handler : H) (b : MessageBus) : MessageBus :=
  let b1 := {| subscribers_dict := Dict.setitem agent_name handler (subscribers_dict b);
               message_history := message_history b;
               verbose := verbose b; console := console b |} in
  if verbose b1 then print (AgentRegistered agent_name) b1 else b1.

Definition unregister (agent_name : string) (b : MessageBus) : MessageBus :=
  match Dict.get agent_name (subscribers_dict b) with
  | Some _ =>
      {| subscribers_dict := Dict.delitem agent_name (subscribers_dict b);
         message_history := message_history b;
         verbose := verbose b; console := console b |}
  | None => b
  end.

Definition _print_message (m : Message) (b : MessageBus) : MessageBus :=
  let b1 := print (MessageHeader m) b in
  if negb (String.eqb (content m) "") && negb (bool_decide (msg_type m = DATA))
  then print (MessagePreview m) b1
  else b1.

(** [self.message_history.append(message)]. *)
Definition log_message (m : Message) (b : MessageBus) : MessageBus :=
  {| subscribers_dict := subscribers_dict b;
     message_history := message_history b ++ [m];
     verbose := verbose b; console := console b |}.

(** The loop [for agent_name, handler in self.subscribers.items()].
    The iterator remembers [di_used], the length of the dict when the
    loop began, [di_pos], the position in the table it has reached, and
    [len], the number of items it has still to give.  Each step reads
    the dict as it is then: it raises [RuntimeError] when the length of
    the dict is no longer [di_used] ("dictionary changed size during
    iteration"); it ends the loop when no entry is left from [di_pos]
    on; and it raises [RuntimeError] when it finds an entry although
    [len] is 0 ("dictionary keys changed during iteration"). *)
Fixpoint broadcast_loop (len di_used di_pos : nat) (m : Message)
    (st : MessageBus * World) (tr : list Event)
    : MessageBus * World * outcome unit * list Event :=
  let d := subscribers_dict (fst st) in
  if negb (Dict.used d =? di_used)%nat then (st, Raises RuntimeError, tr)
  else
    match Dict.next_entry d di_pos with
    | None => (st, Returns tt, tr)
    | Some (i, (agent_name, handler)) =>
        match len with
        | O => (st, Raises RuntimeError, tr)
        | S len' =>
            if negb (String.eqb agent_name (sender m)) then
              match run handler m st with
              | (st', Returns _) =>
                  broadcast_loop len' di_used (S i) m st'
                    (tr ++ [Called agent_name; Returned agent_name])
              | (st', Raises e) => (st', Raises e, tr ++ [Called agent_name])
              end
            else broadcast_loop len' di_used (S i) m st tr
        end
    end.

(** [MessageBus.send]: the state reached, how the call ends, and the
    handler calls it made. *)
Definition send (m : Message) (st : MessageBus * World)
    : MessageBus * World * outcome unit * list Event :=
  let '(b, w) := st in
  let b1 := log_message m b in
  let b2 := if verbose b1 then _print_message m b1 else b1 in
  match receiver m with
  | None =>
      let n0 := Dict.used (subscribers_dict b2) in
      broadcast_loop n0 n0 0 m (b2, w) []
  | Some r =>
      match Dict.get r (subscribers_dict b2) with
      | Some handler =>
          match run handler m (b2, w) with
          | (st', Returns _) => (st', Returns tt, [Called r; Returned r])
          | (st', Raises e) => (st', Raises e, [Called r])
          end
      | None => (print (AgentNotFound r) b2, w, Returns tt, [])
      end
  end.
End Dispatch.

Arguments MessageBus H : clear implicits.

End Bus.

(** ** config.py: the rate limiter *)

Module Config.

Record RateLimiter := {
  max_calls : Z;
  period_seconds : Q;
  calls : list Q
}.

(** [RateLimiter(max_calls, period_seconds)]. *)
Definition new_RateLimiter (m : Z) (p : Q) : RateLimiter :=
  {| max_calls := m; period_seconds := p; calls := [] |}.

(** [llm_rate_limiter]. *)
Definition llm_rate_limiter : RateLimiter := new_RateLimiter 10 60.

(** [[t for t in self.calls if now - t < self.period_seconds]]. *)
Definition prune (now : Q) (rl : RateLimiter) : list Q :=
  List.filter (fun t => Qlt_bool (now - t) (period_seconds rl)) (calls rl).

Definition with_calls (rl : RateLimiter) (l : list Q) : RateLimiter :=
  {| max_calls := max_calls rl; period_seconds := period_seconds rl; calls := l |}.

(** [RateLimiter.acquire], the reading [now] of [time.time()] given. *)
Definition acquire (now : Q) (rl : RateLimiter) : RateLimiter * bool :=
  let kept := prune now rl in
  if max_calls rl <=? Z.of_nat (length kept) then (with_calls rl kept, false)
  else (with_calls rl (kept ++ [now]), true).

(** [RateLimiter.remaining]. *)
Definition remaining (now : Q) (rl : RateLimiter) : RateLimiter * Z :=
  let kept := prune now rl in
  (with_calls rl kept, Z.max 0 (max_calls rl - Z.of_nat (length kept))).

(** A run of [acquire] calls at the given clock readings. *)
Fixpoint acquire_all (times : list Q) (rl : RateLimiter) : RateLimiter * list bool :=
  match times with
  | [] => (rl, [])
  | now :: rest =>
      let '(rl1, ok) := acquire now rl in
      let '(rl2, oks) := acquire_all rest rl1 in
      (rl2, ok :: oks)
  end.

End Config.

(** ** agents/conflict_resolver.py: applying a resolution *)

Module ConflictResolver.

(** One entry of [Resolution.changes]: a dict read with [.get]. *)
Record Change := {
  change_type : option string;
  change_assignment : option Assignment;
  change_new_employee : option Employee;
  change_employee : option Employee;
  change_date : option Z;
  change_shift_code : option string;
  change_station : option Station;
  change_new_station : option Station
}.

Record Resolution := {
  res_description : string;
  action : string;
  impact_score : Q;
  changes : list Change;
  risk_level : string;
  requires_approval : bool
}.

Definition Resolution_str (r : Resolution) : string :=
  "[" +:+ upper (action r) +:+ "] " +:+ res_description r +:+ " (Impact: "
  +:+ fmt_1f (impact_score r) +:+ ")".

(** The fields of the agent that [_apply_resolution] touches. *)
Record Agent := {
  schedule : Schedule;
  resolution_history : list (string * nat);
  log : list string
}.

Definition with_schedule (self : Agent) (s : Schedule) : Agent :=
  {| schedule := s; resolution_history := resolution_history self; log := log self |}.

(** [str(e)] of the exceptions the changes can raise. *)
Definition exc_text (e : PyExc) : string :=
  match e with
  | ValueError => "list.remove(x): x not in list"
  | _ => ""
  end.

Definition is_type (c : Change) (t : string) : bool :=
  option_eqb String.eqb (change_type c) (Some t).

(** The body of the loop for one change. *)
Definition apply_change (c : Change) (s : Schedule) : Schedule * outcome unit :=
  if is_type c "swap" then
    match change_assignment c, change_new_employee c with
    | Some assignment, Some new_employee =>
        match remove_assignment assignment s with
        | (s1, Raises e) => (s1, Raises e)
        | (s1, Returns _) =>
            (add_assignment
               (new_Assignment new_employee (shift assignment) (station assignment)) s1,
             Returns tt)
        end
    | _, _ => (s, Returns tt)
    end
  else if is_type c "remove" then
    match change_assignment c with
    | Some assignment =>
        match remove_assignment assignment s with
        | (s1, Raises e) => (s1, Raises e)
        | (s1, Returns _) => (s1, Returns tt)
        end
    | None => (s, Returns tt)
    end
  else if is_type c "add" then
    match change_employee c, change_date c, change_shift_code c, change_station c with
    | Some employee, Some target_date, Some shift_code, Some station =>
        if String.eqb shift_code "" then (s, Returns tt)
        else
          match from_code shift_code target_date with
          | Some shift => (add_assignment (new_Assignment employee shift station) s, Returns tt)
          | None => (s, Returns tt)
          end
    | _, _, _, _ => (s, Returns tt)
    end
  else if is_type c "modify_station" then
    match change_assignment c, change_new_station c with
    | Some assignment, Some new_station =>
        match remove_assignment assignment s with
        | (s1, Raises e) => (s1, Raises e)
        | (s1, Returns _) =>
            (add_assignment
               (new_Assignment (employee assignment) (shift assignment) new_station) s1,
             Returns tt)
        end
    | _, _ => (s, Returns tt)
    end
  else (s, Returns tt).

Fixpoint apply_changes (cs : list Change) (s : Schedule) : Schedule * outcome unit :=
  match cs with
  | [] => (s, Returns tt)
  | c :: t =>
      match apply_change c s with
      | (s1, Returns _) => apply_changes t s1
      | (s1, Raises e) => (s1, Raises e)
      end
  end.

(** [ConflictResolverAgent._apply_resolution]: the [try] runs the changes
    and records the resolution; the [except] logs and answers [False],
    with the schedule as the failed change left it. *)
Definition _apply_resolution (resolution : Resolution) (self : Agent) : Agent * bool :=
  match apply_changes (changes resolution) (schedule self) with
  | (s, Returns _) =>
      ({| schedule := s;
          resolution_history :=
            resolution_history self
            ++ [(Resolution_str resolution, length (changes resolution))];
          log := log self |}, true)
  | (s, Raises e) =>
      ({| schedule := s; resolution_history := resolution_history self;
          log := log self ++ ["Failed to apply resolution: " +:+ exc_text e] |}, false)
  end.

End ConflictResolver.

(** ** agents/staff_matcher.py *)

Module StaffMatcher.

(** A day of the demand forecast: [shift_requirements] maps a shift code
    to the head count per station name. *)
Record DayForecast := {
  shift_requirements : gmap string (gmap string Z)
}.

Record EmployeeBid := {
  bid_employee_id : string;
  bid_employee_name : string;
  bid_shift_date : Z;
  bid_shift_code : string;
  bid_station : Station;
  skill_bid : Q;
  hours_bid : Q;
  fairness_bid : Q;
  preference_bid : Q;
  total_score : Q
}.

(** The fields of [StaffMatcherAgent]; [draws] counts the calls of
    [random.uniform] made so far. *)
Record Agent := {
  schedule : Schedule;
  employees : list Employee;
  store : Store;
  demand_forecast : gmap Z DayForecast;
  _employee_hours : gmap string (gmap Z Q);
  _daily_assignments : gmap Z (list Assignment);
  draws : nat
}.

Section Matching.
(** [uniform n] is the value of the [n]-th call of
    [random.uniform(0, 5)]. *)
Variable uniform : nat -> Q.

(** [self._employee_hours[employee_id][week_num]]. *)
Definition hours_so_far (self : Agent) (employee_id : string) (week_num : Z) : Q :=
  default 0%Q (default ∅ (_employee_hours self !! employee_id) !! week_num).

Definition _get_week_number (self : Agent) (target_date : Z) : Z :=
  (target_date - start_date (schedule self)) / 7.

Definition _get_average_hours_this_week (self : Agent) (week_num : Z) : Q :=
  let all_hours := map (fun emp => hours_so_far self (emp_id emp) week_num)
                     (employees self) in
  if (length all_hours =? 0)%nat then 0%Q
  else (qsum all_hours / Zq (Z.of_nat (length all_hours)))%Q.

Definition type_bids (t : EmployeeType) : Q :=
  match t with FULL_TIME => 50 | PART_TIME => 30 | CASUAL => 15 end%Q.

(** [_generate_employee_bid], with the random factor [random_factor]. *)
Definition _generate_employee_bid (self : Agent) (e : Employee) (target_date : Z)
    (shift_code : string) (station : Station) (random_factor : Q) : EmployeeBid :=
  let skill_bid :=
    if Station_eqb (primary_station e) station then 100%Q
    else if contains Station_eqb station (skills e) then 60%Q
    else 0%Q in
  let week_num := _get_week_number self target_date in
  let current_hours := hours_so_far self (emp_id e) week_num in
  let '(min_hours, max_hours) := weekly_hours_target e in
  let hours_bid :=
    (type_bids (employee_type e)
     + (if Qlt_bool current_hours min_hours
        then py_min 30 ((min_hours - current_hours) * 2)
        else if Qlt_bool current_hours max_hours then 10 else 0))%Q in
  let avg_hours := _get_average_hours_this_week self week_num in
  let fairness_bid :=
    if Qlt_bool current_hours (avg_hours * (7 # 10)) then 25%Q
    else if Qlt_bool current_hours avg_hours then 10%Q
    else 0%Q in
  let is_weekend := 5 <=? weekday target_date in
  let preference_bid :=
    if String.eqb shift_code "1F" then 5%Q
    else if String.eqb shift_code "2F" && negb is_weekend then 3%Q
    else if is_weekend then
      (if Qlt_bool current_hours min_hours then 10%Q else (-5)%Q)
    else 0%Q in
  {| bid_employee_id := emp_id e; bid_employee_name := emp_name e;
     bid_shift_date := target_date; bid_shift_code := shift_code;
     bid_station := station;
     skill_bid := skill_bid; hours_bid := hours_bid;
     fairness_bid := fairness_bid; preference_bid := preference_bid;
     total_score :=
       (skill_bid + hours_bid + fairness_bid + preference_bid + random_factor)%Q |}.

Definition _calculate_candidate_score (self : Agent) (e : Employee) (target_date : Z)
    (shift_code : string) (station : Station) (random_factor : Q) : Q :=
  total_score (_generate_employee_bid self e target_date shift_code station random_factor).

(** The loop of [_get_ranked_candidates] over [self.employees]: the scored
    candidates and the number of draws made. *)
Fixpoint score_candidates (self : Agent) (target_date : Z) (shift_code : string)
    (station : Station) (l : list Employee) (n : nat) : list (Q * Employee) * nat :=
  match l with
  | [] => ([], n)
  | e :: t =>
      if negb (is_available e target_date shift_code) then
        score_candidates self target_date shift_code station t n
      else if is_employee_assigned (schedule self) (emp_id e) target_date then
        score_candidates self target_date shift_code station t n
      else if negb (can_work_station e station) then
        score_candidates self target_date shift_code station t n
      else
        let score :=
          _calculate_candidate_score self e target_date shift_code station (uniform n) in
        let '(rest, n') :=
          score_candidates self target_date shift_code station t (S n) in
        ((score, e) :: rest, n')
  end.

Definition with_draws (self : Agent) (n : nat) : Agent :=
  {| schedule := schedule self; employees := employees self; store := store self;
     demand_forecast := demand_forecast self;
     _employee_hours := _employee_hours self;
     _daily_assignments := _daily_assignments self; draws := n |}.

(** [_get_ranked_candidates]: [candidates.sort(key=..., reverse=True)] is
    a stable sort by decreasing score. *)
Definition _get_ranked_candidates (self : Agent) (target_date : Z)
    (shift_code : string) (station : Station) : list Employee * Agent :=
  let '(candidates, n) :=
    score_candidates self target_date shift_code station (employees self) (draws self) in
  (map snd (sorted_by (fun a b => Qle_bool (fst b) (fst a)) candidates),
   with_draws self n).

Definition MIN_REST_HOURS : Q := 10.

(** The loop of [_check_rest_period] over the employee's assignments. *)
Fixpoint rest_ok (new_start new_end : Z) (l : list Assignment) : bool :=
  match l with
  | [] => true
  | assignment :: t =>
      let existing_start := get_start_datetime (shift assignment) in
      let existing_end := get_end_datetime (shift assignment) in
      let hours_after_existing := hours_between new_start existing_end in
      if Qlt_bool 0 hours_after_existing
         && Qlt_bool hours_after_existing MIN_REST_HOURS then false
      else
        let hours_before_existing := hours_between existing_start new_end in
        if Qlt_bool 0 hours_before_existing
           && Qlt_bool hours_before_existing MIN_REST_HOURS then false
        else rest_ok new_start new_end t
  end.

Definition _check_rest_period (self : Agent) (e : Employee) (new_shift : Shift) : bool :=
  let assignments := get_assignments_by_employee (schedule self) (emp_id e) in
  if (length assignments =? 0)%nat then true
  else rest_ok (get_start_datetime new_shift) (get_end_datetime new_shift) assignments.

Definition _can_assign (self : Agent) (e : Employee) (target_date : Z)
    (shift_code : string) : bool :=
  if negb (is_available e target_date shift_code) then false
  else if is_employee_assigned (schedule self) (emp_id e) target_date then false
  else
    match from_code shift_code target_date with
    | None => false
    | Some shift =>
        let week_num := _get_week_number self target_date in
        let current_hours := hours_so_far self (emp_id e) week_num in
        let max_hours := snd (weekly_hours_target e) in
        if Qlt_bool max_hours (current_hours + hours shift) then false
        else if negb (_check_rest_period self e shift) then false
        else true
    end.

Definition _create_assignment (e : Employee) (target_date : Z) (shift_code : string)
    (station : Station) : option Assignment :=
  match from_code shift_code target_date with
  | None => None
  | Some shift => Some (new_Assignment e shift station)
  end.

Definition with_schedule (self : Agent) (s : Schedule) : Agent :=
  {| schedule := s; employees := employees self; store := store self;
     demand_forecast := demand_forecast self;
     _employee_hours := _employee_hours self;
     _daily_assignments := _daily_assignments self; draws := draws self |}.

Definition _record_assignment (self : Agent) (e : Employee) (target_date : Z)
    (assignment : Assignment) : Agent :=
  let week_num := _get_week_number self target_date in
  let row := default ∅ (_employee_hours self !! emp_id e) in
  {| schedule := schedule self; employees := employees self; store := store self;
     demand_forecast := demand_forecast self;
     _employee_hours :=
       <[emp_id e :=
           <[week_num := (default 0%Q (row !! week_num) + hours (shift assignment))%Q]> row]>
         (_employee_hours self);
     _daily_assignments :=
       <[target_date :=
           default [] (_daily_assignments self !! target_date) ++ [assignment]]>
         (_daily_assignments self);
     draws := draws self |}.

(** The loop of [_fill_station_shift] over the ranked candidates. *)
Fixpoint fill_loop (candidates : list Employee) (target_date : Z) (shift_code : string)
    (station : Station) (required_count filled : Z) (self : Agent) : Agent * Z :=
  match candidates with
  | [] => (self, filled)
  | e :: t =>
      if required_count <=? filled then (self, filled)
      else if _can_assign self e target_date shift_code then
        match _create_assignment e target_date shift_code station with
        | Some assignment =>
            let self1 := with_schedule self (add_assignment assignment (schedule self)) in
            let self2 := _record_assignment self1 e target_date assignment in
            fill_loop t target_date shift_code station required_count (filled + 1) self2
        | None => fill_loop t target_date shift_code station required_count filled self
        end
      else fill_loop t target_date shift_code station required_count filled self
  end.

Definition _fill_station_shift (self : Agent) (target_date : Z) (shift_code : string)
    (station : Station) (required_count : Z) : Agent * Z :=
  let '(candidates, self1) := _get_ranked_candidates self target_date shift_code station in
  fill_loop candidates target_date shift_code station required_count 0 self1.

Definition shift_priority : list string := ["1F"; "3F"; "2F"].

Definition _match_day (self : Agent) (target_date : Z) : Agent :=
  let shift_requirements :=
    match demand_forecast self !! target_date with
    | Some day_forecast => shift_requirements day_forecast
    | None => ∅
    end in
  let active_stations := get_active_stations (store self) in
  fold_left
    (fun self1 shift_code =>
       let shift_reqs := default ∅ (shift_requirements !! shift_code) in
       fold_left
         (fun self2 station =>
            let required_count := default 0 (shift_reqs !! Station_value station) in
            if 0 <? required_count
            then fst (_fill_station_shift self2 target_date shift_code station required_count)
            else self2)
         active_stations self1)
    shift_priority self.

(** [StaffMatcherAgent.execute]: a new schedule, the tracking tables
    reset, then every date of the range in turn.  The console log and the
    summary message to the Coordinator do not touch the schedule and are
    left out. *)
Definition execute (self : Agent) (employees : list Employee) (store : Store)
    (demand_forecast : gmap Z DayForecast) (start_date end_date : Z) : Agent :=
  let self0 :=
    {| schedule := new_Schedule start_date end_date (store_ident store);
       employees := employees; store := store; demand_forecast := demand_forecast;
       _employee_hours := ∅; _daily_assignments := ∅; draws := draws self |} in
  fold_left _match_day (seqZ start_date (end_date - start_date + 1)) self0.

End Matching.

End StaffMatcher.

(** ** Vocabulary of the properties *)

(** The informational violations: an approaching-limit alert, a fairness
    note with a Gini coefficient under 0.4, or a coverage gap of at most one
    person that carries no [peak_type] (an absent number counts as 0, as
    [details.get(key, 0)] reads it). *)
Definition informational (v : Violation) : Prop :=
  details v !! "alert_type" = Some (VStr "approaching_limit")
  \/ (constraint_type v = FAIRNESS
      /\ exists gini,
           as_number (default (VInt 0) (details v !! "gini_coefficient")) = Some gini
           /\ (gini < 4 # 10)%Q)
  \/ (constraint_type v = COVERAGE
      /\ exists current required,
           as_number (default (VInt 0) (details v !! "current_coverage")) = Some current
           /\ as_number (default (VInt 0) (details v !! "required_coverage")) = Some required
           /\ (required - current <= 1)%Q
           /\ details v !! "peak_type" = None).

(** *** Sample data *)

(** 2024-12-09, a Monday: the first day of the default schedule period. *)
Definition monday : Z := 739229.

Definition alice : Employee :=
  new_Employee "1001" "Alice" FULL_TIME KITCHEN ∅ [] (0, 0)%Q.

Definition bob : Employee :=
  new_Employee "1002" "Bob" PART_TIME COUNTER ∅ [] (0, 0)%Q.

(** A shift of the table, the code being one of the table's. *)
Definition shift_of (code : string) (d : Z) : Shift :=
  default {| shift_type := MEETING; date := d; start_time := 0; end_time := 0;
             hours := 0; break_minutes := 0 |} (from_code code d).

Definition schedule_of (l : list Assignment) : Schedule :=
  fold_left (fun s a => add_assignment a s) l (new_Schedule monday (monday + 13) "Store_1").

Definition validator_of (l : list Assignment) : Validator.Agent :=
  {| Validator.schedule := schedule_of l;
     Validator.employees := employees_by_id [alice; bob] |}.

(** Alice's week of 33 hours: 3F, 3F and 1F. *)
Definition week_33 : list Assignment :=
  [ new_Assignment alice (shift_of "3F" monday) KITCHEN;
    new_Assignment alice (shift_of "3F" (monday + 1)) KITCHEN;
    new_Assignment alice (shift_of "1F" (monday + 2)) KITCHEN ].

(** Alice's week of 36 hours: four 1F shifts. *)
Definition week_36 : list Assignment :=
  [ new_Assignment alice (shift_of "1F" monday) KITCHEN;
    new_Assignment alice (shift_of "1F" (monday + 1)) KITCHEN;
    new_Assignment alice (shift_of "1F" (monday + 2)) KITCHEN;
    new_Assignment alice (shift_of "1F" (monday + 3)) KITCHEN ].

(** Alice closes on Monday (2F) and opens on Tuesday (1F). *)
Definition short_rest : list Assignment :=
  [ new_Assignment alice (shift_of "2F" monday) KITCHEN;
    new_Assignment alice (shift_of "1F" (monday + 1)) KITCHEN ].

(** A staffing violation, and a result in which two distinct objects with
    these same fields have been added one after the other. *)
Definition understaffed : Violation :=
  {| constraint_type := MIN_STAFF; severity := 10;
     description := "Only 1 staff on 2024-12-09 (min: 2)";
     affected_entity := "schedule"; affected_date := Some monday;
     details := <["min_required" := VInt 2]> (<["current_staff" := VInt 1]> ∅);
     suggestions := ["Add 1 more staff for 2024-12-09"] |}.

Definition twin_store : store := [understaffed; understaffed].

Definition twin_result : ComplianceResult :=
  fst (add_violation twin_store 1%nat
         (fst (add_violation twin_store 0%nat (new_ComplianceResult true)))).

(** *** Sequences of schedule operations *)

Inductive ScheduleOp :=
| OpAdd (a : Assignment)
| OpRemove (a : Assignment).

(** The operations in turn; an exception ends the run. *)
Fixpoint run_ops (ops : list ScheduleOp) (s : Schedule) : Schedule * outcome unit :=
  match ops with
  | [] => (s, Returns tt)
  | OpAdd a :: rest => run_ops rest (add_assignment a s)
  | OpRemove a :: rest =>
      match remove_assignment a s with
      | (s1, Returns _) => run_ops rest s1
      | (s1, Raises e) => (s1, Raises e)
      end
  end.

(** How many entries of [l] are equal to [a]. *)
Definition occurrences (a : Assignment) (l : list Assignment) : nat :=
  length (List.filter (Assignment_eqb a) l).

(** The list and the three indexes agree: an assignment occurs as often
    under its own date, employee id and station as in the list, and under no
    other key. *)
Definition consistent (s : Schedule) : Prop :=
  forall a : Assignment,
    (forall d, occurrences a (get_assignments_by_date s d)
               = if date (shift a) =? d then occurrences a (assignments s) else 0%nat)
    /\ (forall i, occurrences a (get_assignments_by_employee s i)
                  = if String.eqb (emp_id (employee a)) i
                    then occurrences a (assignments s) else 0%nat)
    /\ (forall st, occurrences a (get_assignments_by_station s st)
                   = if Station_eqb (station a) st
                     then occurrences a (assignments s) else 0%nat).

(** Each index holds, under a key, the entries of the list with that key,
    in the order of the list. *)
Definition indexed (s : Schedule) : Prop :=
  (forall d, get_assignments_by_date s d
             = List.filter (fun y => date (shift y) =? d) (assignments s))
  /\ (forall i, get_assignments_by_employee s i
                = List.filter (fun y => String.eqb (emp_id (employee y)) i) (assignments s))
  /\ (forall st, get_assignments_by_station s st
                 = List.filter (fun y => Station_eqb (station y) st) (assignments s)).

(** Alice's Monday 1F shift in the kitchen, locked. *)
Definition locked_shift : Assignment :=
  {| employee := alice; shift := shift_of "1F" monday; station := KITCHEN;
     is_locked := true; notes := "" |}.

(** The change of a swap resolution: [assignment] goes to [new_employee]. *)
Definition swap_change (assignment : Assignment) (new_employee : Employee)
    : ConflictResolver.Change :=
  {| ConflictResolver.change_type := Some "swap";
     ConflictResolver.change_assignment := Some assignment;
     ConflictResolver.change_new_employee := Some new_employee;
     ConflictResolver.change_employee := None;
     ConflictResolver.change_date := None;
     ConflictResolver.change_shift_code := None;
     ConflictResolver.change_station := None;
     ConflictResolver.change_new_station := None |}.

Definition swap_locked_to_bob : ConflictResolver.Resolution :=
  {| ConflictResolver.res_description := "Swap Alice with Bob";
     ConflictResolver.action := "swap";
     ConflictResolver.impact_score := 30;
     ConflictResolver.changes := [swap_change locked_shift bob];
     ConflictResolver.risk_level := "low";
     ConflictResolver.requires_approval := false |}.

Definition resolver_of (l : list Assignment) : ConflictResolver.Agent :=
  {| ConflictResolver.schedule := schedule_of l;
     ConflictResolver.resolution_history := [];
     ConflictResolver.log := [] |}.

(** *** Broadcasts on the message bus *)

Section Recipients.
Context {H World : Type}.
Variable run : H -> Bus.Message -> Bus.MessageBus H * World
               -> Bus.MessageBus H * World * outcome unit.



End Recipients.

(** *** Sample handlers for the message bus *)




(** A broadcast of the Coordinator. *)
Definition completion_notice : Bus.Message :=
  {| Bus.msg_type := Bus.COMPLETE; Bus.sender := "Coordinator"; Bus.receiver := None;
     Bus.content := "done"; Bus.correlation_id := "c0ffee00"; Bus.timestamp := 0 |}.

(** A silent bus on which the agents of [names] are registered in turn. *)
Definition bus_of {H : Type} (agents : list (string * H)) : Bus.MessageBus H :=
  fold_left (fun b kv => Bus.register (fst kv) (snd kv) b) agents
    (Bus.new_MessageBus false).

(** *** Hours per employee and week *)

(** The week of the schedule period a date falls in. *)
Definition week_of (s : Schedule) (d : Z) : Z := (d - start_date s) / 7.

(** The hours of the assignments of [employee_id] in week [week_num]. *)
Definition week_hours (s : Schedule) (employee_id : string) (week_num : Z) : Q :=
  qsum (map (fun a => hours (shift a))
          (List.filter
             (fun a => String.eqb (emp_id (employee a)) employee_id
                       && (week_of s (date (shift a)) =? week_num))
             (assignments s))).

(** The invariant of the auction for the staff [staff] and a period that
    starts on [first_day]: the hours table mirrors the schedule, and nobody
    in it is over the weekly maximum. *)
Definition booked_within_max (staff : list Employee) (first_day : Z)
    (ag : StaffMatcher.Agent) : Prop :=
  StaffMatcher.employees ag = staff
  /\ start_date (StaffMatcher.schedule ag) = first_day
  /\ (forall i w, (StaffMatcher.hours_so_far ag i w
                   == week_hours (StaffMatcher.schedule ag) i w)%Q)
  /\ (forall e w, In e staff ->
                  (StaffMatcher.hours_so_far ag (emp_id e) w
                   <= snd (weekly_hours_target e))%Q).

(** *** A small auction *)

Definition available_on (days : list Z) (codes : list string) : gmap Z (list string) :=
  list_to_map (map (fun d => (d, codes)) days).

(** Carol, a casual (8 to 24 hours), offers three full days in the first
    week; Dave, full-time, offers the morning shift every day. *)
Definition carol : Employee :=
  new_Employee "1003" "Carol" CASUAL KITCHEN
    (available_on [monday; monday + 2; monday + 4] ["3F"]) [] (0, 0)%Q.

Definition dave : Employee :=
  new_Employee "1004" "Dave" FULL_TIME KITCHEN
    (available_on (seqZ monday 7) ["1F"]) [] (0, 0)%Q.

Definition suburban : Store :=
  {| store_ident := "Store_2"; store_name := "Suburban Melbourne";
     has_mccafe := false; has_dessert_station := false |}.

(** One person in the kitchen on 1F and on 3F, every day of the week. *)
Definition kitchen_demand : gmap Z StaffMatcher.DayForecast :=
  list_to_map
    (map (fun d =>
            (d, {| StaffMatcher.shift_requirements :=
                     <["3F" := {["Kitchen" := 1]}]> {["1F" := {["Kitchen" := 1]}]} |}))
       (seqZ monday 7)).

Definition idle_matcher : StaffMatcher.Agent :=
  {| StaffMatcher.schedule := new_Schedule 0 0 "";
     StaffMatcher.employees := [];
     StaffMatcher.store := suburban;
     StaffMatcher.demand_forecast := ∅;
     StaffMatcher._employee_hours := ∅;
     StaffMatcher._daily_assignments := ∅;
     StaffMatcher.draws := 0 |}.

Definition first_week : Schedule :=
  StaffMatcher.schedule
    (StaffMatcher.execute (fun _ => 0%Q) idle_matcher [carol; dave] suburban
       kitchen_demand monday (monday + 6)).

(** The fairness warning of a schedule whose Gini coefficient is 0.36: over
    the 0.35 at which the validator reports it, under the 0.4 that makes it
    informational. *)
Definition mild_imbalance : Violation :=
  {| constraint_type := FAIRNESS; severity := 3;
     description := "Workload imbalance detected (Gini: 0.36). Hours range: 9.0-36.0h";
     affected_entity := "schedule"; affected_date := None;
     details := <["fairness_type" := VStr "workload_imbalance"]>
                  (<["gini_coefficient" := VFloat (36 # 100)]> ∅);
     suggestions := ["Redistribute shifts more evenly across employees"] |}.

(** *** Violations about one employee *)

(** The violations of [vs] whose affected entity is [employee_id]. *)
Definition about (employee_id : string) (vs : list Violation) : list Violation :=
  List.filter (fun v => String.eqb (affected_entity v) employee_id) vs.

(** The assignments of [employee_id] in a schedule, in the order of its
    list. *)
Definition assignments_of (s : Schedule) (employee_id : string) : list Assignment :=
  List.filter (fun a => String.eqb (emp_id (employee a)) employee_id) (assignments s).

(** [d.get(k)] on a dict kept in insertion order. *)
Definition assoc_get {V : Type} (k : string) (l : list (string * V)) : option V :=
  match List.find (fun kv => String.eqb (fst kv) k) l with
  | Some kv => Some (snd kv)
  | None => None
  end.

(** *** Grouping in insertion order *)

(** [groups[key(a)].append(a)] on a dict of lists, and the members of a
    list under one key. *)
Definition group_step {A : Type} (key : A -> string) (tbl : list (string * list A))
    (a : A) : list (string * list A) :=
  assoc_update String.eqb (key a) (fun g => g ++ [a]) [] tbl.

Definition members {A : Type} (key : A -> string) (k : string) (l : list A) : list A :=
  List.filter (fun a => String.eqb (key a) k) l.

(** What the rest-period check yields for one entry of its table: the key
    and the assignments grouped under it. *)
Definition group_violations (self : Validator.Agent) (kv : string * list Assignment)
    : list Violation :=
  match Validator.employees self !! fst kv with
  | None => []
  | Some e => Validator.consecutive_rest e (fst kv) (sorted_by Validator.key_le (snd kv))
  end.

(** * The rest of the models and of the agents *)

(** ** models/employee.py, continued *)

(** [str.lower()] on the letters of ASCII. *)
Definition lower_ascii (c : ascii) : ascii :=
  let n := nat_of_ascii c in
  if ((65 <=? n) && (n <=? 90))%nat then ascii_of_nat (n + 32) else c.

Fixpoint lower (s : string) : string :=
  match s with
  | EmptyString => EmptyString
  | String c t => String (lower_ascii c) (lower t)
  end.

(** [Station.from_string]: the table read with [.get(key, cls.COUNTER)]. *)
Definition Station_from_string (value : string) : Station :=
  let key := strip (lower value) in
  if String.eqb key "kitchen" then KITCHEN
  else if String.eqb key "counter" then COUNTER
  else if String.eqb key "multi-station mccafe" then MCCAFE
  else if String.eqb key "mccafe" then MCCAFE
  else if String.eqb key "dessert station" then DESSERT
  else if String.eqb key "dessert" then DESSERT
  else COUNTER.

(** *** Managers *)

Inductive ManagerPosition := RESTAURANT_GM | FIRST_ASSISTANT | SECOND_ASSISTANT | TRAINEE.

(** The dataclass [ManagerShift]; the two times are the texts of the table
    ([None] on a day off). *)
Record ManagerShift := {
  manager_name : string;
  position : ManagerPosition;
  shift_date : Z;
  shift_code : string;
  mgr_start_time : option string;
  mgr_end_time : option string;
  mgr_hours : Q
}.

(** The table [shift_times] of [ManagerShift.__post_init__]. *)
Definition shift_times (code : string) : option (option string * option string * Q) :=
  if String.eqb code "S" then Some (Some "06:30", Some "15:00", (17 # 2)%Q)
  else if String.eqb code "1F" then Some (Some "06:30", Some "15:30", 9%Q)
  else if String.eqb code "2F" then Some (Some "14:00", Some "23:00", 9%Q)
  else if String.eqb code "3F" then Some (Some "08:00", Some "20:00", 12%Q)
  else if String.eqb code "SC" then Some (Some "11:00", Some "20:00", 9%Q)
  else if String.eqb code "M" then Some (Some "09:00", Some "17:00", 8%Q)
  else if String.eqb code "/" then Some (None, None, 0%Q)
  else if String.eqb code "NA" then Some (None, None, 0%Q)
  else None.

(** Construction followed by [__post_init__]: a code of the table sets the
    times and the hours; any other code leaves what was passed. *)
Definition new_ManagerShift (n : string) (p : ManagerPosition) (d : Z) (code : string)
    (st en : option string) (h : Q) : ManagerShift :=
  match shift_times code with
  | Some (st', en', h') =>
      {| manager_name := n; position := p; shift_date := d; shift_code := code;
         mgr_start_time := st'; mgr_end_time := en'; mgr_hours := h' |}
  | None =>
      {| manager_name := n; position := p; shift_date := d; shift_code := code;
         mgr_start_time := st; mgr_end_time := en; mgr_hours := h |}
  end.

Definition mgr_is_working (m : ManagerShift) : bool :=
  negb (contains String.eqb (shift_code m) ["/"; "NA"]).

Definition covers_opening (m : ManagerShift) : bool :=
  contains String.eqb (shift_code m) ["S"; "1F"].

Definition covers_closing (m : ManagerShift) : bool :=
  String.eqb (shift_code m) "2F".

Definition covers_lunch_peak (m : ManagerShift) : bool :=
  contains String.eqb (shift_code m) ["S"; "1F"; "3F"; "SC"].

Definition covers_dinner_peak (m : ManagerShift) : bool :=
  contains String.eqb (shift_code m) ["2F"; "3F"; "SC"].

(** The dataclass [Manager]. *)
Record Manager := {
  mgr_name : string;
  mgr_position : ManagerPosition;
  shifts : gmap Z ManagerShift
}.

Definition get_shift (m : Manager) (target_date : Z) : option ManagerShift :=
  shifts m !! target_date.

Definition Manager_is_working (m : Manager) (target_date : Z) : bool :=
  match get_shift m target_date with
  | Some s => mgr_is_working s
  | None => false
  end.

(** [Manager.get_weekly_hours]: the loop over [range(7)]. *)
Definition get_weekly_hours (m : Manager) (week_start : Z) : Q :=
  fold_left
    (fun total day =>
       match get_shift m day with
       | Some s => if mgr_is_working s then (total + mgr_hours s)%Q else total
       | None => total
       end)
    (seqZ week_start 7) 0%Q.

(** The dataclass [ManagerCoverage] and its properties. *)
Record ManagerCoverage := {
  coverage_date : Z;
  managers_on_duty : list ManagerShift
}.

Definition has_opening_coverage (c : ManagerCoverage) : bool :=
  existsb covers_opening (managers_on_duty c).

Definition has_closing_coverage (c : ManagerCoverage) : bool :=
  existsb covers_closing (managers_on_duty c).

Definition has_lunch_peak_coverage (c : ManagerCoverage) : bool :=
  existsb covers_lunch_peak (managers_on_duty c).

Definition has_dinner_peak_coverage (c : ManagerCoverage) : bool :=
  existsb covers_dinner_peak (managers_on_duty c).

Definition manager_count (c : ManagerCoverage) : nat :=
  length (List.filter mgr_is_working (managers_on_duty c)).

Definition total_manager_hours (c : ManagerCoverage) : Q :=
  qsum (map mgr_hours (List.filter mgr_is_working (managers_on_duty c))).

Definition get_coverage_gaps (c : ManagerCoverage) : list string :=
  (if negb (has_opening_coverage c) then ["Opening (06:30)"] else [])
  ++ (if negb (has_closing_coverage c) then ["Closing (23:00)"] else [])
  ++ (if negb (has_lunch_peak_coverage c) then ["Lunch Peak (11:00-14:00)"] else [])
  ++ (if negb (has_dinner_peak_coverage c) then ["Dinner Peak (17:00-21:00)"] else []).

(** ** models/shift.py, continued *)

(** [TimeSlot.duration_hours], [TimeSlot.overlaps], [TimeSlot.contains_time]. *)
Definition duration_hours (t : TimeSlot) : Q := ((slot_end t - slot_start t) # 60)%Q.

Definition overlaps (a b : TimeSlot) : bool :=
  (slot_start a <? slot_end b) && (slot_start b <? slot_end a).

Definition contains_time (s : TimeSlot) (t : Z) : bool :=
  (slot_start s <=? t) && (t <? slot_end s).

(** [Shift.covers_time_slot]. *)
Definition covers_time_slot (s : Shift) (slot : TimeSlot) : bool :=
  (start_time s <=? slot_start slot) && (slot_end slot <=? end_time s).

(** The slots of [PEAK_PERIODS], and the dict in its order. *)
Definition breakfast_peak : TimeSlot :=
  {| slot_start := time 6 30; slot_end := time 9 30; is_peak := true;
     slot_name := "Breakfast Peak" |}.

Definition lunch_peak : TimeSlot :=
  {| slot_start := time 11 0; slot_end := time 14 0; is_peak := true;
     slot_name := "Lunch Peak" |}.

Definition dinner_peak : TimeSlot :=
  {| slot_start := time 17 0; slot_end := time 21 0; is_peak := true;
     slot_name := "Dinner Peak" |}.

Definition PEAK_PERIODS : list (string * TimeSlot) :=
  [("breakfast", breakfast_peak); ("lunch", lunch_peak); ("dinner", dinner_peak)].

(** [SERVICE_PERIODS], in the order of the dict. *)
Definition SERVICE_PERIODS : list (string * TimeSlot) :=
  [ ("opening", {| slot_start := time 6 0; slot_end := time 11 0; is_peak := false;
                   slot_name := "Opening/Breakfast" |});
    ("lunch", {| slot_start := time 11 0; slot_end := time 15 0; is_peak := true;
                 slot_name := "Lunch" |});
    ("afternoon", {| slot_start := time 15 0; slot_end := time 17 30; is_peak := false;
                     slot_name := "Afternoon" |});
    ("dinner", {| slot_start := time 17 30; slot_end := time 21 30; is_peak := true;
                  slot_name := "Dinner" |});
    ("closing", {| slot_start := time 21 30; slot_end := time 23 30; is_peak := false;
                   slot_name := "Closing" |}) ].

(** ** models/schedule.py, continued *)

(** [Schedule.get_employee_hours(employee_id, week_start)]: the seven days
    from [week_start]. *)
Definition get_employee_hours_in_week (s : Schedule) (employee_id : string)
    (week_start : Z) : Q :=
  let week_end := week_start + 6 in
  qsum (map (fun a => hours (shift a))
          (List.filter
             (fun a => (week_start <=? date (shift a)) && (date (shift a) <=? week_end))
             (get_assignments_by_employee s employee_id))).

(** [Schedule.get_coverage]; a station, when given, is always true as a
    condition (a member of a plain [Enum]). *)
Definition get_coverage (s : Schedule) (target_date : Z) (time_slot : TimeSlot)
    (station_filter : option Station) : Z :=
  let assignments := get_assignments_by_date s target_date in
  let assignments :=
    match station_filter with
    | Some st => List.filter (fun a => Station_eqb (station a) st) assignments
    | None => assignments
    end in
  Z.of_nat (length (List.filter (fun a => overlaps_time_slot (shift a) time_slot)
                      assignments)).

(** [for station in Station]. *)
Definition all_stations : list Station := [KITCHEN; COUNTER; MCCAFE; DESSERT].

Definition get_coverage_by_station (s : Schedule) (target_date : Z) (time_slot : TimeSlot)
    : list (Station * Z) :=
  map (fun st => (st, get_coverage s target_date time_slot (Some st))) all_stations.

Definition get_peak_coverage (s : Schedule) (target_date : Z) : list (string * Z) :=
  map (fun '(name, slot) => (name, get_coverage s target_date slot None)) PEAK_PERIODS.

(** [max(l, key=...)] for a list that starts with [best]: the first of the
    largest wins. *)
Fixpoint max_by {A : Type} (key : A -> Z) (best : A) (l : list A) : A :=
  match l with
  | [] => best
  | x :: t => max_by key (if key best <? key x then x else best) t
  end.

(** [Schedule.get_last_shift_end]. *)
Definition get_last_shift_end (s : Schedule) (employee_id : string) (before_date : Z)
    : option Z :=
  let prior_assignments :=
    List.filter (fun a => date (shift a) <? before_date)
      (get_assignments_by_employee s employee_id) in
  match prior_assignments with
  | [] => None
  | a :: t =>
      Some (get_end_datetime
              (shift (max_by (fun a => get_end_datetime (shift a)) a t)))
  end.

(** The [while] loop of [Schedule.get_consecutive_days]; [fuel] bounds the
    number of tests of the condition and [None] is a loop cut short. *)
Fixpoint count_back (fuel : nat) (work_dates : list Z) (check_date consecutive : Z)
    : option Z :=
  match fuel with
  | O => None
  | S k =>
      if contains Z.eqb check_date work_dates
      then count_back k work_dates (check_date - 1) (consecutive + 1)
      else Some consecutive
  end.

(** [Schedule.get_consecutive_days]; the set [work_dates] is read through
    membership only. *)
Definition get_consecutive_days (fuel : nat) (s : Schedule) (employee_id : string)
    (as_of_date : Z) : option Z :=
  let assignments := get_assignments_by_employee s employee_id in
  let work_dates := map (fun a => date (shift a)) assignments in
  count_back fuel work_dates as_of_date 0.

(** ** models/store.py, continued *)

Record StaffingRequirement := {
  req_station : Station;
  normal_count : Z;
  peak_count : Z
}.

Definition get_required (r : StaffingRequirement) (is_peak : bool) : Z :=
  if is_peak then peak_count r else normal_count r.

(** The fields of [Store] that the staffing figures read. *)
Record StoreConfig := {
  base : Store;
  opening_time : Z;
  closing_time : Z;
  staffing_requirements : gmap Station StaffingRequirement
}.

Definition get_operating_hours (s : StoreConfig) : Q :=
  ((closing_time s - opening_time s) # 60)%Q.

(** [sum(req.get_required(is_peak) for req in ....values())]. *)
Definition get_total_staff_required (s : StoreConfig) (is_peak : bool) : Z :=
  map_fold (fun _ req total => total + get_required req is_peak) 0
    (staffing_requirements s).

Definition get_staff_required_by_station (s : StoreConfig) (st : Station)
    (is_peak : bool) : Z :=
  match staffing_requirements s !! st with
  | None => 0
  | Some req => get_required req is_peak
  end.

(** [create_cbd_store()] and [create_suburban_store()]. *)
Definition create_cbd_store : StoreConfig :=
  {| base := {| store_ident := "Store_1"; store_name := "Melbourne CBD";
                has_mccafe := true; has_dessert_station := true |};
     opening_time := time 6 30; closing_time := time 23 0;
     staffing_requirements :=
       <[DESSERT := {| req_station := DESSERT; normal_count := 2; peak_count := 3 |}]>
       (<[MCCAFE := {| req_station := MCCAFE; normal_count := 3; peak_count := 4 |}]>
       (<[COUNTER := {| req_station := COUNTER; normal_count := 5; peak_count := 6 |}]>
       (<[KITCHEN := {| req_station := KITCHEN; normal_count := 6; peak_count := 8 |}]> ∅))) |}.

Definition create_suburban_store : StoreConfig :=
  {| base := {| store_ident := "Store_2"; store_name := "Suburban Melbourne";
                has_mccafe := false; has_dessert_station := false |};
     opening_time := time 7 0; closing_time := time 22 0;
     staffing_requirements :=
       <[COUNTER := {| req_station := COUNTER; normal_count := 3; peak_count := 3 |}]>
       (<[KITCHEN := {| req_station := KITCHEN; normal_count := 3; peak_count := 4 |}]> ∅) |}.

(** ** models/constraints.py, continued *)

(** [ComplianceResult.get_critical_violations]. *)
Definition get_critical_violations (h : store) (r : ComplianceResult) : list ref :=
  List.filter
    (fun x => match h !! x with Some v => 8 <=? severity v | None => false end)
    (violations r).

(** What a caller does to a result: it adds a new violation, or escalates
    one of the objects. *)
Inductive ResultOp :=
| Report (v : Violation)
| Escalate (x : ref) (reason : string).

(** The calls in turn, on the store and the result. *)
Fixpoint run_result_ops (ops : list ResultOp) (st : store * ComplianceResult)
    : store * ComplianceResult :=
  match ops with
  | [] => st
  | Report v :: rest => run_result_ops rest (fst (Validator.report v st))
  | Escalate x reason :: rest =>
      run_result_ops rest (escalate_to_manager (fst st) x reason (snd st))
  end.

(** ** agents/compliance_validator.py, continued *)

Module ComplianceValidatorAgent.

(** A day of the demand forecast as the validator reads it:
    [period_requirements] maps a period to its figures, of which the
    whole numbers are kept. *)
Record DayForecast := {
  period_requirements : gmap string (gmap string Z)
}.

(** The fields of [ComplianceValidatorAgent]. *)
Record Agent := {
  schedule : Schedule;
  store : Store;
  employees : gmap string Employee;
  demand_forecast : gmap Z DayForecast
}.

(** The two fields that the hours check and the rest-period check read. *)
Definition core (self : Agent) : Validator.Agent :=
  {| Validator.schedule := schedule self; Validator.employees := employees self |}.

Definition max_consecutive_days : Z := 6.

(** One check after the other; an exception ends the run. *)
Definition and_then
    (f g : list Violation * ComplianceResult
           -> list Violation * ComplianceResult * outcome unit)
    (st : list Violation * ComplianceResult)
    : list Violation * ComplianceResult * outcome unit :=
  match f st with
  | (h, r, Returns _) => g (h, r)
  | (h, r, Raises e) => (h, r, Raises e)
  end.

(** *** Availability *)

Definition availability_violation (employee : Employee) (shift_code : string)
    (target_date : Z) : Violation :=
  {| constraint_type := AVAILABILITY;
     severity := 10;
     description :=
       emp_name employee +:+ " is not available for " +:+ shift_code +:+ " on "
       +:+ isoformat target_date;
     affected_entity := emp_id employee;
     affected_date := Some target_date;
     details :=
       <["available_shifts" := VStrList (get_available_shifts employee target_date)]>
       (<["shift_code" := VStr shift_code]>
       (<["employee_name" := VStr (emp_name employee)]> ∅));
     suggestions :=
       [ "Assign a different employee who is available for " +:+ shift_code;
         "Change " +:+ emp_name employee +:+ " to an available shift code" ] |}.

Definition availability_violations (self : Agent) : list Violation :=
  flat_map
    (fun assignment =>
       match employees self !! emp_id (employee assignment) with
       | None => []
       | Some e =>
           let shift_code := ShiftType_value (shift_type (shift assignment)) in
           let target_date := date (shift assignment) in
           if negb (is_available e target_date shift_code)
           then [availability_violation e shift_code target_date]
           else []
       end)
    (assignments (schedule self)).

Definition _check_availability_compliance (self : Agent)
    (st : list Violation * ComplianceResult)
    : list Violation * ComplianceResult * outcome unit :=
  Validator.report_all (availability_violations self) st.

Section Checks.
(** [set_items l] is the order in which Python iterates over the set
    whose members are [l]; [sqrt x] is [x ** 0.5]. *)
Variable set_items : list Station -> list Station.
Variable sqrt : Q -> Q.

(** *** Skills *)

Definition skill_violation (employee : Employee) (assignment : Assignment)
    : Violation :=
  {| constraint_type := SKILL;
     severity := 9;
     description :=
       emp_name employee +:+ " is not trained for "
       +:+ Station_value (station assignment);
     affected_entity := emp_id employee;
     affected_date := Some (date (shift assignment));
     details :=
       <["qualified_stations" :=
           VStrList (map Station_value (set_items (skills employee)))]>
       (<["assigned_station" := VStr (Station_value (station assignment))]>
       (<["employee_name" := VStr (emp_name employee)]> ∅));
     suggestions :=
       [ "Assign " +:+ emp_name employee +:+ " to their qualified station: "
         +:+ Station_value (primary_station employee);
         "Find an employee qualified for " +:+ Station_value (station assignment) ] |}.

Definition skill_violations (self : Agent) : list Violation :=
  flat_map
    (fun assignment =>
       match employees self !! emp_id (employee assignment) with
       | None => []
       | Some e =>
           if negb (can_work_station e (station assignment))
           then [skill_violation e assignment]
           else []
       end)
    (assignments (schedule self)).

Definition _check_skill_compliance (self : Agent)
    (st : list Violation * ComplianceResult)
    : list Violation * ComplianceResult * outcome unit :=
  Validator.report_all (skill_violations self) st.

(** *** Consecutive days *)

(** [work_dates.add(d)]: the set is kept as the list of its members. *)
Definition set_add (d : Z) (work_dates : list Z) : list Z :=
  if contains Z.eqb d work_dates then work_dates else work_dates ++ [d].

(** [employee_dates[a.employee.id].add(a.shift.date)]. *)
Definition employee_dates (self : Agent) : list (string * list Z) :=
  fold_left
    (fun tbl a =>
       assoc_update String.eqb (emp_id (employee a)) (set_add (date (shift a))) [] tbl)
    (assignments (schedule self)) [].

(** The loop [for i in range(1, len(sorted_dates))], [previous] being
    [sorted_dates[i-1]]. *)
Fixpoint longest_run (previous : Z) (l : list Z) (consecutive max_found : Z) : Z :=
  match l with
  | [] => max_found
  | d :: t =>
      if d - previous =? 1 then
        longest_run d t (consecutive + 1) (Z.max max_found (consecutive + 1))
      else longest_run d t 1 max_found
  end.

Definition max_found_in (sorted_dates : list Z) : Z :=
  match sorted_dates with
  | [] => 1
  | d :: t => longest_run d t 1 1
  end.

Definition consecutive_days_violation (employee : Employee) (emp_id : string)
    (max_found : Z) (sorted_dates : list Z) : Violation :=
  {| constraint_type := CONSECUTIVE_DAYS;
     severity := 8;
     description :=
       emp_name employee +:+ " works " +:+ str_int max_found
       +:+ " consecutive days (max: " +:+ str_int max_consecutive_days +:+ ")";
     affected_entity := emp_id;
     affected_date := None;
     details :=
       <["work_dates" := VStrList (map isoformat sorted_dates)]>
       (<["max_allowed" := VInt max_consecutive_days]>
       (<["consecutive_days" := VInt max_found]>
       (<["employee_name" := VStr (emp_name employee)]> ∅)));
     suggestions :=
       [ "Give " +:+ emp_name employee +:+ " a day off within the consecutive stretch";
         "Reassign one day to another employee" ] |}.

Definition consecutive_days_violations (self : Agent) : list Violation :=
  flat_map
    (fun '(emp_id, work_dates) =>
       match employees self !! emp_id with
       | None => []
       | Some e =>
           let sorted_dates := sorted_by Z.leb work_dates in
           let max_found := max_found_in sorted_dates in
           if max_consecutive_days <? max_found
           then [consecutive_days_violation e emp_id max_found sorted_dates]
           else []
       end)
    (employee_dates self).

Definition _check_consecutive_days_compliance (self : Agent)
    (st : list Violation * ComplianceResult)
    : list Violation * ComplianceResult * outcome unit :=
  Validator.report_all (consecutive_days_violations self) st.

(** *** Minimum staffing *)

Definition min_staff : Z := 2.

Definition too_few_staff (target_date : Z) (current_staff : Z) : Violation :=
  {| constraint_type := MIN_STAFF;
     severity := 10;
     description :=
       "Only " +:+ str_int current_staff +:+ " staff on " +:+ isoformat target_date
       +:+ " (min: " +:+ str_int min_staff +:+ ")";
     affected_entity := "schedule";
     affected_date := Some target_date;
     details :=
       <["min_required" := VInt min_staff]> (<["current_staff" := VInt current_staff]> ∅);
     suggestions :=
       [ "Add " +:+ str_int (min_staff - current_staff) +:+ " more staff for "
         +:+ isoformat target_date ] |}.

Definition station_unstaffed (target_date : Z) (st : Station) (station_count : Z)
    : Violation :=
  {| constraint_type := MIN_STAFF;
     severity := 8;
     description :=
       "No staff assigned to " +:+ Station_value st +:+ " on " +:+ isoformat target_date;
     affected_entity := "schedule";
     affected_date := Some target_date;
     details :=
       <["current_count" := VInt station_count]>
         (<["station" := VStr (Station_value st)]> ∅);
     suggestions :=
       [ "Assign at least 1 " +:+ Station_value st +:+ "-trained employee for "
         +:+ isoformat target_date ] |}.

(** The body of the loop for one date. *)
Definition staffing_of_day (self : Agent) (target_date : Z) : list Violation :=
  let daily_assignments := get_assignments_by_date (schedule self) target_date in
  let current_staff := Z.of_nat (length daily_assignments) in
  (if current_staff <? min_staff then [too_few_staff target_date current_staff] else [])
  ++ flat_map
       (fun st =>
          let station_count :=
            Z.of_nat (length (List.filter (fun a => Station_eqb (station a) st)
                                daily_assignments)) in
          if station_count <? 1 then [station_unstaffed target_date st station_count]
          else [])
       (get_active_stations (store self)).

Definition minimum_staffing_violations (self : Agent) : list Violation :=
  flat_map (staffing_of_day self) (get_dates_in_range (schedule self)).

Definition _check_minimum_staffing (self : Agent)
    (st : list Violation * ComplianceResult)
    : list Violation * ComplianceResult * outcome unit :=
  Validator.report_all (minimum_staffing_violations self) st.

(** *** Peak coverage, opening and closing *)

(** [day_forecast.get("period_requirements", {}).get(period, {})
    .get("total_staff", 0)]. *)
Definition required_staff (self : Agent) (target_date : Z) (period : string) : Z :=
  match demand_forecast self !! target_date with
  | None => 0
  | Some day_forecast =>
      default 0 (default ∅ (period_requirements day_forecast !! period) !! "total_staff")
  end.

Definition peak_understaffed (label period hours_text : string) (target_date : Z)
    (coverage required : Z) : Violation :=
  {| constraint_type := COVERAGE;
     severity := 5;
     description :=
       label +:+ " peak understaffed on " +:+ isoformat target_date +:+ ": "
       +:+ str_int coverage +:+ "/" +:+ str_int required;
     affected_entity := "schedule";
     affected_date := Some target_date;
     details :=
       <["peak_type" := VStr (period +:+ "_peak")]>
       (<["required_coverage" := VInt required]>
       (<["current_coverage" := VInt coverage]>
       (<["period" := VStr period]> ∅)));
     suggestions :=
       [ "Add " +:+ str_int (required - coverage) +:+ " more staff during "
         +:+ period +:+ " peak (" +:+ hours_text +:+ ")" ] |}.

(** The body of the first loop of [_check_peak_coverage] for one date. *)
Definition peaks_of_day (self : Agent) (target_date : Z) : list Violation :=
  let lunch_coverage := get_coverage (schedule self) target_date lunch_peak None in
  let required := required_staff self target_date "lunch" in
  (if lunch_coverage <? required
   then [peak_understaffed "Lunch" "lunch" "11:00-14:00" target_date
           lunch_coverage required]
   else [])
  ++
  let dinner_coverage := get_coverage (schedule self) target_date dinner_peak None in
  let required := required_staff self target_date "dinner" in
  (if dinner_coverage <? required
   then [peak_understaffed "Dinner" "dinner" "17:00-21:00" target_date
           dinner_coverage required]
   else []).

Definition no_designated_staff (period time_text shifts_text : string)
    (target_date : Z) : Violation :=
  {| constraint_type := COVERAGE;
     severity := 6;
     description :=
       "No designated " +:+ period +:+ " staff (" +:+ time_text +:+ ") on "
       +:+ isoformat target_date;
     affected_entity := "schedule";
     affected_date := Some target_date;
     details :=
       <["coverage_type" := VStr period]>
       (<["time" := VStr time_text]>
       (<["period" := VStr period]> ∅));
     suggestions :=
       [ "Assign crew member to " +:+ period +:+ " shift (" +:+ shifts_text +:+ ")";
         "Ensure manager has " +:+ period +:+ " coverage (check monthly roster)" ] |}.

(** The body of the loop of [_check_opening_closing_coverage] for one
    date. *)
Definition opening_closing_of_day (self : Agent) (target_date : Z) : list Violation :=
  let day_assignments :=
    List.filter (fun a => date (shift a) =? target_date)
      (assignments (schedule self)) in
  let opening_shifts :=
    List.filter
      (fun a => contains String.eqb (ShiftType_value (shift_type (shift a))) ["S"; "1F"])
      day_assignments in
  let closing_shifts :=
    List.filter
      (fun a => String.eqb (ShiftType_value (shift_type (shift a))) "2F")
      day_assignments in
  (if (length opening_shifts =? 0)%nat
   then [no_designated_staff "opening" "06:30" "S or 1F" target_date] else [])
  ++ (if (length closing_shifts =? 0)%nat
      then [no_designated_staff "closing" "23:00" "2F" target_date] else []).

Definition opening_closing_warnings (self : Agent) : list Violation :=
  flat_map (opening_closing_of_day self) (get_dates_in_range (schedule self)).

Definition _check_opening_closing_coverage (self : Agent)
    (st : list Violation * ComplianceResult)
    : list Violation * ComplianceResult * outcome unit :=
  Validator.report_all (opening_closing_warnings self) st.

Definition peak_warnings (self : Agent) : list Violation :=
  flat_map (peaks_of_day self) (get_dates_in_range (schedule self)).

Definition _check_peak_coverage (self : Agent)
    (st : list Violation * ComplianceResult)
    : list Violation * ComplianceResult * outcome unit :=
  and_then (Validator.report_all (peak_warnings self))
    (_check_opening_closing_coverage self) st.

(** *** Fairness *)

(** [employee_hours[emp_id] += assignment.shift.hours]. *)
Definition employee_hours (self : Agent) : list (string * Q) :=
  fold_left
    (fun tbl a =>
       assoc_update String.eqb (emp_id (employee a))
         (fun h => (h + hours (shift a))%Q) 0%Q tbl)
    (assignments (schedule self)) [].

(** [max(l)] and [min(l)] of a list that starts with [x]. *)
Definition list_max (x : Q) (l : list Q) : Q :=
  fold_left (fun m y => if Qlt_bool m y then y else m) l x.

Definition list_min (x : Q) (l : list Q) : Q :=
  fold_left (fun m y => if Qlt_bool y m then y else m) l x.

Definition workload_imbalance (gini mean_hours min_hours max_hours : Q)
    (over_scheduled under_scheduled : Z) : Violation :=
  {| constraint_type := FAIRNESS;
     severity := 3;
     description :=
       "Workload imbalance detected (Gini: " +:+ fmt_2f gini +:+ "). Hours range: "
       +:+ fmt_1f min_hours +:+ "-" +:+ fmt_1f max_hours +:+ "h";
     affected_entity := "schedule";
     affected_date := None;
     details :=
       <["fairness_type" := VStr "workload_imbalance"]>
       (<["under_scheduled_count" := VInt under_scheduled]>
       (<["over_scheduled_count" := VInt over_scheduled]>
       (<["hour_range" := VFloat (max_hours - min_hours)]>
       (<["mean_hours" := VFloat mean_hours]>
       (<["gini_coefficient" := VFloat gini]> ∅)))));
     suggestions :=
       [ "Redistribute shifts more evenly across employees";
         str_int over_scheduled +:+ " employees have >30% above average hours";
         str_int under_scheduled +:+ " employees have >30% below average hours" ] |}.

Definition _check_fairness (self : Agent) (st : list Violation * ComplianceResult)
    : list Violation * ComplianceResult * outcome unit :=
  let '(h, result) := st in
  let employee_hours := employee_hours self in
  match map snd employee_hours with
  | [] | [_] => (h, result, Returns tt)
  | (h0 :: rest) as hours_list =>
      let gini := Validator._calculate_gini hours_list in
      let n := Zq (Z.of_nat (length hours_list)) in
      let mean_hours := (qsum hours_list / n)%Q in
      let max_hours := list_max h0 rest in
      let min_hours := list_min h0 rest in
      let std_dev :=
        sqrt (qsum (map (fun x => (x - mean_hours) * (x - mean_hours)) hours_list) / n)%Q in
      let result1 :=
        {| is_compliant := is_compliant result; violations := violations result;
           warnings := warnings result; pending_approvals := pending_approvals result;
           score := score result;
           fairness_metrics :=
             <["employees_scheduled" := VInt (Z.of_nat (length employee_hours))]>
             (<["hour_range" := VFloat (max_hours - min_hours)]>
             (<["std_dev" := VFloat std_dev]>
             (<["min_hours" := VFloat min_hours]>
             (<["max_hours" := VFloat max_hours]>
             (<["mean_hours" := VFloat mean_hours]>
             (<["gini_coefficient" := VFloat gini]> ∅)))))) |} in
      if Qlt_bool (35 # 100) gini then
        let over_scheduled :=
          List.filter (fun kv => Qlt_bool (mean_hours * (13 # 10)) (snd kv))
            employee_hours in
        let under_scheduled :=
          List.filter (fun kv => Qlt_bool (snd kv) (mean_hours * (7 # 10)))
            employee_hours in
        Validator.report
          (workload_imbalance gini mean_hours min_hours max_hours
             (Z.of_nat (length over_scheduled)) (Z.of_nat (length under_scheduled)))
          (h, result1)
      else (h, result1, Returns tt)
  end.

(** *** The whole validation *)

(** [ComplianceValidatorAgent.execute]: the fields are set, a new result
    goes through the eight checks in turn.  The messages to the
    Coordinator and to the ConflictResolver that follow do not touch the
    result and are left out. *)
Definition execute (schedule : Schedule) (employees : list Employee) (store : Store)
    (demand_forecast : gmap Z DayForecast)
    : Agent * (list Violation * ComplianceResult * outcome unit) :=
  let self :=
    {| schedule := schedule; store := store;
       employees := employees_by_id employees;
       demand_forecast := demand_forecast |} in
  (self,
   and_then (_check_availability_compliance self)
     (and_then (_check_skill_compliance self)
        (and_then (Validator._check_hours_compliance (core self))
           (and_then (Validator._check_rest_period_compliance (core self))
              (and_then (_check_consecutive_days_compliance self)
                 (and_then (_check_minimum_staffing self)
                    (and_then (_check_peak_coverage self)
                       (_check_fairness self)))))))
     ([], new_ComplianceResult true)).

End Checks.

End ComplianceValidatorAgent.

(** ** agents/coordinator.py: the escalation to the manager *)

Module CoordinatorAgent.

(** How a call ends here: it returns, or Python raises [AttributeError]
    (an attribute read on a value that has none) or [TypeError] (a value
    that cannot be hashed is looked for in a set). *)
Inductive Raised := AttributeError | UnhashableTypeError.

Inductive ended (A : Type) : Type :=
| Done (a : A)
| Failed (e : Raised).
Arguments Done {A} a.
Arguments Failed {A} e.

(** The truth value of a value of a [details] dict. *)
Definition truthy (v : PyVal) : bool :=
  match v with
  | VNone => false
  | VBool b => b
  | VInt z => negb (z =? 0)
  | VFloat q => negb (Qeq_bool q 0)
  | VStr s => negb (String.eqb s "")
  | VStrList l => negb (length l =? 0)%nat
  end.

(** [emp.can_work_station(station)], that is [station in emp.skills], for
    a [station] taken from a [details] dict: the skills are a set of
    [Station] members, none of which is equal to such a value, and a list
    cannot be hashed. *)
Definition can_work_station_value (emp : Employee) (station : PyVal) : ended bool :=
  match station with
  | VStrList _ => Failed UnhashableTypeError
  | _ => Done false
  end.

(** [emp.primary_station == station] for such a value. *)
Definition is_primary_station_value (emp : Employee) (station : PyVal) : bool := false.

(** [station.value] for such a value: none of them has the attribute. *)
Definition value_of (station : PyVal) : ended string := Failed AttributeError.

(** The loop of [_analyze_staffing_gap] over the employees: the names of
    the available staff whose primary station it is, and of the others. *)
Fixpoint available_staff (station : PyVal) (affected_date : Z) (l : list Employee)
    (available_primary available_cross_trained : list string)
    : ended (list string * list string) :=
  match l with
  | [] => Done (available_primary, available_cross_trained)
  | emp :: t =>
      match can_work_station_value emp station with
      | Failed e => Failed e
      | Done false =>
          available_staff station affected_date t available_primary
            available_cross_trained
      | Done true =>
          let is_available_ :=
            existsb (fun shift_code => is_available emp affected_date shift_code)
              ["1F"; "2F"; "3F"] in
          if is_available_ then
            if is_primary_station_value emp station then
              available_staff station affected_date t
                (available_primary ++ [emp_name emp]) available_cross_trained
            else
              available_staff station affected_date t available_primary
                (available_cross_trained ++ [emp_name emp])
          else
            available_staff station affected_date t available_primary
              available_cross_trained
      end
  end.

(** [', '.join(l[:3])]. *)
Definition join_first_three (l : list string) : string :=
  match firstn 3 l with
  | [] => ""
  | x :: t => fold_left (fun acc y => acc +:+ ", " +:+ y) t x
  end.

(** [CoordinatorAgent._analyze_staffing_gap]. *)
Definition _analyze_staffing_gap (violation : Violation) (employees : list Employee)
    : ended string :=
  let station := default VNone (details violation !! "station") in
  match truthy station, affected_date violation with
  | true, Some affected_date =>
      match available_staff station affected_date employees [] [] with
      | Failed e => Failed e
      | Done (available_primary, available_cross_trained) =>
          if (length available_primary =? 0)%nat
             && (length available_cross_trained =? 0)%nat
          then
            match value_of station with
            | Failed e => Failed e
            | Done station_value =>
                Done ("No qualified employees available for " +:+ station_value
                      +:+ " on " +:+ isoformat affected_date +:+ ". "
                      +:+ "All primary and cross-trained staff are either unavailable, "
                      +:+ "already scheduled, or would violate rest period requirements.")
            end
          else if (length available_primary =? 0)%nat
          then
            match value_of station with
            | Failed e => Failed e
            | Done station_value =>
                Done ("No primary " +:+ station_value +:+ " staff available on "
                      +:+ isoformat affected_date +:+ ". "
                      +:+ "Cross-trained staff ("
                      +:+ join_first_three available_cross_trained +:+ ") "
                      +:+ "are already assigned elsewhere or violate other constraints.")
            end
          else
            match value_of station with
            | Failed e => Failed e
            | Done station_value =>
                Done ("Available staff for " +:+ station_value +:+ " on "
                      +:+ isoformat affected_date +:+ " "
                      +:+ "would exceed hours limits or violate rest requirements. "
                      +:+ "Manual override may be required.")
            end
      end
  | _, _ => Done "Unable to find suitable replacement despite cross-training options"
  end.

(** [CoordinatorAgent._generate_escalation_reason]. *)
Definition _generate_escalation_reason (violation : Violation)
    (employees : list Employee) : ended string :=
  match constraint_type violation with
  | MIN_STAFF => _analyze_staffing_gap violation employees
  | REST_PERIOD =>
      Done ("Rest period conflict could not be resolved. "
            +:+ "Employee may be needed due to limited availability. "
            +:+ "Manager can authorize exception for critical coverage.")
  | HOURS_MAX =>
      Done ("Employee approaching/exceeding hours limit. "
            +:+ "May require overtime authorization or shift reassignment. "
            +:+ "Manager can approve overtime if business-critical.")
  | CONSECUTIVE_DAYS =>
      Done ("Employee scheduled for too many consecutive days. "
            +:+ "Automated resolution not possible without creating other violations. "
            +:+ "Manager can approve exception or arrange coverage.")
  | _ =>
      Done ("Constraint violation could not be automatically resolved. "
            +:+ "Manual review required to determine best course of action.")
  end.

(** [CoordinatorAgent._get_escalation_options]. *)
Definition _get_escalation_options (violation : Violation) : list string :=
  match constraint_type violation with
  | MIN_STAFF =>
      [ "Accept reduced staffing if low traffic expected";
        "Authorize overtime for available staff";
        "Contact casual pool for additional coverage";
        "Temporarily close/reduce station services" ]
  | REST_PERIOD =>
      [ "Approve rest period exception (document reason)";
        "Reassign shift to another employee manually";
        "Contact casual pool for replacement" ]
  | HOURS_MAX =>
      [ "Authorize overtime (max 2 additional hours)";
        "Split shift between two employees";
        "Contact casual pool for relief" ]
  | _ =>
      [ "Approve exception for this specific case";
        "Contact casual pool for additional coverage" ]
  end.

(** The loop of [_handle_manager_escalations] over the copy
    [all_violations]; the lines written to the log are left out. *)
Fixpoint escalate_each (employees : list Employee) (all_violations : list ref)
    (st : store * ComplianceResult) : store * ComplianceResult * ended unit :=
  match all_violations with
  | [] => (st, Done tt)
  | x :: t =>
      match fst st !! x with
      | None => escalate_each employees t st
      | Some violation =>
          match _generate_escalation_reason violation employees with
          | Failed e => (st, Failed e)
          | Done escalation_reason =>
              escalate_each employees t
                (escalate_to_manager (fst st) x escalation_reason (snd st))
          end
      end
  end.

(** [CoordinatorAgent._handle_manager_escalations]. *)
Definition _handle_manager_escalations (st : store * ComplianceResult)
    (employees : list Employee) : store * ComplianceResult * ended unit :=
  escalate_each employees (violations (snd st)) st.

End CoordinatorAgent.

(** ** config.py, continued *)

Module RateLimiter.

(** [RateLimiter.wait_if_needed]: [while not self.acquire():
    time.sleep(0.5)].  [clock n] is the reading of [time.time()] in the
    [n]-th call of [acquire] (from 0); the sleep between two calls shows in
    the readings.  The answer, when the loop ends within [fuel] rounds, is
    the limiter and the number of [acquire] calls made. *)
Fixpoint wait_if_needed (fuel : nat) (clock : nat -> Q) (n : nat)
    (rl : Config.RateLimiter) : option (Config.RateLimiter * nat) :=
  match fuel with
  | O => None
  | S fuel' =>
      let '(rl1, ok) := Config.acquire (clock n) rl in
      if ok then Some (rl1, S n)
      else wait_if_needed fuel' clock (S n) rl1
  end.

End RateLimiter.

(** [retry_with_backoff(max_retries, base_delay, max_delay, exponential_base,
    exceptions)(func)]: the wrapper.  [func n] is what the [n]-th call of the
    wrapped function does (from 0): it returns a value or raises;
    [catches e] says whether [e] is an instance of [exceptions].  The
    numbers are floats, taken at their exact values; two operations of the
    wrapper raise on a float that is out of range: the power
    [exponential_base ** attempt] and [time.sleep].  The log lines are left
    out. *)
Module RetryWithBackoff.

(** The largest finite float, [(2 - 2 ** -52) * 2 ** 1023]. *)
Definition float_max : Q := Zq (2 ^ 1024 - 2 ^ 971).

(** [time.sleep] turns its argument into a signed 64-bit number of
    nanoseconds: the longest sleep, in seconds. *)
Definition sleep_max : Q := (Zq (2 ^ 63 - 1) / 1000000000)%Q.

(** The first power of two beyond the floats, [2 ** 1024]. *)
Definition float_overflow : Q := Zq (2 ^ 1024).

(** A float power whose result is beyond the largest float raises
    [OverflowError]. *)
Definition overflows (p : Q) : bool :=
  Qlt_bool float_max p || Qlt_bool p (- float_max).

(** How the wrapper ends: with the value of [func], with an exception of
    [func], with the [TypeError] of [raise None], with the
    [OverflowError] of the power, or with the exception of [time.sleep]
    ([ValueError] for a negative length, [OverflowError] for one beyond
    [sleep_max]). *)
Inductive ended (A E : Type) : Type :=
| Returned (a : A)
| Raised (e : E)
| RaisedNone
| PowerRaised
| SleepRaised.
Arguments Returned {A E} a.
Arguments Raised {A E} e.
Arguments RaisedNone {A E}.
Arguments PowerRaised {A E}.
Arguments SleepRaised {A E}.

(** What a run did: how it ended, the calls of [func] made and the
    arguments of the calls of [time.sleep] that returned, in order. *)
Record Run (A E : Type) := {
  outcome_of : ended A E;
  calls_made : nat;
  sleeps : list Q
}.
Arguments outcome_of {A E} r.
Arguments calls_made {A E} r.
Arguments sleeps {A E} r.

Section Wrapper.
Context {A E : Type}.
Variable max_retries : Z.
Variable base_delay max_delay exponential_base : Q.
Variable catches : E -> bool.
Variable func : nat -> A + E.

(** [min(base_delay * (exponential_base ** attempt), max_delay)], when
    the power does not raise. *)
Definition delay (attempt : Z) : Q :=
  py_min (base_delay * exponential_base ^ attempt) max_delay.

(** The loop [for attempt in range(max_retries + 1)], with the calls made
    so far, the sleeps so far and [last_exception].  The delay is
    computed and slept inside the [except] block, so an exception there
    leaves the wrapper. *)
Fixpoint attempts (l : list Z) (n : nat) (slept : list Q)
    (last_exception : option E) : Run A E :=
  match l with
  | [] =>
      {| outcome_of := match last_exception with
                       | Some e => Raised e
                       | None => RaisedNone
                       end;
         calls_made := n; sleeps := slept |}
  | attempt :: rest =>
      match func n with
      | inl a => {| outcome_of := Returned a; calls_made := S n; sleeps := slept |}
      | inr e =>
          if catches e then
            if attempt <? max_retries then
              if overflows (exponential_base ^ attempt)
              then {| outcome_of := PowerRaised; calls_made := S n; sleeps := slept |}
              else if Qlt_bool (delay attempt) 0 || Qlt_bool sleep_max (delay attempt)
              then {| outcome_of := SleepRaised; calls_made := S n; sleeps := slept |}
              else attempts rest (S n) (slept ++ [delay attempt]) (Some e)
            else attempts rest (S n) slept (Some e)
          else {| outcome_of := Raised e; calls_made := S n; sleeps := slept |}
      end
  end.

Definition wrapper : Run A E :=
  attempts (seqZ 0 (max_retries + 1)) 0 [] None.
End Wrapper.

End RetryWithBackoff.

(** ** agents/base_agent.py: the life cycle *)

Module BaseAgent.

Inductive AgentState :=
| INITIALIZING | IDLE | PROCESSING | WAITING | COMPLETED | ERROR | SHUTDOWN.

#[global] Instance AgentState_eq_dec : EqDecision AgentState.
Proof. solve_decision. Defined.

(** The fields of [BaseAgent] that the life cycle reads and writes.  The
    console and the file log are left out. *)
Record Agent := {
  name : string;
  is_active : bool;
  agent_state : AgentState;
  _error_count : Z;
  _max_errors : Z
}.

Definition _transition_state (new_state : AgentState) (self : Agent) : Agent :=
  {| name := name self; is_active := is_active self; agent_state := new_state;
     _error_count := _error_count self; _max_errors := _max_errors self |}.

Definition set_active (b : bool) (self : Agent) : Agent :=
  {| name := name self; is_active := b; agent_state := agent_state self;
     _error_count := _error_count self; _max_errors := _max_errors self |}.

Definition set_error_count (n : Z) (self : Agent) : Agent :=
  {| name := name self; is_active := is_active self; agent_state := agent_state self;
     _error_count := n; _max_errors := _max_errors self |}.

(** [BaseAgent.__init__]: the agent registers its handler with the bus and
    goes from INITIALIZING to IDLE. *)
Definition new_BaseAgent {H : Type} (agent_name : string) (handler : H)
    (message_bus : Bus.MessageBus H) : Agent * Bus.MessageBus H :=
  let self := {| name := agent_name; is_active := true; agent_state := INITIALIZING;
                 _error_count := 0; _max_errors := 3 |} in
  (_transition_state IDLE self, Bus.register agent_name handler message_bus).

Definition startup (self : Agent) : Agent :=
  _transition_state IDLE (set_error_count 0 (set_active true self)).

Definition activate (self : Agent) : Agent :=
  _transition_state IDLE (set_active true self).

Definition deactivate (self : Agent) : Agent :=
  _transition_state IDLE (set_active false self).

Definition shutdown {H : Type} (self : Agent) (message_bus : Bus.MessageBus H)
    : Agent * Bus.MessageBus H :=
  (deactivate (_transition_state SHUTDOWN self),
   Bus.unregister (name self) message_bus).


(** [_handle_error]: the agent and whether it can continue. *)
Definition _handle_error (self : Agent) : Agent * bool :=
  let self1 := _transition_state ERROR (set_error_count (_error_count self + 1) self) in
  if _max_errors self1 <=? _error_count self1 then (self1, false)
  else (_transition_state IDLE self1, true).

Section Execute.
(** [execute] is the method of the subclass: what it does to the fields
    above, and the value it returns or the exception it raises. *)
Context {A E : Type}.
Variable execute : Agent -> Agent * (A + E).

(** [safe_execute]: the result of [execute], [None] after an error the
    agent can continue from, or the exception raised again. *)
Definition safe_execute (self : Agent) : Agent * (option A + E) :=
  let self1 := _transition_state PROCESSING self in
  match execute self1 with
  | (self2, inl result) => (_transition_state COMPLETED self2, inl (Some result))
  | (self2, inr e) =>
      let '(self3, can_continue) := _handle_error self2 in
      if negb can_continue then (self3, inr e) else (self3, inl None)
  end.
End Execute.

End BaseAgent.

(** ** Vocabulary of the further properties *)

(** A store and a result that fit together: [is_compliant] says whether the
    hard list is empty, the hard list holds hard violations, the warnings
    soft ones, the pending approvals hard ones that carry the approval flag,
    the score lies between 0 and 100, and no severity is negative. *)
Definition well_formed (st : store * ComplianceResult) : Prop :=
  let h := fst st in
  let r := snd st in
  is_compliant r = (length (violations r) =? 0)%nat
  /\ Forall (fun x => exists v, h !! x = Some v /\ is_hard_constraint v = true)
       (violations r)
  /\ Forall (fun x => exists v, h !! x = Some v /\ is_hard_constraint v = false)
       (warnings r)
  /\ Forall (fun x => exists v, h !! x = Some v /\ is_hard_constraint v = true
                                /\ details v !! "requires_manager_approval"
                                   = Some (VBool true))
       (pending_approvals r)
  /\ (0 <= score r <= 100)%Q
  /\ Forall (fun v => 0 <= severity v) h.

(** No violation that is reported has a negative severity. *)
Definition severities_from_zero (ops : list ResultOp) : Prop :=
  Forall (fun op => match op with
                    | Report v => 0 <= severity v
                    | Escalate _ _ => True
                    end) ops.

(** The schedule holds an assignment of the employee on the day. *)
Definition works_on (s : Schedule) (employee_id : string) (d : Z) : Prop :=
  exists a, In a (assignments s)
            /\ emp_id (employee a) = employee_id /\ date (shift a) = d.

(** Strictly increasing lists of days. *)
Fixpoint increasing (l : list Z) : Prop :=
  match l with
  | [] => True
  | x :: t => (forall y, In y t -> x < y) /\ increasing t
  end.

(** What the auction has checked of an assignment it made for the staff
    [staff] of the store [st] in the period from [first_day] to [last_day]:
    the employee is one of the staff, the day lies in the period, the station
    is an active one the employee can work, and the shift is the one of a
    code of the auction for which the employee is available that day. *)
Definition feasible (staff : list Employee) (st : Store) (first_day last_day : Z)
    (a : Assignment) : Prop :=
  In (employee a) staff
  /\ first_day <= date (shift a) <= last_day
  /\ In (station a) (get_active_stations st)
  /\ can_work_station (employee a) (station a) = true
  /\ exists code, In code StaffMatcher.shift_priority
                  /\ from_code code (date (shift a)) = Some (shift a)
                  /\ is_available (employee a) (date (shift a)) code = true.

(** No employee id has two assignments on one day. *)
Definition one_shift_a_day (s : Schedule) : Prop :=
  forall i, List.NoDup (map (fun a => date (shift a)) (assignments_of s i)).

(** Between two assignments of one employee id on different days lie at
    least ten hours. *)
Definition rested (s : Schedule) : Prop :=
  forall a b, In a (assignments s) -> In b (assignments s) ->
              emp_id (employee a) = emp_id (employee b) ->
              date (shift a) < date (shift b) ->
              (10 <= hours_until_next (shift a) (shift b))%Q.

(** The invariant of the auction's schedule. *)
Definition auction_inv (staff : list Employee) (st : Store) (first_day last_day : Z)
    (ag : StaffMatcher.Agent) : Prop :=
  StaffMatcher.employees ag = staff
  /\ StaffMatcher.store ag = st
  /\ indexed (StaffMatcher.schedule ag)
  /\ Forall (feasible staff st first_day last_day)
       (assignments (StaffMatcher.schedule ag))
  /\ one_shift_a_day (StaffMatcher.schedule ag)
  /\ rested (StaffMatcher.schedule ag).

(** The clock readings at which [acquire] said yes. *)
Definition granted (times : list Q) (oks : list bool) : list Q :=
  map fst (List.filter snd (List.combine times oks)).

(** The readings in the window of length [p] that starts at [w]. *)
Definition in_window (w p t : Q) : bool := Qle_bool w t && Qlt_bool t (w + p).

(** A clock that does not run backwards. *)
Fixpoint nondecreasing (l : list Q) : Prop :=
  match l with
  | [] => True
  | x :: t => (forall y, In y t -> (x <= y)%Q) /\ nondecreasing t
  end.

(** The calls of the life cycle of an agent.  In [SafeExecute n raises] the
    [execute] of the subclass handles [n] errors of its own with
    [_handle_error], as the coordinator does, and then returns or raises. *)
Inductive LifecycleCall :=
| Startup | Activate | Deactivate | Shutdown | HandleError
| SafeExecute (inner_errors : nat) (raises : bool).

Definition erring (inner_errors : nat) (raises : bool) (self : BaseAgent.Agent)
    : BaseAgent.Agent * (unit + unit) :=
  (Nat.iter inner_errors (fun a => fst (BaseAgent._handle_error a)) self,
   if raises then inr tt else inl tt).

Definition run_call {H : Type} (c : LifecycleCall)
    (st : BaseAgent.Agent * Bus.MessageBus H) : BaseAgent.Agent * Bus.MessageBus H :=
  match c with
  | Startup => (BaseAgent.startup (fst st), snd st)
  | Activate => (BaseAgent.activate (fst st), snd st)
  | Deactivate => (BaseAgent.deactivate (fst st), snd st)
  | Shutdown => BaseAgent.shutdown (fst st) (snd st)
  | HandleError => (fst (BaseAgent._handle_error (fst st)), snd st)
  | SafeExecute n raises =>
      (fst (BaseAgent.safe_execute (erring n raises) (fst st)), snd st)
  end.

Definition run_calls {H : Type} (cs : list LifecycleCall)
    (st : BaseAgent.Agent * Bus.MessageBus H) : BaseAgent.Agent * Bus.MessageBus H :=
  fold_left (fun st c => run_call c st) cs st.


(** How many assignments of a schedule are on the day [d], with the shift of
    the code [code], at the station [st]. *)
Definition staffed (s : Schedule) (d : Z) (code : string) (st : Station) : nat :=
  length
    (List.filter
       (fun a => (date (shift a) =? d)
                 && String.eqb (ShiftType_value (shift_type (shift a))) code
                 && Station_eqb (station a) st)
       (assignments s)).

(** The head count the forecast asks for, as [_match_day] reads it:
    [demand_forecast.get(d, {}).get("shift_requirements", {})
     .get(code, {}).get(st.value, 0)]. *)
Definition required_by (forecast : gmap Z StaffMatcher.DayForecast) (d : Z)
    (code : string) (st : Station) : Z :=
  default 0
    (default ∅
       (match forecast !! d with
        | Some day_forecast => StaffMatcher.shift_requirements day_forecast
        | None => ∅
        end !! code)
     !! Station_value st).

(** The forecast and the store of the auction, which no step changes, and
    the count that a step may change. *)
Definition auction_settings (forecast : gmap Z StaffMatcher.DayForecast) (st : Store)
    (ag : StaffMatcher.Agent) : Prop :=
  StaffMatcher.demand_forecast ag = forecast /\ StaffMatcher.store ag = st.

Definition staffed_at (d : Z) (code : string) (st : Station) (ag : StaffMatcher.Agent)
    : nat :=
  staffed (StaffMatcher.schedule ag) d code st.

(** ** Vocabulary of the statements on the Gini coefficient *)

(** The formula of the specification on a list [s] of [n] values, the
    ranks counted from 1:
    [G = 2 * sum_i (i * s_i) / (n * sum_i s_i) - (n + 1) / n]. *)
Definition gini_formula (s : list Q) : Q :=
  let n := Zq (Z.of_nat (length s)) in
  (2 * qsum (imap (fun i h => Zq (Z.of_nat i + 1) * h) s) / (n * qsum s) - (n + 1) / n)%Q.

(** [r] is [g] cut to the interval from 0 to 1. *)
Definition clamped_to_unit (g r : Q) : Prop :=
  (g <= 0 /\ r == 0)%Q \/ (0 <= g <= 1 /\ r == g)%Q \/ (1 <= g /\ r == 1)%Q.

(** [s] holds the values of [values] in ascending order. *)
Definition ascending_order_of (values s : list Q) : Prop :=
  Permutation s values /\ Sorted Qle s.

(** ** Vocabulary of the statements on the hours check *)

(** The employee [employee_id] has an assignment in week [week_num]. *)
Definition works_in_week (s : Schedule) (employee_id : string) (week_num : Z) : Prop :=
  exists a, In a (assignments s)
            /\ emp_id (employee a) = employee_id
            /\ week_of s (date (shift a)) = week_num.

(** The violations of [vs] about week [week_num]: the detail [week] counts
    the weeks from 1. *)
Definition in_week (week_num : Z) (v : Violation) : bool :=
  match details v !! "week" with
  | Some (VInt n) => n =? week_num + 1
  | _ => false
  end.

Definition of_week (week_num : Z) (vs : list Violation) : list Violation :=
  List.filter (in_week week_num) vs.

(** The references, from [x] on, of the objects of [vs] that satisfy
    [p], when the objects of [vs] are allocated in a row. *)
Fixpoint filed (p : Violation -> bool) (x : ref) (vs : list Violation) : list ref :=
  match vs with
  | [] => []
  | v :: t => (if p v then [x] else []) ++ filed p (S x) t
  end.

(** What an object of the hours check costs: twice its severity when its
    type is a hard one, and 0.1 otherwise. *)
Definition hours_check_cost (v : Violation) : Q :=
  if is_hard_constraint v then Zq (severity v * 2) else 1 # 10.

(** The entry of a week in the table of one employee. *)
Definition week_entry (week_num : Z) (weeks : list (Z * Q)) : option Q :=
  match List.find (fun kv => fst kv =? week_num) weeks with
  | Some kv => Some (snd kv)
  | None => None
  end.

(** ** A handler that changes the subscribers *)

(** [Rejoin n] unregisters the agent [n] and registers it again, with
    itself as the handler; [Still] does nothing. *)
Inductive RestlessHandler := Rejoin (agent_name : string) | Still.

Definition restless_run (h : RestlessHandler) (m : Bus.Message)
    (st : Bus.MessageBus RestlessHandler * unit)
    : Bus.MessageBus RestlessHandler * unit * outcome unit :=
  match h with
  | Rejoin n => ((Bus.register n h (Bus.unregister n (fst st)), snd st), Returns tt)
  | Still => (st, Returns tt)
  end.


(** * Properties *)

(** ** Arithmetic of the prelude *)

Lemma Qlt_bool_true (a b : Q) : Qlt_bool a b = true <-> (a < b)%Q.
Proof.
  unfold Qlt_bool. rewrite negb_true_iff. split.
  - intros Hf. apply Qnot_le_lt. intros Hle.
    apply Qle_bool_iff in Hle. congruence.
  - intros Hlt. destruct (Qle_bool b a) eqn:E; [|reflexivity].
    apply Qle_bool_iff in E. lra.
Qed.

Lemma Qlt_bool_false (a b : Q) : Qlt_bool a b = false <-> (b <= a)%Q.
Proof.
  unfold Qlt_bool. rewrite negb_false_iff. apply Qle_bool_iff.
Qed.

Lemma Qle_bool_false (a b : Q) : Qle_bool a b = false <-> (b < a)%Q.
Proof.
  split.
  - intros Hf. apply Qnot_le_lt. intros Hle. apply Qle_bool_iff in Hle. congruence.
  - intros Hlt. destruct (Qle_bool a b) eqn:E; [|reflexivity].
    apply Qle_bool_iff in E. lra.
Qed.

(** Case analysis on the Boolean comparisons of rationals met in a goal or
    a hypothesis, leaving the order facts in the context. *)
Ltac qcases :=
  repeat match goal with
  | |- context [Qlt_bool ?a ?b] =>
      let E := fresh "E" in
      destruct (Qlt_bool a b) eqn:E;
      [apply Qlt_bool_true in E | apply Qlt_bool_false in E]
  | |- context [Qle_bool ?a ?b] =>
      let E := fresh "E" in
      destruct (Qle_bool a b) eqn:E;
      [apply Qle_bool_iff in E | apply Qle_bool_false in E]
  | |- context [Qeq_bool ?a ?b] =>
      let E := fresh "E" in
      destruct (Qeq_bool a b) eqn:E;
      [apply Qeq_bool_iff in E | apply Qeq_bool_neq in E]
  end.

Lemma py_max_spec (a b : Q) :
  (a <= py_max a b /\ b <= py_max a b /\ (py_max a b == a \/ py_max a b == b))%Q.
Proof. unfold py_max. qcases; repeat split; try lra; auto with qarith. Qed.

Lemma py_min_spec (a b : Q) :
  (py_min a b <= a /\ py_min a b <= b /\ (py_min a b == a \/ py_min a b == b))%Q.
Proof. unfold py_min. qcases; repeat split; try lra; auto with qarith. Qed.

Lemma py_max_0_nonneg (q : Q) : (0 <= q)%Q -> (py_max 0 q == q)%Q.
Proof. intros Hq. unfold py_max. qcases; lra. Qed.

Lemma qsum_from (l : list Q) (a : Q) : (fold_left Qplus l a == a + qsum l)%Q.
Proof.
  unfold qsum. revert a. induction l as [|x l IH]; intros a; simpl.
  - lra.
  - rewrite (IH (a + x)%Q), (IH (0 + x)%Q). lra.
Qed.

Lemma qsum_cons (x : Q) (l : list Q) : (qsum (x :: l) == x + qsum l)%Q.
Proof. unfold qsum at 1. simpl. rewrite qsum_from. lra. Qed.

Lemma qsum_app (l1 l2 : list Q) : (qsum (l1 ++ l2) == qsum l1 + qsum l2)%Q.
Proof.
  induction l1 as [|x l1 IH]; simpl.
  - unfold qsum at 2. simpl. lra.
  - rewrite !qsum_cons, IH. lra.
Qed.

Lemma qsum_insert_sorted (le : Q -> Q -> bool) (x : Q) (l : list Q) :
  (qsum (insert_sorted le x l) == x + qsum l)%Q.
Proof.
  induction l as [|y l IH]; simpl.
  - rewrite qsum_cons. reflexivity.
  - destruct (le x y).
    + rewrite !qsum_cons. lra.
    + rewrite !qsum_cons, IH. lra.
Qed.

Lemma qsum_sorted_by (le : Q -> Q -> bool) (l : list Q) :
  (qsum (sorted_by le l) == qsum l)%Q.
Proof.
  induction l as [|x l IH]; simpl.
  - reflexivity.
  - rewrite qsum_insert_sorted, qsum_cons, IH. reflexivity.
Qed.

Lemma filter_all {A : Type} (f : A -> bool) (l : list A) :
  (forall x, In x l -> f x = true) -> List.filter f l = l.
Proof.
  induction l as [|x l IH]; intros Hall; simpl; [reflexivity|].
  rewrite (Hall x (or_introl eq_refl)). f_equal. apply IH.
  intros y Hy. apply Hall. now right.
Qed.

Lemma filter_none {A : Type} (f : A -> bool) (l : list A) :
  (forall x, In x l -> f x = false) -> List.filter f l = [].
Proof.
  induction l as [|x l IH]; intros Hall; simpl; [reflexivity|].
  rewrite (Hall x (or_introl eq_refl)). apply IH.
  intros y Hy. apply Hall. now right.
Qed.

(** ** The Gini coefficient (C4) *)

Lemma gini_clamped (values : list Q) :
  (0 <= Validator._calculate_gini values <= 1)%Q.
Proof.
  unfold Validator._calculate_gini.
  destruct (length values =? 0)%nat; [lra|].
  destruct (Qeq_bool _ 0); [lra|].
  match goal with |- context [py_min 1 ?g] => generalize g end.
  intros g. unfold py_max, py_min. qcases; lra.
Qed.

Lemma gini_zero_total (values : list Q) :
  (qsum values == 0)%Q -> (Validator._calculate_gini values == 0)%Q.
Proof.
  intros Hz. unfold Validator._calculate_gini.
  destruct (length values =? 0)%nat; [reflexivity|].
  destruct (Qeq_bool (qsum (sorted_by Qle_bool values)) 0) eqn:E; [reflexivity|].
  apply Qeq_bool_neq in E. exfalso. apply E.
  rewrite qsum_sorted_by. exact Hz.
Qed.

(** Sorting two lists that hold the same values gives the same list, up to
    the equality of rationals. *)
Lemma Forall2_Qeq_refl (l : list Q) : Forall2 Qeq l l.
Proof. induction l; constructor; [reflexivity|assumption]. Qed.

Lemma Forall2_Qeq_sym (l1 l2 : list Q) : Forall2 Qeq l1 l2 -> Forall2 Qeq l2 l1.
Proof. induction 1; constructor; [symmetry|]; assumption. Qed.

Lemma Forall2_Qeq_trans (l1 l2 l3 : list Q) :
  Forall2 Qeq l1 l2 -> Forall2 Qeq l2 l3 -> Forall2 Qeq l1 l3.
Proof.
  intros H12. revert l3. induction H12; intros l3 H23; inversion H23; subst; constructor.
  - etransitivity; eassumption.
  - auto.
Qed.

Lemma insert_sorted_Qeq (x y : Q) (l1 l2 : list Q) :
  (x == y)%Q -> Forall2 Qeq l1 l2 ->
  Forall2 Qeq (insert_sorted Qle_bool x l1) (insert_sorted Qle_bool y l2).
Proof.
  intros Hxy H12. induction H12 as [|a b l1 l2 Hab H12 IH]; cbn [insert_sorted].
  - constructor; [assumption|constructor].
  - qcases; try (exfalso; lra).
    + constructor; [assumption|]. constructor; assumption.
    + constructor; assumption.
Qed.

Lemma insert_sorted_swap (x y : Q) (l : list Q) :
  Forall2 Qeq (insert_sorted Qle_bool x (insert_sorted Qle_bool y l))
              (insert_sorted Qle_bool y (insert_sorted Qle_bool x l)).
Proof.
  induction l as [|z l IH]; cbn [insert_sorted].
  - qcases; try (exfalso; lra); repeat constructor; try reflexivity; lra.
  - destruct (Qle_bool y z) eqn:Eyz; destruct (Qle_bool x z) eqn:Exz; cbn [insert_sorted];
      rewrite ?Eyz, ?Exz;
      [apply Qle_bool_iff in Eyz; apply Qle_bool_iff in Exz
      |apply Qle_bool_iff in Eyz; apply Qle_bool_false in Exz
      |apply Qle_bool_false in Eyz; apply Qle_bool_iff in Exz
      |apply Qle_bool_false in Eyz; apply Qle_bool_false in Exz].
    + qcases; try (exfalso; lra); cbn [insert_sorted];
        repeat (constructor; try reflexivity; try lra); apply Forall2_Qeq_refl.
    + qcases; try (exfalso; lra). apply Forall2_Qeq_refl.
    + qcases; try (exfalso; lra). apply Forall2_Qeq_refl.
    + constructor; [reflexivity|]. exact IH.
Qed.

Lemma sorted_by_Permutation_Qeq (l1 l2 : list Q) :
  Permutation l1 l2 -> Forall2 Qeq (sorted_by Qle_bool l1) (sorted_by Qle_bool l2).
Proof.
  unfold sorted_by. induction 1 as [|x l1 l2 _ IH|x y l|l1 l2 l3 _ IH1 _ IH2];
    cbn [fold_right].
  - constructor.
  - apply insert_sorted_Qeq; [reflexivity|exact IH].
  - apply insert_sorted_swap.
  - eapply Forall2_Qeq_trans; eassumption.
Qed.

Lemma sorted_by_Permutation {A : Type} (le : A -> A -> bool) (l : list A) :
  Permutation (sorted_by le l) l.
Proof.
  unfold sorted_by. induction l as [|x l IH]; cbn [fold_right]; [constructor|].
  transitivity (x :: fold_right (insert_sorted le) [] l); [|now constructor].
  generalize (fold_right (insert_sorted le) [] l). clear. intros l.
  induction l as [|y l IH]; cbn [insert_sorted]; [reflexivity|].
  destruct (le x y); [reflexivity|].
  rewrite IH. apply perm_swap.
Qed.

Lemma insert_sorted_Sorted (x : Q) (l : list Q) :
  Sorted Qle l -> Sorted Qle (insert_sorted Qle_bool x l).
Proof.
  induction 1 as [|y l Hs IH Hd]; cbn [insert_sorted].
  - repeat constructor.
  - qcases.
    + constructor; [constructor; assumption|]. constructor. assumption.
    + constructor; [assumption|].
      destruct l as [|z l]; cbn [insert_sorted].
      * constructor. lra.
      * inversion Hd; subst. qcases; constructor; lra.
Qed.

Lemma sorted_by_Sorted (l : list Q) : Sorted Qle (sorted_by Qle_bool l).
Proof.
  unfold sorted_by. induction l; cbn [fold_right]; [constructor|].
  now apply insert_sorted_Sorted.
Qed.

Lemma sorted_by_of_Sorted (s : list Q) :
  Sorted Qle s -> Forall2 Qeq (sorted_by Qle_bool s) s.
Proof.
  unfold sorted_by. induction 1 as [|x s Hs IH Hd]; cbn [fold_right]; [constructor|].
  eapply Forall2_Qeq_trans.
  - apply insert_sorted_Qeq; [reflexivity|exact IH].
  - destruct s as [|y s]; cbn [insert_sorted]; [apply Forall2_Qeq_refl|].
    inversion Hd; subst. qcases; [apply Forall2_Qeq_refl|exfalso; lra].
Qed.

Lemma sorted_by_ascending_order (values s : list Q) :
  ascending_order_of values s -> Forall2 Qeq (sorted_by Qle_bool values) s.
Proof.
  intros [Hp Hs]. eapply Forall2_Qeq_trans.
  - apply sorted_by_Permutation_Qeq. symmetry. exact Hp.
  - now apply sorted_by_of_Sorted.
Qed.

Lemma rank_weighted_sum_Qeq (i : Z) (l1 l2 : list Q) :
  Forall2 Qeq l1 l2 ->
  (Validator.rank_weighted_sum i l1 == Validator.rank_weighted_sum i l2)%Q.
Proof.
  intros H. revert i. induction H as [|x y l1 l2 Hxy _ IH]; intros i;
    cbn [Validator.rank_weighted_sum]; [reflexivity|].
  rewrite Hxy, (IH (i + 1)). reflexivity.
Qed.

Lemma qsum_Qeq (l1 l2 : list Q) : Forall2 Qeq l1 l2 -> (qsum l1 == qsum l2)%Q.
Proof.
  induction 1 as [|x y l1 l2 Hxy _ IH]; [reflexivity|].
  rewrite !qsum_cons, Hxy, IH. reflexivity.
Qed.

Lemma rank_weighted_sum_imap (k : Z) (s : list Q) :
  (Validator.rank_weighted_sum k s
   == qsum (imap (fun i h => Zq (Z.of_nat i + k + 1) * h) s))%Q.
Proof.
  revert k. induction s as [|x s IH]; intros k;
    cbn [Validator.rank_weighted_sum imap]; [reflexivity|].
  rewrite qsum_cons, (IH (k + 1)). change (Z.of_nat 0 + k + 1) with (k + 1).
  assert (E : imap (fun i h => (Zq (Z.of_nat i + (k + 1) + 1) * h)%Q) s
              = imap ((fun i h => (Zq (Z.of_nat i + k + 1) * h)%Q) ∘ S) s).
  { apply imap_ext. intros i y _. unfold compose. f_equal. f_equal. lia. }
  rewrite E. reflexivity.
Qed.

Lemma rank_weighted_sum_ranks (s : list Q) :
  (Validator.rank_weighted_sum 0 s
   == qsum (imap (fun i h => Zq (Z.of_nat i + 1) * h) s))%Q.
Proof.
  rewrite rank_weighted_sum_imap.
  assert (E : imap (fun i h => (Zq (Z.of_nat i + 0 + 1) * h)%Q) s
              = imap (fun i h => (Zq (Z.of_nat i + 1) * h)%Q) s).
  { apply imap_ext. intros i y _. now rewrite Z.add_0_r. }
  rewrite E. reflexivity.
Qed.

Lemma clamp_clamped (g : Q) : clamped_to_unit g (py_max 0 (py_min 1 g)).
Proof.
  unfold clamped_to_unit, py_max, py_min.
  destruct (Qlt_bool g 1) eqn:E1;
    [apply Qlt_bool_true in E1 | apply Qlt_bool_false in E1];
    (destruct (Qlt_bool 0 _) eqn:E0;
      [apply Qlt_bool_true in E0 | apply Qlt_bool_false in E0]).
  - right. left. split; [lra|reflexivity].
  - left. split; [lra|reflexivity].
  - right. right. split; [lra|reflexivity].
  - exfalso. lra.
Qed.

Lemma clamp_Qeq (g1 g2 : Q) :
  (g1 == g2)%Q -> (py_max 0 (py_min 1 g1) == py_max 0 (py_min 1 g2))%Q.
Proof.
  intros H. unfold py_max, py_min.
  destruct (Qlt_bool g1 1) eqn:E1;
    [apply Qlt_bool_true in E1 | apply Qlt_bool_false in E1];
    (destruct (Qlt_bool g2 1) eqn:E2;
      [apply Qlt_bool_true in E2 | apply Qlt_bool_false in E2]);
    qcases; lra.
Qed.

Lemma gini_of_ascending (values s : list Q) :
  values <> [] -> ~ (qsum values == 0)%Q -> ascending_order_of values s ->
  clamped_to_unit (gini_formula s) (Validator._calculate_gini values).
Proof.
  intros Hne Hsum Hasc.
  pose proof (sorted_by_ascending_order _ _ Hasc) as Hs.
  unfold Validator._calculate_gini.
  destruct values as [|v values]; [congruence|].
  change (length (v :: values) =? 0)%nat with false. cbv iota zeta.
  destruct (Qeq_bool _ 0) eqn:E.
  { apply Qeq_bool_iff in E. rewrite qsum_sorted_by in E. contradiction. }
  pose proof (clamp_clamped (gini_formula s)) as Hc.
  match goal with
  | |- clamped_to_unit _ (py_max 0 (py_min 1 ?g)) =>
      assert (Hg : (g == gini_formula s)%Q)
  end.
  { unfold gini_formula. cbv zeta.
    rewrite (rank_weighted_sum_Qeq 0 _ _ Hs), (qsum_Qeq _ _ Hs),
      (Forall2_length _ _ _ Hs), (rank_weighted_sum_ranks s).
    reflexivity. }
  apply clamp_Qeq in Hg.
  unfold clamped_to_unit in *. rewrite Hg. exact Hc.
Qed.

(** C4.  [_calculate_gini] is 0 on [10, 10, 10, 10] and 3/4 on
    [0, 0, 0, 40], and also 3/4 on [40, 0, 0, 0], which it sorts first; it
    is 0 on the empty list and on every list whose sum is zero; on every
    list its value lies between 0 and 1; and on every other list it is the
    value of the formula
    [2 * sum_i (i * s_i) / (n * sum_i s_i) - (n + 1) / n], the ranks [i]
    counted from 1, over the ascending order [s] of the values, cut to the
    interval from 0 to 1. *)
Theorem C4_gini_values_and_clamp :
  (Validator._calculate_gini [10; 10; 10; 10] == 0)%Q
  /\ (Validator._calculate_gini [0; 0; 0; 40] == 3 # 4)%Q
  /\ (Validator._calculate_gini [40; 0; 0; 0] == 3 # 4)%Q
  /\ (Validator._calculate_gini [] == 0)%Q
  /\ (forall values, (qsum values == 0)%Q -> (Validator._calculate_gini values == 0)%Q)
  /\ (forall values, (0 <= Validator._calculate_gini values <= 1)%Q)
  /\ (forall values s,
        values <> [] -> ~ (qsum values == 0)%Q -> ascending_order_of values s ->
        clamped_to_unit (gini_formula s) (Validator._calculate_gini values)).
Proof.
  split; [reflexivity|]. split; [reflexivity|]. split; [reflexivity|].
  split; [reflexivity|]. split; [exact gini_zero_total|].
  split; [exact gini_clamped | exact gini_of_ascending].
Qed.

Lemma C4_gini_witness :
  (ascending_order_of [30; 10; 40; 20] [10; 20; 30; 40]
   /\ gini_formula [10; 20; 30; 40] == 1 # 4
   /\ clamped_to_unit (gini_formula [10; 20; 30; 40])
        (Validator._calculate_gini [30; 10; 40; 20]))%Q.
Proof.
  assert (Hasc : (ascending_order_of [30; 10; 40; 20] [10; 20; 30; 40])%Q).
  { split.
    - apply (Permutation_trans (l' := [10; 30; 20; 40]%Q)).
      + constructor. apply perm_swap.
      + apply (Permutation_trans (l' := [30; 10; 20; 40]%Q)); [apply perm_swap|].
        do 2 constructor. apply perm_swap.
    - repeat constructor; discriminate. }
  split; [exact Hasc|]. split; [reflexivity|].
  apply (proj2 (proj2 (proj2 (proj2 (proj2 (proj2 C4_gini_values_and_clamp)))))).
  - discriminate.
  - intros H. discriminate H.
  - exact Hasc.
Defined.

(** ** The rate limiter (C8) *)

Lemma prune_keeps_window (rl : Config.RateLimiter) (now w : Q) :
  (Config.period_seconds rl == 60)%Q ->
  (forall t, In t (Config.calls rl) -> w <= t)%Q ->
  (now < w + 60)%Q ->
  Config.prune now rl = Config.calls rl.
Proof.
  intros Hp Hlo Hnow. unfold Config.prune. apply filter_all.
  intros t Ht. apply Qlt_bool_true. specialize (Hlo t Ht). rewrite Hp. lra.
Qed.

Lemma prune_drops_expired (rl : Config.RateLimiter) (now : Q) :
  (Config.period_seconds rl == 60)%Q ->
  (forall t, In t (Config.calls rl) -> 60 <= now - t)%Q ->
  Config.prune now rl = [].
Proof.
  intros Hp Hold. unfold Config.prune. apply filter_none.
  intros t Ht. apply Qlt_bool_false. specialize (Hold t Ht). rewrite Hp. lra.
Qed.

(** Inside one window every call is granted while fewer than [max_calls]
    are on record, and each granted call is recorded. *)
Lemma acquire_all_in_window (w : Q) (times : list Q) :
  forall rl,
    (Config.period_seconds rl == 60)%Q ->
    (forall t, In t (Config.calls rl ++ times) -> w <= t /\ t < w + 60)%Q ->
    Z.of_nat (length (Config.calls rl) + length times) <= Config.max_calls rl ->
    Config.acquire_all times rl
    = (Config.with_calls rl (Config.calls rl ++ times), repeat true (length times)).
Proof.
  induction times as [|now rest IH]; intros rl Hp Hwin Hlen; simpl.
  - rewrite app_nil_r. destruct rl; reflexivity.
  - unfold Config.acquire.
    rewrite (prune_keeps_window rl now w Hp).
    2:{ intros t Ht. apply Hwin. apply in_or_app. now left. }
    2:{ apply Hwin. apply in_or_app. right. now left. }
    simpl in Hlen.
    destruct (Config.max_calls rl <=? Z.of_nat (length (Config.calls rl))) eqn:E.
    { apply Z.leb_le in E. lia. }
    rewrite (IH (Config.with_calls rl (Config.calls rl ++ [now]))); simpl.
    + rewrite <- app_assoc. reflexivity.
    + exact Hp.
    + intros t Ht. apply Hwin. rewrite <- app_assoc in Ht. exact Ht.
    + rewrite length_app. simpl. lia.
Qed.

(** C8.  For a limiter of 10 calls per 60 seconds on which no call of the
    current window is on record (a new one, or one whose recorded calls are
    all at least 60 seconds older than the readings below): ten [acquire]
    calls whose clock readings lie in one 60-second window all succeed and
    are recorded; an eleventh in that window fails and leaves the record as
    it was.  And whenever every recorded call is at least 60 seconds old,
    [remaining] reports 10 and [acquire] succeeds. *)
Theorem C8_rate_limiter_window :
  (forall (rl : Config.RateLimiter) (w : Q) (times : list Q) (t11 : Q),
      Config.max_calls rl = 10 ->
      (Config.period_seconds rl == 60)%Q ->
      (forall t0 t, In t0 (Config.calls rl) -> In t (times ++ [t11]) -> 60 <= t - t0)%Q ->
      length times = 10%nat ->
      (forall t, In t (times ++ [t11]) -> w <= t /\ t < w + 60)%Q ->
      let rl' := fst (Config.acquire_all times rl) in
      snd (Config.acquire_all times rl) = repeat true 10
      /\ Config.calls rl' = times
      /\ Config.acquire t11 rl' = (rl', false))
  /\ (forall (rl : Config.RateLimiter) (now : Q),
      Config.max_calls rl = 10 ->
      (Config.period_seconds rl == 60)%Q ->
      (forall t, In t (Config.calls rl) -> 60 <= now - t)%Q ->
      snd (Config.remaining now rl) = 10
      /\ snd (Config.acquire now rl) = true
      /\ Config.calls (fst (Config.acquire now rl)) = [now]).
Proof.
  split.
  - intros rl w times t11 Hmax Hp Hold Hlen Hwin rl'.
    destruct times as [|t1 rest]; [discriminate|].
    assert (Hfirst : Config.acquire t1 rl = (Config.with_calls rl [t1], true)).
    { unfold Config.acquire. rewrite (prune_drops_expired rl t1 Hp).
      - rewrite Hmax. reflexivity.
      - intros t0 Ht0. apply Hold; [exact Ht0 | now left]. }
    assert (Hrun : Config.acquire_all (t1 :: rest) rl
                   = (Config.with_calls rl (t1 :: rest), repeat true (length (t1 :: rest)))).
    { cbn [Config.acquire_all]. rewrite Hfirst.
      rewrite (acquire_all_in_window w rest (Config.with_calls rl [t1])).
      - reflexivity.
      - exact Hp.
      - intros t Ht. apply Hwin. simpl in Ht. simpl.
        destruct Ht as [Ht|Ht]; [now left|]. right. apply in_or_app. now left.
      - simpl. rewrite Hmax. simpl in Hlen. lia. }
    subst rl'. rewrite Hrun, Hlen. cbn [fst snd].
    split; [reflexivity|]. split; [reflexivity|].
    unfold Config.acquire.
    rewrite (prune_keeps_window _ t11 w); cbn [Config.with_calls Config.calls
      Config.max_calls Config.period_seconds].
    + rewrite Hmax, Hlen. reflexivity.
    + exact Hp.
    + intros t Ht. apply Hwin. apply in_or_app. now left.
    + apply Hwin. apply in_or_app. right. now left.
  - intros rl now Hmax Hp Hold.
    unfold Config.remaining, Config.acquire.
    rewrite (prune_drops_expired rl now Hp Hold). simpl.
    rewrite Hmax. simpl. repeat split; reflexivity.
Qed.

Lemma C8_rate_limiter_witness :
  snd (Config.acquire_all [0; 1; 2; 3; 4; 5; 6; 7; 8; 9]%Q Config.llm_rate_limiter)
  = repeat true 10
  /\ snd (Config.acquire 59
            (fst (Config.acquire_all [0; 1; 2; 3; 4; 5; 6; 7; 8; 9]%Q
                    Config.llm_rate_limiter))) = false
  /\ snd (Config.remaining 69 (Config.with_calls Config.llm_rate_limiter [0; 9]%Q)) = 10.
Proof.
  assert (Hwin : forall t : Q,
             In t ([0; 1; 2; 3; 4; 5; 6; 7; 8; 9]%Q ++ [59%Q]) ->
             (0 <= t /\ t < 0 + 60)%Q).
  { intros t Ht. simpl in Ht.
    repeat (destruct Ht as [<- | Ht]; [lra|]). destruct Ht. }
  destruct (proj1 C8_rate_limiter_window Config.llm_rate_limiter 0%Q
              [0; 1; 2; 3; 4; 5; 6; 7; 8; 9]%Q 59%Q eq_refl (Qeq_refl 60)
              (fun t0 t (H0 : In t0 []) => match H0 with end) eq_refl Hwin)
    as (H1 & _ & H3).
  split; [exact H1|]. split; [rewrite H3; reflexivity|].
  apply (proj2 C8_rate_limiter_window
           (Config.with_calls Config.llm_rate_limiter [0; 9]%Q) 69%Q eq_refl).
  - reflexivity.
  - intros t Ht. simpl in Ht.
    repeat (destruct Ht as [<- | Ht]; [lra|]). destruct Ht.
Defined.

(** ** Soft penalties (C3) *)

Lemma informational_classified (v : Violation) :
  informational v -> _is_informational_warning v = Returns true.
Proof.
  unfold informational, _is_informational_warning.
  intros [Halert | [[Hty (gini & Hg & Hlt)] | [Hty (cur & req & Hc & Hr & Hle & Hpeak)]]].
  - rewrite Halert. reflexivity.
  - destruct (option_eqb _ _ _); [reflexivity|].
    rewrite Hty, Hg. simpl.
    apply Qlt_bool_true in Hlt. rewrite Hlt. reflexivity.
  - destruct (option_eqb _ _ _); [reflexivity|].
    rewrite Hty, Hc, Hr, Hpeak. simpl.
    apply Qle_bool_iff in Hle. rewrite Hle. reflexivity.
Qed.

Lemma soft_penalty_bounded (v : Violation) (p : Q) :
  _calculate_soft_penalty v = Returns p -> (p <= 1 # 2)%Q.
Proof.
  unfold _calculate_soft_penalty.
  destruct (_is_informational_warning v) as [[|]|]; intros Hp; inversion Hp; subst.
  - lra.
  - destruct (py_min_spec (Zq (severity v) * (5 # 100) * weights (constraint_type v))
                (5 # 10)) as (_ & Hle & _). lra.
Qed.

(** The score of a result stays non-negative under [add_violation]. *)
Lemma add_violation_score_nonneg (h : store) (x : ref) (r : ComplianceResult) :
  (0 <= score r)%Q -> (0 <= score (fst (add_violation h x r)))%Q.
Proof.
  intros Hs. unfold add_violation.
  destruct (h !! x) as [v|]; [|exact Hs].
  destruct (is_hard_constraint v); simpl.
  - apply py_max_spec.
  - destruct (_calculate_soft_penalty v); simpl; [apply py_max_spec | exact Hs].
Qed.

(** C3, as the code has it.  Through [add_violation], a soft violation
    lowers the score by at most 0.5, and by nothing when it is
    informational.  [_calculate_soft_penalty] gives 0 for every
    informational violation, of whatever type; but [add_violation] asks it
    about soft violations only: a violation of a hard type costs twice its
    severity (the score stopping at 0), informational or not. *)
Theorem C3_soft_penalty_cap :
  forall (h : store) (x : ref) (v : Violation) (r : ComplianceResult),
    h !! x = Some v ->
    (0 <= score r)%Q ->
    (is_hard_constraint v = false ->
     (score r - score (fst (add_violation h x r)) <= 1 # 2)%Q
     /\ (informational v -> (score (fst (add_violation h x r)) == score r)%Q))
    /\ (informational v -> _calculate_soft_penalty v = Returns 0%Q)
    /\ (is_hard_constraint v = true ->
        (score (fst (add_violation h x r))
         == py_max 0 (score r - Zq (severity v * 2)))%Q).
Proof.
  intros h x v r Hx Hs. split; [|split].
  - intros Hsoft. unfold add_violation. rewrite Hx, Hsoft.
    destruct (_calculate_soft_penalty v) as [p|e] eqn:Hp; simpl.
    + pose proof (soft_penalty_bounded v p Hp) as Hb.
      destruct (py_max_spec 0 (score r - p)) as (_ & Hge & _).
      split; [lra|].
      intros Hinf. unfold _calculate_soft_penalty in Hp.
      rewrite (informational_classified v Hinf) in Hp. inversion Hp; subst.
      rewrite py_max_0_nonneg; lra.
    + split; [lra|]. intros _. reflexivity.
  - intros Hinf. unfold _calculate_soft_penalty.
    now rewrite (informational_classified v Hinf).
  - intros Hhard. unfold add_violation. rewrite Hx, Hhard. reflexivity.
Qed.

Lemma C3_soft_penalty_witness :
  (score (fst (add_violation [mild_imbalance] 0%nat (new_ComplianceResult true)))
   == score (new_ComplianceResult true))%Q
  /\ (score (fst (add_violation
                    [ComplianceValidatorAgent.no_designated_staff
                       "opening" "06:30" "S or 1F" monday]
                    0%nat (new_ComplianceResult true)))
      == score (new_ComplianceResult true))%Q
  /\ _calculate_soft_penalty (Validator.approaching_limit_alert alice "1001" 0 36 38)
     = Returns 0%Q
  /\ (score (fst (add_violation [Validator.approaching_limit_alert alice "1001" 0 36 38]
                    0%nat (new_ComplianceResult true)))
      == py_max 0 (100 - 4))%Q.
Proof.
  assert (Hs : (0 <= score (new_ComplianceResult true))%Q) by (simpl; lra).
  split; [|split; [|split]].
  - destruct (C3_soft_penalty_cap [mild_imbalance] 0%nat mild_imbalance
                (new_ComplianceResult true) eq_refl Hs) as (Hsoft & _ & _).
    apply (Hsoft eq_refl).
    right. left. split; [reflexivity|].
    exists (36 # 100)%Q. split; [reflexivity | lra].
  - destruct (C3_soft_penalty_cap
                [ComplianceValidatorAgent.no_designated_staff
                   "opening" "06:30" "S or 1F" monday]
                0%nat _ (new_ComplianceResult true) eq_refl Hs) as (Hsoft & _ & _).
    apply (Hsoft eq_refl).
    right. right. split; [reflexivity|].
    exists 0%Q, 0%Q. repeat split; try reflexivity. lra.
  - destruct (C3_soft_penalty_cap
                [Validator.approaching_limit_alert alice "1001" 0 36 38]
                0%nat _ (new_ComplianceResult true) eq_refl Hs) as (_ & Hpen & _).
    apply Hpen. left. reflexivity.
  - destruct (C3_soft_penalty_cap
                [Validator.approaching_limit_alert alice "1001" 0 36 38]
                0%nat _ (new_ComplianceResult true) eq_refl Hs) as (_ & _ & Hhard).
    apply (Hhard eq_refl).
Defined.

(** C3 as stated fails on the one violation with
    [alert_type = "approaching_limit"] that the program builds.  Alice's
    week of 36 hours makes the hours check report the approaching-limit
    alert; it is informational, but its type is [HOURS_MAX], a hard one:
    [add_violation] files it under the hard violations, the result is no
    longer compliant, and the score goes from 100 to 96. *)
Lemma C3_counterexample_approaching_limit_alert :
  let alert := Validator.approaching_limit_alert alice "1001" 0 36 38 in
  let out := Validator._check_hours_compliance (validator_of week_36)
               ([], new_ComplianceResult true) in
  fst (fst out) = [alert]
  /\ informational alert
  /\ _is_informational_warning alert = Returns true
  /\ is_hard_constraint alert = true
  /\ violations (snd (fst out)) = [0%nat]
  /\ warnings (snd (fst out)) = []
  /\ is_compliant (snd (fst out)) = false
  /\ (score (new_ComplianceResult true) - score (snd (fst out)) == 4)%Q.
Proof.
  cbv zeta. split; [vm_compute; reflexivity|].
  split; [left; reflexivity|].
  split; [reflexivity|]. split; [reflexivity|].
  vm_compute. repeat split; reflexivity.
Qed.

(** ** The hours check *)

Lemma check_week_full_time (e : Employee) (emp_id : string) (week_num : Z) (hours : Q) :
  employee_type e = FULL_TIME ->
  Validator.check_week e emp_id week_num hours
  = if Qlt_bool 38 hours then
      Some (Validator.max_hours_violation e emp_id week_num hours 38)
    else if Qlt_bool hours 35 then
      Some (Validator.min_hours_warning e emp_id week_num hours 35)
    else if Qle_bool (38 * (85 # 100)) hours then
      Some (Validator.approaching_limit_alert e emp_id week_num hours 38)
    else None.
Proof. intros Hft. unfold Validator.check_week. rewrite Hft. reflexivity. Qed.

(** The approaching-limit alert is built with the type [HOURS_MAX], which
    [is_hard_constraint] counts as hard: [add_violation] files the alert
    under the hard violations, clears [is_compliant] and takes
    [severity * 2 = 4] points, without asking [_is_informational_warning]. *)
Lemma approaching_limit_alert_is_hard :
  forall (h : store) (x : ref) (r : ComplianceResult)
         (e : Employee) (emp_id : string) (week_num : Z) (hours : Q) (max_hours : Z),
    h !! x = Some (Validator.approaching_limit_alert e emp_id week_num hours max_hours) ->
    add_violation h x r
    = ({| is_compliant := false; violations := violations r ++ [x];
          warnings := warnings r; pending_approvals := pending_approvals r;
          score := py_max 0 (score r - 4); fairness_metrics := fairness_metrics r |},
       Returns tt).
Proof. intros h x r e emp_id week_num hours max_hours Hx. unfold add_violation. rewrite Hx. reflexivity. Qed.

Lemma approaching_limit_alert_36_hours :
  let out := Validator._check_hours_compliance (validator_of week_36)
               ([], new_ComplianceResult true) in
  map (fun v => details v !! "alert_type") (fst (fst out))
  = [Some (VStr "approaching_limit")]
  /\ violations (snd (fst out)) = [0%nat]
  /\ warnings (snd (fst out)) = []
  /\ is_compliant (snd (fst out)) = false
  /\ Qred (score (snd (fst out))) = 96%Q.
Proof. vm_compute. repeat split; reflexivity. Qed.

Lemma approaching_limit_alert_is_hard_witness :
  add_violation [Validator.approaching_limit_alert alice "1001" 0 36 38] 0%nat
    (new_ComplianceResult true)
  = ({| is_compliant := false; violations := [0%nat]; warnings := [];
        pending_approvals := []; score := py_max 0 (100 - 4);
        fairness_metrics := ∅ |}, Returns tt).
Proof.
  exact (approaching_limit_alert_is_hard
           [Validator.approaching_limit_alert alice "1001" 0 36 38] 0%nat
           (new_ComplianceResult true) alice "1001" 0 36%Q 38 eq_refl).
Defined.

(** ** The rest-period check (C6) *)

(** *** Grouping by employee *)

Lemma NoDup_snoc {B : Type} (l : list B) (k : B) :
  List.NoDup l -> ~ In k l -> List.NoDup (l ++ [k]).
Proof.
  induction l as [|x l IH]; intros Hnd Hk; simpl.
  - constructor; [intros []|constructor].
  - inversion Hnd as [|? ? Hx Hl]; subst. constructor.
    + intros Hin. apply in_app_or in Hin. destruct Hin as [Hin|[<-|[]]].
      * contradiction.
      * apply Hk. now left.
    + apply IH; [exact Hl|]. intros Hin. apply Hk. now right.
Qed.

Section Grouping.
Context {A : Type} (key : A -> string).

Lemma assoc_get_update (k k' : string) (a : A) (tbl : list (string * list A)) :
  assoc_get k' (assoc_update String.eqb k (fun g => g ++ [a]) [] tbl)
  = if String.eqb k k' then Some (default [] (assoc_get k tbl) ++ [a])
    else assoc_get k' tbl.
Proof.
  unfold assoc_get. induction tbl as [|[k0 g0] tbl IH]; simpl.
  - rewrite (String.eqb_sym k k'). destruct (String.eqb k' k); reflexivity.
  - destruct (String.eqb k0 k) eqn:E0; simpl.
    + apply String.eqb_eq in E0. subst k0.
      destruct (String.eqb k k') eqn:E; simpl; reflexivity.
    + destruct (String.eqb k0 k') eqn:E1; simpl.
      * apply String.eqb_eq in E1. subst k0. rewrite (String.eqb_sym k k'), E0.
        reflexivity.
      * exact IH.
Qed.

Lemma keys_update (k : string) (a : A) (tbl : list (string * list A)) :
  map fst (assoc_update String.eqb k (fun g => g ++ [a]) [] tbl)
  = match assoc_get k tbl with
    | Some _ => map fst tbl
    | None => map fst tbl ++ [k]
    end.
Proof.
  unfold assoc_get. induction tbl as [|[k0 g0] tbl IH]; simpl; [reflexivity|].
  destruct (String.eqb k0 k) eqn:E0; simpl; [reflexivity|].
  rewrite IH. destruct (List.find _ tbl); reflexivity.
Qed.

Lemma assoc_get_None_keys {V : Type} (k : string) (tbl : list (string * V)) :
  assoc_get k tbl = None -> ~ In k (map fst tbl).
Proof.
  unfold assoc_get. induction tbl as [|[k0 g0] tbl IH]; simpl; [auto|].
  destruct (String.eqb k0 k) eqn:E0; [discriminate|].
  intros Hn [Heq|Hin].
  - subst k0. rewrite String.eqb_refl in E0. discriminate.
  - now apply IH.
Qed.

(** The table after the assignments of [l]: distinct keys, and under each
    key the members of [l] with that key, in order. *)
Lemma grouping (l : list A) :
  forall (pre : list A) (tbl : list (string * list A)),
    List.NoDup (map fst tbl) ->
    (forall k, assoc_get k tbl
               = match members key k pre with [] => None | g => Some g end) ->
    List.NoDup (map fst (fold_left (group_step key) l tbl))
    /\ (forall k, assoc_get k (fold_left (group_step key) l tbl)
                  = match members key k (pre ++ l) with [] => None | g => Some g end).
Proof.
  induction l as [|a l IH]; intros pre tbl Hnd Hget; simpl.
  - rewrite app_nil_r. split; assumption.
  - replace (pre ++ a :: l) with ((pre ++ [a]) ++ l) by (rewrite <- app_assoc; reflexivity).
    apply IH.
    + unfold group_step. rewrite keys_update.
      destruct (assoc_get (key a) tbl) eqn:Hk; [exact Hnd|].
      apply NoDup_snoc; [exact Hnd|]. now apply assoc_get_None_keys.
    + intros k. unfold group_step. rewrite assoc_get_update.
      unfold members in *. rewrite List.filter_app. simpl.
      destruct (String.eqb (key a) k) eqn:E.
      * apply String.eqb_eq in E. subst k. rewrite Hget.
        destruct (List.filter _ pre); reflexivity.
      * rewrite app_nil_r. apply Hget.
Qed.

Lemma groups_of (l : list A) :
  List.NoDup (map fst (fold_left (group_step key) l []))
  /\ (forall k, assoc_get k (fold_left (group_step key) l [])
                = match members key k l with [] => None | g => Some g end).
Proof. apply (grouping l [] []); [constructor | reflexivity]. Qed.
End Grouping.

Lemma consecutive_rest_entity (e : Employee) (k : string) (l : list Assignment) :
  forall v, In v (Validator.consecutive_rest e k l) ->
            affected_entity v = k /\ is_hard_constraint v = true.
Proof.
  induction l as [|x l IH]; simpl; [intros v []|].
  destruct l as [|y l]; [intros v []|].
  intros v Hv. apply in_app_or in Hv. destruct Hv as [Hv|Hv]; [|now apply IH].
  destruct (Qlt_bool _ _); [|destruct Hv].
  destruct Hv as [<-|[]]. split; reflexivity.
Qed.

Lemma rest_violations_by_group (self : Validator.Agent) :
  Validator.rest_violations self
  = flat_map (group_violations self)
      (fold_left (group_step (fun a => emp_id (employee a)))
         (assignments (Validator.schedule self)) []).
Proof.
  unfold Validator.rest_violations, Validator.assignments_by_employee.
  apply flat_map_ext. intros [k g]. reflexivity.
Qed.

Lemma group_violations_entity (self : Validator.Agent) (kv : string * list Assignment) :
  forall v, In v (group_violations self kv) ->
            affected_entity v = fst kv /\ is_hard_constraint v = true.
Proof.
  unfold group_violations. destruct (Validator.employees self !! fst kv); [|intros v []].
  apply consecutive_rest_entity.
Qed.

Lemma about_group (self : Validator.Agent) (i : string) (kv : string * list Assignment) :
  about i (group_violations self kv)
  = if String.eqb (fst kv) i then group_violations self kv else [].
Proof.
  unfold about. destruct (String.eqb (fst kv) i) eqn:E.
  - apply filter_all. intros v Hv.
    rewrite (proj1 (group_violations_entity self kv v Hv)). exact E.
  - apply filter_none. intros v Hv.
    rewrite (proj1 (group_violations_entity self kv v Hv)). exact E.
Qed.

Lemma about_groups (self : Validator.Agent) (i : string)
    (tbl : list (string * list Assignment)) :
  List.NoDup (map fst tbl) ->
  about i (flat_map (group_violations self) tbl)
  = match assoc_get i tbl with
    | Some g => group_violations self (i, g)
    | None => []
    end.
Proof.
  unfold assoc_get. induction tbl as [|[k g] tbl IH]; intros Hnd; simpl; [reflexivity|].
  inversion Hnd as [|? ? Hk Hnd']; subst.
  unfold about in *. rewrite List.filter_app.
  fold (about i (group_violations self (k, g))). rewrite about_group. simpl.
  destruct (String.eqb k i) eqn:E.
  - apply String.eqb_eq in E. subst k. simpl.
    rewrite (IH Hnd').
    destruct (List.find _ tbl) as [[k' g']|] eqn:Hf; [|apply app_nil_r].
    exfalso. apply Hk. apply find_some in Hf. destruct Hf as [Hin Heq].
    simpl in Heq. apply String.eqb_eq in Heq. subst k'.
    change i with (fst (i, g')). now apply in_map.
  - simpl. now apply IH.
Qed.

(** The rest-period violations about an employee come from that employee's
    own assignments, sorted, whatever else the schedule holds. *)
Lemma rest_violations_about (self : Validator.Agent) (i : string) :
  about i (Validator.rest_violations self)
  = match assignments_of (Validator.schedule self) i with
    | [] => []
    | g => group_violations self (i, g)
    end.
Proof.
  rewrite rest_violations_by_group.
  destruct (groups_of (fun a => emp_id (employee a))
              (assignments (Validator.schedule self))) as [Hnd Hget].
  rewrite (about_groups self i _ Hnd), (Hget i).
  unfold assignments_of, members.
  destruct (List.filter _ _); reflexivity.
Qed.

Lemma rest_violations_hard (self : Validator.Agent) :
  forall v, In v (Validator.rest_violations self) -> is_hard_constraint v = true.
Proof.
  rewrite rest_violations_by_group. intros v Hv.
  apply in_flat_map in Hv. destruct Hv as (kv & _ & Hv).
  apply (group_violations_entity self kv v Hv).
Qed.

Lemma report_hard (v : Violation) (h : store) (r : ComplianceResult) :
  is_hard_constraint v = true ->
  Validator.report v (h, r)
  = (h ++ [v],
     {| is_compliant := false; violations := violations r ++ [length h];
        warnings := warnings r; pending_approvals := pending_approvals r;
        score := py_max 0 (score r - Zq (severity v * 2));
        fairness_metrics := fairness_metrics r |},
     Returns tt).
Proof.
  intros Hhard. unfold Validator.report, alloc, add_violation.
  cbv beta iota zeta. unfold store, ref in *.
  assert (Hx : (h ++ [v]) !! length h = Some v).
  { rewrite lookup_app_r by lia. rewrite Nat.sub_diag. reflexivity. }
  rewrite Hx, Hhard. reflexivity.
Qed.

(** Hard violations reported in a row all land in the hard list, as new
    objects of the store. *)
Lemma report_all_hard (vs : list Violation) :
  forall (h : store) (r : ComplianceResult),
    (forall v, In v vs -> is_hard_constraint v = true) ->
    snd (Validator.report_all vs (h, r)) = Returns tt
    /\ fst (fst (Validator.report_all vs (h, r))) = h ++ vs
    /\ violations (snd (fst (Validator.report_all vs (h, r))))
       = violations r ++ seq (length h) (length vs)
    /\ warnings (snd (fst (Validator.report_all vs (h, r)))) = warnings r
    /\ is_compliant (snd (fst (Validator.report_all vs (h, r))))
       = if (length vs =? 0)%nat then is_compliant r else false.
Proof.
  induction vs as [|v vs IH]; intros h r Hhard.
  - cbn [Validator.report_all fst snd length seq Nat.eqb].
    rewrite !app_nil_r. repeat split; reflexivity.
  - cbn [Validator.report_all]. rewrite (report_hard v h r (Hhard v (or_introl eq_refl))).
    match goal with |- context [Validator.report_all vs (?h1, ?r1)] =>
      destruct (IH h1 r1 (fun x Hx => Hhard x (or_intror Hx)))
        as (H1 & H2 & H3 & H4 & H5) end.
    rewrite H1, H2, H3, H4, H5. cbn [violations warnings is_compliant].
    rewrite <- !app_assoc, length_app. simpl.
    replace (length h + 1)%nat with (S (length h)) by lia.
    repeat split; try reflexivity.
    destruct (length vs =? 0)%nat; reflexivity.
Qed.

(** *** Two shifts on consecutive days *)

Lemma sorted_pair_by_date (x y : Assignment) :
  date (shift x) < date (shift y) ->
  sorted_by Validator.key_le [x; y] = [x; y]
  /\ sorted_by Validator.key_le [y; x] = [x; y].
Proof.
  intros Hlt. unfold sorted_by, Validator.key_le. simpl.
  assert (H1 : (date (shift x) <? date (shift y)) = true) by (apply Z.ltb_lt; lia).
  assert (H2 : (date (shift y) <? date (shift x)) = false) by (apply Z.ltb_ge; lia).
  assert (H3 : (date (shift y) =? date (shift x)) = false) by (apply Z.eqb_neq; lia).
  rewrite H1, H2, H3. simpl. split; reflexivity.
Qed.

Lemma rest_1F_then_2F (d : Z) :
  (hours_until_next (shift_of "1F" d) (shift_of "2F" (d + 1)) == 45 # 2)%Q.
Proof.
  unfold hours_until_next, hours_between, get_end_datetime, get_start_datetime, combine.
  simpl. unfold Qeq. simpl. unfold time. lia.
Qed.

Lemma rest_2F_then_1F (d : Z) :
  (hours_until_next (shift_of "2F" d) (shift_of "1F" (d + 1)) == 15 # 2)%Q.
Proof.
  unfold hours_until_next, hours_between, get_end_datetime, get_start_datetime, combine.
  simpl. unfold Qeq. simpl. unfold time. lia.
Qed.

(** The violations about an employee whose only two shifts fall on
    different days, in either order of the assignment list. *)
Lemma rest_violations_pair (self : Validator.Agent) (i : string) (known : Employee)
    (x y : Assignment) :
  Validator.employees self !! i = Some known ->
  date (shift x) < date (shift y) ->
  assignments_of (Validator.schedule self) i = [x; y]
  \/ assignments_of (Validator.schedule self) i = [y; x] ->
  about i (Validator.rest_violations self)
  = if Qlt_bool (hours_until_next (shift x) (shift y)) 10
    then [Validator.rest_violation known i x y (hours_until_next (shift x) (shift y))]
    else [].
Proof.
  intros Hknown Hlt Hmine. rewrite rest_violations_about.
  destruct (sorted_pair_by_date x y Hlt) as [Hs1 Hs2].
  destruct Hmine as [-> | ->]; unfold group_violations; cbn [fst snd];
    rewrite Hknown, ?Hs1, ?Hs2;
    cbn [Validator.consecutive_rest Validator.min_rest_hours];
    rewrite !app_nil_r; reflexivity.
Qed.

(** C6.  The rest-period check files exactly its violations, all of them
    hard, in the result.  For an employee known to the validator whose
    assignments are a 1F shift on one day and a 2F shift on the next, the
    rest is 22.5 hours and no violation is about that employee; when they
    are a 2F shift and a 1F shift on the next day, the rest is 7.5 hours and
    exactly one violation is about the employee: hard, of type
    [REST_PERIOD] and severity 10, dated on the later shift. *)
Theorem C6_rest_period_check :
  forall (self : Validator.Agent) (e known : Employee) (d : Z) (x y : Assignment),
    Validator.employees self !! emp_id e = Some known ->
    assignments_of (Validator.schedule self) (emp_id e) = [x; y]
    \/ assignments_of (Validator.schedule self) (emp_id e) = [y; x] ->
    (let out := Validator._check_rest_period_compliance self
                  ([], new_ComplianceResult true) in
     snd out = Returns tt
     /\ fst (fst out) = Validator.rest_violations self
     /\ violations (snd (fst out)) = seq 0 (length (Validator.rest_violations self))
     /\ warnings (snd (fst out)) = []
     /\ (forall v, In v (Validator.rest_violations self) -> is_hard_constraint v = true))
    /\ (shift x = shift_of "1F" d -> shift y = shift_of "2F" (d + 1) ->
        (hours_until_next (shift x) (shift y) == 45 # 2)%Q
        /\ about (emp_id e) (Validator.rest_violations self) = [])
    /\ (shift x = shift_of "2F" d -> shift y = shift_of "1F" (d + 1) ->
        (hours_until_next (shift x) (shift y) == 15 # 2)%Q
        /\ exists v,
             about (emp_id e) (Validator.rest_violations self) = [v]
             /\ constraint_type v = REST_PERIOD
             /\ severity v = 10
             /\ is_hard_constraint v = true
             /\ affected_entity v = emp_id e
             /\ affected_date v = Some (date (shift y))
             /\ date (shift y) = d + 1
             /\ (exists rest, details v !! "rest_hours" = Some (VFloat rest)
                              /\ (rest == 15 # 2)%Q)).
Proof.
  intros self e known d x y Hknown Hmine. split; [|split].
  - unfold Validator._check_rest_period_compliance.
    destruct (report_all_hard (Validator.rest_violations self) []
                (new_ComplianceResult true) (rest_violations_hard self))
      as (H1 & H2 & H3 & H4 & _).
    cbv zeta. split; [exact H1|]. split; [exact H2|]. split; [exact H3|].
    split; [exact H4 | apply rest_violations_hard].
  - intros Hx Hy.
    assert (Hr : (hours_until_next (shift x) (shift y) == 45 # 2)%Q)
      by (rewrite Hx, Hy; apply rest_1F_then_2F).
    split; [exact Hr|].
    rewrite (rest_violations_pair self (emp_id e) known x y Hknown);
      [|rewrite Hx, Hy; simpl; lia|exact Hmine].
    destruct (Qlt_bool _ 10) eqn:E; [|reflexivity].
    apply Qlt_bool_true in E. rewrite Hr in E. lra.
  - intros Hx Hy.
    assert (Hr : (hours_until_next (shift x) (shift y) == 15 # 2)%Q)
      by (rewrite Hx, Hy; apply rest_2F_then_1F).
    split; [exact Hr|].
    exists (Validator.rest_violation known (emp_id e) x y
              (hours_until_next (shift x) (shift y))).
    split.
    + rewrite (rest_violations_pair self (emp_id e) known x y Hknown);
        [|rewrite Hx, Hy; simpl; lia|exact Hmine].
      destruct (Qlt_bool _ 10) eqn:E; [reflexivity|].
      apply Qlt_bool_false in E. rewrite Hr in E. lra.
    + repeat (split; [reflexivity|]).
      split; [rewrite Hy; reflexivity|].
      exists (hours_until_next (shift x) (shift y)). split; [|exact Hr].
      unfold Validator.rest_violation. cbn [details].
      rewrite lookup_insert_ne by discriminate. apply lookup_insert_eq.
Qed.
Lemma C6_rest_period_witness :
  exists v,
    about (emp_id alice) (Validator.rest_violations (validator_of short_rest)) = [v]
    /\ severity v = 10
    /\ affected_date v = Some (monday + 1).
Proof.
  destruct (proj2 (proj2
              (C6_rest_period_check (validator_of short_rest) alice alice monday
                 (new_Assignment alice (shift_of "2F" monday) KITCHEN)
                 (new_Assignment alice (shift_of "1F" (monday + 1)) KITCHEN)
                 eq_refl (or_introl eq_refl))) eq_refl eq_refl)
    as (_ & v & H1 & _ & H3 & _ & _ & H5 & _).
  exists v. split; [exact H1|]. split; [exact H3 | exact H5].
Defined.

(** ** Escalation to the manager (C2) *)

Lemma same_or_equal_refl (h : store) (x : ref) : same_or_equal h x x = true.
Proof. unfold same_or_equal. rewrite Nat.eqb_refl. reflexivity. Qed.

Lemma contains_middle {A : Type} (eqb : A -> A -> bool) (x : A) (l1 l2 : list A) :
  eqb x x = true -> contains eqb x (l1 ++ x :: l2) = true.
Proof.
  intros Hrefl. unfold contains. rewrite existsb_app. simpl.
  rewrite Hrefl. simpl. apply orb_true_r.
Qed.

Lemma list_remove_first {A : Type} (eqb : A -> A -> bool) (x : A) (l1 l2 : list A) :
  eqb x x = true ->
  (forall y, In y l1 -> eqb y x = false) ->
  list_remove eqb x (l1 ++ x :: l2) = Some (l1 ++ l2).
Proof.
  intros Hrefl. induction l1 as [|y l1 IH]; intros Hne; simpl.
  - rewrite Hrefl. reflexivity.
  - rewrite (Hne y (or_introl eq_refl)), IH; [reflexivity|].
    intros z Hz. apply Hne. now right.
Qed.

Lemma length_eqb_0_nil {A : Type} (l : list A) : (length l =? 0)%nat = true <-> l = [].
Proof. destruct l; simpl; split; intros H; congruence. Qed.

(** The score of a result stays non-negative under [escalate_to_manager]. *)
Lemma escalate_score_nonneg (h : store) (x : ref) (reason : string) (r : ComplianceResult) :
  (0 <= score r)%Q -> (0 <= score (snd (escalate_to_manager h x reason r)))%Q.
Proof.
  intros Hs. unfold escalate_to_manager.
  destruct (contains _ _ _); [|exact Hs].
  destruct (list_remove _ _ _); [|exact Hs].
  destruct (h !! x); [|exact Hs]. simpl. apply py_max_spec.
Qed.

(** C2, as the code has it.  When the violation at [x] is in the hard list
    and no entry before it is equal to it, [escalate_to_manager] takes that
    entry out of the hard list and appends [x] to the pending approvals; the
    object then holds the reason under [escalation_reason], the approval
    flag, and, in front of its suggestions, the banner followed by the
    reason; no other object changes; and [is_compliant] is true exactly
    when the hard list that remains is empty. *)
Theorem C2_escalation_transition :
  forall (h : store) (r : ComplianceResult) (x : ref) (v : Violation)
         (reason : string) (before after : list ref),
    h !! x = Some v ->
    violations r = before ++ x :: after ->
    (forall y, In y before -> same_or_equal h y x = false) ->
    let h' := fst (escalate_to_manager h x reason r) in
    let r' := snd (escalate_to_manager h x reason r) in
    violations r' = before ++ after
    /\ pending_approvals r' = pending_approvals r ++ [x]
    /\ warnings r' = warnings r
    /\ (exists v',
          h' !! x = Some v'
          /\ details v' !! "escalation_reason" = Some (VStr reason)
          /\ details v' !! "requires_manager_approval" = Some (VBool true)
          /\ suggestions v' = (approval_banner +:+ reason) :: suggestions v
          /\ constraint_type v' = constraint_type v
          /\ severity v' = severity v)
    /\ (forall y, y <> x -> h' !! y = h !! y)
    /\ (is_compliant r' = true <-> violations r' = []).
Proof.
  intros h r x v reason before after Hx Hl Hfirst h' r'.
  subst h' r'. unfold escalate_to_manager.
  rewrite Hl, (contains_middle _ x before after (same_or_equal_refl h x)).
  rewrite (list_remove_first _ x before after (same_or_equal_refl h x) Hfirst).
  rewrite Hx. cbn [fst snd violations pending_approvals warnings is_compliant].
  split; [reflexivity|]. split; [reflexivity|]. split; [reflexivity|]. split.
  - exists (mark_escalated v reason). split.
    + apply list_lookup_insert_eq. apply (lookup_lt_Some _ _ _ Hx).
    + unfold mark_escalated. cbn [details suggestions constraint_type severity].
      split; [rewrite lookup_insert_ne by discriminate; apply lookup_insert_eq|].
      split; [apply lookup_insert_eq|]. repeat split; reflexivity.
  - split.
    + intros y Hy. apply list_lookup_insert_ne. congruence.
    + apply length_eqb_0_nil.
Qed.

Lemma C2_escalation_witness :
  violations (snd (escalate_to_manager [understaffed] 0%nat "No staff available"
                     (fst (add_violation [understaffed] 0%nat (new_ComplianceResult true)))))
  = []
  /\ pending_approvals
       (snd (escalate_to_manager [understaffed] 0%nat "No staff available"
               (fst (add_violation [understaffed] 0%nat (new_ComplianceResult true)))))
     = [0%nat].
Proof.
  destruct (C2_escalation_transition [understaffed]
              (fst (add_violation [understaffed] 0%nat (new_ComplianceResult true)))
              0%nat understaffed "No staff available" [] [] eq_refl eq_refl
              (fun y (Hy : In y []) => match Hy with end))
    as (H1 & H2 & _).
  split; [exact H1 | exact H2].
Defined.

(** C2 as stated fails when an earlier entry of the hard list is equal to
    the violation: [list.remove] drops that entry.  With two equal objects
    0 and 1 in the list, escalating object 1 removes object 0; object 1,
    now marked and pending, is still in the hard list, and the result is not
    compliant. *)
Lemma C2_counterexample_equal_entries :
  violations twin_result = [0%nat; 1%nat]
  /\ violations (snd (escalate_to_manager twin_store 1%nat "No staff available" twin_result))
     = [1%nat]
  /\ pending_approvals
       (snd (escalate_to_manager twin_store 1%nat "No staff available" twin_result))
     = [1%nat]
  /\ is_compliant (snd (escalate_to_manager twin_store 1%nat "No staff available" twin_result))
     = false
  /\ (fst (escalate_to_manager twin_store 1%nat "No staff available" twin_result)) !! 0%nat
     = Some understaffed.
Proof. vm_compute. repeat split; reflexivity. Qed.

(** ** Schedule indexes (C5) *)

Lemma Station_eqb_eq (a b : Station) : Station_eqb a b = true <-> a = b.
Proof. unfold Station_eqb. apply bool_decide_eq_true. Qed.

Lemma Station_eqb_refl (a : Station) : Station_eqb a a = true.
Proof. now apply Station_eqb_eq. Qed.

Lemma Assignment_eqb_keys (a b : Assignment) :
  Assignment_eqb a b = true ->
  date (shift a) = date (shift b)
  /\ emp_id (employee a) = emp_id (employee b)
  /\ station a = station b.
Proof.
  unfold Assignment_eqb, Employee_eqb, Shift_eqb. intros H.
  repeat match goal with
         | H : _ && _ = true |- _ => apply andb_true_iff in H; destruct H
         end.
  repeat split.
  - now apply Z.eqb_eq.
  - now apply String.eqb_eq.
  - now apply Station_eqb_eq.
Qed.

Lemma Qeq_bool_sym' (x y : Q) : Qeq_bool x y = Qeq_bool y x.
Proof.
  destruct (Qeq_bool x y) eqn:E1, (Qeq_bool y x) eqn:E2; try reflexivity.
  - apply Qeq_bool_iff in E1. apply Qeq_bool_neq in E2. exfalso. apply E2. now symmetry.
  - apply Qeq_bool_iff in E2. apply Qeq_bool_neq in E1. exfalso. apply E1. now symmetry.
Qed.

Lemma Assignment_eqb_sym (a b : Assignment) : Assignment_eqb a b = Assignment_eqb b a.
Proof.
  unfold Assignment_eqb, Employee_eqb, Shift_eqb, Station_eqb.
  rewrite (String.eqb_sym (emp_id (employee a))), (String.eqb_sym (notes a)).
  rewrite (Z.eqb_sym (date (shift a))), (Z.eqb_sym (start_time (shift a))).
  rewrite (Z.eqb_sym (end_time (shift a))), (Z.eqb_sym (break_minutes (shift a))).
  rewrite (Qeq_bool_sym' (hours (shift a))).
  rewrite (bool_decide_ext (shift_type (shift a) = shift_type (shift b))
             (shift_type (shift b) = shift_type (shift a))) by (split; congruence).
  rewrite (bool_decide_ext (station a = station b) (station b = station a))
    by (split; congruence).
  destruct (is_locked a), (is_locked b); reflexivity.
Qed.

Section RemoveFilter.
Context {A : Type} (eqb : A -> A -> bool) (p : A -> bool) (a : A).

Lemma list_remove_filter_in (l l' : list A) :
  (forall y, eqb y a = true -> p y = true) ->
  list_remove eqb a l = Some l' ->
  list_remove eqb a (List.filter p l) = Some (List.filter p l').
Proof.
  intros Hkey. revert l'. induction l as [|y l IH]; intros l' Hrm; simpl in *.
  - discriminate.
  - destruct (eqb y a) eqn:E.
    + inversion Hrm; subst. rewrite (Hkey y E). simpl. rewrite E. reflexivity.
    + destruct (list_remove eqb a l) as [t|] eqn:Et; [|discriminate].
      inversion Hrm; subst. simpl.
      destruct (p y); simpl.
      * rewrite E, (IH t eq_refl). reflexivity.
      * apply IH. reflexivity.
Qed.

Lemma list_remove_filter_out (l l' : list A) :
  (forall y, eqb y a = true -> p y = false) ->
  list_remove eqb a l = Some l' ->
  List.filter p l' = List.filter p l.
Proof.
  intros Hkey. revert l'. induction l as [|y l IH]; intros l' Hrm; simpl in *.
  - discriminate.
  - destruct (eqb y a) eqn:E.
    + inversion Hrm; subst. rewrite (Hkey y E). reflexivity.
    + destruct (list_remove eqb a l) as [t|] eqn:Et; [|discriminate].
      inversion Hrm; subst. simpl. rewrite (IH t eq_refl). reflexivity.
Qed.

Lemma contains_list_remove (l : list A) :
  (forall y, eqb a y = eqb y a) ->
  contains eqb a l = true -> exists l', list_remove eqb a l = Some l'.
Proof.
  intros Hsym. unfold contains. induction l as [|y l IH]; simpl; intros Hin.
  - discriminate.
  - rewrite <- Hsym. destruct (eqb a y); [eauto|].
    destruct (IH Hin) as [t Ht]. rewrite Ht. eauto.
Qed.
End RemoveFilter.

Lemma new_Schedule_indexed (s e : Z) (sid : string) : indexed (new_Schedule s e sid).
Proof. repeat split. Qed.

Lemma add_assignment_indexed (a : Assignment) (s : Schedule) :
  indexed s -> indexed (add_assignment a s).
Proof.
  intros (Hd & He & Hs). unfold indexed, add_assignment,
    get_assignments_by_date, get_assignments_by_employee, get_assignments_by_station in *.
  cbn [assignments _by_date _by_employee _by_station].
  split; [|split].
  - intros d. rewrite lookup_insert, List.filter_app. simpl.
    destruct (decide (date (shift a) = d)) as [<-|Hne].
    + cbn [default from_option]. rewrite Z.eqb_refl, Hd. reflexivity.
    + apply Z.eqb_neq in Hne. rewrite Hne, app_nil_r. apply Hd.
  - intros i. rewrite lookup_insert, List.filter_app. simpl.
    destruct (decide (emp_id (employee a) = i)) as [<-|Hne].
    + cbn [default from_option]. rewrite String.eqb_refl, He. reflexivity.
    + apply String.eqb_neq in Hne. rewrite Hne, app_nil_r. apply He.
  - intros st. rewrite lookup_insert, List.filter_app. simpl.
    destruct (decide (station a = st)) as [<-|Hne].
    + cbn [default from_option]. rewrite Station_eqb_refl, Hs. reflexivity.
    + assert (Hf : Station_eqb (station a) st = false).
      { destruct (Station_eqb (station a) st) eqn:E; [|reflexivity].
        apply Station_eqb_eq in E. contradiction. }
      rewrite Hf, app_nil_r. apply Hs.
Qed.

(** The entries under one key after the first entry equal to [a] has left
    the list. *)
Lemma filter_after_remove {K : Type} (key : Assignment -> K) (keqb : K -> K -> bool)
    (a : Assignment) (l l' : list Assignment) (k : K) :
  (forall x y, keqb x y = true <-> x = y) ->
  (forall y, Assignment_eqb y a = true -> key y = key a) ->
  list_remove Assignment_eqb a l = Some l' ->
  (key a = k ->
   list_remove Assignment_eqb a (List.filter (fun y => keqb (key y) k) l)
   = Some (List.filter (fun y => keqb (key y) k) l'))
  /\ (key a <> k ->
      List.filter (fun y => keqb (key y) k) l' = List.filter (fun y => keqb (key y) k) l).
Proof.
  intros Hk Hkey Hrm. split; intros Hak.
  - apply list_remove_filter_in; [|exact Hrm].
    intros y Hy. apply Hk. rewrite (Hkey y Hy). exact Hak.
  - apply (list_remove_filter_out Assignment_eqb _ a); [|exact Hrm].
    intros y Hy. destruct (keqb (key y) k) eqn:E; [|reflexivity].
    apply Hk in E. rewrite (Hkey y Hy) in E. contradiction.
Qed.

Lemma remove_assignment_indexed (a : Assignment) (s : Schedule) :
  indexed s ->
  exists b, snd (remove_assignment a s) = Returns b
            /\ indexed (fst (remove_assignment a s)).
Proof.
  intros Hidx. unfold remove_assignment.
  destruct (is_locked a); [exists false; split; [reflexivity | exact Hidx]|].
  destruct (contains Assignment_eqb a (assignments s)) eqn:Hin;
    [|exists false; split; [reflexivity | exact Hidx]].
  destruct (contains_list_remove Assignment_eqb a (assignments s)
              (Assignment_eqb_sym a) Hin) as [l' Hrm].
  rewrite Hrm.
  destruct Hidx as (Hd & He & Hs).
  assert (Hkeys : forall y, Assignment_eqb y a = true ->
                    date (shift y) = date (shift a)
                    /\ emp_id (employee y) = emp_id (employee a)
                    /\ station y = station a)
    by (intros y Hy; apply Assignment_eqb_keys; exact Hy).
  pose proof (fun k => filter_after_remove (fun y => date (shift y)) Z.eqb a
                         (assignments s) l' k Z.eqb_eq
                         (fun y Hy => proj1 (Hkeys y Hy)) Hrm) as Fd.
  pose proof (fun k => filter_after_remove (fun y => emp_id (employee y)) String.eqb a
                         (assignments s) l' k String.eqb_eq
                         (fun y Hy => proj1 (proj2 (Hkeys y Hy))) Hrm) as Fe.
  pose proof (fun k => filter_after_remove station Station_eqb a
                         (assignments s) l' k Station_eqb_eq
                         (fun y Hy => proj2 (proj2 (Hkeys y Hy))) Hrm) as Fs.
  unfold get_assignments_by_date, get_assignments_by_employee,
    get_assignments_by_station in *.
  cbn [with_assignments with_by_date with_by_employee with_by_station
       assignments _by_date _by_employee _by_station].
  rewrite Hd, (proj1 (Fd _) eq_refl).
  cbn [with_assignments with_by_date with_by_employee with_by_station
       assignments _by_date _by_employee _by_station].
  rewrite He, (proj1 (Fe _) eq_refl).
  cbn [with_assignments with_by_date with_by_employee with_by_station
       assignments _by_date _by_employee _by_station].
  rewrite Hs, (proj1 (Fs _) eq_refl).
  exists true. split; [reflexivity|].
  unfold indexed, get_assignments_by_date, get_assignments_by_employee,
    get_assignments_by_station, with_by_station, with_by_employee, with_by_date,
    with_assignments.
  cbn [fst assignments _by_date _by_employee _by_station].
  split; [|split].
  - intros d. rewrite lookup_insert.
    destruct (decide (date (shift a) = d)) as [<-|Hne]; [reflexivity|]. cbn [default from_option].
    rewrite Hd. symmetry. apply (proj2 (Fd d) Hne).
  - intros i. rewrite lookup_insert.
    destruct (decide (emp_id (employee a) = i)) as [<-|Hne]; [reflexivity|]. cbn [default from_option].
    rewrite He. symmetry. apply (proj2 (Fe i) Hne).
  - intros st. rewrite lookup_insert.
    destruct (decide (station a = st)) as [<-|Hne]; [reflexivity|]. cbn [default from_option].
    rewrite Hs. symmetry. apply (proj2 (Fs st) Hne).
Qed.

Lemma run_ops_indexed (ops : list ScheduleOp) :
  forall s, indexed s ->
            snd (run_ops ops s) = Returns tt /\ indexed (fst (run_ops ops s)).
Proof.
  induction ops as [|[a|a] ops IH]; intros s Hidx; simpl.
  - split; [reflexivity | exact Hidx].
  - apply IH. apply add_assignment_indexed. exact Hidx.
  - destruct (remove_assignment_indexed a s Hidx) as (b & Hret & Hidx').
    destruct (remove_assignment a s) as [s1 o]. simpl in *. subst o.
    apply IH. exact Hidx'.
Qed.

Lemma occurrences_filter_key {K : Type} (key : Assignment -> K) (keqb : K -> K -> bool)
    (a : Assignment) (l : list Assignment) (k : K) :
  (forall x y, keqb x y = true <-> x = y) ->
  (forall y, Assignment_eqb a y = true -> key a = key y) ->
  occurrences a (List.filter (fun y => keqb (key y) k) l)
  = if keqb (key a) k then occurrences a l else 0%nat.
Proof.
  intros Hk Hkey. unfold occurrences.
  induction l as [|y l IH]; simpl.
  - destruct (keqb (key a) k); reflexivity.
  - destruct (Assignment_eqb a y) eqn:E.
    + rewrite <- (Hkey y E).
      destruct (keqb (key a) k) eqn:Ek; simpl.
      * rewrite E. simpl. rewrite IH. reflexivity.
      * exact IH.
    + destruct (keqb (key y) k); simpl; [rewrite E|]; exact IH.
Qed.

Lemma indexed_consistent (s : Schedule) : indexed s -> consistent s.
Proof.
  intros (Hd & He & Hs) a.
  assert (Hkeys : forall y, Assignment_eqb a y = true ->
                    date (shift a) = date (shift y)
                    /\ emp_id (employee a) = emp_id (employee y)
                    /\ station a = station y)
    by (intros y Hy; apply Assignment_eqb_keys; exact Hy).
  split; [|split].
  - intros d. rewrite Hd.
    apply (occurrences_filter_key (fun y => date (shift y)) Z.eqb a _ d Z.eqb_eq).
    intros y Hy. apply (Hkeys y Hy).
  - intros i. rewrite He.
    apply (occurrences_filter_key (fun y => emp_id (employee y)) String.eqb a _ i
             String.eqb_eq).
    intros y Hy. apply (Hkeys y Hy).
  - intros st. rewrite Hs.
    apply (occurrences_filter_key station Station_eqb a _ st Station_eqb_eq).
    intros y Hy. apply (Hkeys y Hy).
Qed.

(** C5.  From a new schedule, any sequence of [add_assignment] and
    [remove_assignment] calls runs without an exception and leaves the list
    and the three indexes consistent: every assignment occurs under its
    date, its employee id and its station as often as in the list, and
    under no other key.  Removing a locked assignment answers [False] and
    changes nothing, whatever the schedule. *)
Theorem C5_schedule_indexes_consistent :
  (forall (first last : Z) (sid : string) (ops : list ScheduleOp),
      snd (run_ops ops (new_Schedule first last sid)) = Returns tt
      /\ consistent (fst (run_ops ops (new_Schedule first last sid))))
  /\ (forall (s : Schedule) (a : Assignment),
        is_locked a = true -> remove_assignment a s = (s, Returns false)).
Proof.
  split.
  - intros first last sid ops.
    destruct (run_ops_indexed ops _ (new_Schedule_indexed first last sid)) as [Hret Hidx].
    split; [exact Hret | apply indexed_consistent; exact Hidx].
  - intros s a Hlocked. unfold remove_assignment. rewrite Hlocked. reflexivity.
Qed.

Lemma C5_schedule_indexes_witness :
  remove_assignment locked_shift (schedule_of [locked_shift])
  = (schedule_of [locked_shift], Returns false).
Proof.
  apply (proj2 C5_schedule_indexes_consistent (schedule_of [locked_shift]) locked_shift).
  reflexivity.
Defined.

(** ** Applying a swap to a locked assignment (C9) *)

Lemma apply_swap_locked (assignment : Assignment) (new_employee : Employee)
    (c : ConflictResolver.Change) (s : Schedule) :
  is_locked assignment = true ->
  ConflictResolver.change_type c = Some "swap" ->
  ConflictResolver.change_assignment c = Some assignment ->
  ConflictResolver.change_new_employee c = Some new_employee ->
  ConflictResolver.apply_change c s
  = (add_assignment (new_Assignment new_employee (shift assignment) (station assignment)) s,
     Returns tt).
Proof.
  intros Hlocked Hty Ha He. unfold ConflictResolver.apply_change, ConflictResolver.is_type.
  rewrite Hty, Ha, He. cbn [option_eqb String.eqb Ascii.eqb Bool.eqb].
  unfold remove_assignment. rewrite Hlocked. reflexivity.
Qed.

(** C9.  A resolution whose one change is a swap of a locked assignment is
    reported as applied: [_apply_resolution] answers [True], the replacement
    is appended to the schedule with the shift and the station of the
    original, and every assignment that was there, the locked original
    included, is still there. *)
Theorem C9_swap_of_locked_assignment :
  forall (self : ConflictResolver.Agent) (resolution : ConflictResolver.Resolution)
         (c : ConflictResolver.Change) (assignment : Assignment) (new_employee : Employee),
    is_locked assignment = true ->
    ConflictResolver.change_type c = Some "swap" ->
    ConflictResolver.change_assignment c = Some assignment ->
    ConflictResolver.change_new_employee c = Some new_employee ->
    ConflictResolver.changes resolution = [c] ->
    let out := ConflictResolver._apply_resolution resolution self in
    let replacement := new_Assignment new_employee (shift assignment) (station assignment) in
    snd out = true
    /\ assignments (ConflictResolver.schedule (fst out))
       = assignments (ConflictResolver.schedule self) ++ [replacement]
    /\ (forall y, In y (assignments (ConflictResolver.schedule self)) ->
                  In y (assignments (ConflictResolver.schedule (fst out))))
    /\ (In assignment (assignments (ConflictResolver.schedule self)) ->
        In assignment (assignments (ConflictResolver.schedule (fst out)))
        /\ In replacement (assignments (ConflictResolver.schedule (fst out)))
        /\ employee replacement = new_employee
        /\ shift replacement = shift assignment
        /\ station replacement = station assignment)
    /\ length (ConflictResolver.resolution_history (fst out))
       = S (length (ConflictResolver.resolution_history self)).
Proof.
  intros self resolution c assignment new_employee Hlocked Hty Ha He Hcs out replacement.
  subst out. unfold ConflictResolver._apply_resolution.
  rewrite Hcs. cbn [ConflictResolver.apply_changes].
  rewrite (apply_swap_locked assignment new_employee c _ Hlocked Hty Ha He).
  cbn [fst snd ConflictResolver.schedule ConflictResolver.resolution_history
       add_assignment assignments].
  split; [reflexivity|]. split; [reflexivity|]. split.
  - intros y Hy. apply in_or_app. now left.
  - split.
    + intros Hin. split; [apply in_or_app; now left|].
      split; [apply in_or_app; right; now left|]. repeat split; reflexivity.
    + rewrite length_app. simpl. lia.
Qed.

Lemma C9_swap_of_locked_witness :
  snd (ConflictResolver._apply_resolution swap_locked_to_bob (resolver_of [locked_shift]))
  = true
  /\ assignments
       (ConflictResolver.schedule
          (fst (ConflictResolver._apply_resolution swap_locked_to_bob
                  (resolver_of [locked_shift]))))
     = [locked_shift; new_Assignment bob (shift_of "1F" monday) KITCHEN].
Proof.
  destruct (C9_swap_of_locked_assignment (resolver_of [locked_shift]) swap_locked_to_bob
              (swap_change locked_shift bob) locked_shift bob
              eq_refl eq_refl eq_refl eq_refl eq_refl) as (H1 & H2 & _).
  split; [exact H1 | exact H2].
Defined.
(** ** Routing on the message bus (C7) *)

(** *** The iterator over a dict that is left alone *)





Section BusRouting.
Context {H World : Type}.
Variable run : H -> Bus.Message -> Bus.MessageBus H * World
               -> Bus.MessageBus H * World * outcome unit.

(** The handlers are well behaved: a call returns, and it leaves the
    dict of the subscribers as it found it. *)
Hypothesis handlers_return : forall h m st, snd (run h m st) = Returns tt.
Hypothesis handlers_keep_subscribers :
  forall h m st,
    Bus.subscribers_dict (fst (fst (run h m st))) = Bus.subscribers_dict (fst st).


End BusRouting.




(** A handler that unregisters its agent and registers it again leaves the
    items of the dict as they were, in the same order, but not its table:
    the entry of the agent is now a hole and a new entry follows it.  When
    the agent is the last one of a broadcast, the iterator finds the new
    entry after it has given as many items as the dict had, and [send] ends
    in the [RuntimeError] "dictionary keys changed during iteration". *)
Lemma rejoining_handler_raises :
  let bus := bus_of [("DataLoader", Still); ("StaffMatcher", Rejoin "StaffMatcher")] in
  let out := Bus.send restless_run completion_notice (bus, tt) in
  snd (fst out) = Raises RuntimeError
  /\ snd out = [Bus.Called "DataLoader"; Bus.Returned "DataLoader";
                Bus.Called "StaffMatcher"; Bus.Returned "StaffMatcher"]
  /\ Bus.subscribers (fst (fst (fst out))) = Bus.subscribers bus
  /\ Dict.entries (Bus.subscribers_dict (fst (fst (fst out))))
     = [Some ("DataLoader", Still); None; Some ("StaffMatcher", Rejoin "StaffMatcher")].
Proof. vm_compute. repeat split; reflexivity. Qed.

(** ** Weekly hours in the initial auction (C10) *)

Lemma In_insert_sorted {A : Type} (le : A -> A -> bool) (x y : A) (l : list A) :
  In x (insert_sorted le y l) -> x = y \/ In x l.
Proof.
  induction l as [|z l IH]; simpl.
  - intros [<-|[]]. now left.
  - destruct (le y z); simpl.
    + intros [<-|[<-|Hin]]; auto.
    + intros [<-|Hin]; auto. destruct (IH Hin); auto.
Qed.

Lemma In_sorted_by {A : Type} (le : A -> A -> bool) (x : A) (l : list A) :
  In x (sorted_by le l) -> In x l.
Proof.
  induction l as [|y l IH]; simpl; [auto|].
  intros Hin. apply In_insert_sorted in Hin. destruct Hin as [<-|Hin]; auto.
Qed.

Lemma NoDup_map_inj {A B : Type} (f : A -> B) (l : list A) (x y : A) :
  List.NoDup (map f l) -> In x l -> In y l -> f x = f y -> x = y.
Proof.
  induction l as [|z l IH]; simpl; intros Hnd Hx Hy Hf; [destruct Hx|].
  inversion Hnd as [|? ? Hnotin Hnd']; subst.
  destruct Hx as [<-|Hx], Hy as [<-|Hy].
  - reflexivity.
  - exfalso. apply Hnotin. rewrite Hf. now apply in_map.
  - exfalso. apply Hnotin. rewrite <- Hf. now apply in_map.
  - now apply IH.
Qed.

Lemma from_code_date (code : string) (d : Z) (sh : Shift) :
  from_code code d = Some sh -> date sh = d.
Proof.
  unfold from_code. destruct (contains _ _ _); [discriminate|].
  destruct (shift_configs _) as [[[st en] h]|]; [|discriminate].
  destruct (ShiftType_from_code code); [|discriminate].
  intros Heq. inversion Heq. reflexivity.
Qed.

Lemma week_hours_add (a : Assignment) (s : Schedule) (i : string) (w : Z) :
  (week_hours (add_assignment a s) i w
   == week_hours s i w
      + (if String.eqb (emp_id (employee a)) i && (week_of s (date (shift a)) =? w)
         then hours (shift a) else 0))%Q.
Proof.
  unfold week_hours, week_of, add_assignment. cbn [assignments start_date].
  rewrite List.filter_app, map_app, qsum_app. cbn [List.filter].
  destruct (_ && _); cbn [map].
  - rewrite qsum_cons. change (qsum []) with 0%Q. lra.
  - change (qsum []) with 0%Q. lra.
Qed.

Section Auction.
Variable uniform : nat -> Q.
Variable staff : list Employee.
Variable first_day : Z.

Hypothesis unique_ids : List.NoDup (map emp_id staff).
Hypothesis targets_nonneg :
  forall e, In e staff -> (0 <= snd (weekly_hours_target e))%Q.

Lemma ranked_candidates_are_staff (ag : StaffMatcher.Agent) (d : Z) (code : string)
    (st : Station) :
  (forall e, In e (fst (StaffMatcher._get_ranked_candidates uniform ag d code st)) ->
             In e (StaffMatcher.employees ag))
  /\ exists n, snd (StaffMatcher._get_ranked_candidates uniform ag d code st)
               = StaffMatcher.with_draws ag n.
Proof.
  unfold StaffMatcher._get_ranked_candidates.
  assert (Hsc : forall l n p,
             In p (fst (StaffMatcher.score_candidates uniform ag d code st l n)) ->
             In (snd p) l).
  { induction l as [|e l IH]; intros n p; simpl; [auto|].
    destruct (negb (is_available e d code)); [intros Hp; right; eapply IH; eauto|].
    destruct (is_employee_assigned _ _ _); [intros Hp; right; eapply IH; eauto|].
    destruct (negb (can_work_station e st)); [intros Hp; right; eapply IH; eauto|].
    destruct (StaffMatcher.score_candidates uniform ag d code st l (S n))
      as [rest n'] eqn:Hrest.
    simpl. intros [<-|Hp]; [now left|]. right.
    apply (IH (S n) p). rewrite Hrest. exact Hp. }
  destruct (StaffMatcher.score_candidates uniform ag d code st
              (StaffMatcher.employees ag) (StaffMatcher.draws ag)) as [cands n] eqn:Hc.
  simpl. split; [|eauto].
  intros e He. apply in_map_iff in He. destruct He as (p & <- & Hp).
  apply In_sorted_by in Hp.
  apply (Hsc (StaffMatcher.employees ag) (StaffMatcher.draws ag) p).
  rewrite Hc. exact Hp.
Qed.

Lemma with_draws_booked (ag : StaffMatcher.Agent) (n : nat) :
  booked_within_max staff first_day ag -> booked_within_max staff first_day (StaffMatcher.with_draws ag n).
Proof. intros H. exact H. Qed.

(** What [_can_assign] has checked when it says yes. *)
Lemma can_assign_true (ag : StaffMatcher.Agent) (e : Employee) (d : Z) (code : string) :
  StaffMatcher._can_assign ag e d code = true ->
  exists sh,
    from_code code d = Some sh
    /\ (StaffMatcher.hours_so_far ag (emp_id e) (StaffMatcher._get_week_number ag d)
        + hours sh <= snd (weekly_hours_target e))%Q.
Proof.
  unfold StaffMatcher._can_assign.
  destruct (negb (is_available e d code)); [discriminate|].
  destruct (is_employee_assigned _ _ _); [discriminate|].
  destruct (from_code code d) as [sh|]; [|discriminate].
  destruct (Qlt_bool _ _) eqn:E; [discriminate|].
  intros _. exists sh. split; [reflexivity|]. now apply Qlt_bool_false in E.
Qed.

Lemma hours_after_record (ag : StaffMatcher.Agent) (e : Employee) (d : Z)
    (a : Assignment) (i : string) (w : Z) :
  StaffMatcher.hours_so_far (StaffMatcher._record_assignment ag e d a) i w
  = if decide (emp_id e = i) then
      if decide (StaffMatcher._get_week_number ag d = w) then
        (StaffMatcher.hours_so_far ag (emp_id e) (StaffMatcher._get_week_number ag d)
         + hours (shift a))%Q
      else StaffMatcher.hours_so_far ag i w
    else StaffMatcher.hours_so_far ag i w.
Proof.
  unfold StaffMatcher.hours_so_far, StaffMatcher._record_assignment.
  cbn [StaffMatcher._employee_hours].
  rewrite lookup_insert.
  destruct (decide (emp_id e = i)) as [<-|Hne]; [|reflexivity].
  unfold default at 2. cbn [from_option id]. rewrite lookup_insert.
  destruct (decide (StaffMatcher._get_week_number ag d = w)); reflexivity.
Qed.

Lemma assign_booked (ag : StaffMatcher.Agent) (e : Employee) (d : Z) (code : string)
    (st : Station) (sh : Shift) :
  In e staff ->
  booked_within_max staff first_day ag ->
  from_code code d = Some sh ->
  (StaffMatcher.hours_so_far ag (emp_id e) (StaffMatcher._get_week_number ag d)
   + hours sh <= snd (weekly_hours_target e))%Q ->
  booked_within_max staff first_day
    (StaffMatcher._record_assignment
       (StaffMatcher.with_schedule ag
          (add_assignment (new_Assignment e sh st) (StaffMatcher.schedule ag)))
       e d (new_Assignment e sh st)).
Proof.
  intros He (Hemps & Hstart & Hmirror & Hmax) Hsh Hroom.
  set (a := new_Assignment e sh st).
  set (ag1 := StaffMatcher.with_schedule ag (add_assignment a (StaffMatcher.schedule ag))).
  assert (Hweek : StaffMatcher._get_week_number ag1 d = StaffMatcher._get_week_number ag d)
    by reflexivity.
  assert (Hsame : forall i w, StaffMatcher.hours_so_far ag1 i w
                              = StaffMatcher.hours_so_far ag i w) by reflexivity.
  assert (Hdate : date (shift a) = d) by (apply (from_code_date code); exact Hsh).
  split; [exact Hemps|]. split; [exact Hstart|]. split.
  - intros i w. rewrite hours_after_record, Hweek, !Hsame.
    change (StaffMatcher.schedule (StaffMatcher._record_assignment ag1 e d a))
      with (add_assignment a (StaffMatcher.schedule ag)).
    rewrite week_hours_add. rewrite <- (Hmirror i w).
    change (emp_id (employee a)) with (emp_id e).
    change (hours (shift a)) with (hours sh).
    rewrite Hdate.
    change (week_of (StaffMatcher.schedule ag) d)
      with (StaffMatcher._get_week_number ag d).
    destruct (decide (emp_id e = i)) as [<-|Hne].
    + rewrite String.eqb_refl. simpl.
      destruct (decide (StaffMatcher._get_week_number ag d = w)) as [<-|Hnw].
      * rewrite Z.eqb_refl. reflexivity.
      * apply Z.eqb_neq in Hnw. rewrite Hnw. lra.
    + apply String.eqb_neq in Hne. rewrite Hne. simpl. lra.
  - intros e' w He'. rewrite hours_after_record, Hweek, !Hsame.
    destruct (decide (emp_id e = emp_id e')) as [Heq|Hne]; [|now apply Hmax].
    assert (e = e') as <- by (apply (NoDup_map_inj emp_id staff); assumption).
    destruct (decide (StaffMatcher._get_week_number ag d = w)); [exact Hroom|].
    now apply Hmax.
Qed.

Lemma fill_loop_booked (d : Z) (code : string) (st : Station) (required : Z)
    (candidates : list Employee) :
  forall (filled : Z) (ag : StaffMatcher.Agent),
    (forall e, In e candidates -> In e staff) ->
    booked_within_max staff first_day ag ->
    booked_within_max staff first_day (fst (StaffMatcher.fill_loop candidates d code st required filled ag)).
Proof.
  induction candidates as [|e candidates IH]; intros filled ag Hsub Hinv; simpl.
  - exact Hinv.
  - destruct (required <=? filled); [exact Hinv|].
    assert (Hsub' : forall x, In x candidates -> In x staff)
      by (intros x Hx; apply Hsub; now right).
    destruct (StaffMatcher._can_assign ag e d code) eqn:Hcan; [|now apply IH].
    destruct (can_assign_true ag e d code Hcan) as (sh & Hsh & Hroom).
    unfold StaffMatcher._create_assignment. rewrite Hsh.
    apply IH; [exact Hsub'|].
    apply (assign_booked ag e d code st sh); try assumption.
    apply Hsub. now left.
Qed.

Lemma fill_station_shift_booked (ag : StaffMatcher.Agent) (d : Z) (code : string)
    (st : Station) (required : Z) :
  booked_within_max staff first_day ag ->
  booked_within_max staff first_day (fst (StaffMatcher._fill_station_shift uniform ag d code st required)).
Proof.
  intros Hinv. unfold StaffMatcher._fill_station_shift.
  destruct (ranked_candidates_are_staff ag d code st) as [Hsub [n Hn]].
  destruct (StaffMatcher._get_ranked_candidates uniform ag d code st) as [cands ag1].
  simpl in Hsub, Hn. subst ag1.
  apply fill_loop_booked.
  - intros e He. destruct Hinv as (Hemps & _). rewrite <- Hemps. now apply Hsub.
  - now apply with_draws_booked.
Qed.

Lemma fold_left_preserves {A B : Type} (P : A -> Prop) (f : A -> B -> A) (l : list B) :
  (forall a b, P a -> P (f a b)) -> forall a, P a -> P (fold_left f l a).
Proof.
  intros Hstep. induction l as [|b l IH]; intros a Ha; simpl; [exact Ha|].
  apply IH. now apply Hstep.
Qed.

Lemma match_day_booked (ag : StaffMatcher.Agent) (d : Z) :
  booked_within_max staff first_day ag -> booked_within_max staff first_day (StaffMatcher._match_day uniform ag d).
Proof.
  intros Hinv. unfold StaffMatcher._match_day.
  apply fold_left_preserves; [|exact Hinv].
  intros ag1 code Hinv1.
  apply fold_left_preserves; [|exact Hinv1].
  intros ag2 st Hinv2.
  destruct (0 <? _); [|exact Hinv2].
  now apply fill_station_shift_booked.
Qed.

Lemma execute_booked (self : StaffMatcher.Agent) (store : Store)
    (forecast : gmap Z StaffMatcher.DayForecast) (last_day : Z) :
  booked_within_max staff first_day
    (StaffMatcher.execute uniform self staff store forecast first_day last_day).
Proof.
  unfold StaffMatcher.execute.
  apply fold_left_preserves; [intros ag d; apply match_day_booked|].
  split; [reflexivity|]. split; [reflexivity|]. split.
  - intros i w. reflexivity.
  - intros e w He. unfold StaffMatcher.hours_so_far. simpl.
    now apply targets_nonneg.
Qed.
End Auction.

(** The hours test of [_can_assign] lets through an assignment that brings
    the week exactly to the maximum. *)
Lemma can_assign_at_maximum (ag : StaffMatcher.Agent) (e : Employee) (d : Z)
    (code : string) (sh : Shift) :
  is_available e d code = true ->
  is_employee_assigned (StaffMatcher.schedule ag) (emp_id e) d = false ->
  from_code code d = Some sh ->
  StaffMatcher._check_rest_period ag e sh = true ->
  (StaffMatcher.hours_so_far ag (emp_id e) (StaffMatcher._get_week_number ag d) + hours sh
   == snd (weekly_hours_target e))%Q ->
  StaffMatcher._can_assign ag e d code = true.
Proof.
  intros Hav Hfree Hsh Hrest Hfull. unfold StaffMatcher._can_assign.
  rewrite Hav, Hfree, Hsh, Hrest. simpl.
  destruct (Qlt_bool _ _) eqn:E; [|reflexivity].
  apply Qlt_bool_true in E. lra.
Qed.

(** C10.  In the schedule built by [StaffMatcherAgent.execute] for a staff
    with distinct ids and non-negative weekly maxima, the hours of every
    employee in every week are at most that employee's weekly maximum; and
    [_can_assign] accepts an assignment that brings the week exactly to the
    maximum, since it rejects only a total above it. *)
Theorem C10_weekly_hours_within_maximum :
  forall (uniform : nat -> Q) (self : StaffMatcher.Agent) (staff : list Employee)
         (store : Store) (forecast : gmap Z StaffMatcher.DayForecast)
         (first_day last_day : Z),
    List.NoDup (map emp_id staff) ->
    (forall e, In e staff -> (0 <= snd (weekly_hours_target e))%Q) ->
    (forall (e : Employee) (week_num : Z),
        In e staff ->
        (week_hours
           (StaffMatcher.schedule
              (StaffMatcher.execute uniform self staff store forecast first_day last_day))
           (emp_id e) week_num
         <= snd (weekly_hours_target e))%Q)
    /\ (forall (ag : StaffMatcher.Agent) (e : Employee) (d : Z) (code : string) (sh : Shift),
          is_available e d code = true ->
          is_employee_assigned (StaffMatcher.schedule ag) (emp_id e) d = false ->
          from_code code d = Some sh ->
          StaffMatcher._check_rest_period ag e sh = true ->
          (StaffMatcher.hours_so_far ag (emp_id e) (StaffMatcher._get_week_number ag d)
           + hours sh == snd (weekly_hours_target e))%Q ->
          StaffMatcher._can_assign ag e d code = true).
Proof.
  intros uniform self staff store forecast first_day last_day Hids Hnonneg.
  split; [|exact can_assign_at_maximum].
  intros e week_num He.
  destruct (execute_booked uniform staff first_day Hids Hnonneg self store forecast last_day)
    as (_ & _ & Hmirror & Hmax).
  rewrite <- Hmirror. now apply Hmax.
Qed.

Lemma C10_weekly_hours_witness :
  (week_hours first_week "1003" 0 <= 24)%Q /\ (week_hours first_week "1004" 0 <= 38)%Q.
Proof.
  assert (Hids : List.NoDup (map emp_id [carol; dave])).
  { repeat constructor; simpl; intuition discriminate. }
  assert (Hmax : forall e, In e [carol; dave] -> (0 <= snd (weekly_hours_target e))%Q).
  { intros e [<-|[<-|[]]]; simpl; lra. }
  pose proof (proj1 (C10_weekly_hours_within_maximum (fun _ => 0%Q) idle_matcher
                       [carol; dave] suburban kitchen_demand monday (monday + 6)
                       Hids Hmax)) as Hall.
  split.
  - exact (Hall carol 0 (or_introl eq_refl)).
  - exact (Hall dave 0 (or_intror (or_introl eq_refl))).
Defined.

(** In the small auction Carol is booked for two full days, 24 hours, which
    is her weekly maximum: the second one brought her exactly to it; her
    third offer, which would give 36 hours, is passed over.  Dave stops at
    four mornings, 36 hours, the fifth would give 45. *)
Lemma auction_fills_to_the_maximum :
  map (fun a => (emp_name (employee a), date (shift a) - monday,
                 ShiftType_value (shift_type (shift a))))
    (assignments first_week)
  = [("Dave", 0, "1F"); ("Carol", 0, "3F"); ("Dave", 1, "1F");
     ("Dave", 2, "1F"); ("Carol", 2, "3F"); ("Dave", 3, "1F")]
  /\ Qred (week_hours first_week "1003" 0) = 24%Q
  /\ Qred (week_hours first_week "1004" 0) = 36%Q.
Proof. vm_compute. repeat split; reflexivity. Qed.

(** * The models *)

(** ** Availability of an employee *)

Lemma filter_keeps_unslashed (l : list string) :
  contains String.eqb "/" l = false ->
  List.filter (fun s => negb (String.eqb s "/")) l = l.
Proof.
  unfold contains. induction l as [|x l IH]; intros H; [reflexivity|].
  cbn [existsb] in H. apply orb_false_iff in H. destruct H as [Hx Hl].
  cbn [List.filter]. rewrite String.eqb_sym, Hx. cbn [negb]. now rewrite IH.
Qed.

(** X2.  [is_available] and [get_available_shifts] agree: an employee is
    available for a shift code on a date exactly when the code is one of
    the codes [get_available_shifts] lists for that date. *)
Theorem is_available_iff_listed (e : Employee) (d : Z) (code : string) :
  is_available e d code = contains String.eqb code (get_available_shifts e d).
Proof.
  unfold is_available, get_available_shifts.
  destruct (availability e !! d) as [l|]; [|reflexivity].
  destruct (contains String.eqb "/" l) eqn:Hs; [reflexivity|].
  rewrite (filter_keeps_unslashed l Hs). cbn [orb].
  destruct l as [|x l]; reflexivity.
Qed.

(** ** Time slots *)

(** X3.  Two time slots that are not empty overlap exactly when some time
    of the day lies in both; and [overlaps] does not depend on the order of
    the two slots. *)
Theorem overlaps_iff_common_time (a b : TimeSlot) :
  slot_start a < slot_end a ->
  slot_start b < slot_end b ->
  (overlaps a b = true
   <-> exists t, contains_time a t = true /\ contains_time b t = true)
  /\ overlaps a b = overlaps b a.
Proof.
  intros Ha Hb. unfold overlaps, contains_time. split; [split|].
  - intros H. apply andb_true_iff in H. destruct H as [H1 H2].
    apply Z.ltb_lt in H1, H2.
    exists (Z.max (slot_start a) (slot_start b)).
    rewrite !andb_true_iff, !Z.leb_le, !Z.ltb_lt. lia.
  - intros (t & H1 & H2).
    rewrite !andb_true_iff, !Z.leb_le, !Z.ltb_lt in *. lia.
  - apply andb_comm.
Qed.

Lemma overlaps_iff_common_time_witness :
  overlaps lunch_peak (snd (nth 1 SERVICE_PERIODS ("", lunch_peak))) = true
  <-> exists t, contains_time lunch_peak t = true
                /\ contains_time (snd (nth 1 SERVICE_PERIODS ("", lunch_peak))) t = true.
Proof.
  apply (overlaps_iff_common_time lunch_peak
           (snd (nth 1 SERVICE_PERIODS ("", lunch_peak)))); reflexivity.
Defined.

(** A shift that covers a time slot which is not empty also overlaps
    it, so [get_coverage] counts it for that slot. *)
Lemma covering_shift_is_counted (s : Schedule) (a : Assignment) (slot : TimeSlot) :
  slot_start slot < slot_end slot ->
  covers_time_slot (shift a) slot = true ->
  overlaps_time_slot (shift a) slot = true
  /\ (In a (get_assignments_by_date s (date (shift a))) ->
      1 <= get_coverage s (date (shift a)) slot None).
Proof.
  intros Hslot Hc. unfold covers_time_slot in Hc.
  apply andb_true_iff in Hc. destruct Hc as [H1 H2].
  apply Z.leb_le in H1, H2.
  assert (Ho : overlaps_time_slot (shift a) slot = true).
  { unfold overlaps_time_slot. rewrite andb_true_iff, !Z.ltb_lt. lia. }
  split; [exact Ho|].
  intros Hin. unfold get_coverage.
  assert (Hf : In a (List.filter (fun a0 => overlaps_time_slot (shift a0) slot)
                       (get_assignments_by_date s (date (shift a)))))
    by (apply filter_In; split; assumption).
  destruct (List.filter _ _) as [|x l]; [destruct Hf|]. cbn [length]. lia.
Qed.


(** ** Shifts made from a code *)

(** X4.  For every code made of ASCII characters and every date,
    [Shift.from_code] returns a shift exactly when the code, in upper case
    and without surrounding blanks, is one of [1F], [2F], [3F], [S], [SC]
    and [M]; the shift is then on that date, has the type
    [ShiftType.from_code] gives the code, whose value is the code in upper
    case without surrounding blanks; it ends after it starts, its hours are
    the whole span from start to end (the break is not taken off), and its
    break is 30 minutes. *)
Theorem from_code_shift (code : string) (d : Z) :
  ascii_text code = true ->
  (is_Some (from_code code d)
   <-> In (strip (upper code)) ["1F"; "2F"; "3F"; "S"; "SC"; "M"])
  /\ forall s : Shift,
       from_code code d = Some s ->
       date s = d
       /\ ShiftType_from_code code = Some (shift_type s)
       /\ ShiftType_value (shift_type s) = strip (upper code)
       /\ start_time s < end_time s
       /\ (hours s == hours_between (get_end_datetime s) (get_start_datetime s))%Q
       /\ break_minutes s = 30.
Proof.
  intros _. split.
  - unfold from_code, shift_configs, ShiftType_from_code.
    destruct (contains String.eqb code ["/"; "NA"; ""]) eqn:Ec.
    + split; [intros [s Hs]; discriminate|].
      intros Hin. exfalso.
      unfold contains in Ec. cbn [existsb] in Ec.
      repeat (apply orb_true_iff in Ec; destruct Ec as [Ec|Ec]);
        try discriminate; apply String.eqb_eq in Ec; subst code;
        cbn in Hin; intuition discriminate.
    + set (c := strip (upper code)).
      destruct (String.eqb c "1F") eqn:E1;
        [|destruct (String.eqb c "2F") eqn:E2;
          [|destruct (String.eqb c "3F") eqn:E3;
            [|destruct (String.eqb c "S") eqn:E4;
              [|destruct (String.eqb c "SC") eqn:E5;
                [|destruct (String.eqb c "M") eqn:E6]]]]];
        try (match goal with
             | E : String.eqb c _ = true |- _ => apply String.eqb_eq in E; rewrite E
             end;
             split; [intros _; cbn [In]; tauto | intros _; eexists; reflexivity]).
      split; [intros [s Hs]; discriminate|].
      apply String.eqb_neq in E1, E2, E3, E4, E5, E6.
      cbn [In]. intuition congruence.
  - intros s. unfold from_code, shift_configs, ShiftType_from_code.
    destruct (contains String.eqb code ["/"; "NA"; ""]); [discriminate|].
    set (c := strip (upper code)).
    destruct (String.eqb c "1F") eqn:E1;
      [|destruct (String.eqb c "2F") eqn:E2;
        [|destruct (String.eqb c "3F") eqn:E3;
          [|destruct (String.eqb c "S") eqn:E4;
            [|destruct (String.eqb c "SC") eqn:E5;
              [|destruct (String.eqb c "M") eqn:E6; [|discriminate]]]]]];
      intros H; injection H as <-;
      match goal with
      | E : String.eqb c _ = true |- _ => apply String.eqb_eq in E; rewrite E
      end;
      (split; [reflexivity|]); (split; [reflexivity|]); (split; [reflexivity|]);
      (split; [reflexivity|]); (split; [|reflexivity]);
      unfold hours_between, get_end_datetime, get_start_datetime, combine;
      cbn [date start_time end_time hours]; unfold Qeq, time; simpl; lia.
Qed.

Lemma from_code_shift_witness :
  (is_Some (from_code " 2f " monday)
   <-> In (strip (upper " 2f ")) ["1F"; "2F"; "3F"; "S"; "SC"; "M"])
  /\ forall s : Shift,
       from_code " 2f " monday = Some s ->
       date s = monday
       /\ ShiftType_from_code " 2f " = Some (shift_type s)
       /\ ShiftType_value (shift_type s) = strip (upper " 2f ")
       /\ start_time s < end_time s
       /\ (hours s == hours_between (get_end_datetime s) (get_start_datetime s))%Q
       /\ break_minutes s = 30.
Proof.
  exact (from_code_shift " 2f " monday eq_refl).
Defined.

(** ** Coverage of a time slot *)

Lemma length_filter_by_station (l : list Assignment) :
  Z.of_nat (length l)
  = fold_right Z.add 0
      (map (fun st => Z.of_nat (length (List.filter (fun a => Station_eqb (station a) st) l)))
         all_stations).
Proof.
  induction l as [|a l IH]; [reflexivity|].
  cbn [length]. rewrite Nat2Z.inj_succ, IH. unfold all_stations.
  cbn [map fold_right List.filter].
  destruct (station a); unfold Station_eqb;
    repeat match goal with
           | |- context [@bool_decide (?x = ?y) ?d] =>
               let b := eval vm_compute in (@bool_decide (x = y) d) in
               change (@bool_decide (x = y) d) with b
           end;
    cbn [length]; lia.
Qed.

Lemma filter_comm {A : Type} (f g : A -> bool) (l : list A) :
  List.filter f (List.filter g l) = List.filter g (List.filter f l).
Proof.
  induction l as [|x l IH]; [reflexivity|]. cbn [List.filter].
  destruct (f x) eqn:Hf, (g x) eqn:Hg; cbn [List.filter];
    rewrite ?Hf, ?Hg, IH; reflexivity.
Qed.

(** X5.  The coverage of a time slot on a date is the sum, over the four
    stations, of the coverage [get_coverage_by_station] reports for each:
    every assignment is counted under exactly one station. *)
Theorem coverage_is_sum_over_stations (s : Schedule) (d : Z) (slot : TimeSlot) :
  get_coverage s d slot None
  = fold_right Z.add 0 (map snd (get_coverage_by_station s d slot)).
Proof.
  unfold get_coverage_by_station, get_coverage. rewrite map_map. cbn [snd].
  rewrite (length_filter_by_station
             (List.filter (fun a => overlaps_time_slot (shift a) slot)
                (get_assignments_by_date s d))).
  f_equal. apply map_ext. intros st. now rewrite filter_comm.
Qed.

(** ** Consecutive working days *)

Lemma contains_Z_In (x : Z) (l : list Z) : contains Z.eqb x l = true <-> In x l.
Proof.
  unfold contains. rewrite existsb_exists. split.
  - intros (y & Hy & E). apply Z.eqb_eq in E. now subst.
  - intros H. exists x. split; [exact H | apply Z.eqb_refl].
Qed.

Lemma assigned_iff_work_date (s : Schedule) (i : string) (d : Z) :
  is_employee_assigned s i d
  = contains Z.eqb d (map (fun a => date (shift a)) (get_assignments_by_employee s i)).
Proof.
  unfold is_employee_assigned, contains.
  induction (get_assignments_by_employee s i) as [|a l IH]; [reflexivity|].
  cbn [existsb map]. rewrite IH, (Z.eqb_sym d). reflexivity.
Qed.

(** The dates of [l] that are not after [d]. *)
Lemma count_back_returns (l : list Z) :
  forall (fuel : nat) (d c : Z),
    (length (List.filter (fun x => (x <=? d)%Z) l) < fuel)%nat ->
    exists n, count_back fuel l d c = Some (c + n) /\ 0 <= n
      /\ (forall k, 0 <= k < n -> contains Z.eqb (d - k) l = true)
      /\ contains Z.eqb (d - n) l = false.
Proof.
  induction fuel as [|fuel IH]; intros d c Hlt; [lia|].
  cbn [count_back]. destruct (contains Z.eqb d l) eqn:Hd.
  - assert (Hless : (length (List.filter (fun x => (x <=? d - 1)%Z) l)
                     < length (List.filter (fun x => (x <=? d)%Z) l))%nat).
    { apply contains_Z_In in Hd. clear -Hd.
      induction l as [|y l IHl]; [destruct Hd|].
      cbn [List.filter].
      assert (Hmono : (length (List.filter (fun x => (x <=? d - 1)%Z) l)
                       <= length (List.filter (fun x => (x <=? d)%Z) l))%nat).
      { clear. induction l as [|z l IHz]; [reflexivity|]. cbn [List.filter].
        destruct (z <=? d - 1) eqn:E1, (z <=? d) eqn:E2; cbn [length]; lia. }
      destruct Hd as [->|Hd].
      + rewrite (proj2 (Z.leb_gt d (d - 1))) by lia.
        rewrite Z.leb_refl. cbn [length]. lia.
      + specialize (IHl Hd).
        destruct (y <=? d - 1) eqn:E1, (y <=? d) eqn:E2; cbn [length]; lia. }
    destruct (IH (d - 1) (c + 1)) as (n & Hn & Hn0 & Hrun & Hstop); [lia|].
    exists (n + 1). split; [rewrite Hn; f_equal; lia|]. split; [lia|]. split.
    + intros k Hk. destruct (Z.eq_dec k 0) as [->|Hk0].
      * now rewrite Z.sub_0_r.
      * replace (d - k) with (d - 1 - (k - 1)) by lia. apply Hrun. lia.
    + replace (d - (n + 1)) with (d - 1 - n) by lia. exact Hstop.
  - exists 0. split; [f_equal; lia|]. split; [lia|]. split; [intros k Hk; lia|].
    now rewrite Z.sub_0_r.
Qed.

(** X6.  [get_consecutive_days] ends once the loop may test its condition
    more often than the employee has assignments, and then returns the
    number [n] of days in a row, back from the given date, on which the
    employee is assigned: all of the [n] days up to the date are worked and
    the day before them is not. *)
Theorem get_consecutive_days_counts (s : Schedule) (i : string) (d : Z) (fuel : nat) :
  (length (get_assignments_by_employee s i) < fuel)%nat ->
  exists n,
    get_consecutive_days fuel s i d = Some n
    /\ 0 <= n
    /\ (forall k, 0 <= k < n -> is_employee_assigned s i (d - k) = true)
    /\ is_employee_assigned s i (d - n) = false.
Proof.
  intros Hfuel. unfold get_consecutive_days.
  set (l := map (fun a => date (shift a)) (get_assignments_by_employee s i)).
  destruct (count_back_returns l fuel d 0) as (n & Hn & Hn0 & Hrun & Hstop).
  { eapply Nat.le_lt_trans; [apply filter_length_le|].
    subst l. now rewrite length_map. }
  exists n. split; [exact Hn|]. split; [exact Hn0|].
  split; [intros k Hk|]; rewrite assigned_iff_work_date; auto.
Qed.

Lemma get_consecutive_days_witness :
  exists n,
    get_consecutive_days 3 (schedule_of short_rest) "1001" (monday + 1) = Some n
    /\ 0 <= n
    /\ (forall k, 0 <= k < n ->
          is_employee_assigned (schedule_of short_rest) "1001" (monday + 1 - k) = true)
    /\ is_employee_assigned (schedule_of short_rest) "1001" (monday + 1 - n) = false.
Proof.
  apply (get_consecutive_days_counts (schedule_of short_rest) "1001" (monday + 1) 3).
  vm_compute. lia.
Defined.

(** ** The end of the last shift *)

Lemma max_by_spec {A : Type} (key : A -> Z) (l : list A) :
  forall best : A,
    (max_by key best l = best \/ In (max_by key best l) l)
    /\ key best <= key (max_by key best l)
    /\ (forall x, In x l -> key x <= key (max_by key best l)).
Proof.
  induction l as [|x l IH]; intros best; cbn [max_by].
  - split; [now left|]. split; [lia|]. intros x [].
  - destruct (IH (if key best <? key x then x else best)) as (H1 & H2 & H3).
    destruct (key best <? key x) eqn:E;
      [apply Z.ltb_lt in E | apply Z.ltb_ge in E].
    + split; [right; destruct H1 as [->|H1]; [now left | now right]|].
      split; [lia|]. intros y [<-|Hy]; [exact H2 | now apply H3].
    + split; [destruct H1 as [H1|H1]; [now left | right; now right]|].
      split; [exact H2|]. intros y [<-|Hy]; [lia | now apply H3].
Qed.

(** X7.  [get_last_shift_end] answers [None] exactly when the employee has
    no assignment before the date; otherwise it answers the end of one of
    the employee's assignments before the date, and no assignment of the
    employee before the date ends later. *)
Theorem get_last_shift_end_is_latest (s : Schedule) (i : string) (before : Z) :
  match get_last_shift_end s i before with
  | None =>
      forall a, In a (get_assignments_by_employee s i) -> before <= date (shift a)
  | Some t =>
      (exists a, In a (get_assignments_by_employee s i)
                 /\ date (shift a) < before
                 /\ get_end_datetime (shift a) = t)
      /\ (forall a, In a (get_assignments_by_employee s i) ->
                    date (shift a) < before ->
                    get_end_datetime (shift a) <= t)
  end.
Proof.
  unfold get_last_shift_end.
  set (prior := List.filter (fun a => date (shift a) <? before)
                  (get_assignments_by_employee s i)).
  assert (Hprior : forall a, In a prior
                     <-> In a (get_assignments_by_employee s i) /\ date (shift a) < before).
  { intros a. subst prior. rewrite filter_In, Z.ltb_lt. reflexivity. }
  destruct prior as [|a0 t].
  - intros a Ha. destruct (Z.lt_ge_cases (date (shift a)) before) as [Hlt|Hge]; [|exact Hge].
    destruct (proj2 (Hprior a) (conj Ha Hlt)).
  - destruct (max_by_spec (fun a => get_end_datetime (shift a)) t a0) as (H1 & H2 & H3).
    split.
    + exists (max_by (fun a => get_end_datetime (shift a)) a0 t).
      assert (Hin : In (max_by (fun a => get_end_datetime (shift a)) a0 t) (a0 :: t)).
      { destruct H1 as [->|H1]; [now left | now right]. }
      apply Hprior in Hin. destruct Hin as [Hin Hlt]. repeat split; assumption.
    + intros a Ha Hlt. destruct (proj2 (Hprior a) (conj Ha Hlt)) as [<-|Hin].
      * exact H2.
      * now apply H3.
Qed.

(** ** Hours of an employee in a week *)

Lemma filter_filter_andb {A : Type} (f g : A -> bool) (l : list A) :
  List.filter f (List.filter g l) = List.filter (fun x => g x && f x) l.
Proof.
  induction l as [|x l IH]; [reflexivity|]. cbn [List.filter].
  destruct (g x); cbn [List.filter andb]; [destruct (f x)|]; now rewrite IH.
Qed.

Lemma filter_ext_eq {A : Type} (f g : A -> bool) (l : list A) :
  (forall x, f x = g x) -> List.filter f l = List.filter g l.
Proof.
  intros H. induction l as [|x l IH]; [reflexivity|].
  cbn [List.filter]. now rewrite H, IH.
Qed.

(** X8.  In a schedule whose employee index agrees with its list, the hours
    [get_employee_hours] reports for the seven days that start [7 * w] days
    after the schedule's first day are the hours of the employee's
    assignments whose week number ([(date - start_date).days // 7], as the
    agents compute it) is [w]. *)
Theorem employee_hours_of_week (s : Schedule) (i : string) (w : Z) :
  indexed s ->
  (get_employee_hours_in_week s i (start_date s + 7 * w) == week_hours s i w)%Q.
Proof.
  intros (_ & Hemp & _). unfold get_employee_hours_in_week, week_hours.
  rewrite Hemp, filter_filter_andb.
  erewrite filter_ext_eq; [reflexivity|].
  intros a. cbn beta. f_equal. unfold week_of.
  destruct (Z.eqb_spec ((date (shift a) - start_date s) / 7) w) as [E|E].
  - assert (H := Z.mul_div_le (date (shift a) - start_date s) 7 ltac:(lia)).
    assert (H' := Z.mul_succ_div_gt (date (shift a) - start_date s) 7 ltac:(lia)).
    rewrite andb_true_iff, !Z.leb_le. lia.
  - apply andb_false_iff.
    destruct (Z.leb_spec (start_date s + 7 * w) (date (shift a))) as [H1|H1];
      [|now left]. right.
    apply Z.leb_gt. 
    destruct (Z.lt_ge_cases (start_date s + 7 * w + 6) (date (shift a))) as [H2|H2];
      [exact H2|]. exfalso. apply E.
    symmetry. apply (Z.div_unique_pos _ 7 w (date (shift a) - start_date s - 7 * w)); lia.
Qed.

Lemma schedule_of_indexed (l : list Assignment) : indexed (schedule_of l).
Proof.
  unfold schedule_of.
  assert (H : forall s, indexed s ->
                        indexed (fold_left (fun s a => add_assignment a s) l s)).
  { induction l as [|a l IH]; intros s Hs; [exact Hs|].
    cbn [fold_left]. apply IH. now apply add_assignment_indexed. }
  apply H. apply new_Schedule_indexed.
Qed.

Lemma employee_hours_of_week_witness :
  (get_employee_hours_in_week (schedule_of week_36) "1001"
     (start_date (schedule_of week_36) + 7 * 0)
   == week_hours (schedule_of week_36) "1001" 0)%Q.
Proof.
  apply (employee_hours_of_week (schedule_of week_36) "1001" 0).
  apply schedule_of_indexed.
Defined.

(** ** Staffing figures of a store *)

Lemma total_staff_insert (m : gmap Station StaffingRequirement) (i : Station)
    (x : StaffingRequirement) (p : bool) :
  m !! i = None ->
  map_fold (fun _ req total => total + get_required req p) 0 (<[i := x]> m)
  = map_fold (fun _ req total => total + get_required req p) 0 m + get_required x p.
Proof.
  intros Hi.
  apply (map_fold_insert_L (fun _ req total => total + get_required req p) 0 i x m);
    [|exact Hi].
  intros. lia.
Qed.

(** X9.  The total staff a store requires is the sum, over the four
    stations, of what [get_staff_required_by_station] answers for each; a
    station without an entry counts for nothing. *)
Theorem total_staff_is_sum_over_stations (s : StoreConfig) (p : bool) :
  get_total_staff_required s p
  = fold_right Z.add 0
      (map (fun st => get_staff_required_by_station s st p) all_stations).
Proof.
  unfold get_total_staff_required, get_staff_required_by_station, all_stations.
  cbn [map fold_right].
  induction (staffing_requirements s) as [|i x m Hi IH] using map_ind.
  - rewrite map_fold_empty, !lookup_empty. reflexivity.
  - rewrite (total_staff_insert m i x p Hi), IH.
    destruct i;
      repeat first [ rewrite lookup_insert_eq
                   | rewrite lookup_insert_ne by discriminate ];
      rewrite Hi; lia.
Qed.

(** ** Manager coverage of a day *)

Lemma existsb_in {A : Type} (f : A -> bool) (l : list A) :
  existsb f l = true -> exists x, In x l /\ f x = true.
Proof. apply existsb_exists. Qed.

Lemma two_in_filter {A : Type} (f : A -> bool) (l : list A) (x y : A) :
  In x l -> In y l -> x <> y -> f x = true -> f y = true ->
  (2 <= length (List.filter f l))%nat.
Proof.
  intros Hx Hy Hne Fx Fy.
  induction l as [|z l IH]; [destruct Hx|].
  assert (Hone : forall u, In u l -> f u = true ->
                           (1 <= length (List.filter f l))%nat).
  { intros u Hu Fu.
    assert (Hin : In u (List.filter f l)) by (apply filter_In; now split).
    destruct (List.filter f l); [destruct Hin | cbn [length]; lia]. }
  cbn [List.filter].
  destruct Hx as [->|Hx], Hy as [->|Hy].
  - now destruct Hne.
  - rewrite Fx. cbn [length]. specialize (Hone y Hy Fy). lia.
  - rewrite Fy. cbn [length]. specialize (Hone x Hx Fx). lia.
  - specialize (IH Hx Hy). destruct (f z); cbn [length]; lia.
Qed.

(** X10.  No single manager shift covers both the opening and the closing:
    whenever [get_coverage_gaps] finds no gap, at least two managers are
    working that day.  And a day on which one manager works 1F and another
    works 2F has no gap. *)
Theorem manager_coverage_without_gaps :
  (forall c : ManagerCoverage,
      get_coverage_gaps c = [] -> (2 <= manager_count c)%nat)
  /\ (forall (c : ManagerCoverage) (m1 m2 : ManagerShift),
        In m1 (managers_on_duty c) -> In m2 (managers_on_duty c) ->
        shift_code m1 = "1F" -> shift_code m2 = "2F" ->
        get_coverage_gaps c = []).
Proof.
  split.
  - intros c Hgaps. unfold get_coverage_gaps in Hgaps.
    destruct (has_opening_coverage c) eqn:Ho; [|discriminate].
    destruct (has_closing_coverage c) eqn:Hc; [|discriminate].
    apply existsb_in in Ho, Hc.
    destruct Ho as (x & Hx & Fx). destruct Hc as (y & Hy & Fy).
    unfold covers_opening, contains in Fx. cbn [existsb] in Fx.
    unfold covers_closing in Fy. apply String.eqb_eq in Fy.
    apply (two_in_filter mgr_is_working (managers_on_duty c) x y Hx Hy).
    + intros ->. rewrite Fy in Fx. discriminate.
    + unfold mgr_is_working, contains. cbn [existsb].
      rewrite !orb_false_r in Fx. apply orb_true_iff in Fx.
      destruct Fx as [Fx|Fx]; apply String.eqb_eq in Fx; rewrite Fx; reflexivity.
    + unfold mgr_is_working. rewrite Fy. reflexivity.
  - intros c m1 m2 H1 H2 E1 E2. unfold get_coverage_gaps.
    assert (Ho : has_opening_coverage c = true).
    { apply existsb_exists. exists m1. split; [exact H1|].
      unfold covers_opening. now rewrite E1. }
    assert (Hc : has_closing_coverage c = true).
    { apply existsb_exists. exists m2. split; [exact H2|].
      unfold covers_closing. now rewrite E2. }
    assert (Hl : has_lunch_peak_coverage c = true).
    { apply existsb_exists. exists m1. split; [exact H1|].
      unfold covers_lunch_peak. now rewrite E1. }
    assert (Hd : has_dinner_peak_coverage c = true).
    { apply existsb_exists. exists m2. split; [exact H2|].
      unfold covers_dinner_peak. now rewrite E2. }
    rewrite Ho, Hc, Hl, Hd. reflexivity.
Qed.

(** ** Station names *)

(** [Station.from_string] reads back the value of every station, in
    any case of the letters, accepts the two short names, and answers
    [COUNTER] for a text that names no station. *)
Lemma Station_from_string_reads_values :
  (forall s : Station,
      Station_from_string (Station_value s) = s
      /\ Station_from_string (upper (Station_value s)) = s
      /\ Station_from_string (lower (Station_value s)) = s)
  /\ Station_from_string "McCafe" = MCCAFE
  /\ Station_from_string " dessert " = DESSERT
  /\ Station_from_string "Drive-Thru" = COUNTER
  /\ Station_from_string "" = COUNTER.
Proof.
  split; [intros []; repeat split; reflexivity | repeat split; reflexivity].
Qed.

(** * Compliance results *)

(** ** What every result keeps *)

Lemma list_remove_incl {A : Type} (eqb : A -> A -> bool) (x : A) (l l' : list A) :
  list_remove eqb x l = Some l' -> forall y, In y l' -> In y l.
Proof.
  revert l'. induction l as [|z l IH]; intros l' H; [discriminate|].
  cbn [list_remove] in H. destruct (eqb z x).
  - injection H as <-. intros y Hy. now right.
  - destruct (list_remove eqb x l) as [t|]; [|discriminate].
    injection H as <-. intros y [<-|Hy]; [now left | right; now apply (IH t)].
Qed.

Lemma Violation_eqb_type (a b : Violation) :
  Violation_eqb a b = true -> constraint_type a = constraint_type b.
Proof.
  unfold Violation_eqb. rewrite !andb_true_iff.
  intros ((((((H & _) & _) & _) & _) & _) & _).
  now apply bool_decide_eq_true in H.
Qed.

Lemma penalty_nonneg (v : Violation) (p : Q) :
  0 <= severity v -> _calculate_soft_penalty v = Returns p -> (0 <= p)%Q.
Proof.
  intros Hsev. unfold _calculate_soft_penalty.
  destruct (_is_informational_warning v) as [[|]|]; intros Hp; inversion Hp; subst.
  - lra.
  - assert (Hs : (0 <= Zq (severity v))%Q).
    { unfold Zq. change 0%Q with (inject_Z 0). rewrite <- Zle_Qle. exact Hsev. }
    assert (Hw : (0 <= weights (constraint_type v))%Q)
      by (destruct (constraint_type v); unfold weights; lra).
    unfold py_min. qcases; [lra|].
    apply Qmult_le_0_compat; [|exact Hw]. apply Qmult_le_0_compat; [exact Hs | lra].
Qed.

Lemma report_well_formed (v : Violation) (st : store * ComplianceResult) :
  well_formed st -> 0 <= severity v -> well_formed (fst (Validator.report v st)).
Proof.
  destruct st as [h r]. unfold well_formed. cbn [fst snd].
  intros (Hc & Hv & Hw & Hp & Hs & Hh) Hsev.
  unfold Validator.report, alloc, add_violation. unfold store, ref in *.
  assert (Hx : (h ++ [v]) !! length h = Some v).
  { rewrite lookup_app_r by lia. rewrite Nat.sub_diag. reflexivity. }
  rewrite Hx.
  assert (Hold : forall (P : Violation -> Prop) (l : list nat),
             Forall (fun x => exists u, h !! x = Some u /\ P u) l ->
             Forall (fun x => exists u, (h ++ [v]) !! x = Some u /\ P u) l).
  { intros P l HF. eapply Forall_impl; [exact HF|]. intros x (u & Hu & Pu). exists u.
    split; [|exact Pu]. apply lookup_app_l_Some. exact Hu. }
  assert (Hh' : Forall (fun u => 0 <= severity u) (h ++ [v])).
  { apply Forall_app. split; [exact Hh|]. constructor; [exact Hsev | constructor]. }
  assert (Hsq : (0 <= Zq (severity v * 2))%Q).
  { unfold Zq. change 0%Q with (inject_Z 0). rewrite <- Zle_Qle. lia. }
  destruct (is_hard_constraint v) eqn:Hhard; cbn [fst snd is_compliant violations
    warnings pending_approvals score].
  - split; [rewrite length_app; cbn [length]; symmetry; apply Nat.eqb_neq; lia|].
    split.
    { apply Forall_app. split; [apply (Hold (fun u => is_hard_constraint u = true)), Hv|].
      constructor; [|constructor]. exists v. split; [exact Hx | exact Hhard]. }
    split; [apply (Hold (fun u => is_hard_constraint u = false)), Hw|].
    split; [apply (Hold (fun u => is_hard_constraint u = true
                                  /\ details u !! "requires_manager_approval"
                                     = Some (VBool true))), Hp|].
    split; [|exact Hh'].
    unfold py_max. qcases; lra.
  - assert (Hw' : Forall (fun x => exists u, (h ++ [v]) !! x = Some u
                                             /\ is_hard_constraint u = false)
                    (warnings r ++ [length h])).
    { apply Forall_app. split; [apply (Hold (fun u => is_hard_constraint u = false)), Hw|].
      constructor; [|constructor]. exists v. split; [exact Hx | exact Hhard]. }
    destruct (_calculate_soft_penalty v) as [p|e] eqn:Ep;
      cbn [fst snd set_score is_compliant violations warnings pending_approvals score].
    + pose proof (penalty_nonneg v p Hsev Ep) as Hp0.
      split; [exact Hc|].
      split; [apply (Hold (fun u => is_hard_constraint u = true)), Hv|].
      split; [exact Hw'|].
      split; [apply (Hold (fun u => is_hard_constraint u = true
                                    /\ details u !! "requires_manager_approval"
                                       = Some (VBool true))), Hp|].
      split; [|exact Hh'].
      unfold py_max. qcases; lra.
    + split; [exact Hc|].
      split; [apply (Hold (fun u => is_hard_constraint u = true)), Hv|].
      split; [exact Hw'|].
      split; [apply (Hold (fun u => is_hard_constraint u = true
                                    /\ details u !! "requires_manager_approval"
                                       = Some (VBool true))), Hp|].
      split; [exact Hs | exact Hh'].
Qed.

Lemma contains_same_or_equal_hard (h : store) (x : ref) (l : list ref) (v : Violation) :
  contains (same_or_equal h) x l = true ->
  h !! x = Some v ->
  Forall (fun y => exists u, h !! y = Some u /\ is_hard_constraint u = true) l ->
  is_hard_constraint v = true.
Proof.
  intros Hc Hx Hl. unfold contains in Hc. apply existsb_exists in Hc.
  destruct Hc as (y & Hy & Hsame).
  rewrite List.Forall_forall in Hl. destruct (Hl y Hy) as (u & Hu & Hhard).
  unfold same_or_equal in Hsame. apply orb_true_iff in Hsame.
  destruct Hsame as [E|E].
  - apply Nat.eqb_eq in E. subst y. unfold store, ref in *. congruence.
  - unfold store, ref in *. rewrite Hx, Hu in E.
    apply Violation_eqb_type in E. unfold is_hard_constraint in *. now rewrite E.
Qed.

Lemma escalate_well_formed (x : ref) (reason : string) (st : store * ComplianceResult) :
  well_formed st ->
  well_formed (escalate_to_manager (fst st) x reason (snd st)).
Proof.
  destruct st as [h r]. cbn [fst snd]. intros Hwf.
  unfold escalate_to_manager.
  destruct (contains (same_or_equal h) x (violations r)) eqn:Hin; [|exact Hwf].
  destruct (list_remove (same_or_equal h) x (violations r)) as [vs|] eqn:Hrem;
    [|exact Hwf].
  destruct (h !! x) as [v|] eqn:Hx; [|exact Hwf].
  destruct Hwf as (Hc & Hv & Hw & Hp & Hs & Hh). cbn [fst snd] in *.
  pose proof (contains_same_or_equal_hard h x (violations r) v Hin Hx Hv) as Hhard.
  assert (Hxlt : (x < length h)%nat) by (eapply lookup_lt_Some; exact Hx).
  assert (Hsev : 0 <= severity v).
  { rewrite List.Forall_forall in Hh. apply Hh. apply list_elem_of_In.
    eapply list_elem_of_lookup_2. exact Hx. }
  assert (Hkeep : forall (P : Violation -> Prop) (l : list nat),
             (forall u, P u -> P (mark_escalated u reason)) ->
             Forall (fun y => exists u, h !! y = Some u /\ P u) l ->
             Forall (fun y => exists u,
                       (<[x := mark_escalated v reason]> h) !! y = Some u /\ P u) l).
  { intros P l HP HF. eapply Forall_impl; [exact HF|]. intros y (u & Hu & Pu).
    destruct (Nat.eq_dec y x) as [->|Hne].
    - exists (mark_escalated v reason). split.
      + unfold store, ref in *. apply list_lookup_insert_eq. exact Hxlt.
      + unfold store, ref in *. rewrite Hx in Hu. injection Hu as <-. now apply HP.
    - exists u. split; [|exact Pu].
      unfold store, ref in *. rewrite list_lookup_insert_ne by congruence. exact Hu. }
  unfold well_formed. cbn [fst snd is_compliant violations warnings pending_approvals score].
  split; [reflexivity|].
  split.
  { apply (Hkeep (fun u => is_hard_constraint u = true)); [intros u Hu; exact Hu|].
    rewrite List.Forall_forall in *. intros y Hy. apply Hv.
    eapply list_remove_incl; eassumption. }
  split; [apply (Hkeep (fun u => is_hard_constraint u = false)), Hw; intros u Hu; exact Hu|].
  split.
  { apply Forall_app. split.
    - apply (Hkeep (fun u => is_hard_constraint u = true
                             /\ details u !! "requires_manager_approval"
                                = Some (VBool true))); [|exact Hp].
      intros u [Hu _]. split; [exact Hu|].
      unfold mark_escalated. cbn [details]. apply lookup_insert_eq.
    - constructor; [|constructor]. exists (mark_escalated v reason).
      split; [unfold store, ref in *; apply list_lookup_insert_eq; exact Hxlt|].
      split; [exact Hhard|].
      unfold mark_escalated. cbn [details]. apply lookup_insert_eq. }
  split.
  { assert (Hs2 : (0 <= Zq (severity v * 2))%Q).
    { unfold Zq. change 0%Q with (inject_Z 0). rewrite <- Zle_Qle. lia. }
    assert (Hs1 : (0 <= Zq (severity v))%Q).
    { unfold Zq. change 0%Q with (inject_Z 0). rewrite <- Zle_Qle. lia. }
    unfold py_max, py_min. qcases; try lra; nra. }
  apply Forall_insert; [exact Hh | exact Hsev].
Qed.

Lemma run_result_ops_well_formed (ops : list ResultOp) :
  forall st, well_formed st -> severities_from_zero ops ->
             well_formed (run_result_ops ops st).
Proof.
  induction ops as [|[v|x reason] ops IH]; intros st Hwf Hsev; cbn [run_result_ops].
  - exact Hwf.
  - inversion Hsev; subst. apply IH; [|assumption]. now apply report_well_formed.
  - inversion Hsev; subst. apply IH; [|assumption]. now apply escalate_well_formed.
Qed.

Lemma new_result_well_formed : well_formed ([], new_ComplianceResult true).
Proof.
  unfold well_formed. cbn. repeat split; try constructor; try lra; discriminate.
Qed.

(** X11.  Whatever violations of non-negative severity are added to a new
    result, and whatever objects are escalated in between, in any order:
    [is_compliant] is true exactly when the hard list is empty; the hard
    list holds hard violations only and the warnings soft ones only; every
    pending approval is a hard violation that carries the flag
    [requires_manager_approval]; and the score stays between 0 and 100. *)
Theorem result_invariants (ops : list ResultOp) :
  severities_from_zero ops ->
  let st := run_result_ops ops ([], new_ComplianceResult true) in
  (is_compliant (snd st) = true <-> violations (snd st) = [])
  /\ (forall x, In x (violations (snd st)) ->
        exists v, fst st !! x = Some v /\ is_hard_constraint v = true)
  /\ (forall x, In x (warnings (snd st)) ->
        exists v, fst st !! x = Some v /\ is_hard_constraint v = false)
  /\ (forall x, In x (pending_approvals (snd st)) ->
        exists v, fst st !! x = Some v /\ is_hard_constraint v = true
                  /\ details v !! "requires_manager_approval" = Some (VBool true))
  /\ (0 <= score (snd st) <= 100)%Q.
Proof.
  intros Hsev st.
  destruct (run_result_ops_well_formed ops _ new_result_well_formed Hsev)
    as (Hc & Hv & Hw & Hp & Hs & _).
  fold st in Hc, Hv, Hw, Hp, Hs. rewrite List.Forall_forall in Hv, Hw, Hp.
  split; [rewrite Hc; apply length_eqb_0_nil|].
  repeat split; try assumption; apply Hs.
Qed.

Lemma result_invariants_witness :
  let st := run_result_ops
              [Report understaffed; Report mild_imbalance; Escalate 0%nat "no casual staff"]
              ([], new_ComplianceResult true) in
  (is_compliant (snd st) = true <-> violations (snd st) = [])
  /\ (forall x, In x (violations (snd st)) ->
        exists v, fst st !! x = Some v /\ is_hard_constraint v = true)
  /\ (forall x, In x (warnings (snd st)) ->
        exists v, fst st !! x = Some v /\ is_hard_constraint v = false)
  /\ (forall x, In x (pending_approvals (snd st)) ->
        exists v, fst st !! x = Some v /\ is_hard_constraint v = true
                  /\ details v !! "requires_manager_approval" = Some (VBool true))
  /\ (0 <= score (snd st) <= 100)%Q.
Proof.
  apply (result_invariants
           [Report understaffed; Report mild_imbalance; Escalate 0%nat "no casual staff"]).
  repeat constructor; simpl; lia.
Defined.

(** * The checks of the validator *)

Module CV := ComplianceValidatorAgent.

(** ** Reporting warnings *)

Lemma report_soft (v : Violation) (p : Q) (h : store) (r : ComplianceResult) :
  is_hard_constraint v = false ->
  _calculate_soft_penalty v = Returns p ->
  Validator.report v (h, r)
  = (h ++ [v],
     {| is_compliant := is_compliant r; violations := violations r;
        warnings := warnings r ++ [length h];
        pending_approvals := pending_approvals r;
        score := py_max 0 (score r - p);
        fairness_metrics := fairness_metrics r |},
     Returns tt).
Proof.
  intros Hsoft Hp. unfold Validator.report, alloc, add_violation.
  cbv beta iota zeta. unfold store, ref in *.
  assert (Hx : (h ++ [v]) !! length h = Some v).
  { rewrite lookup_app_r by lia. rewrite Nat.sub_diag. reflexivity. }
  rewrite Hx, Hsoft, Hp. reflexivity.
Qed.

Lemma py_max_0_compat (a b : Q) : (a == b)%Q -> (py_max 0 a == py_max 0 b)%Q.
Proof. intros E. unfold py_max. qcases; lra. Qed.

(** Warnings of one and the same penalty [p], reported in a row. *)
Lemma report_all_soft (p : Q) (vs : list Violation) :
  (0 <= p)%Q ->
  forall (h : store) (r : ComplianceResult),
    (forall v, In v vs -> is_hard_constraint v = false
                          /\ _calculate_soft_penalty v = Returns p) ->
    (0 <= score r)%Q ->
    snd (Validator.report_all vs (h, r)) = Returns tt
    /\ fst (fst (Validator.report_all vs (h, r))) = h ++ vs
    /\ violations (snd (fst (Validator.report_all vs (h, r)))) = violations r
    /\ warnings (snd (fst (Validator.report_all vs (h, r))))
       = warnings r ++ seq (length h) (length vs)
    /\ is_compliant (snd (fst (Validator.report_all vs (h, r)))) = is_compliant r
    /\ pending_approvals (snd (fst (Validator.report_all vs (h, r))))
       = pending_approvals r
    /\ (score (snd (fst (Validator.report_all vs (h, r))))
        == py_max 0 (score r - p * Zq (Z.of_nat (length vs))))%Q.
Proof.
  intros Hp0. induction vs as [|v vs IH]; intros h r Hsoft Hs.
  - cbn [Validator.report_all fst snd length seq]. rewrite !app_nil_r.
    repeat split; try reflexivity.
    change (Zq (Z.of_nat 0)) with 0%Q. unfold py_max. qcases; lra.
  - destruct (Hsoft v (or_introl eq_refl)) as [Hv Hpv].
    cbn [Validator.report_all]. rewrite (report_soft v p h r Hv Hpv).
    match goal with |- context [Validator.report_all vs (?h1, ?r1)] =>
      destruct (IH h1 r1 (fun x Hx => Hsoft x (or_intror Hx)))
        as (H1 & H2 & H3 & H4 & H5 & H6 & H7);
        [cbn [score]; apply py_max_spec|] end.
    rewrite H1, H2, H3, H4, H5, H6. cbn [violations warnings is_compliant
      pending_approvals score] in *.
    rewrite <- !app_assoc, length_app. cbn [length app].
    replace (length h + 1)%nat with (S (length h)) by lia.
    repeat split; try reflexivity.
    rewrite H7. clear H7.
    assert (Hn : (0 <= Zq (Z.of_nat (length vs)))%Q).
    { unfold Zq. change 0%Q with (inject_Z 0). rewrite <- Zle_Qle. lia. }
    assert (Hsucc : (Zq (Z.of_nat (S (length vs))) == Zq (Z.of_nat (length vs)) + 1)%Q).
    { unfold Zq. rewrite Nat2Z.inj_succ, <- Z.add_1_r, inject_Z_plus. reflexivity. }
    assert (Hpn : (0 <= p * Zq (Z.of_nat (length vs)))%Q)
      by (apply Qmult_le_0_compat; assumption).
    unfold py_max at 2.
    destruct (Qlt_bool 0 (score r - p)) eqn:E;
      [apply Qlt_bool_true in E | apply Qlt_bool_false in E].
    + apply py_max_0_compat. rewrite Hsucc. lra.
    + unfold py_max. qcases; rewrite ?Hsucc in *; lra.
Qed.

(** ** Minimum staffing *)

Lemma flat_map_nil {A B : Type} (f : A -> list B) (l : list A) :
  flat_map f l = [] <-> forall x, In x l -> f x = [].
Proof.
  induction l as [|x l IH]; cbn [flat_map].
  - split; [intros _ y [] | reflexivity].
  - split.
    + intros H. apply app_eq_nil in H. destruct H as [Hx Hl].
      intros y [<-|Hy]; [exact Hx | now apply IH].
    + intros H. rewrite (H x (or_introl eq_refl)).
      cbn [app]. apply IH. intros y Hy. apply H. now right.
Qed.

Lemma In_dates_in_range (s : Schedule) (d : Z) :
  In d (get_dates_in_range s) <-> start_date s <= d <= end_date s.
Proof.
  unfold get_dates_in_range. rewrite <- list_elem_of_In, elem_of_seqZ. lia.
Qed.

Lemma station_count_positive (l : list Assignment) (st : Station) :
  (Z.of_nat (length (List.filter (fun a => Station_eqb (station a) st) l)) <? 1) = false
  <-> exists a, In a l /\ station a = st.
Proof.
  rewrite Z.ltb_ge. split.
  - intros H. destruct (List.filter _ l) as [|a t] eqn:E; [cbn in H; lia|].
    assert (Hin : In a (List.filter (fun a => Station_eqb (station a) st) l))
      by (rewrite E; now left).
    apply filter_In in Hin. destruct Hin as [Hin Hst].
    exists a. split; [exact Hin | now apply Station_eqb_eq].
  - intros (a & Hin & Hst).
    assert (Hf : In a (List.filter (fun a => Station_eqb (station a) st) l)).
    { apply filter_In. split; [exact Hin | now apply Station_eqb_eq]. }
    destruct (List.filter _ l); [destruct Hf | cbn [length]; lia].
Qed.

Lemma kitchen_and_counter_active (s : Store) :
  In KITCHEN (get_active_stations s) /\ In COUNTER (get_active_stations s).
Proof. unfold get_active_stations. cbn. auto. Qed.

Lemma staffing_of_day_nil (self : CV.Agent) (d : Z) :
  CV.staffing_of_day self d = []
  <-> forall st, In st (get_active_stations (CV.store self)) ->
                 exists a, In a (get_assignments_by_date (CV.schedule self) d)
                           /\ station a = st.
Proof.
  unfold CV.staffing_of_day. split.
  - intros H. apply app_eq_nil in H. destruct H as [_ H].
    intros st Hst. apply station_count_positive.
    pose proof (proj1 (flat_map_nil _ _) H st Hst) as Hn. cbn beta zeta in Hn.
    destruct (_ <? 1); [discriminate | reflexivity].
  - intros H.
    destruct (kitchen_and_counter_active (CV.store self)) as [Hk Hc].
    destruct (H KITCHEN Hk) as (a & Ha & Sa). destruct (H COUNTER Hc) as (b & Hb & Sb).
    assert (Htwo : (2 <= length (get_assignments_by_date (CV.schedule self) d))%nat).
    { rewrite <- (filter_all (fun _ => true) (get_assignments_by_date (CV.schedule self) d))
        by reflexivity.
      apply (two_in_filter (fun _ => true) _ a b Ha Hb); try reflexivity.
      intros ->. congruence. }
    unfold CV.min_staff.
    rewrite (proj2 (Z.ltb_ge _ 2)) by lia. cbn [app].
    apply flat_map_nil. intros st Hst. cbn beta zeta.
    rewrite (proj2 (station_count_positive _ st) (H st Hst)). reflexivity.
Qed.

Lemma minimum_staffing_hard (self : CV.Agent) :
  forall v, In v (CV.minimum_staffing_violations self) -> is_hard_constraint v = true.
Proof.
  intros v Hv. unfold CV.minimum_staffing_violations in Hv.
  apply in_flat_map in Hv. destruct Hv as (d & _ & Hv).
  unfold CV.staffing_of_day in Hv. apply in_app_or in Hv. destruct Hv as [Hv|Hv].
  - destruct (_ <? CV.min_staff); [|destruct Hv]. destruct Hv as [<-|[]]. reflexivity.
  - apply in_flat_map in Hv. destruct Hv as (st & _ & Hv). cbn beta zeta in Hv.
    destruct (_ <? 1); [|destruct Hv]. destruct Hv as [<-|[]]. reflexivity.
Qed.

(** X12.  The minimum-staffing check finds nothing, and leaves a new result
    compliant, exactly when on every date of the schedule period every
    active station of the store has somebody assigned: the overall minimum
    of two is then met as well, since the kitchen and the counter are
    always active. *)
Theorem minimum_staffing_passes_iff (self : CV.Agent) :
  let out := CV._check_minimum_staffing self ([], new_ComplianceResult true) in
  snd out = Returns tt
  /\ fst (fst out) = CV.minimum_staffing_violations self
  /\ ((is_compliant (snd (fst out)) = true
       <-> CV.minimum_staffing_violations self = [])
      /\ (CV.minimum_staffing_violations self = []
          <-> forall d st,
                start_date (CV.schedule self) <= d <= end_date (CV.schedule self) ->
                In st (get_active_stations (CV.store self)) ->
                exists a, In a (get_assignments_by_date (CV.schedule self) d)
                          /\ station a = st)).
Proof.
  cbv zeta. unfold CV._check_minimum_staffing.
  destruct (report_all_hard (CV.minimum_staffing_violations self) []
              (new_ComplianceResult true) (minimum_staffing_hard self))
    as (H1 & H2 & _ & _ & H5).
  split; [exact H1|]. split; [exact H2|]. split.
  - unfold store in *. rewrite H5. cbn [is_compliant new_ComplianceResult].
    destruct (CV.minimum_staffing_violations self); cbn; split; congruence.
  - unfold CV.minimum_staffing_violations. rewrite flat_map_nil. split.
    + intros H d st Hd Hst.
      apply (proj1 (staffing_of_day_nil self d)); [|exact Hst].
      apply H. now apply In_dates_in_range.
    + intros H d Hd. apply staffing_of_day_nil. intros st Hst.
      apply H; [now apply In_dates_in_range | exact Hst].
Qed.

(** ** Peak coverage, opening and closing *)

Lemma no_designated_staff_free (period time_text shifts_text : string) (d : Z) :
  is_hard_constraint (CV.no_designated_staff period time_text shifts_text d) = false
  /\ _calculate_soft_penalty (CV.no_designated_staff period time_text shifts_text d)
     = Returns 0%Q.
Proof. split; reflexivity. Qed.

Lemma peak_understaffed_penalty (label period hours_text : string) (d coverage required : Z) :
  is_hard_constraint (CV.peak_understaffed label period hours_text d coverage required) = false
  /\ _calculate_soft_penalty (CV.peak_understaffed label period hours_text d coverage required)
     = Returns (py_min (Zq 5 * (5 # 100) * (8 # 10)) (5 # 10)).
Proof.
  split; [reflexivity|].
  unfold _calculate_soft_penalty, _is_informational_warning, CV.peak_understaffed.
  cbn [details constraint_type severity].
  repeat first [ rewrite lookup_insert_eq
               | rewrite lookup_insert_ne by discriminate
               | rewrite lookup_empty ].
  cbn [option_eqb default from_option id as_number PyVal_eqb].
  rewrite bool_decide_eq_false_2 by discriminate.
  rewrite bool_decide_eq_true_2 by reflexivity.
  cbn [option_eqb default from_option id as_number PyVal_eqb].
  rewrite andb_false_r. reflexivity.
Qed.

Lemma peak_warnings_penalty (self : CV.Agent) :
  forall v, In v (CV.peak_warnings self) ->
    is_hard_constraint v = false
    /\ _calculate_soft_penalty v = Returns (py_min (Zq 5 * (5 # 100) * (8 # 10)) (5 # 10)).
Proof.
  intros v Hv. unfold CV.peak_warnings in Hv.
  apply in_flat_map in Hv. destruct Hv as (d & _ & Hv).
  unfold CV.peaks_of_day in Hv. apply in_app_or in Hv.
  destruct Hv as [Hv|Hv]; cbv zeta in Hv;
    (destruct (_ <? _); [|destruct Hv]); destruct Hv as [<-|[]];
    apply peak_understaffed_penalty.
Qed.

Lemma opening_closing_free (self : CV.Agent) :
  forall v, In v (CV.opening_closing_warnings self) ->
    is_hard_constraint v = false /\ _calculate_soft_penalty v = Returns 0%Q.
Proof.
  intros v Hv. unfold CV.opening_closing_warnings in Hv.
  apply in_flat_map in Hv. destruct Hv as (d & _ & Hv).
  unfold CV.opening_closing_of_day in Hv. cbv zeta in Hv. apply in_app_or in Hv.
  destruct Hv as [Hv|Hv];
    (destruct (_ =? _)%nat; [|destruct Hv]); destruct Hv as [<-|[]];
    apply no_designated_staff_free.
Qed.

(** X13.  The coverage check never makes a result non-compliant: it only
    appends warnings.  On a result whose score is not negative, every peak
    period (lunch or dinner) found understaffed takes 0.2 points off the
    score, down to 0, and the warnings about a day without designated
    opening or closing staff take nothing off, although their severity is
    6: they carry no coverage figures, so they count as informational. *)
Theorem coverage_warnings_cost (self : CV.Agent) (h : store) (r : ComplianceResult) :
  (0 <= score r)%Q ->
  let out := CV._check_peak_coverage self (h, r) in
  snd out = Returns tt
  /\ fst (fst out) = h ++ CV.peak_warnings self ++ CV.opening_closing_warnings self
  /\ is_compliant (snd (fst out)) = is_compliant r
  /\ violations (snd (fst out)) = violations r
  /\ warnings (snd (fst out))
     = warnings r
       ++ seq (length h)
            (length (CV.peak_warnings self ++ CV.opening_closing_warnings self))
  /\ (score (snd (fst out))
      == py_max 0 (score r - (2 # 10) * Zq (Z.of_nat (length (CV.peak_warnings self)))))%Q.
Proof.
  intros Hs. cbv zeta. unfold CV._check_peak_coverage, CV.and_then,
    CV._check_opening_closing_coverage.
  set (p := py_min (Zq 5 * (5 # 100) * (8 # 10)) (5 # 10)).
  assert (Hp : (p == 2 # 10)%Q) by (subst p; change (Zq 5) with 5%Q; unfold py_min; qcases; lra).
  destruct (report_all_soft p (CV.peak_warnings self) ltac:(lra) h r
              (peak_warnings_penalty self) Hs)
    as (H1 & H2 & H3 & H4 & H5 & _ & H7).
  destruct (Validator.report_all (CV.peak_warnings self) (h, r)) as [[h1 r1] o1].
  cbn [fst snd] in *. subst o1 h1.
  assert (Hs1 : (0 <= score r1)%Q) by (rewrite H7; apply py_max_spec).
  destruct (report_all_soft 0 (CV.opening_closing_warnings self) ltac:(lra)
              (h ++ CV.peak_warnings self) r1 (opening_closing_free self) Hs1)
    as (G1 & G2 & G3 & G4 & G5 & _ & G7).
  cbv beta iota. unfold store in *.
  split; [exact G1|]. split; [rewrite G2; now rewrite app_assoc|].
  split; [congruence|]. split; [congruence|]. split.
  - rewrite G4, H4, <- app_assoc. f_equal.
    rewrite !length_app, seq_app. reflexivity.
  - eapply Qeq_trans; [exact G7|].
    eapply Qeq_trans; [apply py_max_0_nonneg; lra|].
    eapply Qeq_trans; [|apply py_max_0_compat; rewrite <- Hp; reflexivity].
    rewrite <- H7. lra.
Qed.

Lemma coverage_warnings_cost_witness :
  snd (CV._check_peak_coverage
         {| CV.schedule := first_week; CV.store := suburban;
            CV.employees := employees_by_id [carol; dave]; CV.demand_forecast := ∅ |}
         ([], new_ComplianceResult true))
  = Returns tt.
Proof.
  apply (coverage_warnings_cost
           {| CV.schedule := first_week; CV.store := suburban;
              CV.employees := employees_by_id [carol; dave]; CV.demand_forecast := ∅ |}
           [] (new_ComplianceResult true)).
  vm_compute. discriminate.
Defined.

(** * The escalation pass of the coordinator *)

Module CA := CoordinatorAgent.

Lemma available_staff_named (name : string) (d : Z) (l : list Employee) :
  forall p c, CA.available_staff (VStr name) d l p c = CA.Done (p, c).
Proof. induction l as [|e l IH]; intros p c; cbn; [reflexivity | apply IH]. Qed.

(** A staffing violation that names its station: the validator's
    violation for a station without staff is one. *)
Lemma named_station_raises (v : Violation) (name : string) (d : Z) (l : list Employee) :
  constraint_type v = MIN_STAFF ->
  details v !! "station" = Some (VStr name) ->
  name <> "" ->
  affected_date v = Some d ->
  CA._generate_escalation_reason v l = CA.Failed CA.AttributeError.
Proof.
  intros Hty Hst Hne Hd. unfold CA._generate_escalation_reason. rewrite Hty.
  unfold CA._analyze_staffing_gap. rewrite Hst, Hd. cbn [default from_option id CA.truthy].
  destruct (String.eqb_spec name "") as [E|_]; [contradiction|]. cbn [negb].
  rewrite available_staff_named. reflexivity.
Qed.

Lemma station_unstaffed_raises (d : Z) (st : Station) (n : Z) (l : list Employee) :
  CA._generate_escalation_reason (CV.station_unstaffed d st n) l
  = CA.Failed CA.AttributeError.
Proof.
  apply (named_station_raises _ (Station_value st) d); try reflexivity.
  destruct st; discriminate.
Qed.

(** Escalating the first entry of the hard list removes that entry. *)
Lemma escalate_head (h : store) (r : ComplianceResult) (x : ref) (rest : list ref)
    (v : Violation) (reason : string) :
  violations r = x :: rest ->
  h !! x = Some v ->
  escalate_to_manager h x reason r
  = (<[x := mark_escalated v reason]> h,
     {| is_compliant := (length rest =? 0)%nat; violations := rest;
        warnings := warnings r;
        pending_approvals := pending_approvals r ++ [x];
        score := py_max 0 (py_min 100 (score r + Zq (severity v * 2))
                           - Zq (severity v) * (5 # 10));
        fairness_metrics := fairness_metrics r |}).
Proof.
  intros Hv Hx. unfold escalate_to_manager. rewrite Hv.
  unfold contains. cbn [existsb list_remove]. rewrite same_or_equal_refl.
  cbn [orb]. unfold store, ref in *. rewrite Hx. reflexivity.
Qed.

Lemma escalate_each_all (employees : list Employee) (xs : list ref) :
  forall (h : store) (r : ComplianceResult),
    violations r = xs ->
    Forall (fun x => (x < length h)%nat) xs ->
    snd (CA.escalate_each employees xs (h, r)) = CA.Done tt ->
    let r' := snd (fst (CA.escalate_each employees xs (h, r))) in
    violations r' = []
    /\ pending_approvals r' = pending_approvals r ++ xs
    /\ warnings r' = warnings r
    /\ is_compliant r' = (if (length xs =? 0)%nat then is_compliant r else true)
    /\ length (fst (fst (CA.escalate_each employees xs (h, r)))) = length h.
Proof.
  induction xs as [|x xs IH]; intros h r Hv Hvalid Hdone; cbv zeta.
  - cbn [CA.escalate_each fst snd length Nat.eqb]. rewrite app_nil_r.
    repeat split; try reflexivity. exact Hv.
  - inversion Hvalid as [|? ? Hx Hrest]; subst.
    cbn [CA.escalate_each fst snd] in *.
    destruct (lookup_lt_is_Some_2 h x Hx) as [v Hlook].
    unfold store, ref in *. rewrite Hlook in *.
    destruct (CA._generate_escalation_reason v employees) as [reason|e];
      [|discriminate].
    rewrite (escalate_head h r x xs v reason Hv Hlook) in *.
    match type of Hdone with
    | snd (CA.escalate_each _ _ (?h1, ?r1)) = _ =>
        destruct (IH h1 r1 eq_refl) as (H1 & H2 & H3 & H4 & H5);
          [eapply Forall_impl; [exact Hrest|]; intros z Hz; cbv beta;
           unfold store, ref; rewrite length_insert; exact Hz | exact Hdone |]
    end.
    cbn [violations warnings pending_approvals is_compliant] in *.
    unfold store, ref in *.
    rewrite H1, H2, H3, H4, H5, length_insert, <- app_assoc.
    cbn [length Nat.eqb app]. repeat split; try reflexivity.
    destruct xs; reflexivity.
Qed.

(** X14.  When the escalation pass of the coordinator returns, no hard
    violation is left: every one of them, in the order of the list, has
    moved to the pending approvals, the warnings are as before, and the
    result is compliant whenever there was anything to escalate.  (The
    references of the hard list are assumed to be objects of the store.) *)
Theorem escalation_pass_clears_violations (h : store) (r : ComplianceResult)
    (employees : list Employee) :
  Forall (fun x => (x < length h)%nat) (violations r) ->
  snd (CA._handle_manager_escalations (h, r) employees) = CA.Done tt ->
  let r' := snd (fst (CA._handle_manager_escalations (h, r) employees)) in
  violations r' = []
  /\ pending_approvals r' = pending_approvals r ++ violations r
  /\ warnings r' = warnings r
  /\ (violations r <> [] -> is_compliant r' = true).
Proof.
  intros Hvalid Hdone. unfold CA._handle_manager_escalations in *. cbn [snd fst] in *.
  destruct (escalate_each_all employees (violations r) h r eq_refl Hvalid Hdone)
    as (H1 & H2 & H3 & H4 & _).
  cbv zeta. split; [exact H1|]. split; [exact H2|]. split; [exact H3|].
  intros Hne. rewrite H4. destruct (violations r); [contradiction | reflexivity].
Qed.

Lemma escalation_pass_clears_violations_witness :
  let out := CA._handle_manager_escalations (twin_store, twin_result) [alice; bob] in
  violations (snd (fst out)) = []
  /\ pending_approvals (snd (fst out)) = [0%nat; 1%nat]
  /\ warnings (snd (fst out)) = []
  /\ (violations twin_result <> [] -> is_compliant (snd (fst out)) = true).
Proof.
  apply (escalation_pass_clears_violations twin_store twin_result [alice; bob]).
  - repeat constructor.
  - reflexivity.
Defined.

Lemma escalate_each_stops (employees : list Employee) (x : ref) (v : Violation)
    (xs : list ref) :
  CA._generate_escalation_reason v employees = CA.Failed CA.AttributeError ->
  forall (h : store) (r : ComplianceResult),
    violations r = xs ->
    Forall (fun y => (y < length h)%nat) xs ->
    In x xs ->
    h !! x = Some v ->
    exists e,
      snd (CA.escalate_each employees xs (h, r)) = CA.Failed e
      /\ In x (violations (snd (fst (CA.escalate_each employees xs (h, r)))))
      /\ fst (fst (CA.escalate_each employees xs (h, r))) !! x = Some v.
Proof.
  intros Hfail. induction xs as [|y xs IH]; intros h r Hv Hvalid Hin Hx; [destruct Hin|].
  inversion Hvalid as [|? ? Hy Hrest]; subst.
  cbn [CA.escalate_each fst snd].
  destruct (lookup_lt_is_Some_2 h y Hy) as [vy Hlook].
  unfold store, ref in *. rewrite Hlook.
  destruct (CA._generate_escalation_reason vy employees) as [reason|e] eqn:Hreason.
  - assert (Hne : y <> x).
    { intros ->. rewrite Hx in Hlook. injection Hlook as <-. congruence. }
    destruct Hin as [E|Hin]; [contradiction|].
    rewrite (escalate_head h r y xs vy reason Hv Hlook).
    match goal with
    | |- context [CA.escalate_each _ _ (?h1, ?r1)] =>
        destruct (IH h1 r1 eq_refl) as (e & H1 & H2 & H3);
          [eapply Forall_impl; [exact Hrest|]; intros z Hz; cbv beta;
           unfold store, ref; rewrite length_insert; exact Hz | exact Hin
          | unfold store, ref; rewrite list_lookup_insert_ne by exact Hne; exact Hx |]
    end.
    exists e. repeat split; assumption.
  - exists e. cbn [fst snd]. split; [reflexivity|]. split; [rewrite Hv; exact Hin | exact Hx].
Qed.

(** X15.  [_analyze_staffing_gap] reads the [station] detail of a staffing
    violation as a [Station], but the validator stores the station's name:
    for the violation of a station without staff, whatever the employees,
    the reason cannot be built and Python raises [AttributeError].  So when
    the hard list holds such a violation, the escalation pass does not
    return: it raises, and that violation is still in the hard list,
    unchanged. *)
Theorem unstaffed_station_stops_escalation :
  (forall (d : Z) (st : Station) (n : Z) (employees : list Employee),
      CA._generate_escalation_reason (CV.station_unstaffed d st n) employees
      = CA.Failed CA.AttributeError)
  /\ (forall (h : store) (r : ComplianceResult) (employees : list Employee)
             (x : ref) (d : Z) (st : Station) (n : Z),
        Forall (fun y => (y < length h)%nat) (violations r) ->
        In x (violations r) ->
        h !! x = Some (CV.station_unstaffed d st n) ->
        let out := CA._handle_manager_escalations (h, r) employees in
        (exists e, snd out = CA.Failed e)
        /\ In x (violations (snd (fst out)))
        /\ fst (fst out) !! x = Some (CV.station_unstaffed d st n)).
Proof.
  split; [intros; apply station_unstaffed_raises|].
  intros h r employees x d st n Hvalid Hin Hx. cbv zeta.
  unfold CA._handle_manager_escalations. cbn [fst snd].
  destruct (escalate_each_stops employees x (CV.station_unstaffed d st n) (violations r)
              (station_unstaffed_raises d st n employees) h r eq_refl Hvalid Hin Hx)
    as (e & H1 & H2 & H3).
  split; [exists e; exact H1|]. split; assumption.
Qed.

(** ** The consecutive-days check *)

Section Tables.
Context {A V : Type} (key : A -> string) (step : A -> V -> V) (dflt : V).

Lemma assoc_get_update_with (k k' : string) (f : V -> V) (tbl : list (string * V)) :
  assoc_get k' (assoc_update String.eqb k f dflt tbl)
  = if String.eqb k k' then Some (f (default dflt (assoc_get k tbl)))
    else assoc_get k' tbl.
Proof.
  unfold assoc_get. induction tbl as [|[k0 g0] tbl IH]; simpl.
  - rewrite (String.eqb_sym k k'). destruct (String.eqb k' k); reflexivity.
  - destruct (String.eqb k0 k) eqn:E0; simpl.
    + apply String.eqb_eq in E0. subst k0.
      destruct (String.eqb k k') eqn:E; simpl; reflexivity.
    + destruct (String.eqb k0 k') eqn:E1; simpl.
      * apply String.eqb_eq in E1. subst k0. rewrite (String.eqb_sym k k'), E0.
        reflexivity.
      * exact IH.
Qed.

Lemma keys_update_with (k : string) (f : V -> V) (tbl : list (string * V)) :
  map fst (assoc_update String.eqb k f dflt tbl)
  = match assoc_get k tbl with
    | Some _ => map fst tbl
    | None => map fst tbl ++ [k]
    end.
Proof.
  unfold assoc_get. induction tbl as [|[k0 g0] tbl IH]; simpl; [reflexivity|].
  destruct (String.eqb k0 k) eqn:E0; simpl; [reflexivity|].
  rewrite IH. destruct (List.find _ tbl); reflexivity.
Qed.

(** The table a loop [tbl[key(a)] = step(a, tbl.get(key(a), dflt))] builds:
    distinct keys, and under each key the steps of the members of that key,
    in order. *)
Lemma table_with (l : list A) :
  let tbl :=
    fold_left (fun tbl a => assoc_update String.eqb (key a) (step a) dflt tbl) l []
  in
  List.NoDup (map fst tbl)
  /\ forall k, assoc_get k tbl
               = match members key k l with
                 | [] => None
                 | g => Some (fold_left (fun v a => step a v) g dflt)
                 end.
Proof.
  cbv zeta. induction l as [|a l IH] using rev_ind.
  - split; [constructor|reflexivity].
  - rewrite fold_left_app. cbn [fold_left]. destruct IH as [Hnd Hget]. split.
    + rewrite keys_update_with.
      destruct (assoc_get (key a) _) eqn:E; [exact Hnd|].
      apply NoDup_snoc; [exact Hnd|]. now apply assoc_get_None_keys.
    + intros k. rewrite assoc_get_update_with. unfold members in *.
      rewrite List.filter_app. cbn [List.filter].
      destruct (String.eqb (key a) k) eqn:E.
      * apply String.eqb_eq in E. subst k. rewrite Hget.
        destruct (List.filter _ l) as [|x g] eqn:F; [reflexivity|].
        cbn [default]. rewrite <- app_comm_cons. f_equal.
        change (x :: g ++ [a]) with ((x :: g) ++ [a]).
        rewrite fold_left_app. reflexivity.
      * rewrite app_nil_r. apply Hget.
Qed.

(** The violations about one key, of a pass over a table with distinct
    keys whose every entry yields violations about its own key. *)
Lemma about_table (f : string * V -> list Violation) (i : string)
    (tbl : list (string * V)) :
  List.NoDup (map fst tbl) ->
  (forall kv v, In v (f kv) -> affected_entity v = fst kv) ->
  about i (flat_map f tbl)
  = match assoc_get i tbl with
    | Some g => f (i, g)
    | None => []
    end.
Proof.
  intros Hnd Hf. unfold about, assoc_get.
  induction tbl as [|[k g] tbl IH]; [reflexivity|].
  cbn [flat_map List.find fst map] in *. rewrite List.filter_app.
  inversion Hnd as [|? ? Hk Hnd']; subst.
  destruct (String.eqb k i) eqn:E.
  - apply String.eqb_eq in E. subst k. cbn [snd].
    rewrite filter_all.
    2:{ intros v Hv. rewrite (Hf _ _ Hv). apply String.eqb_refl. }
    rewrite filter_none; [apply app_nil_r|].
    intros v Hv. apply in_flat_map in Hv. destruct Hv as [[k' g'] [Hin Hv]].
    rewrite (Hf _ _ Hv). cbn [fst]. apply String.eqb_neq. intros ->.
    apply Hk. apply in_map_iff. exists (i, g'). split; [reflexivity|exact Hin].
  - rewrite filter_none.
    2:{ intros v Hv. rewrite (Hf _ _ Hv). exact E. }
    rewrite IH by exact Hnd'. reflexivity.
Qed.
End Tables.

(** *** The set of days of an employee *)

Lemma contains_Z_iff (d : Z) (l : list Z) : contains Z.eqb d l = true <-> In d l.
Proof.
  unfold contains. rewrite existsb_exists. split.
  - intros [x [Hin E]]. apply Z.eqb_eq in E. now subst.
  - intros Hin. exists d. split; [exact Hin|apply Z.eqb_refl].
Qed.

Lemma set_add_spec (d x : Z) (l : list Z) :
  In x (CV.set_add d l) <-> x = d \/ In x l.
Proof.
  unfold CV.set_add. destruct (contains Z.eqb d l) eqn:E.
  - apply contains_Z_iff in E. split; [auto|]. intros [->|H]; assumption.
  - rewrite in_app_iff. simpl. split.
    + intros [H|[<-|[]]]; auto.
    + intros [->|H]; auto.
Qed.

Lemma set_add_NoDup (d : Z) (l : list Z) :
  List.NoDup l -> List.NoDup (CV.set_add d l).
Proof.
  intros Hnd. unfold CV.set_add. destruct (contains Z.eqb d l) eqn:E; [exact Hnd|].
  apply NoDup_snoc; [exact Hnd|]. intros Hin. apply contains_Z_iff in Hin.
  congruence.
Qed.

Lemma set_of_days (g : list Assignment) (acc : list Z) :
  List.NoDup acc ->
  let days := fold_left (fun v a => CV.set_add (date (shift a)) v) g acc in
  List.NoDup days
  /\ forall x, In x days <-> In x acc \/ exists a, In a g /\ date (shift a) = x.
Proof.
  cbv zeta. revert acc. induction g as [|a g IH]; intros acc Hnd; cbn [fold_left].
  - split; [exact Hnd|]. intros x. split; [auto|]. intros [H|[a [[] _]]]. exact H.
  - destruct (IH _ (set_add_NoDup (date (shift a)) acc Hnd)) as [H1 H2].
    split; [exact H1|]. intros x. rewrite H2, set_add_spec. split.
    + intros [[->|H]|[b [Hb E]]]; auto.
      * right. exists a. split; [now left|reflexivity].
      * right. exists b. split; [now right|exact E].
    + intros [H|[b [[<-|Hb] E]]]; auto.
      right. exists b. auto.
Qed.

(** *** Sorting a set of days *)

Lemma insert_sorted_In (x y : Z) (l : list Z) :
  In x (insert_sorted Z.leb y l) <-> x = y \/ In x l.
Proof.
  induction l as [|z l IH]; simpl.
  - split; [intros [<-|[]]; auto|intros [->|[]]; auto].
  - destruct (y <=? z); simpl; [split; intros [H|H]; auto|].
    rewrite IH. split.
    + intros [H|[H|H]]; auto.
    + intros [H|[H|H]]; auto.
Qed.

Lemma sorted_by_In (x : Z) (l : list Z) : In x (sorted_by Z.leb l) <-> In x l.
Proof.
  induction l as [|y l IH]; simpl; [reflexivity|].
  change (fold_right (insert_sorted Z.leb) [] l) with (sorted_by Z.leb l).
  rewrite insert_sorted_In, IH. split; intros [H|H]; auto.
Qed.

Lemma insert_sorted_increasing (y : Z) (l : list Z) :
  increasing l -> ~ In y l -> increasing (insert_sorted Z.leb y l).
Proof.
  induction l as [|z l IH]; intros Hl Hy; simpl.
  - split; [intros ? []|exact I].
  - destruct Hl as [Hz Hl]. destruct (y <=? z) eqn:E.
    + apply Z.leb_le in E. assert (y < z) by (assert (y <> z) by (intros ->; apply Hy; now
        left); lia).
      split; [|split; assumption].
      intros w [<-|Hw]; [assumption|]. specialize (Hz w Hw). lia.
    + apply Z.leb_gt in E. split.
      * intros w Hw. apply insert_sorted_In in Hw. destruct Hw as [->|Hw]; [exact E|auto].
      * apply IH; [exact Hl|]. intros Hin. apply Hy. now right.
Qed.

Lemma sorted_by_increasing (l : list Z) :
  List.NoDup l -> increasing (sorted_by Z.leb l).
Proof.
  induction l as [|y l IH]; intros Hnd; simpl; [exact I|].
  inversion Hnd as [|? ? Hy Hl]; subst.
  apply insert_sorted_increasing; [now apply IH|].
  change (fold_right (insert_sorted Z.leb) [] l) with (sorted_by Z.leb l).
  now rewrite sorted_by_In.
Qed.

(** *** The longest run of consecutive days *)

Lemma increasing_app (l1 l2 : list Z) :
  increasing (l1 ++ l2)
  -> increasing l2 /\ forall x y, In x l1 -> In y l2 -> x < y.
Proof.
  induction l1 as [|a l1 IH]; simpl.
  - intros H. split; [exact H|]. intros ? ? [].
  - intros [Ha H]. destruct (IH H) as [H2 H12]. split; [exact H2|].
    intros x y [<-|Hx] Hy; [|now apply H12].
    apply Ha. apply in_or_app. now right.
Qed.

(** The loop finds every run: [consecutive] bounds the runs that end at
    [previous], [max_found] those that end earlier. *)
Lemma longest_run_complete (l pre : list Z) (previous consecutive max_found : Z) :
  let L := pre ++ previous :: l in
  increasing L ->
  (forall k, 1 <= k -> (forall j, 0 <= j < k -> In (previous - j) L) -> k <= consecutive) ->
  consecutive <= max_found ->
  (forall e k, In e pre -> 1 <= k -> (forall j, 0 <= j < k -> In (e - j) L)
               -> k <= max_found) ->
  forall e k, In e L -> 1 <= k -> (forall j, 0 <= j < k -> In (e - j) L)
              -> k <= CV.longest_run previous l consecutive max_found.
Proof.
  cbv zeta. revert pre previous consecutive max_found.
  induction l as [|d t IH]; intros pre prev c m Hinc Ha Hb Hc e k He Hk Hrun;
    cbn [CV.longest_run].
  - apply in_app_or in He. destruct He as [He|[<-|[]]].
    + now apply (Hc e).
    + specialize (Ha k Hk Hrun). lia.
  - assert (Hc1 : 1 <= c).
    { apply (Ha 1); [lia|]. intros j Hj. replace (prev - j) with prev by lia.
      apply in_or_app. right. now left. }
    assert (HL : (pre ++ [prev]) ++ d :: t = pre ++ prev :: d :: t)
      by (rewrite <- app_assoc; reflexivity).
    assert (Hsplit : forall x, In x (pre ++ prev :: d :: t) -> x <= prev \/ d <= x).
    { intros x Hx. destruct (increasing_app _ _ Hinc) as [[Hp [Hd _]] Hlt].
      apply in_app_or in Hx. destruct Hx as [Hx|[<-|[<-|Hx]]].
      - left. specialize (Hlt x prev Hx (or_introl eq_refl)). lia.
      - left. lia.
      - right. lia.
      - right. specialize (Hd x Hx). lia. }
    assert (Hpd : prev < d).
    { destruct (increasing_app _ _ Hinc) as [[Hp _] _]. apply Hp. now left. }
    destruct (d - prev =? 1) eqn:E.
    + apply Z.eqb_eq in E.
      apply (IH (pre ++ [prev]) d (c + 1) (Z.max m (c + 1))) with (e := e); rewrite ?HL;
        try assumption; try lia.
      * intros k' Hk' Hrun'. destruct (Z.eq_dec k' 1) as [->|Hne]; [lia|].
        assert (k' - 1 <= c); [|lia].
        apply Ha; [lia|]. intros j Hj.
        replace (prev - j) with (d - (j + 1)) by lia. apply Hrun'. lia.
      * intros e' k' He' Hk' Hrun'. apply in_app_or in He'.
        destruct He' as [He'|[<-|[]]].
        -- specialize (Hc e' k' He' Hk' Hrun'). lia.
        -- specialize (Ha k' Hk' Hrun'). lia.
    + apply Z.eqb_neq in E.
      apply (IH (pre ++ [prev]) d 1 m) with (e := e); rewrite ?HL; try assumption; try lia.
      * intros k' Hk' Hrun'. destruct (Z_le_gt_dec k' 1) as [Hle|Hgt]; [exact Hle|].
        exfalso. assert (Hin : In (d - 1) (pre ++ prev :: d :: t))
          by (apply Hrun'; lia).
        destruct (Hsplit _ Hin); lia.
      * intros e' k' He' Hk' Hrun'. apply in_app_or in He'.
        destruct He' as [He'|[<-|[]]].
        -- exact (Hc e' k' He' Hk' Hrun').
        -- specialize (Ha k' Hk' Hrun'). lia.
Qed.

(** The loop finds only runs that are there. *)
Lemma longest_run_sound (l : list Z) (L : list Z) (previous consecutive max_found : Z) :
  (forall x, In x (previous :: l) -> In x L) ->
  1 <= consecutive ->
  (forall j, 0 <= j < consecutive -> In (previous - j) L) ->
  (exists e, forall j, 0 <= j < max_found -> In (e - j) L) ->
  exists e, forall j, 0 <= j < CV.longest_run previous l consecutive max_found
                      -> In (e - j) L.
Proof.
  revert previous consecutive max_found.
  induction l as [|d t IH]; intros prev c m Hsub Hc Hrun Hm; cbn [CV.longest_run].
  - exact Hm.
  - destruct (d - prev =? 1) eqn:E.
    + apply Z.eqb_eq in E.
      assert (Hrun' : forall j, 0 <= j < c + 1 -> In (d - j) L).
      { intros j Hj. destruct (Z.eq_dec j 0) as [->|Hne].
        - replace (d - 0) with d by lia. apply Hsub. right. now left.
        - replace (d - j) with (prev - (j - 1)) by lia. apply Hrun. lia. }
      apply IH; [intros x Hx; apply Hsub; now right|lia|exact Hrun'|].
      destruct (Z.max_spec m (c + 1)) as [[_ ->]|[_ ->]]; [|exact Hm].
      exists d. exact Hrun'.
    + apply IH; [intros x Hx; apply Hsub; now right|lia| |exact Hm].
      intros j Hj. replace (d - j) with d by lia. apply Hsub. right. now left.
Qed.

(** On a strictly increasing list, the loop returns at least [k] exactly
    when the list holds [k] days in a row (for [k] from 2). *)
Lemma max_found_in_spec (l : list Z) (k : Z) :
  increasing l -> 2 <= k ->
  (k <= CV.max_found_in l <-> exists d, forall j, 0 <= j < k -> In (d + j) l).
Proof.
  intros Hinc Hk. destruct l as [|d0 t]; cbn [CV.max_found_in].
  - split; [lia|]. intros [d H]. destruct (H 0); lia.
  - split.
    + intros Hle.
      destruct (longest_run_sound t (d0 :: t) d0 1 1) as [e He].
      * auto.
      * lia.
      * intros j Hj. replace (d0 - j) with d0 by lia. now left.
      * exists d0. intros j Hj. replace (d0 - j) with d0 by lia. now left.
      * exists (e - (k - 1)). intros j Hj.
        replace (e - (k - 1) + j) with (e - (k - 1 - j)) by lia. apply He. lia.
    + intros [d Hd].
      apply (longest_run_complete t [] d0 1 1) with (e := d + (k - 1)).
      * exact Hinc.
      * intros k' Hk' Hrun. destruct (Z_le_gt_dec k' 1) as [Hle|Hgt]; [exact Hle|].
        exfalso. assert (Hin : In (d0 - 1) (d0 :: t)) by (apply Hrun; lia).
        destruct Hin as [Heq|Hin]; [lia|].
        destruct Hinc as [H0 _]. specialize (H0 _ Hin). lia.
      * lia.
      * intros ? ? [].
      * apply Hd. lia.
      * lia.
      * intros j Hj. replace (d + (k - 1) - j) with (d + (k - 1 - j)) by lia.
        apply Hd. lia.
Qed.

(** *** Seven days in a row *)

Lemma consecutive_days_entity (self : CV.Agent) (kv : string * list Z) (v : Violation) :
  In v (match CV.employees self !! fst kv with
        | None => []
        | Some e =>
            if CV.max_consecutive_days <? CV.max_found_in (sorted_by Z.leb (snd kv))
            then [CV.consecutive_days_violation e (fst kv)
                    (CV.max_found_in (sorted_by Z.leb (snd kv)))
                    (sorted_by Z.leb (snd kv))]
            else []
        end)
  -> affected_entity v = fst kv.
Proof.
  destruct (CV.employees self !! fst kv); [|intros []].
  destruct (_ <? _); [|intros []]. intros [<-|[]]. reflexivity.
Qed.

(** X16.  The consecutive-days check reports an employee exactly when the
    employee is known to the validator and the schedule holds assignments of
    the employee on seven days in a row; it then reports one violation, of
    type CONSECUTIVE_DAYS and severity 8 (a hard one), whatever the order of
    the assignments and however many shifts a day holds. *)
Theorem consecutive_days_check (self : CV.Agent) (i : string) :
  (about i (CV.consecutive_days_violations self) <> []
   <-> is_Some (CV.employees self !! i)
       /\ exists d, forall j, 0 <= j < 7 -> works_on (CV.schedule self) i (d + j))
  /\ (about i (CV.consecutive_days_violations self) = []
      \/ exists v, about i (CV.consecutive_days_violations self) = [v]
                   /\ constraint_type v = CONSECUTIVE_DAYS
                   /\ severity v = 8
                   /\ is_hard_constraint v = true).
Proof.
  set (f := fun kv : string * list Z =>
              match CV.employees self !! fst kv with
              | None => []
              | Some e =>
                  if CV.max_consecutive_days <? CV.max_found_in (sorted_by Z.leb (snd kv))
                  then [CV.consecutive_days_violation e (fst kv)
                          (CV.max_found_in (sorted_by Z.leb (snd kv)))
                          (sorted_by Z.leb (snd kv))]
                  else []
              end).
  assert (Hf : CV.consecutive_days_violations self
               = flat_map f (CV.employee_dates self)).
  { unfold CV.consecutive_days_violations. apply flat_map_ext. intros [k g]. reflexivity. }
  rewrite Hf. clear Hf.
  destruct (table_with (fun a : Assignment => emp_id (employee a))
              (fun a => CV.set_add (date (shift a))) []
              (assignments (CV.schedule self))) as [Hnd Hget].
  fold (CV.employee_dates self) in Hnd, Hget.
  rewrite (about_table f i _ Hnd (consecutive_days_entity self)).
  rewrite Hget. clear Hget Hnd.
  assert (Hw : forall x, (exists a, In a (members (fun a : Assignment => emp_id (employee a)) i
                                            (assignments (CV.schedule self)))
                                    /\ date (shift a) = x)
                         <-> works_on (CV.schedule self) i x).
  { intros x. unfold works_on, members. split.
    - intros [a [Ha E]]. apply List.filter_In in Ha. destruct Ha as [Ha Ek].
      apply String.eqb_eq in Ek. exists a. auto.
    - intros [a [Ha [Ek E]]]. exists a. split; [|exact E].
      apply List.filter_In. split; [exact Ha|]. subst i. apply String.eqb_refl. }
  destruct (members _ i (assignments (CV.schedule self))) as [|a0 g] eqn:Eg.
  - split; [|now left]. split; [congruence|].
    intros [_ [d Hd]]. destruct (Hd 0) as [a Ha]; [lia|].
    assert (Hex : exists a, In a (@nil Assignment) /\ date (shift a) = d + 0).
    { apply Hw. exists a. exact Ha. }
    destruct Hex as [? [[] _]].
  - destruct (set_of_days (a0 :: g) [] (List.NoDup_nil _)) as [Hnd Hin].
    set (days := fold_left (fun v a => CV.set_add (date (shift a)) v) (a0 :: g) []) in *.
    assert (Hrun : 7 <= CV.max_found_in (sorted_by Z.leb days)
                   <-> exists d, forall j, 0 <= j < 7 -> works_on (CV.schedule self) i (d + j)).
    { rewrite (max_found_in_spec _ 7 (sorted_by_increasing _ Hnd)) by lia.
      split; intros [d Hd]; exists d; intros j Hj; specialize (Hd j Hj).
      - apply Hw. apply (proj1 (sorted_by_In _ _)) in Hd.
        apply (proj1 (Hin _)) in Hd. destruct Hd as [[]|Hd]. exact Hd.
      - apply (proj2 (sorted_by_In _ _)). apply (proj2 (Hin _)). right.
        apply (proj2 (Hw _)). exact Hd. }
    unfold f. cbn [fst snd]. unfold CV.max_consecutive_days.
    destruct (CV.employees self !! i) as [e|] eqn:Ee.
    + destruct (6 <? CV.max_found_in (sorted_by Z.leb days)) eqn:E6.
      * apply Z.ltb_lt in E6. split.
        -- split; [|discriminate]. intros _. split; [eauto|]. apply Hrun. lia.
        -- right. eexists. split; [reflexivity|]. repeat split.
      * apply Z.ltb_ge in E6. split; [|now left]. split; [congruence|].
        intros [_ Hd]. apply Hrun in Hd. lia.
    + split; [|now left]. split; [congruence|]. intros [[? H] _]. discriminate.
Qed.
(** ** The hours check (C1) *)

(** *** Filing a mixed list of objects *)

Lemma py_max_0_twice (s a b : Q) :
  (0 <= a)%Q -> (0 <= b)%Q ->
  (py_max 0 (py_max 0 (s - a) - b) == py_max 0 (s - (a + b)))%Q.
Proof.
  intros Ha Hb. unfold py_max.
  destruct (Qlt_bool 0 (s - a)) eqn:E;
    [apply Qlt_bool_true in E | apply Qlt_bool_false in E]; qcases; lra.
Qed.

Lemma hours_check_cost_nonneg (v : Violation) :
  0 <= severity v -> (0 <= hours_check_cost v)%Q.
Proof.
  intros Hs. unfold hours_check_cost. destruct (is_hard_constraint v); [|lra].
  unfold Zq. change 0%Q with (inject_Z 0). rewrite <- Zle_Qle. lia.
Qed.

Lemma qsum_nonneg (l : list Q) : Forall (fun q => (0 <= q)%Q) l -> (0 <= qsum l)%Q.
Proof.
  induction 1 as [|x l Hx _ IH]; [unfold qsum; simpl; lra|].
  rewrite qsum_cons. lra.
Qed.

(** Objects reported in a row, the hard ones at twice their severity and
    the soft ones at a penalty of 0.1. *)
Lemma report_all_costs (vs : list Violation) :
  forall (h : store) (r : ComplianceResult),
    (forall v, In v vs ->
       0 <= severity v
       /\ (is_hard_constraint v = false ->
           exists p, _calculate_soft_penalty v = Returns p /\ (p == 1 # 10)%Q)) ->
    (0 <= score r)%Q ->
    let out := Validator.report_all vs (h, r) in
    snd out = Returns tt
    /\ fst (fst out) = h ++ vs
    /\ violations (snd (fst out)) = violations r ++ filed is_hard_constraint (length h) vs
    /\ warnings (snd (fst out))
       = warnings r ++ filed (fun v => negb (is_hard_constraint v)) (length h) vs
    /\ is_compliant (snd (fst out))
       = is_compliant r && forallb (fun v => negb (is_hard_constraint v)) vs
    /\ (score (snd (fst out)) == py_max 0 (score r - qsum (map hours_check_cost vs)))%Q.
Proof.
  cbv zeta. induction vs as [|v vs IH]; intros h r Hvs Hs.
  - cbn [Validator.report_all fst snd filed forallb map]. rewrite !app_nil_r, andb_true_r.
    repeat split; try reflexivity.
    unfold qsum. cbn [fold_left]. unfold py_max. qcases; lra.
  - destruct (Hvs v (or_introl eq_refl)) as [Hsev Hsoft].
    assert (Hrest : forall x, In x vs ->
              0 <= severity x
              /\ (is_hard_constraint x = false ->
                  exists p, _calculate_soft_penalty x = Returns p /\ (p == 1 # 10)%Q))
      by (intros x Hx; apply Hvs; now right).
    assert (Hcosts : (0 <= qsum (map hours_check_cost vs))%Q).
    { apply qsum_nonneg. apply List.Forall_forall. intros q Hq.
      apply in_map_iff in Hq. destruct Hq as (x & <- & Hx).
      apply hours_check_cost_nonneg. now apply Hrest. }
    cbn [Validator.report_all filed forallb map].
    pose proof (hours_check_cost_nonneg v Hsev) as Hcv.
    unfold hours_check_cost in *.
    destruct (is_hard_constraint v) eqn:Hhard.
    + rewrite (report_hard v h r Hhard).
      match goal with |- context [Validator.report_all vs (?h1, ?r1)] =>
        destruct (IH h1 r1 Hrest) as (H1 & H2 & H3 & H4 & H5 & H6);
          [cbn [score]; apply py_max_spec|] end.
      rewrite H1, H2, H3, H4, H5.
      cbn [violations warnings is_compliant score negb andb app] in *.
      rewrite <- !app_assoc, length_app. cbn [length app].
      replace (length h + 1)%nat with (S (length h)) by lia.
      rewrite andb_false_r.
      repeat split; try reflexivity.
      rewrite H6.
      eapply Qeq_trans; [apply py_max_0_twice; assumption|].
      apply py_max_0_compat. rewrite qsum_cons. reflexivity.
    + destruct (Hsoft eq_refl) as (p & Hp & Hpv).
      rewrite (report_soft v p h r Hhard Hp).
      match goal with |- context [Validator.report_all vs (?h1, ?r1)] =>
        destruct (IH h1 r1 Hrest) as (H1 & H2 & H3 & H4 & H5 & H6);
          [cbn [score]; apply py_max_spec|] end.
      rewrite H1, H2, H3, H4, H5.
      cbn [violations warnings is_compliant score negb andb app] in *.
      rewrite <- !app_assoc, length_app. cbn [length app].
      replace (length h + 1)%nat with (S (length h)) by lia.
      repeat split; try reflexivity.
      rewrite H6.
      assert (E : (py_max 0 (score r - p) == py_max 0 (score r - (1 # 10)))%Q)
        by (apply py_max_0_compat; lra).
      eapply Qeq_trans; [apply py_max_0_compat; rewrite E; reflexivity|].
      eapply Qeq_trans; [apply py_max_0_twice; [lra|exact Hcosts]|].
      apply py_max_0_compat. rewrite qsum_cons. reflexivity.
Qed.

(** *** The table of hours per employee and week *)

Lemma week_entry_update (k w : Z) (f : Q -> Q) (t : list (Z * Q)) :
  week_entry w (assoc_update Z.eqb k f 0%Q t)
  = if k =? w then Some (f (default 0%Q (week_entry k t))) else week_entry w t.
Proof.
  unfold week_entry. induction t as [|[k0 q0] t IH]; cbn [assoc_update List.find fst snd].
  - rewrite (Z.eqb_sym k w). destruct (w =? k); reflexivity.
  - destruct (k0 =? k) eqn:E0; cbn [List.find fst snd].
    + apply Z.eqb_eq in E0. subst k0. rewrite ?Z.eqb_refl.
      destruct (k =? w); reflexivity.
    + destruct (k0 =? w) eqn:E1; cbn [default].
      * apply Z.eqb_eq in E1. subst k0. rewrite (Z.eqb_sym k w), E0. reflexivity.
      * exact IH.
Qed.

Lemma week_keys_update (k : Z) (f : Q -> Q) (t : list (Z * Q)) :
  map fst (assoc_update Z.eqb k f 0%Q t)
  = match week_entry k t with
    | Some _ => map fst t
    | None => map fst t ++ [k]
    end.
Proof.
  unfold week_entry. induction t as [|[k0 q0] t IH]; cbn [assoc_update List.find map fst];
    [reflexivity|].
  destruct (k0 =? k) eqn:E0; cbn [map fst]; [reflexivity|].
  rewrite IH. destruct (List.find _ t); reflexivity.
Qed.

Lemma week_entry_None_keys (k : Z) (t : list (Z * Q)) :
  week_entry k t = None -> ~ In k (map fst t).
Proof.
  unfold week_entry. induction t as [|[k0 q0] t IH]; cbn [List.find map fst In]; [auto|].
  destruct (k0 =? k) eqn:E0; [discriminate|].
  intros Hn [Heq|Hin].
  - subst k0. rewrite Z.eqb_refl in E0. discriminate.
  - now apply IH.
Qed.

(** The table [weekly[week(a)] += hours(a)] over the assignments [g] of one
    employee: distinct weeks, and under each week that has an
    assignment the sum of the hours of the assignments of that week. *)
Lemma week_table {A : Type} (wk : A -> Z) (hr : A -> Q) (g : list A) :
  let t := fold_left (fun v a => assoc_update Z.eqb (wk a) (fun h => (h + hr a)%Q) 0%Q v)
             g [] in
  List.NoDup (map fst t)
  /\ forall w,
       match week_entry w t with
       | None => List.filter (fun a => wk a =? w) g = []
       | Some total =>
           List.filter (fun a => wk a =? w) g <> []
           /\ (total == qsum (map hr (List.filter (fun a => wk a =? w) g)))%Q
       end.
Proof.
  cbv zeta. induction g as [|a g IH] using rev_ind.
  - split; [constructor|]. intros w. reflexivity.
  - rewrite fold_left_app. cbn [fold_left]. destruct IH as [Hnd Hget]. split.
    + rewrite week_keys_update.
      destruct (week_entry (wk a) _) eqn:E; [exact Hnd|].
      apply NoDup_snoc; [exact Hnd|]. now apply week_entry_None_keys.
    + intros w. rewrite week_entry_update, List.filter_app. cbn [List.filter].
      destruct (wk a =? w) eqn:E.
      * apply Z.eqb_eq in E. subst w. specialize (Hget (wk a)).
        split; [intros Hnil; apply app_eq_nil in Hnil; destruct Hnil; discriminate|].
        rewrite map_app, qsum_app. cbn [map]. rewrite qsum_cons.
        destruct (week_entry (wk a) _) as [total|]; cbn [default].
        -- destruct Hget as [_ Ht]. rewrite Ht.
           change (qsum (@nil Q)) with 0%Q. unfold id. lra.
        -- rewrite Hget. cbn [map]. change (qsum (@nil Q)) with 0%Q. unfold id. lra.
      * rewrite app_nil_r. apply Hget.
Qed.

(** The objects about one week, of a pass over a table with distinct weeks
    whose every entry yields objects about its own week. *)
Lemma of_week_table (f : Z * Q -> list Violation) (w : Z) (t : list (Z * Q)) :
  List.NoDup (map fst t) ->
  (forall kv v, In v (f kv) -> in_week w v = (fst kv =? w)) ->
  of_week w (flat_map f t)
  = match List.find (fun kv => fst kv =? w) t with
    | Some kv => f kv
    | None => []
    end.
Proof.
  intros Hnd Hf. unfold of_week.
  induction t as [|[k q] t IH]; [reflexivity|].
  cbn [flat_map List.find fst map] in *. rewrite List.filter_app.
  inversion Hnd as [|? ? Hk Hnd']; subst.
  destruct (k =? w) eqn:E.
  - rewrite filter_all.
    2:{ intros v Hv. rewrite (Hf _ _ Hv). exact E. }
    rewrite filter_none; [apply app_nil_r|].
    intros v Hv. apply in_flat_map in Hv. destruct Hv as [[k' q'] [Hin Hv]].
    rewrite (Hf _ _ Hv). cbn [fst]. apply Z.eqb_neq. intros ->.
    apply Z.eqb_eq in E. subst k.
    apply Hk. apply in_map_iff. exists (w, q'). split; [reflexivity|exact Hin].
  - rewrite filter_none.
    2:{ intros v Hv. rewrite (Hf _ _ Hv). exact E. }
    rewrite IH by exact Hnd'. reflexivity.
Qed.

(** *** The objects of the hours check *)

Lemma week_number_eqb (w w' : Z) : (w + 1 =? w' + 1) = (w =? w').
Proof. destruct (w =? w') eqn:E; [apply Z.eqb_eq in E; subst; apply Z.eqb_refl|].
  apply Z.eqb_neq in E. apply Z.eqb_neq. lia. Qed.

Lemma min_hours_warning_cost (e : Employee) (i : string) (w : Z) (hrs : Q) (m : Z) :
  exists p, _calculate_soft_penalty (Validator.min_hours_warning e i w hrs m) = Returns p
            /\ (p == 1 # 10)%Q.
Proof.
  unfold _calculate_soft_penalty, _is_informational_warning.
  assert (Hnone : details (Validator.min_hours_warning e i w hrs m) !! "alert_type" = None).
  { unfold Validator.min_hours_warning. simpl.
    rewrite !lookup_insert_ne by discriminate. apply lookup_empty. }
  rewrite Hnone. simpl. eexists. split; [reflexivity|]. reflexivity.
Qed.

(** What the check yields for one employee and one week is about that
    employee and that week; it is hard, or a warning that costs 0.1. *)
Lemma check_week_object (e : Employee) (i : string) (w : Z) (hrs : Q) (v : Violation) :
  Validator.check_week e i w hrs = Some v ->
  affected_entity v = i
  /\ (forall w', in_week w' v = (w =? w'))
  /\ 0 <= severity v
  /\ (is_hard_constraint v = false ->
      exists p, _calculate_soft_penalty v = Returns p /\ (p == 1 # 10)%Q).
Proof.
  unfold Validator.check_week. destruct (Validator.hours_limits _) as [mn mx].
  destruct (Qlt_bool (Zq mx) hrs);
    [|destruct (Qlt_bool hrs (Zq mn)); [|destruct (Qle_bool _ hrs); [|discriminate]]];
    intros Hv; injection Hv as <-.
  - split; [reflexivity|]. split; [|split; [cbn; lia|discriminate]].
    intros w'. unfold in_week, Validator.max_hours_violation. cbn [details].
    rewrite lookup_insert_ne by discriminate. rewrite lookup_insert_eq.
    apply week_number_eqb.
  - split; [reflexivity|]. split; [|split; [cbn; lia|]].
    + intros w'. unfold in_week, Validator.min_hours_warning. cbn [details].
      rewrite lookup_insert_ne by discriminate. rewrite lookup_insert_eq.
      apply week_number_eqb.
    + intros _. apply min_hours_warning_cost.
  - split; [reflexivity|]. split; [|split; [cbn; lia|discriminate]].
    intros w'. unfold in_week, Validator.approaching_limit_alert. cbn [details].
    rewrite !(lookup_insert_ne _ _ "week") by discriminate. rewrite lookup_insert_eq.
    apply week_number_eqb.
Qed.

(** The part of the check for one entry of the table. *)
Lemma hours_violations_by_entry (self : Validator.Agent) :
  Validator.hours_violations self
  = flat_map
      (fun kv : string * list (Z * Q) =>
         match Validator.employees self !! fst kv with
         | None => []
         | Some e =>
             flat_map
               (fun wh : Z * Q =>
                  match Validator.check_week e (fst kv) (fst wh) (snd wh) with
                  | Some v => [v]
                  | None => []
                  end)
               (snd kv)
         end)
      (Validator.weekly_hours_table self).
Proof.
  unfold Validator.hours_violations. apply flat_map_ext. intros [k weeks]. cbn [fst snd].
  destruct (_ !! k); [|reflexivity]. apply flat_map_ext. intros [w hrs]. reflexivity.
Qed.

Lemma hours_violations_objects (self : Validator.Agent) (v : Violation) :
  In v (Validator.hours_violations self) ->
  0 <= severity v
  /\ (is_hard_constraint v = false ->
      exists p, _calculate_soft_penalty v = Returns p /\ (p == 1 # 10)%Q).
Proof.
  rewrite hours_violations_by_entry. intros Hv.
  apply in_flat_map in Hv. destruct Hv as ([k weeks] & _ & Hv). cbn [fst snd] in Hv.
  destruct (_ !! k) as [e|]; [|destruct Hv].
  apply in_flat_map in Hv. destruct Hv as ([w hrs] & _ & Hv). cbn [fst snd] in Hv.
  destruct (Validator.check_week e k w hrs) as [v'|] eqn:E; [|destruct Hv].
  destruct Hv as [<-|[]].
  destruct (check_week_object e k w hrs v' E) as (_ & _ & H3 & H4). now split.
Qed.

Lemma filter_filter {A : Type} (f g : A -> bool) (l : list A) :
  List.filter f (List.filter g l) = List.filter (fun x => g x && f x) l.
Proof.
  induction l as [|x l IH]; [reflexivity|]. cbn [List.filter].
  destruct (g x); cbn [List.filter andb]; [destruct (f x)|]; rewrite IH; reflexivity.
Qed.

(** The objects of the check about an employee known to the validator and
    a week in which the employee works: what [check_week] yields for the
    hours of that week, which the table holds. *)
Lemma hours_violations_of_week (self : Validator.Agent) (e : Employee) (i : string) (w : Z) :
  Validator.employees self !! i = Some e ->
  works_in_week (Validator.schedule self) i w ->
  exists hrs,
    (hrs == week_hours (Validator.schedule self) i w)%Q
    /\ of_week w (about i (Validator.hours_violations self))
       = match Validator.check_week e i w hrs with
         | Some v => [v]
         | None => []
         end.
Proof.
  intros Hknown (a & Ha & Hi & Hw).
  set (key := fun a : Assignment => emp_id (employee a)).
  set (wk := fun a : Assignment => Validator._get_week_number self (date (shift a))).
  set (hr := fun a : Assignment => hours (shift a)).
  set (step := fun a : Assignment =>
                 assoc_update Z.eqb (wk a) (fun h => (h + hr a)%Q) 0%Q).
  destruct (table_with key step [] (assignments (Validator.schedule self)))
    as [Hnd Hget].
  assert (Htbl : fold_left (fun tbl a => assoc_update String.eqb (key a) (step a) [] tbl)
                   (assignments (Validator.schedule self)) []
                 = Validator.weekly_hours_table self) by reflexivity.
  rewrite Htbl in Hnd, Hget. clear Htbl.
  specialize (Hget i).
  assert (Hmem : In a (members key i (assignments (Validator.schedule self)))).
  { unfold members. apply filter_In. split; [exact Ha|].
    unfold key. rewrite Hi. apply String.eqb_refl. }
  set (g := members key i (assignments (Validator.schedule self))) in *.
  destruct g as [|a0 g'] eqn:Eg; [destruct Hmem|]. rewrite <- Eg in *. clear a0 g' Eg.
  destruct (week_table wk hr g) as [Hndw Hweek].
  change (fold_left _ g []) with (fold_left (fun v a => step a v) g []) in Hndw, Hweek.
  set (weeks := fold_left (fun v a => step a v) g []) in *.
  specialize (Hweek w).
  assert (Hin : In a (List.filter (fun a => wk a =? w) g)).
  { apply filter_In. split; [exact Hmem|]. unfold wk, Validator._get_week_number.
    unfold week_of in Hw. rewrite Hw. apply Z.eqb_refl. }
  unfold week_entry in Hweek.
  destruct (List.find (fun kv => fst kv =? w) weeks) as [[w' hrs]|] eqn:Efind;
    [|rewrite Hweek in Hin; destruct Hin].
  cbn [snd] in Hweek. destruct Hweek as [_ Hhrs].
  assert (Hw' : w' = w).
  { apply find_some in Efind. destruct Efind as [_ E]. now apply Z.eqb_eq in E. }
  subst w'.
  exists hrs. split.
  - rewrite Hhrs. unfold week_hours, g, members. rewrite filter_filter. reflexivity.
  - rewrite hours_violations_by_entry.
    rewrite (about_table _ i (Validator.weekly_hours_table self) Hnd).
    2:{ intros [k ws] v Hv. cbn [fst snd] in *.
        destruct (_ !! k) as [e'|]; [|destruct Hv].
        apply in_flat_map in Hv. destruct Hv as ([w1 h1] & _ & Hv). cbn [fst snd] in Hv.
        destruct (Validator.check_week e' k w1 h1) as [v'|] eqn:E; [|destruct Hv].
        destruct Hv as [<-|[]]. apply (check_week_object e' k w1 h1 v' E). }
    rewrite Hget. cbn [fst snd]. rewrite Hknown.
    rewrite (of_week_table _ w weeks Hndw).
    2:{ intros [w1 h1] v Hv. cbn [fst snd] in *.
        destruct (Validator.check_week e i w1 h1) as [v'|] eqn:E; [|destruct Hv].
        destruct Hv as [<-|[]].
        destruct (check_week_object e i w1 h1 v' E) as (_ & Hwk & _). apply Hwk. }
    rewrite Efind. reflexivity.
Qed.

(** C1, as the code has it.  The hours check reports its objects one after
    the other and files each through [add_violation]: the hard ones in the
    violations, at twice their severity, the others in the warnings, at
    0.1 each; the result stays compliant only when no object is hard.  For
    a Full-Time employee (35 to 38 hours) known to the validator and a week
    in which the employee works, the objects about that employee and week
    depend on the hours of the week: at exactly 38.0 hours there is no
    object of severity 9 or with [excess_hours], but the approaching-limit
    alert; above 38 hours there is the one hard severity-9 [HOURS_MAX]
    violation, whose [excess_hours] is the hours less 38, so 0.1 at 38.1
    hours; at 33.0 hours, under the minimum of 35, there is the one
    severity-4 [HOURS_MIN] warning, with a [shortfall] of 2.0 and without
    [alert_type], which is soft and costs 0.1; and the approaching-limit
    alert is the object exactly for the weeks of 35 to 38 hours. *)
Theorem C1_hours_check_boundaries :
  forall (self : Validator.Agent) (h : store) (r : ComplianceResult),
    (0 <= score r)%Q ->
    let reported := Validator.hours_violations self in
    let out := Validator._check_hours_compliance self (h, r) in
    (snd out = Returns tt
     /\ fst (fst out) = h ++ reported
     /\ violations (snd (fst out))
        = violations r ++ filed is_hard_constraint (length h) reported
     /\ warnings (snd (fst out))
        = warnings r ++ filed (fun v => negb (is_hard_constraint v)) (length h) reported
     /\ is_compliant (snd (fst out))
        = is_compliant r && forallb (fun v => negb (is_hard_constraint v)) reported
     /\ (score (snd (fst out))
         == py_max 0 (score r - qsum (map hours_check_cost reported)))%Q)
    /\ forall (e : Employee) (i : string) (w : Z),
         Validator.employees self !! i = Some e ->
         employee_type e = FULL_TIME ->
         works_in_week (Validator.schedule self) i w ->
         exists hours,
           (hours == week_hours (Validator.schedule self) i w)%Q
           /\ ((hours == 38)%Q ->
               of_week w (about i reported)
               = [Validator.approaching_limit_alert e i w hours 38]
               /\ forall v, In v (of_week w (about i reported)) ->
                            details v !! "excess_hours" = None /\ severity v = 2)
           /\ ((38 < hours)%Q ->
               exists v excess,
                 of_week w (about i reported) = [v]
                 /\ is_hard_constraint v = true
                 /\ constraint_type v = HOURS_MAX
                 /\ severity v = 9
                 /\ details v !! "excess_hours" = Some (VFloat excess)
                 /\ (excess == hours - 38)%Q
                 /\ ((hours == 381 # 10)%Q -> (excess == 1 # 10)%Q))
           /\ ((hours == 33)%Q ->
               exists v shortfall,
                 of_week w (about i reported) = [v]
                 /\ is_hard_constraint v = false
                 /\ constraint_type v = HOURS_MIN
                 /\ severity v = 4
                 /\ details v !! "alert_type" = None
                 /\ details v !! "shortfall" = Some (VFloat shortfall)
                 /\ (shortfall == 2)%Q
                 /\ (hours_check_cost v == 1 # 10)%Q)
           /\ ((35 <= hours <= 38)%Q
               <-> of_week w (about i reported)
                   = [Validator.approaching_limit_alert e i w hours 38]).
Proof.
  intros self h r Hs. cbv zeta. split.
  - unfold Validator._check_hours_compliance.
    apply (report_all_costs (Validator.hours_violations self) h r); [|exact Hs].
    apply hours_violations_objects.
  - intros e i w Hknown Hft Hworks.
    destruct (hours_violations_of_week self e i w Hknown Hworks) as (hours & Hh & Hobj).
    exists hours. split; [exact Hh|]. rewrite Hobj.
    rewrite (check_week_full_time e i w hours Hft).
    split; [|split; [|split]].
    + intros H38. qcases; try (exfalso; lra).
      split; [reflexivity|].
      intros v [<-|[]]. split; [|reflexivity].
      unfold Validator.approaching_limit_alert. cbn [details].
      rewrite !lookup_insert_ne by discriminate. apply lookup_empty.
    + intros Hover. qcases; try (exfalso; lra).
      exists (Validator.max_hours_violation e i w hours 38), (hours - 38)%Q.
      do 6 (split; [reflexivity|]).
      intros H381. rewrite H381. reflexivity.
    + intros H33. qcases; try (exfalso; lra).
      exists (Validator.min_hours_warning e i w hours 35), (35 - hours)%Q.
      do 4 (split; [reflexivity|]).
      split.
      * unfold Validator.min_hours_warning. cbn [details].
        rewrite !lookup_insert_ne by discriminate. apply lookup_empty.
      * split; [reflexivity|]. split; [rewrite H33; reflexivity|reflexivity].
    + split.
      * intros [Hlo Hhi]. qcases; try (exfalso; lra). reflexivity.
      * qcases; intros Heq; try discriminate; try (split; lra).
        all: inversion Heq.
Qed.

Lemma C1_hours_check_witness :
  exists v shortfall,
    of_week 0 (about "1001" (Validator.hours_violations (validator_of week_33))) = [v]
    /\ constraint_type v = HOURS_MIN
    /\ details v !! "shortfall" = Some (VFloat shortfall)
    /\ (shortfall == 2)%Q.
Proof.
  assert (Hs : (0 <= score (new_ComplianceResult true))%Q) by (simpl; lra).
  assert (Hworks : works_in_week (Validator.schedule (validator_of week_33)) "1001" 0).
  { exists (new_Assignment alice (shift_of "3F" monday) KITCHEN).
    split; [left; reflexivity|]. split; reflexivity. }
  destruct (proj2 (C1_hours_check_boundaries (validator_of week_33) []
                     (new_ComplianceResult true) Hs)
              alice "1001" 0 eq_refl eq_refl Hworks)
    as (hours & Hh & _ & _ & H33 & _).
  destruct H33 as (v & shortfall & H1 & _ & H3 & _ & _ & H6 & H7 & _).
  - rewrite Hh. vm_compute. reflexivity.
  - exists v, shortfall. repeat split; assumption.
Defined.

(** C1 as stated fails at 33.0 hours: Alice's week of 3F, 3F and 1F yields
    one object, the [HOURS_MIN] warning; it carries no [alert_type], lands
    in the warnings, and the score goes from 100 to 99.9. *)
Lemma C1_counterexample_33_hours :
  let out := Validator._check_hours_compliance (validator_of week_33)
               ([], new_ComplianceResult true) in
  Validator.weekly_hours_table (validator_of week_33) = [("1001", [(0, 33%Q)])]
  /\ map constraint_type (fst (fst out)) = [HOURS_MIN]
  /\ map (fun v => details v !! "alert_type") (fst (fst out)) = [None]
  /\ warnings (snd (fst out)) = [0%nat]
  /\ violations (snd (fst out)) = []
  /\ Qred (score (snd (fst out))) = (999 # 10)%Q.
Proof. vm_compute. repeat split; reflexivity. Qed.


(** ** The auction of the staff matcher: what it checks of every assignment *)

Lemma score_candidates_sound (uniform : nat -> Q) (ag : StaffMatcher.Agent) (d : Z)
    (code : string) (st : Station) (l : list Employee) :
  forall n p, In p (fst (StaffMatcher.score_candidates uniform ag d code st l n)) ->
              In (snd p) l /\ can_work_station (snd p) st = true.
Proof.
  induction l as [|e l IH]; intros n p; simpl; [intros []|].
  destruct (is_available e d code); simpl;
    [|intros Hp; destruct (IH _ _ Hp); auto].
  destruct (is_employee_assigned _ _ _); [intros Hp; destruct (IH _ _ Hp); auto|].
  destruct (can_work_station e st) eqn:Ec; simpl;
    [|intros Hp; destruct (IH _ _ Hp); auto].
  destruct (StaffMatcher.score_candidates uniform ag d code st l (S n))
    as [rest n'] eqn:Hrest.
  simpl. intros [<-|Hp]; [simpl; auto|].
  destruct (IH (S n) p); [rewrite Hrest; exact Hp|]. auto.
Qed.

Lemma ranked_candidates_sound (uniform : nat -> Q) (ag : StaffMatcher.Agent) (d : Z)
    (code : string) (st : Station) :
  (forall e, In e (fst (StaffMatcher._get_ranked_candidates uniform ag d code st)) ->
             In e (StaffMatcher.employees ag) /\ can_work_station e st = true)
  /\ exists n, snd (StaffMatcher._get_ranked_candidates uniform ag d code st)
               = StaffMatcher.with_draws ag n.
Proof.
  unfold StaffMatcher._get_ranked_candidates.
  pose proof (score_candidates_sound uniform ag d code st (StaffMatcher.employees ag)
                (StaffMatcher.draws ag)) as Hsc.
  destruct (StaffMatcher.score_candidates uniform ag d code st
              (StaffMatcher.employees ag) (StaffMatcher.draws ag)) as [cands n].
  simpl in *. split; [|eauto].
  intros e He. apply in_map_iff in He. destruct He as (p & <- & Hp).
  apply In_sorted_by in Hp. now apply Hsc.
Qed.

Lemma fold_left_invariant {A B : Type} (P : A -> Prop) (f : A -> B -> A) (l : list B) :
  (forall a b, In b l -> P a -> P (f a b)) -> forall a, P a -> P (fold_left f l a).
Proof.
  induction l as [|b l IH]; intros Hstep a Ha; simpl; [exact Ha|].
  apply IH; [intros a' b' Hb'; apply Hstep; now right|].
  apply Hstep; [now left|exact Ha].
Qed.

(** What is true before the auction, and stays true when an employee who
    passes [_can_assign] is assigned, is true of the outcome. *)
Section AuctionInvariant.
Variable uniform : nat -> Q.
Variable staff : list Employee.
Variable the_store : Store.
Variable in_period : Z -> Prop.
Variable P : StaffMatcher.Agent -> Prop.

Hypothesis P_staff : forall ag, P ag -> StaffMatcher.employees ag = staff.
Hypothesis P_store : forall ag, P ag -> StaffMatcher.store ag = the_store.
Hypothesis P_draws : forall ag n, P ag -> P (StaffMatcher.with_draws ag n).
Hypothesis P_assign :
  forall ag e d code st sh,
    P ag -> in_period d -> In e staff -> In code StaffMatcher.shift_priority ->
    In st (get_active_stations the_store) ->
    can_work_station e st = true ->
    StaffMatcher._can_assign ag e d code = true ->
    from_code code d = Some sh ->
    P (StaffMatcher._record_assignment
         (StaffMatcher.with_schedule ag
            (add_assignment (new_Assignment e sh st) (StaffMatcher.schedule ag)))
         e d (new_Assignment e sh st)).

Lemma fill_loop_invariant (d : Z) (code : string) (st : Station) (required : Z)
    (candidates : list Employee) :
  in_period d -> In code StaffMatcher.shift_priority ->
  In st (get_active_stations the_store) ->
  forall (filled : Z) (ag : StaffMatcher.Agent),
    (forall e, In e candidates -> In e staff /\ can_work_station e st = true) ->
    P ag ->
    P (fst (StaffMatcher.fill_loop candidates d code st required filled ag)).
Proof.
  intros Hd Hcode Hst.
  induction candidates as [|e candidates IH]; intros filled ag Hsub Hinv; simpl.
  - exact Hinv.
  - destruct (required <=? filled); [exact Hinv|].
    assert (Hsub' : forall x, In x candidates ->
                              In x staff /\ can_work_station x st = true)
      by (intros x Hx; apply Hsub; now right).
    destruct (StaffMatcher._can_assign ag e d code) eqn:Hcan; [|now apply IH].
    destruct (can_assign_true ag e d code Hcan) as (sh & Hsh & _).
    unfold StaffMatcher._create_assignment. rewrite Hsh.
    apply IH; [exact Hsub'|].
    destruct (Hsub e (or_introl eq_refl)) as [He Hw].
    now apply (P_assign ag e d code st sh).
Qed.

Lemma match_day_invariant (ag : StaffMatcher.Agent) (d : Z) :
  in_period d -> P ag -> P (StaffMatcher._match_day uniform ag d).
Proof.
  intros Hd Hinv. unfold StaffMatcher._match_day.
  rewrite (P_store ag Hinv).
  apply fold_left_invariant; [|exact Hinv].
  intros ag1 code Hcode Hinv1.
  apply fold_left_invariant; [|exact Hinv1].
  intros ag2 st Hst Hinv2.
  destruct (0 <? _); [|exact Hinv2].
  unfold StaffMatcher._fill_station_shift.
  destruct (ranked_candidates_sound uniform ag2 d code st) as [Hsub [n Hn]].
  destruct (StaffMatcher._get_ranked_candidates uniform ag2 d code st) as [cands ag3].
  simpl in Hsub, Hn. subst ag3.
  apply fill_loop_invariant; try assumption.
  - intros e He. rewrite <- (P_staff ag2 Hinv2). now apply Hsub.
  - now apply P_draws.
Qed.

Lemma days_invariant (days : list Z) (ag : StaffMatcher.Agent) :
  (forall d, In d days -> in_period d) -> P ag ->
  P (fold_left (StaffMatcher._match_day uniform) days ag).
Proof.
  intros Hdays. apply fold_left_invariant.
  intros ag1 d Hd. apply match_day_invariant. now apply Hdays.
Qed.
End AuctionInvariant.

(** *** The three shifts of the auction *)

Lemma priority_shift (code : string) (d : Z) (sh : Shift) :
  In code StaffMatcher.shift_priority -> from_code code d = Some sh ->
  date sh = d /\ 390 <= start_time sh /\ end_time sh <= 1380
  /\ ShiftType_value (shift_type sh) = code.
Proof.
  intros [<-|[<-|[<-|[]]]] H; vm_compute in H; inversion H; subst; cbn;
    repeat split; lia.
Qed.

Lemma can_assign_checks (ag : StaffMatcher.Agent) (e : Employee) (d : Z) (code : string)
    (sh : Shift) :
  StaffMatcher._can_assign ag e d code = true -> from_code code d = Some sh ->
  is_available e d code = true
  /\ is_employee_assigned (StaffMatcher.schedule ag) (emp_id e) d = false
  /\ StaffMatcher._check_rest_period ag e sh = true.
Proof.
  unfold StaffMatcher._can_assign. intros H Hsh. rewrite Hsh in H.
  destruct (is_available e d code); [|discriminate]. simpl in H.
  destruct (is_employee_assigned _ _ _); [discriminate|].
  destruct (Qlt_bool _ _); [discriminate|].
  destruct (StaffMatcher._check_rest_period ag e sh); [auto|discriminate].
Qed.

Lemma rest_ok_spec (new_start new_end : Z) (l : list Assignment) :
  StaffMatcher.rest_ok new_start new_end l = true ->
  forall x, In x l ->
    (0 < new_start - get_end_datetime (shift x) -> 600 <= new_start - get_end_datetime (shift x))
    /\ (0 < get_start_datetime (shift x) - new_end
        -> 600 <= get_start_datetime (shift x) - new_end).
Proof.
  assert (Hq : forall z, Qlt_bool 0 (hours_between z 0) && Qlt_bool (hours_between z 0)
                           StaffMatcher.MIN_REST_HOURS = false ->
                         0 < z -> 600 <= z).
  { intros z H Hz. apply andb_false_iff in H. destruct H as [H|H];
      apply Qlt_bool_false in H; unfold hours_between, StaffMatcher.MIN_REST_HOURS,
        Qle in H; simpl in H; lia. }
  induction l as [|a l IH]; simpl; [intros _ x []|].
  destruct (_ && _) eqn:E1; [discriminate|].
  destruct (Qlt_bool 0 (hours_between (get_start_datetime (shift a)) new_end) && _) eqn:E2;
    [discriminate|].
  intros H x [Heq|Hx]; [subst x|now apply IH].
  split; intros Hpos.
  - apply (Hq (new_start - get_end_datetime (shift a))); [|exact Hpos].
    unfold hours_between in *. rewrite Z.sub_0_r. exact E1.
  - apply (Hq (get_start_datetime (shift a) - new_end)); [|exact Hpos].
    unfold hours_between in *. rewrite Z.sub_0_r. exact E2.
Qed.

Lemma assignments_of_add (a : Assignment) (s : Schedule) (i : string) :
  assignments_of (add_assignment a s) i
  = assignments_of s i ++ (if String.eqb (emp_id (employee a)) i then [a] else []).
Proof.
  unfold assignments_of, add_assignment. cbn [assignments].
  rewrite List.filter_app. reflexivity.
Qed.

Lemma not_assigned_no_date (s : Schedule) (i : string) (d : Z) :
  indexed s -> is_employee_assigned s i d = false ->
  ~ In d (map (fun a => date (shift a)) (assignments_of s i)).
Proof.
  intros (_ & He & _) H Hin. unfold is_employee_assigned in H. rewrite He in H.
  apply in_map_iff in Hin. destruct Hin as (a & Hd & Ha).
  assert (Hex : existsb (fun a => date (shift a) =? d)
                  (List.filter (fun y => String.eqb (emp_id (employee y)) i)
                     (assignments s)) = true).
  { apply existsb_exists. exists a. split; [exact Ha|]. now apply Z.eqb_eq. }
  congruence.
Qed.

(** *** The invariant holds throughout *)

Lemma auction_inv_assign (staff : list Employee) (st0 : Store) (first_day last_day : Z)
    (ag : StaffMatcher.Agent) (e : Employee) (d : Z) (code : string) (st : Station)
    (sh : Shift) :
  auction_inv staff st0 first_day last_day ag ->
  first_day <= d <= last_day -> In e staff -> In code StaffMatcher.shift_priority ->
  In st (get_active_stations st0) ->
  can_work_station e st = true ->
  StaffMatcher._can_assign ag e d code = true ->
  from_code code d = Some sh ->
  auction_inv staff st0 first_day last_day
    (StaffMatcher._record_assignment
       (StaffMatcher.with_schedule ag
          (add_assignment (new_Assignment e sh st) (StaffMatcher.schedule ag)))
       e d (new_Assignment e sh st)).
Proof.
  intros (Hemps & Hstore & Hidx & Hfeas & Hone & Hrest) Hd He Hcode Hst Hwork Hcan Hsh.
  destruct (can_assign_checks ag e d code sh Hcan Hsh) as (Hav & Hfree & Hrst).
  destruct (priority_shift code d sh Hcode Hsh) as (Hdate & Hlo & Hhi & _).
  set (a := new_Assignment e sh st).
  set (s := StaffMatcher.schedule ag) in *.
  unfold auction_inv.
  cbn [StaffMatcher._record_assignment StaffMatcher.with_schedule
       StaffMatcher.employees StaffMatcher.store StaffMatcher.schedule].
  fold s.
  assert (Hfa : feasible staff st0 first_day last_day a).
  { unfold feasible, a. cbn [new_Assignment employee shift station]. rewrite Hdate.
    repeat split; try assumption; try lia.
    exists code. repeat split; assumption. }
  assert (Hbounds : forall x, In x (assignments s) ->
                              390 <= start_time (shift x) /\ end_time (shift x) <= 1380).
  { intros x Hx. rewrite List.Forall_forall in Hfeas.
    destruct (Hfeas x Hx) as (_ & _ & _ & _ & c & Hc & Hfc & _).
    destruct (priority_shift c _ _ Hc Hfc) as (_ & H1 & H2 & _). auto. }
  assert (Hchecked : forall x, In x (assignments s) ->
              emp_id (employee x) = emp_id e ->
              (0 < get_start_datetime sh - get_end_datetime (shift x)
               -> 600 <= get_start_datetime sh - get_end_datetime (shift x))
              /\ (0 < get_start_datetime (shift x) - get_end_datetime sh
                  -> 600 <= get_start_datetime (shift x) - get_end_datetime sh)).
  { intros x Hx Hid. unfold StaffMatcher._check_rest_period in Hrst.
    assert (Hin : In x (get_assignments_by_employee s (emp_id e))).
    { destruct Hidx as (_ & Hie & _). rewrite Hie. apply List.filter_In.
      split; [exact Hx|]. rewrite Hid. apply String.eqb_refl. }
    fold s in Hrst.
    destruct (length (get_assignments_by_employee s (emp_id e)) =? 0)%nat eqn:El.
    - apply Nat.eqb_eq in El. apply length_zero_iff_nil in El.
      rewrite El in Hin. destruct Hin.
    - apply (rest_ok_spec _ _ _ Hrst x Hin). }
  repeat split.
  - exact Hemps.
  - exact Hstore.
  - apply add_assignment_indexed. exact Hidx.
  - apply add_assignment_indexed. exact Hidx.
  - apply add_assignment_indexed. exact Hidx.
  - cbn [add_assignment assignments]. apply Forall_app. split; [exact Hfeas|].
    constructor; [exact Hfa|constructor].
  - intros i. rewrite assignments_of_add, map_app.
    change (emp_id (employee a)) with (emp_id e).
    destruct (String.eqb (emp_id e) i) eqn:E; [|rewrite app_nil_r; apply Hone].
    apply String.eqb_eq in E. subst i. cbn [map].
    apply NoDup_snoc; [apply Hone|].
    change (date (shift a)) with (date sh). rewrite Hdate.
    apply not_assigned_no_date; assumption.
  - intros x y Hx Hy Hid Hlt. cbn [add_assignment assignments] in Hx, Hy.
    apply in_app_or in Hx. apply in_app_or in Hy.
    unfold hours_until_next, hours_between, Qle. cbn [Qnum Qden].
    destruct Hx as [Hx|[<-|[]]], Hy as [Hy|[<-|[]]].
    + specialize (Hrest x y Hx Hy Hid Hlt).
      unfold hours_until_next, hours_between, Qle in Hrest. cbn [Qnum Qden] in Hrest.
      exact Hrest.
    + change (shift a) with sh in *. change (employee a) with e in *.
      destruct (Hchecked x Hx Hid) as [H1 _]. destruct (Hbounds x Hx) as [_ Hxe].
      unfold get_start_datetime, get_end_datetime, combine in *. lia.
    + change (shift a) with sh in *. change (employee a) with e in *.
      destruct (Hchecked y Hy (eq_sym Hid)) as [_ H2]. destruct (Hbounds y Hy) as [Hys _].
      unfold get_start_datetime, get_end_datetime, combine in *. lia.
    + lia.
Qed.

Lemma execute_auction_inv (uniform : nat -> Q) (self : StaffMatcher.Agent)
    (staff : list Employee) (st0 : Store) (forecast : gmap Z StaffMatcher.DayForecast)
    (first_day last_day : Z) :
  auction_inv staff st0 first_day last_day
    (StaffMatcher.execute uniform self staff st0 forecast first_day last_day).
Proof.
  unfold StaffMatcher.execute.
  apply (days_invariant uniform staff st0 (fun d => first_day <= d <= last_day)
           (auction_inv staff st0 first_day last_day)).
  - intros ag H. apply H.
  - intros ag H. apply H.
  - intros ag n H. exact H.
  - intros ag e d code st sh. apply auction_inv_assign.
  - intros d Hd. apply list_elem_of_In in Hd. apply elem_of_seqZ in Hd. lia.
  - unfold auction_inv. cbn. repeat split; try constructor.
    intros a b [].
Qed.

(** X17.  Every assignment of the schedule that [StaffMatcherAgent.execute]
    builds is feasible: its employee is one of the staff given, its day lies
    in the period, its station is an active station of the store that the
    employee can work, and its shift is the 1F, 3F or 2F shift of that day,
    for which the employee's availability lists the code.  And no employee
    id has two assignments on one day. *)
Theorem auction_assignments_feasible (uniform : nat -> Q) (self : StaffMatcher.Agent)
    (staff : list Employee) (st0 : Store) (forecast : gmap Z StaffMatcher.DayForecast)
    (first_day last_day : Z) :
  let s := StaffMatcher.schedule
             (StaffMatcher.execute uniform self staff st0 forecast first_day last_day) in
  Forall (feasible staff st0 first_day last_day) (assignments s)
  /\ one_shift_a_day s.
Proof.
  cbv zeta.
  destruct (execute_auction_inv uniform self staff st0 forecast first_day last_day)
    as (_ & _ & _ & Hf & Ho & _).
  split; assumption.
Qed.

(** *** The validator on the auction's schedule *)

Lemma employees_by_id_lookup (staff : list Employee) :
  List.NoDup (map emp_id staff) ->
  forall e, In e staff -> employees_by_id staff !! emp_id e = Some e.
Proof.
  unfold employees_by_id.
  induction staff as [|x staff IH] using rev_ind; intros Hnd e He; [destruct He|].
  rewrite fold_left_app. cbn [fold_left].
  rewrite map_app in Hnd. cbn [map] in Hnd.
  apply in_app_or in He. destruct He as [He|[<-|[]]].
  - assert (Hne : emp_id x <> emp_id e).
    { intros Heq. apply NoDup_remove_2 in Hnd. apply Hnd. rewrite app_nil_r.
      rewrite Heq. now apply in_map. }
    rewrite lookup_insert_ne by exact Hne. apply IH; [|exact He].
    apply NoDup_remove_1 in Hnd. now rewrite app_nil_r in Hnd.
  - apply lookup_insert_eq.
Qed.

(** X18.  The schedule that [StaffMatcherAgent.execute] builds for a staff
    with distinct ids passes two checks of the compliance validator that is
    given the same staff: the availability check and the skill check find
    nothing to report. *)
Theorem auction_passes_availability_and_skill_checks
    (uniform : nat -> Q) (self : StaffMatcher.Agent) (staff : list Employee)
    (st0 : Store) (forecast : gmap Z StaffMatcher.DayForecast) (first_day last_day : Z)
    (set_items : list Station -> list Station) (validator : CV.Agent) :
  List.NoDup (map emp_id staff) ->
  CV.schedule validator
  = StaffMatcher.schedule
      (StaffMatcher.execute uniform self staff st0 forecast first_day last_day) ->
  CV.employees validator = employees_by_id staff ->
  CV.availability_violations validator = []
  /\ CV.skill_violations set_items validator = [].
Proof.
  intros Hnd Hs He.
  destruct (execute_auction_inv uniform self staff st0 forecast first_day last_day)
    as (_ & _ & _ & Hf & _ & _).
  rewrite <- Hs in Hf. rewrite List.Forall_forall in Hf.
  unfold CV.availability_violations, CV.skill_violations. split.
  - apply flat_map_nil. intros a Ha.
    destruct (Hf a Ha) as (Hin & _ & _ & _ & code & Hcode & Hfc & Hav).
    rewrite He, (employees_by_id_lookup staff Hnd _ Hin).
    destruct (priority_shift code _ _ Hcode Hfc) as (_ & _ & _ & ->).
    rewrite Hav. reflexivity.
  - apply flat_map_nil. intros a Ha.
    destruct (Hf a Ha) as (Hin & _ & _ & Hw & _).
    rewrite He, (employees_by_id_lookup staff Hnd _ Hin), Hw. reflexivity.
Qed.

Lemma auction_passes_availability_and_skill_checks_witness :
  CV.availability_violations
    {| CV.schedule := first_week; CV.store := suburban;
       CV.employees := employees_by_id [carol; dave]; CV.demand_forecast := ∅ |} = []
  /\ CV.skill_violations (fun l => l)
       {| CV.schedule := first_week; CV.store := suburban;
          CV.employees := employees_by_id [carol; dave]; CV.demand_forecast := ∅ |} = [].
Proof.
  apply (auction_passes_availability_and_skill_checks (fun _ => 0%Q) idle_matcher
           [carol; dave] suburban kitchen_demand monday (monday + 6)).
  - repeat constructor; simpl; intuition discriminate.
  - reflexivity.
  - reflexivity.
Defined.

Lemma about_all_nil (vs : list Violation) : (forall i, about i vs = []) -> vs = [].
Proof.
  destruct vs as [|v vs]; [reflexivity|]. intros H.
  specialize (H (affected_entity v)). unfold about in H. cbn [List.filter] in H.
  rewrite String.eqb_refl in H. discriminate.
Qed.

Lemma insert_sorted_by_date (y : Assignment) (l : list Assignment) :
  increasing (map (fun a => date (shift a)) l) ->
  ~ In (date (shift y)) (map (fun a => date (shift a)) l) ->
  increasing (map (fun a => date (shift a)) (insert_sorted Validator.key_le y l)).
Proof.
  induction l as [|z l IH]; intros Hl Hy; simpl.
  - split; [intros ? []|exact I].
  - destruct Hl as [Hz Hl].
    assert (Hne : date (shift y) <> date (shift z)) by (intros E; apply Hy; now left).
    destruct (Validator.key_le y z) eqn:E; unfold Validator.key_le in E.
    + assert (Hlt : date (shift y) < date (shift z)).
      { apply orb_true_iff in E. destruct E as [E|E]; [now apply Z.ltb_lt in E|].
        apply andb_true_iff in E. destruct E as [E _]. apply Z.eqb_eq in E. contradiction. }
      cbn [map increasing]. split; [|split; assumption].
      intros w [<-|Hw]; [exact Hlt|]. specialize (Hz w Hw). lia.
    + assert (Hlt : date (shift z) < date (shift y)).
      { apply orb_false_iff in E. destruct E as [E _]. apply Z.ltb_ge in E. lia. }
      cbn [map increasing]. split.
      * intros w Hw. apply in_map_iff in Hw. destruct Hw as (x & <- & Hx).
        apply In_insert_sorted in Hx. destruct Hx as [->|Hx]; [exact Hlt|].
        apply Hz. apply (in_map (fun a => date (shift a))). exact Hx.
      * apply IH; [exact Hl|]. intros Hin. apply Hy. now right.
Qed.

Lemma sorted_by_date (l : list Assignment) :
  List.NoDup (map (fun a => date (shift a)) l) ->
  increasing (map (fun a => date (shift a)) (sorted_by Validator.key_le l)).
Proof.
  induction l as [|y l IH]; intros Hnd; [exact I|].
  cbn [map] in Hnd. inversion Hnd as [|? ? Hy Hl]; subst.
  change (sorted_by Validator.key_le (y :: l))
    with (insert_sorted Validator.key_le y (sorted_by Validator.key_le l)).
  apply insert_sorted_by_date; [now apply IH|].
  intros Hin. apply Hy. apply in_map_iff in Hin. destruct Hin as (x & Hd & Hx).
  apply In_sorted_by in Hx. rewrite <- Hd.
  apply (in_map (fun a => date (shift a))). exact Hx.
Qed.

Lemma consecutive_rest_nil (e : Employee) (i : string) (l : list Assignment) :
  increasing (map (fun a => date (shift a)) l) ->
  (forall x y, In x l -> In y l -> date (shift x) < date (shift y) ->
               (10 <= hours_until_next (shift x) (shift y))%Q) ->
  Validator.consecutive_rest e i l = [].
Proof.
  induction l as [|x l IH]; intros Hinc Hrest; [reflexivity|].
  destruct l as [|y l]; [reflexivity|].
  cbn [Validator.consecutive_rest]. cbn [map increasing] in Hinc.
  destruct Hinc as [Hx Hinc].
  assert (Hlt : date (shift x) < date (shift y)) by (apply Hx; now left).
  assert (Hq : Qlt_bool (hours_until_next (shift x) (shift y))
                 (Zq Validator.min_rest_hours) = false).
  { apply Qlt_bool_false. apply (Hrest x y); [now left|right; now left|exact Hlt]. }
  rewrite Hq. cbn [app]. apply IH; [exact Hinc|].
  intros a b Ha Hb. apply Hrest; now right.
Qed.

(** X19.  The schedule that [StaffMatcherAgent.execute] builds passes the
    rest-period check of the compliance validator, whatever employees the
    validator knows: between two shifts of one employee the auction leaves at
    least the ten hours that the check asks for. *)
Theorem auction_passes_rest_check
    (uniform : nat -> Q) (self : StaffMatcher.Agent) (staff : list Employee)
    (st0 : Store) (forecast : gmap Z StaffMatcher.DayForecast) (first_day last_day : Z)
    (known : gmap string Employee) :
  Validator.rest_violations
    {| Validator.schedule :=
         StaffMatcher.schedule
           (StaffMatcher.execute uniform self staff st0 forecast first_day last_day);
       Validator.employees := known |} = [].
Proof.
  destruct (execute_auction_inv uniform self staff st0 forecast first_day last_day)
    as (_ & _ & _ & _ & Hone & Hrest).
  set (s := StaffMatcher.schedule _) in *.
  apply about_all_nil. intros i. rewrite rest_violations_about.
  cbn [Validator.schedule].
  destruct (assignments_of s i) as [|a0 g] eqn:Eg; [reflexivity|].
  unfold group_violations. cbn [fst snd Validator.employees].
  destruct (known !! i) as [e|]; [|reflexivity].
  assert (Hin : forall x, In x (a0 :: g) ->
                          In x (assignments s) /\ emp_id (employee x) = i).
  { intros x Hx. rewrite <- Eg in Hx. unfold assignments_of in Hx.
    apply List.filter_In in Hx. destruct Hx as [Hx E]. apply String.eqb_eq in E. auto. }
  apply consecutive_rest_nil.
  - apply sorted_by_date. rewrite <- Eg. apply Hone.
  - intros x y Hx Hy Hlt. apply In_sorted_by in Hx. apply In_sorted_by in Hy.
    destruct (Hin x Hx) as [Hxs Hxi]. destruct (Hin y Hy) as [Hys Hyi].
    apply Hrest; [exact Hxs|exact Hys|congruence|exact Hlt].
Qed.

(** ** The rate limiter in general *)

Lemma length_filter_le_filter {A : Type} (f g : A -> bool) (l : list A) :
  (forall x, In x l -> f x = true -> g x = true) ->
  (length (List.filter f l) <= length (List.filter g l))%nat.
Proof.
  induction l as [|x l IH]; intros H; simpl; [lia|].
  assert (IH' := IH (fun y Hy => H y (or_intror Hy))).
  destruct (f x) eqn:Ef.
  - rewrite (H x (or_introl eq_refl) Ef). simpl. lia.
  - destruct (g x); simpl; lia.
Qed.

Lemma length_filter_le {A : Type} (f : A -> bool) (l : list A) :
  (length (List.filter f l) <= length l)%nat.
Proof.
  induction l as [|x l IH]; simpl; [lia|]. destruct (f x); simpl; lia.
Qed.

Lemma acquire_keeps_settings (now : Q) (rl : Config.RateLimiter) :
  Config.max_calls (fst (Config.acquire now rl)) = Config.max_calls rl
  /\ Config.period_seconds (fst (Config.acquire now rl)) = Config.period_seconds rl.
Proof.
  unfold Config.acquire. destruct (_ <=? _); split; reflexivity.
Qed.

(** The grants so far, [G], are all on record as long as they can fall in a
    window with the latest reading, [last]. *)
Lemma window_bound (times : list Q) :
  forall (rl : Config.RateLimiter) (G : list Q) (last : Q),
    (forall t, In t times -> (last <= t)%Q) ->
    nondecreasing times ->
    (forall w, (last - w < Config.period_seconds rl)%Q ->
               (length (List.filter (Qle_bool w) G)
                <= length (List.filter (Qle_bool w) (Config.calls rl)))%nat) ->
    (forall w, Z.of_nat (length (List.filter (in_window w (Config.period_seconds rl)) G))
               <= Z.max 0 (Config.max_calls rl)) ->
    forall w,
      Z.of_nat (length (List.filter (in_window w (Config.period_seconds rl))
                          (G ++ granted times (snd (Config.acquire_all times rl)))))
      <= Z.max 0 (Config.max_calls rl).
Proof.
  induction times as [|now rest IH]; intros rl G last Hlast Hnd Hrec Hwin w.
  - cbn. rewrite app_nil_r. apply Hwin.
  - destruct Hnd as [Hnow Hnd].
    assert (Hln : (last <= now)%Q) by (apply Hlast; now left).
    set (p := Config.period_seconds rl) in *.
    set (kept := Config.prune now rl).
    assert (Hkept : forall w0, (now - w0 < p)%Q ->
              (length (List.filter (Qle_bool w0) G)
               <= length (List.filter (Qle_bool w0) kept))%nat).
    { intros w0 Hw0. etransitivity; [apply Hrec; lra|].
      unfold kept, Config.prune. fold p.
      clear - Hw0. induction (Config.calls rl) as [|c l IHl]; simpl; [lia|].
      destruct (Qle_bool w0 c) eqn:Ec.
      - assert (Hk : Qlt_bool (now - c) p = true).
        { apply Qlt_bool_true. apply Qle_bool_iff in Ec. lra. }
        rewrite Hk. simpl. rewrite Ec. simpl. lia.
      - destruct (Qlt_bool (now - c) p); simpl; [rewrite Ec|]; lia. }
    cbn [Config.acquire_all]. unfold Config.acquire. fold kept.
    destruct (Config.max_calls rl <=? Z.of_nat (length kept)) eqn:Efull.
    + destruct (Config.acquire_all rest (Config.with_calls rl kept)) as [rl2 oks] eqn:Erest.
      cbn [snd]. unfold granted. cbn [List.combine List.filter snd map].
      fold (granted rest oks).
      replace oks with (snd (Config.acquire_all rest (Config.with_calls rl kept)))
        by (rewrite Erest; reflexivity).
      apply (IH (Config.with_calls rl kept) G now); try assumption.
    + apply Z.leb_gt in Efull.
      destruct (Config.acquire_all rest (Config.with_calls rl (kept ++ [now])))
        as [rl2 oks] eqn:Erest.
      cbn [snd]. unfold granted. cbn [List.combine List.filter snd map fst].
      fold (granted rest oks).
      replace oks
        with (snd (Config.acquire_all rest (Config.with_calls rl (kept ++ [now]))))
        by (rewrite Erest; reflexivity).
      replace (G ++ now :: granted rest
                 (snd (Config.acquire_all rest (Config.with_calls rl (kept ++ [now])))))
        with ((G ++ [now]) ++ granted rest
                 (snd (Config.acquire_all rest (Config.with_calls rl (kept ++ [now])))))
        by (rewrite <- app_assoc; reflexivity).
      apply (IH (Config.with_calls rl (kept ++ [now])) (G ++ [now]) now);
        try assumption.
      * intros w0 Hw0. cbn [Config.with_calls Config.calls Config.period_seconds] in *.
        rewrite !List.filter_app, !length_app. specialize (Hkept w0 Hw0). lia.
      * intros w0. cbn [Config.with_calls Config.max_calls Config.period_seconds].
        fold p. rewrite List.filter_app, length_app. cbn [List.filter].
        destruct (in_window w0 p now) eqn:Ein; cbn [length]; [|specialize (Hwin w0); lia].
        unfold in_window in Ein. apply andb_true_iff in Ein. destruct Ein as [E1 E2].
        apply Qle_bool_iff in E1. apply Qlt_bool_true in E2.
        assert (H1 : (length (List.filter (in_window w0 p) G)
                      <= length (List.filter (Qle_bool w0) G))%nat).
        { apply length_filter_le_filter. intros x _ Hx. unfold in_window in Hx.
          apply andb_true_iff in Hx. apply Hx. }
        assert (H2 := Hkept w0 ltac:(lra)).
        assert (H3 := length_filter_le (Qle_bool w0) kept).
        lia.
Qed.

(** X20.  Whatever the limiter has on record and whatever its settings, over
    a run of [acquire] calls whose clock readings do not go backwards the
    calls that were let through number at most [max_calls] in every window of
    [period_seconds] (and none at all if [max_calls] is not positive). *)
Theorem rate_limit_holds_in_every_window (rl : Config.RateLimiter) (times : list Q)
    (w : Q) :
  nondecreasing times ->
  Z.of_nat (length (List.filter (in_window w (Config.period_seconds rl))
                      (granted times (snd (Config.acquire_all times rl)))))
  <= Z.max 0 (Config.max_calls rl).
Proof.
  intros Hnd. destruct times as [|t0 rest]; [cbn; lia|].
  apply (window_bound (t0 :: rest) rl [] t0).
  - intros t [<-|Ht]; [lra|]. destruct Hnd as [H _]. now apply H.
  - exact Hnd.
  - intros w0 _. cbn. lia.
  - intros w0. cbn. lia.
Qed.

Lemma rate_limit_holds_in_every_window_witness :
  Z.of_nat (length (List.filter (in_window 0 60)
                      (granted [0; 10; 20; 30]%Q
                         (snd (Config.acquire_all [0; 10; 20; 30]%Q
                                 (Config.new_RateLimiter 2 60))))))
  <= Z.max 0 2.
Proof.
  apply (rate_limit_holds_in_every_window (Config.new_RateLimiter 2 60)
           [0; 10; 20; 30]%Q 0%Q).
  simpl. repeat split; intros y Hy; simpl in Hy;
    repeat (destruct Hy as [<-|Hy]; [unfold Qle; simpl; lia|]); destruct Hy.
Defined.

(** *** Waiting for the limiter *)

Lemma prune_of_prune (now now' : Q) (rl : Config.RateLimiter) (t : Q) :
  In t (Config.calls (fst (Config.acquire now rl))) ->
  snd (Config.acquire now rl) = false ->
  In t (Config.calls rl).
Proof.
  unfold Config.acquire. destruct (_ <=? _); cbn; [|discriminate].
  intros H _. unfold Config.prune in H. apply List.filter_In in H. apply H.
Qed.

Lemma wait_from (N : nat) (clock : nat -> Q) :
  forall (n : nat) (rl : Config.RateLimiter) (t0 : Q),
    1 <= Config.max_calls rl ->
    (forall t, In t (Config.calls rl) -> (t <= t0)%Q) ->
    (forall k, (clock k + (1 # 2) <= clock (S k))%Q) ->
    (t0 + Config.period_seconds rl <= clock (n + N)%nat)%Q ->
    exists rl' k, (n < k <= S (n + N))%nat
                  /\ RateLimiter.wait_if_needed (S N) clock n rl = Some (rl', k).
Proof.
  induction N as [|N IH]; intros n rl t0 Hm Hpast Hclock Hlate.
  - rewrite Nat.add_0_r in Hlate. cbn [RateLimiter.wait_if_needed].
    unfold Config.acquire.
    assert (Hnil : Config.prune (clock n) rl = []).
    { unfold Config.prune. apply filter_none. intros t Ht.
      apply Qlt_bool_false. specialize (Hpast t Ht). lra. }
    rewrite Hnil. cbn [length].
    destruct (Config.max_calls rl <=? Z.of_nat 0) eqn:E; [apply Z.leb_le in E; lia|].
    eexists. exists (S n). split; [lia|reflexivity].
  - change (RateLimiter.wait_if_needed (S (S N)) clock n rl)
      with (let '(rl1, ok) := Config.acquire (clock n) rl in
            if ok then Some (rl1, S n)
            else RateLimiter.wait_if_needed (S N) clock (S n) rl1).
    destruct (Config.acquire (clock n) rl) as [rl1 ok] eqn:Eacq.
    destruct ok.
    + exists rl1, (S n). split; [lia|reflexivity].
    + destruct (acquire_keeps_settings (clock n) rl) as [Hmax Hper].
      rewrite Eacq in Hmax, Hper. cbn [fst] in Hmax, Hper.
      destruct (IH (S n) rl1 t0) as (rl' & k & Hk & Hw).
      * lia.
      * intros t Ht. apply Hpast.
        apply (prune_of_prune (clock n) (clock n) rl t); rewrite Eacq; [exact Ht|reflexivity].
      * exact Hclock.
      * rewrite Hper. replace (S n + N)%nat with (n + S N)%nat by lia. exact Hlate.
      * exists rl', k. split; [lia|exact Hw].
Qed.

Lemma clock_advances (clock : nat -> Q) (N : nat) :
  (forall k, (clock k + (1 # 2) <= clock (S k))%Q) ->
  (clock 0%nat + inject_Z (Z.of_nat N) * (1 # 2) <= clock N)%Q.
Proof.
  intros H. induction N as [|N IH].
  - change (inject_Z (Z.of_nat 0)) with 0%Q. lra.
  - specialize (H N). rewrite Nat2Z.inj_succ. unfold Z.succ. rewrite inject_Z_plus.
    change (inject_Z 1) with 1%Q. lra.
Qed.

Lemma wait_never (fuel : nat) (clock : nat -> Q) :
  forall (n : nat) (rl : Config.RateLimiter),
    Config.max_calls rl <= 0 -> RateLimiter.wait_if_needed fuel clock n rl = None.
Proof.
  induction fuel as [|fuel IH]; intros n rl Hm; [reflexivity|].
  cbn [RateLimiter.wait_if_needed]. unfold Config.acquire.
  destruct (Config.max_calls rl <=? _) eqn:E; [|apply Z.leb_gt in E; lia].
  apply IH. exact Hm.
Qed.

(** X21.  [wait_if_needed] on a limiter that allows at least one call, whose
    recorded calls are not later than the first clock reading, returns after
    at most [N + 1] calls of [acquire] when the clock gains at least the
    half second of the sleep between two of them and [N] half seconds make
    up the period.  On a limiter whose [max_calls] is not positive it never
    returns, however long it runs. *)
Theorem wait_if_needed_returns (rl : Config.RateLimiter) (clock : nat -> Q) (N : nat) :
  (1 <= Config.max_calls rl ->
   (forall t, In t (Config.calls rl) -> (t <= clock 0%nat)%Q) ->
   (forall k, (clock k + (1 # 2) <= clock (S k))%Q) ->
   (Config.period_seconds rl <= inject_Z (Z.of_nat N) * (1 # 2))%Q ->
   exists rl' k, (1 <= k <= N + 1)%nat
                 /\ forall fuel, (N + 1 <= fuel)%nat ->
                      RateLimiter.wait_if_needed fuel clock 0 rl = Some (rl', k))
  /\ (Config.max_calls rl <= 0 ->
      forall fuel, RateLimiter.wait_if_needed fuel clock 0 rl = None).
Proof.
  split.
  - intros Hm Hpast Hclock Hper.
    destruct (wait_from N clock 0%nat rl (clock 0%nat) Hm Hpast Hclock) as (rl' & k & Hk & Hw).
    { pose proof (clock_advances clock N Hclock). simpl. lra. }
    exists rl', k. split; [lia|].
    intros fuel Hfuel.
    assert (Hmono : forall f1 n r res,
               RateLimiter.wait_if_needed f1 clock n r = Some res ->
               forall f2, (f1 <= f2)%nat ->
                          RateLimiter.wait_if_needed f2 clock n r = Some res).
    { induction f1 as [|f1 IHf]; intros n r res H1 f2 Hle; [discriminate|].
      destruct f2 as [|f2]; [lia|]. cbn [RateLimiter.wait_if_needed] in *.
      destruct (Config.acquire (clock n) r) as [r1 ok]. destruct ok; [exact H1|].
      apply (IHf _ _ _ H1). lia. }
    apply (Hmono (S N)); [exact Hw|lia].
  - intros Hm fuel. now apply wait_never.
Qed.

Lemma wait_if_needed_returns_witness :
  exists rl' k,
    (1 <= k <= 2 + 1)%nat
    /\ forall fuel, (2 + 1 <= fuel)%nat ->
         RateLimiter.wait_if_needed fuel (fun n => inject_Z (Z.of_nat n) * (1 # 2))%Q 0
           (Config.with_calls (Config.new_RateLimiter 1 1) [0%Q])
         = Some (rl', k).
Proof.
  apply (proj1 (wait_if_needed_returns
                  (Config.with_calls (Config.new_RateLimiter 1 1) [0%Q])
                  (fun n => inject_Z (Z.of_nat n) * (1 # 2))%Q 2)).
  - simpl. lia.
  - intros t [<-|[]]. vm_compute. discriminate.
  - intros k. rewrite Nat2Z.inj_succ. unfold Z.succ. rewrite inject_Z_plus.
    change (inject_Z 1) with 1%Q. lra.
  - vm_compute. discriminate.
Defined.

(** ** Retrying with backoff *)

Module RW := RetryWithBackoff.

Section Retrying.
Context {A E : Type}.
Variable max_retries : Z.
Variable base_delay max_delay exponential_base : Q.
Variable catches : E -> bool.
Variable func : nat -> A + E.

Lemma float_max_pos : (0 < RW.float_max)%Q.
Proof. reflexivity. Qed.

Lemma delay_nonneg (attempt : Z) :
  (0 <= base_delay)%Q -> (0 <= max_delay)%Q -> (0 <= exponential_base)%Q ->
  Qlt_bool (RW.delay base_delay max_delay exponential_base attempt) 0 = false.
Proof.
  intros Hb Hm He. apply Qlt_bool_false. unfold RW.delay, py_min.
  destruct (Qlt_bool _ _); [exact Hm|].
  apply Qmult_le_0_compat; [exact Hb|]. now apply Qpower_0_le.
Qed.

Lemma delay_bounded (attempt : Z) :
  (RW.delay base_delay max_delay exponential_base attempt <= max_delay)%Q.
Proof.
  unfold RW.delay, py_min. destruct (Qlt_bool _ _) eqn:Eq; [lra|].
  now apply Qlt_bool_false in Eq.
Qed.

(** When the numbers are in range, neither the power nor the sleep of a
    retry raises. *)
Lemma retry_in_range (attempt : Z) :
  (0 <= base_delay)%Q -> (0 <= max_delay <= RW.sleep_max)%Q ->
  (0 <= exponential_base)%Q ->
  (exponential_base ^ attempt <= RW.float_max)%Q ->
  RW.overflows (exponential_base ^ attempt) = false
  /\ Qlt_bool (RW.delay base_delay max_delay exponential_base attempt) 0
     || Qlt_bool RW.sleep_max (RW.delay base_delay max_delay exponential_base attempt)
     = false.
Proof.
  intros Hb [Hm Hs] He Hp. split.
  - unfold RW.overflows. apply orb_false_iff. split; apply Qlt_bool_false; [exact Hp|].
    pose proof float_max_pos. pose proof (Qpower_0_le exponential_base attempt He). lra.
  - apply orb_false_iff. split; [apply delay_nonneg; assumption|].
    apply Qlt_bool_false. pose proof (delay_bounded attempt). lra.
Qed.

Section InRange.
Hypothesis base_delay_nonneg : (0 <= base_delay)%Q.
Hypothesis max_delay_in_range : (0 <= max_delay <= RW.sleep_max)%Q.
Hypothesis base_nonneg : (0 <= exponential_base)%Q.

(** [k] failing calls in a row, each followed by its sleep, from the
    attempt [s] on. *)
Lemma attempts_retried (k : nat) :
  forall (s : Z) (n : nat) (slept : list Q) (last : option E) (len : Z),
    Z.of_nat k <= len -> s + Z.of_nat k <= max_retries ->
    (forall i, s <= i < s + Z.of_nat k -> (exponential_base ^ i <= RW.float_max)%Q) ->
    (forall j, (j < k)%nat -> exists e, func (n + j)%nat = inr e /\ catches e = true) ->
    exists last',
      (k = 0%nat -> last' = last)
      /\ (forall j, k = S j -> exists e, func (n + j)%nat = inr e /\ last' = Some e)
      /\ RW.attempts max_retries base_delay max_delay exponential_base catches func
           (seqZ s len) n slept last
         = RW.attempts max_retries base_delay max_delay exponential_base catches func
             (seqZ (s + Z.of_nat k) (len - Z.of_nat k)) (n + k) 
             (slept ++ map (RW.delay base_delay max_delay exponential_base)
                        (seqZ s (Z.of_nat k)))
             last'.
Proof.
  induction k as [|k IH]; intros s n slept last len Hlen Hmax Hpow Hfail.
  - exists last. split; [reflexivity|]. split; [intros j Hj; discriminate|].
    change (Z.of_nat 0) with 0. rewrite Z.add_0_r, Z.sub_0_r, Nat.add_0_r.

    rewrite (seqZ_nil s 0) by lia. cbn [map]. now rewrite app_nil_r.
  - destruct (Hfail 0%nat ltac:(lia)) as (e & Hfirst & Hc).
    rewrite Nat.add_0_r in Hfirst.
    destruct (IH (Z.succ s) (S n)
                (slept ++ [RW.delay base_delay max_delay exponential_base s])
                (Some e) (Z.pred len))
      as (last' & H0 & HS & Hrun).
    + lia.
    + lia.
    + intros i Hi. apply Hpow. lia.
    + intros j Hj. replace (S n + j)%nat with (n + S j)%nat by lia. apply Hfail. lia.
    + exists last'. split; [intros Hk; discriminate|]. split.
      * intros j Hj. injection Hj as <-. destruct k as [|k'].
        -- exists e. rewrite Nat.add_0_r. split; [exact Hfirst|]. now apply H0.
        -- destruct (HS k' eq_refl) as (e' & He' & Hl). exists e'.
           replace (n + S k')%nat with (S n + k')%nat by lia. now split.
      * rewrite (seqZ_cons s len) by lia. cbn [RW.attempts].
        rewrite Hfirst, Hc.
        destruct (s <? max_retries) eqn:Es; [|apply Z.ltb_ge in Es; lia].
        destruct (retry_in_range s base_delay_nonneg max_delay_in_range base_nonneg)
          as [Ho Hsl]; [apply Hpow; lia|].
        rewrite Ho, Hsl, Hrun.
        rewrite (seqZ_cons s (Z.of_nat (S k))) by lia.
        replace (Z.pred (Z.of_nat (S k))) with (Z.of_nat k) by lia.
        cbn [map]. rewrite <- app_assoc. cbn [app].
        replace (Z.succ s + Z.of_nat k) with (s + Z.of_nat (S k)) by lia.
        replace (Z.pred len - Z.of_nat k) with (len - Z.of_nat (S k)) by lia.
        replace (S n + k)%nat with (n + S k)%nat by lia. reflexivity.
Qed.
End InRange.

Lemma attempts_bounds (m : nat) :
  forall (s : Z) (n : nat) (slept : list Q) (last : option E),
    s + Z.of_nat m = max_retries + 1 ->
    let r := (RW.attempts max_retries base_delay max_delay exponential_base catches func)
        (seqZ s (Z.of_nat m)) n slept last in
    (n <= RW.calls_made r <= n + m)%nat
    /\ ((1 <= m)%nat -> (S n <= RW.calls_made r)%nat)
    /\ exists extra, RW.sleeps r = slept ++ extra
                     /\ (length extra <= Nat.pred (RW.calls_made r - n))%nat
                     /\ Forall (fun d => (d <= max_delay)%Q) extra.
Proof.
  cbv zeta. induction m as [|m IH]; intros s n slept last Hs.
  - rewrite seqZ_nil by lia. cbn [RW.attempts RW.calls_made RW.sleeps].
    split; [lia|]. split; [lia|]. exists []. rewrite app_nil_r.
    repeat split; [cbn [length]; lia|constructor].
  - rewrite seqZ_cons by lia. cbn [RW.attempts].
    replace (Z.pred (Z.of_nat (S m))) with (Z.of_nat m) by lia.
    destruct (func n) as [a|e].
    + cbn [RW.calls_made RW.sleeps].
      split; [lia|]. split; [lia|]. exists []. rewrite app_nil_r.
      repeat split; [cbn [length]; lia|constructor].
    + destruct (catches e).
      2:{ cbn [RW.calls_made RW.sleeps].
          split; [lia|]. split; [lia|]. exists []. rewrite app_nil_r.
          repeat split; [cbn [length]; lia|constructor]. }
      destruct (s <? max_retries) eqn:Es.
      * apply Z.ltb_lt in Es.
        destruct (RW.overflows _).
        { cbn [RW.calls_made RW.sleeps].
          split; [lia|]. split; [lia|]. exists []. rewrite app_nil_r.
          repeat split; [cbn [length]; lia|constructor]. }
        destruct (_ || _).
        { cbn [RW.calls_made RW.sleeps].
          split; [lia|]. split; [lia|]. exists []. rewrite app_nil_r.
          repeat split; [cbn [length]; lia|constructor]. }
        destruct (IH (Z.succ s) (S n) (slept ++ [(RW.delay base_delay max_delay
            exponential_base) s]) (Some e) ltac:(lia))
          as (Hc & Hone & extra & Hsl & Hlen & Hall).
        specialize (Hone ltac:(lia)).
        split; [lia|]. split; [lia|].
        exists ((RW.delay base_delay max_delay exponential_base) s :: extra). rewrite Hsl, <-
            app_assoc.
        repeat split.
        -- cbn [length]. lia.
        -- constructor; [apply delay_bounded|exact Hall].
      * destruct (IH (Z.succ s) (S n) slept (Some e) ltac:(lia))
          as (Hc & Hone & extra & Hsl & Hlen & Hall).
        split; [lia|]. split; [lia|].
        exists extra. repeat split; [exact Hsl|lia|exact Hall].
Qed.
End Retrying.

(** X22.  The wrapper of [retry_with_backoff] returns what the first call of
    the function that does not raise returns, when that is the call number
    [k] (from 0) with [k] at most [max_retries], the calls before it raised
    exceptions of the kinds to retry, and the numbers are in range: the two
    delays and the base are not negative, [max_delay] is a length that
    [time.sleep] takes, and the powers [exponential_base ** i] for [i]
    below [k] do not go beyond the largest float.  The function has then
    been called [k + 1] times, and between the calls the wrapper slept
    [min(base_delay * exponential_base ** i, max_delay)] for [i] from 0 to
    [k - 1], in this order. *)
Theorem retry_returns_first_success {A E : Type} (max_retries : Z)
    (base_delay max_delay exponential_base : Q) (catches : E -> bool)
    (func : nat -> A + E) (k : nat) (a : A) :
  (0 <= base_delay)%Q -> (0 <= max_delay <= RW.sleep_max)%Q ->
  (0 <= exponential_base)%Q ->
  (forall i, 0 <= i < Z.of_nat k -> (exponential_base ^ i <= RW.float_max)%Q) ->
  Z.of_nat k <= max_retries ->
  func k = inl a ->
  (forall j, (j < k)%nat -> exists e, func j = inr e /\ catches e = true) ->
  RW.wrapper max_retries base_delay max_delay exponential_base catches func
  = {| RW.outcome_of := RW.Returned a;
       RW.calls_made := S k;
       RW.sleeps := map (RW.delay base_delay max_delay exponential_base)
                      (seqZ 0 (Z.of_nat k)) |}.
Proof.
  intros Hb Hm He Hpow Hk Hok Hfail. unfold RW.wrapper.
  destruct (attempts_retried max_retries base_delay max_delay exponential_base catches
              func Hb Hm He k 0 0%nat [] None (max_retries + 1))
    as (last' & _ & _ & Hrun).
  - lia.
  - lia.
  - intros i Hi. apply Hpow. lia.
  - intros j Hj. apply Hfail. exact Hj.
  - rewrite Hrun. cbn [Nat.add app Z.add].
    rewrite seqZ_cons by lia. cbn [RW.attempts]. rewrite Hok. reflexivity.
Qed.

Lemma retry_returns_first_success_witness :
  RW.wrapper 3 1 30 2 (fun _ : unit => true)
    (fun n => if (n <? 2)%nat then inr tt else inl 7)
  = {| RW.outcome_of := RW.Returned 7; RW.calls_made := 3;
       RW.sleeps := map (RW.delay 1 30 2) (seqZ 0 2) |}.
Proof.
  apply (retry_returns_first_success 3 1 30 2 (fun _ : unit => true)
           (fun n => if (n <? 2)%nat then inr tt else inl 7) 2 7).
  - vm_compute. discriminate.
  - split; vm_compute; discriminate.
  - vm_compute. discriminate.
  - intros i Hi. assert (Hc : i = 0 \/ i = 1) by lia.
    destruct Hc as [-> | ->]; vm_compute; discriminate.
  - simpl. lia.
  - reflexivity.
  - intros j Hj. exists tt. split; [|reflexivity].
    destruct j as [|[|j]]; [reflexivity|reflexivity|lia].
Defined.

(** X23.  When every call raises an exception of the kinds to retry and the
    numbers are in range (the two delays and the base are not negative,
    [max_delay] is a length that [time.sleep] takes, and the powers
    [exponential_base ** i] for [i] below [max_retries] do not go beyond
    the largest float), the wrapper of [retry_with_backoff] with
    [max_retries] from 0 calls the function [max_retries + 1] times, sleeps
    [max_retries] times (not after the last failure) and raises the
    exception of the last call.  When instead the power of the retry [j]
    below [max_retries] is the first that goes beyond the floats (it is at
    least [2 ** 1024]), the wrapper ends in the [OverflowError] of that
    power, after [j + 1] calls and [j] sleeps.  With a negative [max_retries] it does not call
    the function at all and ends in the [TypeError] of [raise None]. *)
Theorem retry_gives_up {A E : Type} (max_retries : Z)
    (base_delay max_delay exponential_base : Q) (catches : E -> bool)
    (func : nat -> A + E) :
  (0 <= max_retries ->
   (0 <= base_delay)%Q -> (0 <= max_delay <= RW.sleep_max)%Q ->
   (0 <= exponential_base)%Q ->
   (forall i, 0 <= i < max_retries -> (exponential_base ^ i <= RW.float_max)%Q) ->
   (forall j, (j <= Z.to_nat max_retries)%nat ->
              exists e, func j = inr e /\ catches e = true) ->
   exists e, func (Z.to_nat max_retries) = inr e
             /\ RW.wrapper max_retries base_delay max_delay exponential_base catches func
                = {| RW.outcome_of := RW.Raised e;
                     RW.calls_made := S (Z.to_nat max_retries);
                     RW.sleeps := map (RW.delay base_delay max_delay exponential_base)
                                    (seqZ 0 max_retries) |})
  /\ (forall j : nat,
        Z.of_nat j < max_retries ->
        (0 <= base_delay)%Q -> (0 <= max_delay <= RW.sleep_max)%Q ->
        (0 <= exponential_base)%Q ->
        (forall i, 0 <= i < Z.of_nat j -> (exponential_base ^ i <= RW.float_max)%Q) ->
        (RW.float_overflow <= exponential_base ^ Z.of_nat j)%Q ->
        (forall i, (i <= j)%nat -> exists e, func i = inr e /\ catches e = true) ->
        RW.wrapper max_retries base_delay max_delay exponential_base catches func
        = {| RW.outcome_of := RW.PowerRaised;
             RW.calls_made := S j;
             RW.sleeps := map (RW.delay base_delay max_delay exponential_base)
                            (seqZ 0 (Z.of_nat j)) |})
  /\ (max_retries < 0 ->
      RW.wrapper max_retries base_delay max_delay exponential_base catches func
      = {| RW.outcome_of := RW.RaisedNone; RW.calls_made := 0; RW.sleeps := [] |}).
Proof.
  split; [|split].
  - intros Hm Hb Hd He Hpow Hfail. unfold RW.wrapper.
    destruct (attempts_retried max_retries base_delay max_delay exponential_base catches
                func Hb Hd He (Z.to_nat max_retries) 0 0%nat [] None (max_retries + 1))
      as (last' & _ & _ & Hrun).
    + lia.
    + lia.
    + intros i Hi. apply Hpow. lia.
    + intros j Hj. apply Hfail. lia.
    + destruct (Hfail (Z.to_nat max_retries) ltac:(lia)) as (e & Hlast & Hc).
      exists e. split; [exact Hlast|].
      rewrite Hrun. cbn [Nat.add app Z.add]. rewrite Z2Nat.id by lia.
      replace (max_retries + 1 - max_retries) with 1 by lia.
      rewrite Z.add_0_l, (seqZ_cons max_retries 1) by lia. cbn [RW.attempts].
      rewrite Hlast, Hc, Z.ltb_irrefl. rewrite seqZ_nil by lia. reflexivity.
  - intros j Hj Hb Hd He Hpow Hover Hfail. unfold RW.wrapper.
    destruct (attempts_retried max_retries base_delay max_delay exponential_base catches
                func Hb Hd He j 0 0%nat [] None (max_retries + 1))
      as (last' & _ & _ & Hrun).
    + lia.
    + lia.
    + intros i Hi. apply Hpow. lia.
    + intros i Hi. apply Hfail. lia.
    + rewrite Hrun. cbn [Nat.add app Z.add].
      rewrite Z.add_0_l, seqZ_cons by lia. cbn [RW.attempts].
      destruct (Hfail j ltac:(lia)) as (e & Hlast & Hc). rewrite Hlast, Hc.
      destruct (Z.of_nat j <? max_retries) eqn:Ej; [|apply Z.ltb_ge in Ej; lia].
      assert (Ho : RW.overflows (exponential_base ^ Z.of_nat j) = true).
      { unfold RW.overflows. apply orb_true_iff. left. apply Qlt_bool_true.
        apply (Qlt_le_trans _ RW.float_overflow); [reflexivity|exact Hover]. }
      rewrite Ho. reflexivity.
  - intros Hm. unfold RW.wrapper. rewrite seqZ_nil by lia. reflexivity.
Qed.

Lemma retry_gives_up_witness :
  (exists e : unit,
    (fun _ : nat => @inr nat unit tt) (Z.to_nat 2) = inr e
    /\ RW.wrapper 2 1 30 2 (fun _ : unit => true) (fun _ : nat => @inr nat unit tt)
       = {| RW.outcome_of := RW.Raised e; RW.calls_made := S (Z.to_nat 2);
            RW.sleeps := map (RW.delay 1 30 2) (seqZ 0 2) |})
  /\ RW.wrapper 1030 1 30 2 (fun _ : unit => true) (fun _ : nat => @inr nat unit tt)
     = {| RW.outcome_of := RW.PowerRaised; RW.calls_made := 1025;
          RW.sleeps := map (RW.delay 1 30 2) (seqZ 0 1024) |}.
Proof.
  split.
  - apply (proj1 (retry_gives_up 2 1 30 2 (fun _ : unit => true)
                    (fun _ : nat => @inr nat unit tt))).
    + lia.
    + vm_compute. discriminate.
    + split; vm_compute; discriminate.
    + vm_compute. discriminate.
    + intros i Hi. assert (Hc : i = 0 \/ i = 1) by lia.
      destruct Hc as [-> | ->]; vm_compute; discriminate.
    + intros j _. exists tt. split; reflexivity.
  - apply (proj1 (proj2 (retry_gives_up 1030 1 30 2 (fun _ : unit => true)
                           (fun _ : nat => @inr nat unit tt))) 1024%nat).
    + vm_compute. reflexivity.
    + vm_compute. discriminate.
    + split; vm_compute; discriminate.
    + vm_compute. discriminate.
    + intros i Hi. change 2%Q with (inject_Z 2). rewrite <- Zpower_Qpower by lia.
      unfold RW.float_max, Zq. rewrite <- Zle_Qle.
      apply (Z.le_trans _ (2 ^ 1023)); [apply Z.pow_le_mono_r; lia|].
      apply Z.leb_le. vm_compute. reflexivity.
    + vm_compute. discriminate.
    + intros i _. exists tt. split; reflexivity.
Defined.

(** X24.  Whatever the wrapped function does, the wrapper of
    [retry_with_backoff] calls it at most [max_retries + 1] times, sleeps
    only between two calls (so fewer times than it calls), and never sleeps
    longer than [max_delay] at a time. *)
Theorem retry_is_bounded {A E : Type} (max_retries : Z)
    (base_delay max_delay exponential_base : Q) (catches : E -> bool)
    (func : nat -> A + E) :
  let r := RW.wrapper max_retries base_delay max_delay exponential_base catches func in
  (RW.calls_made r <= Z.to_nat (max_retries + 1))%nat
  /\ (length (RW.sleeps r) <= Nat.pred (RW.calls_made r))%nat
  /\ Forall (fun d => (d <= max_delay)%Q) (RW.sleeps r).
Proof.
  cbv zeta. unfold RW.wrapper.
  destruct (Z_lt_le_dec max_retries 0) as [Hneg|Hpos].
  - rewrite seqZ_nil by lia. cbn. repeat split; [lia|lia|constructor].
  - destruct (attempts_bounds max_retries base_delay max_delay exponential_base
                catches func (Z.to_nat (max_retries + 1)) 0 0%nat [] None)
      as (Hc & _ & extra & Hsl & Hlen & Hall); [lia|].
    rewrite Z2Nat.id in Hc, Hsl, Hlen by lia.
    rewrite Hsl. cbn [app]. repeat split; [lia|lia|exact Hall].
Qed.

(** ** Applying a resolution to a consistent schedule *)

Lemma apply_change_indexed (c : ConflictResolver.Change) (s : Schedule) :
  indexed s ->
  snd (ConflictResolver.apply_change c s) = Returns tt
  /\ indexed (fst (ConflictResolver.apply_change c s)).
Proof.
  intros Hidx. unfold ConflictResolver.apply_change.
  destruct (ConflictResolver.is_type c "swap").
  { destruct (ConflictResolver.change_assignment c) as [a|]; [|auto].
    destruct (ConflictResolver.change_new_employee c) as [e|]; [|auto].
    destruct (remove_assignment_indexed a s Hidx) as (b & Hret & Hidx').
    destruct (remove_assignment a s) as [s1 o]. cbn [fst snd] in *. subst o.
    cbn [fst snd]. split; [reflexivity|]. now apply add_assignment_indexed. }
  destruct (ConflictResolver.is_type c "remove").
  { destruct (ConflictResolver.change_assignment c) as [a|]; [|auto].
    destruct (remove_assignment_indexed a s Hidx) as (b & Hret & Hidx').
    destruct (remove_assignment a s) as [s1 o]. cbn [fst snd] in *. subst o.
    cbn [fst snd]. auto. }
  destruct (ConflictResolver.is_type c "add").
  { destruct (ConflictResolver.change_employee c) as [e|]; [|auto].
    destruct (ConflictResolver.change_date c) as [d|]; [|auto].
    destruct (ConflictResolver.change_shift_code c) as [code|]; [|auto].
    destruct (ConflictResolver.change_station c) as [st|]; [|auto].
    destruct (String.eqb code ""); [auto|].
    destruct (from_code code d) as [sh|]; [|auto].
    cbn [fst snd]. split; [reflexivity|]. now apply add_assignment_indexed. }
  destruct (ConflictResolver.is_type c "modify_station"); [|auto].
  destruct (ConflictResolver.change_assignment c) as [a|]; [|auto].
  destruct (ConflictResolver.change_new_station c) as [st|]; [|auto].
  destruct (remove_assignment_indexed a s Hidx) as (b & Hret & Hidx').
  destruct (remove_assignment a s) as [s1 o]. cbn [fst snd] in *. subst o.
  cbn [fst snd]. split; [reflexivity|]. now apply add_assignment_indexed.
Qed.

Lemma apply_changes_indexed (cs : list ConflictResolver.Change) :
  forall s, indexed s ->
            snd (ConflictResolver.apply_changes cs s) = Returns tt
            /\ indexed (fst (ConflictResolver.apply_changes cs s)).
Proof.
  induction cs as [|c cs IH]; intros s Hidx; cbn [ConflictResolver.apply_changes].
  - auto.
  - destruct (apply_change_indexed c s Hidx) as [Hret Hidx'].
    destruct (ConflictResolver.apply_change c s) as [s1 o]. cbn [fst snd] in *.
    subst o. now apply IH.
Qed.

(** X25.  On a schedule whose indexes agree with its list, whatever changes a
    resolution holds, [_apply_resolution] does not fail: it answers [True],
    records the resolution in the history, logs no failure, and leaves a
    schedule whose indexes agree with its list again. *)
Theorem apply_resolution_succeeds (resolution : ConflictResolver.Resolution)
    (self : ConflictResolver.Agent) :
  indexed (ConflictResolver.schedule self) ->
  let out := ConflictResolver._apply_resolution resolution self in
  snd out = true
  /\ indexed (ConflictResolver.schedule (fst out))
  /\ ConflictResolver.resolution_history (fst out)
     = ConflictResolver.resolution_history self
       ++ [(ConflictResolver.Resolution_str resolution,
            length (ConflictResolver.changes resolution))]
  /\ ConflictResolver.log (fst out) = ConflictResolver.log self.
Proof.
  intros Hidx. cbv zeta. unfold ConflictResolver._apply_resolution.
  destruct (apply_changes_indexed (ConflictResolver.changes resolution) _ Hidx)
    as [Hret Hidx'].
  destruct (ConflictResolver.apply_changes _ _) as [s o]. cbn [fst snd] in *.
  subst o. cbn. auto.
Qed.

Lemma apply_resolution_succeeds_witness :
  let out := ConflictResolver._apply_resolution swap_locked_to_bob
               (resolver_of [locked_shift]) in
  snd out = true
  /\ indexed (ConflictResolver.schedule (fst out))
  /\ ConflictResolver.resolution_history (fst out)
     = ConflictResolver.resolution_history (resolver_of [locked_shift])
       ++ [(ConflictResolver.Resolution_str swap_locked_to_bob,
            length (ConflictResolver.changes swap_locked_to_bob))]
  /\ ConflictResolver.log (fst out) = ConflictResolver.log (resolver_of [locked_shift]).
Proof.
  apply (apply_resolution_succeeds swap_locked_to_bob (resolver_of [locked_shift])).
  apply schedule_of_indexed.
Defined.

(** ** The life cycle of an agent *)

Module BA := BaseAgent.






Lemma shutdown_calls_state {H : Type} (agent_name : string) (handler : H)
    (bus : Bus.MessageBus H) :
  BA.agent_state (fst (run_calls [Shutdown] (BA.new_BaseAgent agent_name handler bus)))
  = BA.IDLE.
Proof. reflexivity. Qed.






(** ** The auction does not overstaff *)

Lemma fold_measure {A B : Type} (I : A -> Prop) (m : A -> nat) (f : A -> B -> A)
    (k0 : B) (bound : nat) (l : list B) :
  (forall b, b = k0 \/ b <> k0) ->
  List.NoDup l ->
  (forall a b, In b l -> I a -> I (f a b)) ->
  (forall a b, In b l -> I a -> b <> k0 -> m (f a b) = m a) ->
  (forall a, In k0 l -> I a -> (m (f a k0) <= m a + bound)%nat) ->
  forall a, I a ->
    I (fold_left f l a)
    /\ (m (fold_left f l a) <= m a + bound)%nat
    /\ (~ In k0 l -> m (fold_left f l a) = m a).
Proof.
  intros Hdec. induction l as [|b l IH]; intros Hnd HI Hmiss Hhit a Ha.
  - cbn. repeat split; [exact Ha|lia].
  - inversion Hnd as [|? ? Hb Hl]; subst. cbn [fold_left].
    assert (HIa : I (f a b)) by (apply HI; [now left|exact Ha]).
    destruct (IH Hl (fun a' b' Hb' => HI a' b' (or_intror Hb'))
                (fun a' b' Hb' => Hmiss a' b' (or_intror Hb'))
                (fun a' Hk => Hhit a' (or_intror Hk)) (f a b) HIa)
      as (H1 & H2 & H3).
    split; [exact H1|].
    destruct (Hdec b) as [->|Hne].
    + assert (Hstep := Hhit a (or_introl eq_refl) Ha).
      rewrite (H3 Hb). split; [exact Hstep|].
      intros Hno. exfalso. apply Hno. now left.
    + rewrite (Hmiss a b (or_introl eq_refl) Ha Hne) in H2, H3.
      split; [exact H2|]. intros Hno. apply H3. intros Hin. apply Hno. now right.
Qed.

Lemma staffed_add (a : Assignment) (s : Schedule) (d : Z) (code : string) (st : Station) :
  staffed (add_assignment a s) d code st
  = (staffed s d code st
     + (if (date (shift a) =? d)%Z
           && String.eqb (ShiftType_value (shift_type (shift a))) code
           && Station_eqb (station a) st
        then 1 else 0))%nat.
Proof.
  unfold staffed, add_assignment. cbn [assignments].
  rewrite List.filter_app, length_app. cbn [List.filter].
  destruct (_ && _); reflexivity.
Qed.

Section Overstaffing.
Variable uniform : nat -> Q.
Variable forecast : gmap Z StaffMatcher.DayForecast.
Variable st0 : Store.
(** The day, the code and the station that are counted. *)
Variable Kd : Z.
Variable Kc : string.
Variable Ks : Station.

Lemma fill_loop_count (d : Z) (code : string) (st : Station) (required : Z)
    (candidates : list Employee) :
  In code StaffMatcher.shift_priority ->
  forall (filled : Z) (ag : StaffMatcher.Agent),
    (auction_settings forecast st0) ag ->
    let out := fst (StaffMatcher.fill_loop candidates d code st required filled ag) in
    (auction_settings forecast st0) out
    /\ ((d, code, st) <> (Kd, Kc, Ks) -> (staffed_at Kd Kc Ks) out = (staffed_at Kd Kc Ks) ag)
    /\ (Z.of_nat ((staffed_at Kd Kc Ks) out) <= Z.of_nat ((staffed_at Kd Kc Ks) ag) + Z.max 0
        (required - filled)).
Proof.
  intros Hcode. cbv zeta.
  induction candidates as [|e candidates IH]; intros filled ag Hset;
    cbn [StaffMatcher.fill_loop].
  - cbn [fst]. repeat split; try apply Hset; lia.
  - destruct (required <=? filled) eqn:Efull.
    { cbn [fst]. repeat split; try apply Hset; lia. }
    apply Z.leb_gt in Efull.
    destruct (StaffMatcher._can_assign ag e d code) eqn:Hcan; [|apply IH; exact Hset].
    destruct (can_assign_true ag e d code Hcan) as (sh & Hsh & _).
    unfold StaffMatcher._create_assignment. rewrite Hsh.
    destruct (priority_shift code d sh Hcode Hsh) as (Hdate & _ & _ & Hval).
    match goal with |- context [StaffMatcher.fill_loop candidates d code st required
                                   (filled + 1) ?x] =>
      destruct (IH (filled + 1) x) as (G1 & G2 & G3); [exact Hset|];
      assert (Hm : (staffed_at Kd Kc Ks) x = ((staffed_at Kd Kc Ks) ag + (if (d =? Kd)%Z &&
          String.eqb code Kc && Station_eqb st Ks
                                  then 1 else 0))%nat)
    end.
    { unfold staffed_at. cbn [StaffMatcher._record_assignment StaffMatcher.with_schedule
                     StaffMatcher.schedule].
      rewrite staffed_add. cbn [new_Assignment shift station]. rewrite Hdate, Hval.
      reflexivity. }
    split; [exact G1|]. split.
    + intros Hne. rewrite (G2 Hne), Hm.
      destruct (d =? Kd) eqn:E1; [|cbn; lia].
      destruct (String.eqb code Kc) eqn:E2; [|cbn; lia].
      destruct (Station_eqb st Ks) eqn:E3; [|cbn; lia].
      exfalso. apply Hne. apply Z.eqb_eq in E1. apply String.eqb_eq in E2.
      apply Station_eqb_eq in E3. congruence.
    + rewrite Hm in G3.
      destruct ((d =? Kd) && String.eqb code Kc && Station_eqb st Ks); lia.
Qed.

Lemma station_step_count (d : Z) (code : string) (st : Station)
    (ag : StaffMatcher.Agent) (required : Z) :
  In code StaffMatcher.shift_priority ->
  (auction_settings forecast st0) ag ->
  let out := if 0 <? required
             then fst (StaffMatcher._fill_station_shift uniform ag d code st required)
             else ag in
  (auction_settings forecast st0) out
  /\ ((d, code, st) <> (Kd, Kc, Ks) -> (staffed_at Kd Kc Ks) out = (staffed_at Kd Kc Ks) ag)
  /\ (Z.of_nat ((staffed_at Kd Kc Ks) out) <= Z.of_nat ((staffed_at Kd Kc Ks) ag) + Z.max 0
      required).
Proof.
  intros Hcode Hset. cbv zeta.
  destruct (0 <? required); [|repeat split; try apply Hset; lia].
  unfold StaffMatcher._fill_station_shift.
  destruct (ranked_candidates_sound uniform ag d code st) as [_ [n Hn]].
  destruct (StaffMatcher._get_ranked_candidates uniform ag d code st) as [cands ag1].
  cbn [snd] in Hn. subst ag1.
  destruct (fill_loop_count d code st required cands Hcode 0
              (StaffMatcher.with_draws ag n) Hset) as (G1 & G2 & G3).
  rewrite Z.sub_0_r in G3. repeat split; try apply G1; assumption.
Qed.

Lemma stations_count (d : Z) (code : string) (reqs : gmap string Z)
    (ag : StaffMatcher.Agent) :
  In code StaffMatcher.shift_priority ->
  (auction_settings forecast st0) ag ->
  let out :=
    fold_left
      (fun self2 station =>
         let required_count := default 0 (reqs !! Station_value station) in
         if 0 <? required_count
         then fst (StaffMatcher._fill_station_shift uniform self2 d code station
                     required_count)
         else self2)
      (get_active_stations st0) ag in
  (auction_settings forecast st0) out
  /\ ((d, code) <> (Kd, Kc) -> (staffed_at Kd Kc Ks) out = (staffed_at Kd Kc Ks) ag)
  /\ (Z.of_nat ((staffed_at Kd Kc Ks) out)
      <= Z.of_nat ((staffed_at Kd Kc Ks) ag) + Z.max 0 (default 0 (reqs !! Station_value Ks))).
Proof.
  intros Hcode Hset. cbv zeta.
  set (f := fun (self2 : StaffMatcher.Agent) (station : Station) =>
              let required_count := default 0 (reqs !! Station_value station) in
              if 0 <? required_count
              then fst (StaffMatcher._fill_station_shift uniform self2 d code station
                          required_count)
              else self2).
  assert (Hnd : List.NoDup (get_active_stations st0)).
  { unfold get_active_stations.
    destruct (has_mccafe st0), (has_dessert_station st0); cbn;
      repeat constructor; cbn; intuition discriminate. }
  split; [|split].
  - apply (fold_left_invariant (auction_settings forecast st0) f); [|exact Hset].
    intros a b _ Ha. apply (station_step_count d code b a _ Hcode Ha).
  - intros Hne.
    apply (fold_left_invariant (fun a => (auction_settings forecast st0) a /\ (staffed_at Kd
        Kc Ks) a = (staffed_at Kd Kc Ks) ag) f);
      [|split; [exact Hset|reflexivity]].
    intros a b _ [Ha Hm].
    destruct (station_step_count d code b a (default 0 (reqs !! Station_value b))
                Hcode Ha) as (G1 & G2 & _).
    split; [exact G1|]. unfold f. cbv zeta. rewrite G2; [exact Hm|].
    intros Heq. apply Hne. congruence.
  - destruct (fold_measure (auction_settings forecast st0) (staffed_at Kd Kc Ks) f Ks
                (Z.to_nat (Z.max 0 (default 0 (reqs !! Station_value Ks))))
                (get_active_stations st0)) with (a := ag) as (_ & G & _);
      try assumption.
    + intros b. destruct (decide (b = Ks)); auto.
    + intros a b _ Ha. apply (station_step_count d code b a _ Hcode Ha).
    + intros a b _ Ha Hb.
      destruct (station_step_count d code b a (default 0 (reqs !! Station_value b))
                  Hcode Ha) as (_ & G2 & _).
      apply G2. intros Heq. apply Hb. congruence.
    + intros a _ Ha.
      destruct (station_step_count d code Ks a (default 0 (reqs !! Station_value Ks))
                  Hcode Ha) as (_ & _ & G3).
      unfold f. cbv zeta. lia.
    + lia.
Qed.

Lemma match_day_count (d : Z) (ag : StaffMatcher.Agent) :
  (auction_settings forecast st0) ag ->
  let out := StaffMatcher._match_day uniform ag d in
  (auction_settings forecast st0) out
  /\ (d <> Kd -> (staffed_at Kd Kc Ks) out = (staffed_at Kd Kc Ks) ag)
  /\ (Z.of_nat ((staffed_at Kd Kc Ks) out) <= Z.of_nat ((staffed_at Kd Kc Ks) ag) + Z.max 0
      (required_by forecast d Kc Ks)).
Proof.
  intros Hset. cbv zeta. unfold StaffMatcher._match_day.
  destruct Hset as [Hf Hs]. rewrite Hf, Hs.
  set (reqs := match forecast !! d with
               | Some day_forecast => StaffMatcher.shift_requirements day_forecast
               | None => ∅
               end).
  set (f := fun (self1 : StaffMatcher.Agent) (shift_code : string) =>
              let shift_reqs := default ∅ (reqs !! shift_code) in
              fold_left
                (fun self2 station =>
                   let required_count := default 0 (shift_reqs !! Station_value station) in
                   if 0 <? required_count
                   then fst (StaffMatcher._fill_station_shift uniform self2 d shift_code
                               station required_count)
                   else self2)
                (get_active_stations st0) self1).
  assert (Hset : (auction_settings forecast st0) ag) by (split; assumption).
  split; [|split].
  - apply (fold_left_invariant (auction_settings forecast st0) f); [|exact Hset].
    intros a b Hb Ha. apply (stations_count d b _ a Hb Ha).
  - intros Hne.
    apply (fold_left_invariant (fun a => (auction_settings forecast st0) a /\ (staffed_at Kd
        Kc Ks) a = (staffed_at Kd Kc Ks) ag) f);
      [|split; [exact Hset|reflexivity]].
    intros a b Hb [Ha Hm].
    destruct (stations_count d b (default ∅ (reqs !! b)) a Hb Ha) as (G1 & G2 & _).
    split; [exact G1|]. unfold f. cbv zeta in *. rewrite G2; [exact Hm|].
    intros Heq. apply Hne. congruence.
  - destruct (fold_measure (auction_settings forecast st0) (staffed_at Kd Kc Ks) f Kc
                (Z.to_nat (Z.max 0 (required_by forecast d Kc Ks)))
                StaffMatcher.shift_priority) with (a := ag) as (_ & G & _);
      try assumption.
    + intros b. destruct (decide (b = Kc)); auto.
    + unfold StaffMatcher.shift_priority. repeat constructor; cbn; intuition discriminate.
    + intros a b Hb Ha. apply (stations_count d b _ a Hb Ha).
    + intros a b Hb Ha Hne.
      destruct (stations_count d b (default ∅ (reqs !! b)) a Hb Ha) as (_ & G2 & _).
      apply G2. intros Heq. apply Hne. congruence.
    + intros a Hin Ha.
      destruct (stations_count d Kc (default ∅ (reqs !! Kc)) a Hin Ha) as (_ & _ & G3).
      unfold f. cbv zeta in *. unfold required_by. fold reqs. lia.
    + lia.
Qed.

Lemma days_count (days : list Z) (ag : StaffMatcher.Agent) :
  List.NoDup days -> (auction_settings forecast st0) ag ->
  Z.of_nat ((staffed_at Kd Kc Ks) (fold_left (StaffMatcher._match_day uniform) days ag))
  <= Z.of_nat ((staffed_at Kd Kc Ks) ag) + Z.max 0 (required_by forecast Kd Kc Ks).
Proof.
  intros Hnd Hset.
  destruct (fold_measure (auction_settings forecast st0) (staffed_at Kd Kc Ks)
      (StaffMatcher._match_day uniform) Kd
              (Z.to_nat (Z.max 0 (required_by forecast Kd Kc Ks))) days)
    with (a := ag) as (_ & G & _); try assumption.
  - intros b. destruct (decide (b = Kd)); auto.
  - intros a b _ Ha. apply (match_day_count b a Ha).
  - intros a b _ Ha Hne. destruct (match_day_count b a Ha) as (_ & G2 & _). now apply G2.
  - intros a _ Ha. destruct (match_day_count Kd a Ha) as (_ & _ & G3). lia.
  - lia.
Qed.
End Overstaffing.

(** X28.  The auction does not overstaff: in the schedule that
    [StaffMatcherAgent.execute] builds, the assignments on a day, with the
    shift of a code, at a station number at most what the forecast asks for
    that day, code and station (none where it asks for nothing). *)
Theorem auction_never_overstaffs (uniform : nat -> Q) (self : StaffMatcher.Agent)
    (staff : list Employee) (st0 : Store) (forecast : gmap Z StaffMatcher.DayForecast)
    (first_day last_day : Z) (d : Z) (code : string) (st : Station) :
  Z.of_nat
    (staffed
       (StaffMatcher.schedule
          (StaffMatcher.execute uniform self staff st0 forecast first_day last_day))
       d code st)
  <= Z.max 0 (required_by forecast d code st).
Proof.
  unfold StaffMatcher.execute.
  match goal with |- context [fold_left _ _ ?x] =>
    pose proof (days_count uniform forecast st0 d code st
                  (seqZ first_day (last_day - first_day + 1)) x) as H end.
  unfold staffed_at in H. cbn [StaffMatcher.schedule new_Schedule assignments staffed] in H.
  apply H.
  - apply NoDup_ListNoDup, NoDup_seqZ.
  - split; reflexivity.
Qed.

(** ** Adding and removing an assignment *)

Lemma Assignment_eqb_refl (a : Assignment) : Assignment_eqb a a = true.
Proof.
  unfold Assignment_eqb, Employee_eqb, Shift_eqb.
  rewrite String.eqb_refl, bool_decide_eq_true_2 by reflexivity.
  rewrite !Z.eqb_refl, Station_eqb_refl, Bool.eqb_reflx, String.eqb_refl.
  assert (Hq : Qeq_bool (hours (shift a)) (hours (shift a)) = true)
    by (apply Qeq_bool_iff; reflexivity).
  rewrite Hq. reflexivity.
Qed.

(** X29.  Adding an assignment to a schedule whose indexes agree with its
    list, and removing it again, gives back the schedule as far as it can be
    read: when the assignment is not locked and the schedule held none equal
    to it, [remove_assignment] answers [True], and the list of assignments
    and the lists by date, by employee and by station are the ones from
    before. *)
Theorem add_then_remove_restores (s : Schedule) (a : Assignment) :
  indexed s ->
  is_locked a = false ->
  (forall x, In x (assignments s) -> Assignment_eqb x a = false) ->
  let out := remove_assignment a (add_assignment a s) in
  snd out = Returns true
  /\ assignments (fst out) = assignments s
  /\ (forall d, get_assignments_by_date (fst out) d = get_assignments_by_date s d)
  /\ (forall i, get_assignments_by_employee (fst out) i = get_assignments_by_employee s i)
  /\ (forall st, get_assignments_by_station (fst out) st = get_assignments_by_station s st).
Proof.
  intros Hidx Hlock Hnew. cbv zeta.
  pose proof (add_assignment_indexed a s Hidx) as Hidx1.
  destruct (remove_assignment_indexed a (add_assignment a s) Hidx1) as (b & Hret & Hidx2).
  assert (Hl : list_remove Assignment_eqb a (assignments s ++ [a]) = Some (assignments s)).
  { rewrite (list_remove_first Assignment_eqb a (assignments s) []
               (Assignment_eqb_refl a) Hnew).
    now rewrite app_nil_r. }
  assert (Hboth : snd (remove_assignment a (add_assignment a s)) = Returns true
                  /\ assignments (fst (remove_assignment a (add_assignment a s)))
                     = assignments s).
  { revert Hret. unfold remove_assignment. rewrite Hlock.
    change (assignments (add_assignment a s)) with (assignments s ++ [a]).
    rewrite (contains_middle Assignment_eqb a (assignments s) [] (Assignment_eqb_refl a)).
    rewrite Hl.
    destruct (list_remove Assignment_eqb a (get_assignments_by_date _ _));
      [|cbn; discriminate].
    destruct (list_remove Assignment_eqb a (get_assignments_by_employee _ _));
      [|cbn; discriminate].
    destruct (list_remove Assignment_eqb a (get_assignments_by_station _ _));
      [|cbn; discriminate].
    intros _. cbn. split; reflexivity. }
  destruct Hboth as [Hr Ha]. split; [exact Hr|]. split; [exact Ha|].
  destruct Hidx as (Hd & He & Hs). destruct Hidx2 as (Hd2 & He2 & Hs2).
  repeat split.
  - intros d. rewrite Hd2, Hd, Ha. reflexivity.
  - intros i. rewrite He2, He, Ha. reflexivity.
  - intros st. rewrite Hs2, Hs, Ha. reflexivity.
Qed.

Lemma add_then_remove_restores_witness :
  snd (remove_assignment (new_Assignment alice (shift_of "1F" monday) KITCHEN)
         (add_assignment (new_Assignment alice (shift_of "1F" monday) KITCHEN)
            (schedule_of [new_Assignment bob (shift_of "2F" monday) COUNTER])))
  = Returns true.
Proof.
  apply (add_then_remove_restores
           (schedule_of [new_Assignment bob (shift_of "2F" monday) COUNTER])
           (new_Assignment alice (shift_of "1F" monday) KITCHEN)).
  - apply schedule_of_indexed.
  - reflexivity.
  - intros x [<-|[]]. reflexivity.
Defined.

(** ** The register of the message bus *)

Lemma dict_get_set {H : Type} (n k : string) (h : H) (l : list (string * H)) :
  Bus.dict_get k (Bus.dict_set n h l)
  = if String.eqb n k then Some h else Bus.dict_get k l.
Proof.
  unfold Bus.dict_get. induction l as [|[k0 h0] l IH]; cbn [Bus.dict_set List.find fst snd].
  - rewrite (String.eqb_sym n k). destruct (String.eqb k n); reflexivity.
  - destruct (String.eqb k0 n) eqn:E0; cbn [List.find fst snd].
    + apply String.eqb_eq in E0. subst k0.
      destruct (String.eqb n k); reflexivity.
    + destruct (String.eqb k0 k) eqn:E1.
      * apply String.eqb_eq in E1. subst k0. rewrite (String.eqb_sym n k), E0.
        reflexivity.
      * exact IH.
Qed.

Lemma dict_keys_set {H : Type} (n : string) (h : H) (l : list (string * H)) :
  map fst (Bus.dict_set n h l)
  = if existsb (fun kv => String.eqb (fst kv) n) l then map fst l else map fst l ++ [n].
Proof.
  induction l as [|[k0 h0] l IH]; cbn [Bus.dict_set existsb map fst]; [reflexivity|].
  destruct (String.eqb k0 n) eqn:E0; cbn [orb map fst]; [reflexivity|].
  rewrite IH. destruct (existsb _ l); reflexivity.
Qed.

Lemma dict_get_filter {H : Type} (n k : string) (l : list (string * H)) :
  Bus.dict_get k (List.filter (fun kv => negb (String.eqb (fst kv) n)) l)
  = if String.eqb n k then None else Bus.dict_get k l.
Proof.
  unfold Bus.dict_get. induction l as [|[k0 h0] l IH]; cbn [List.filter List.find fst snd].
  - destruct (String.eqb n k); reflexivity.
  - destruct (String.eqb k0 n) eqn:E0; cbn [negb List.find fst snd].
    + apply String.eqb_eq in E0. subst k0. rewrite IH.
      destruct (String.eqb n k); reflexivity.
    + destruct (String.eqb k0 k) eqn:E1; [|exact IH].
      apply String.eqb_eq in E1. subst k0. rewrite (String.eqb_sym n k), E0.
      reflexivity.
Qed.

Lemma omap_id_Some {A : Type} (l : list A) : omap id (map Some l) = l.
Proof. induction l as [|x l IH]; [reflexivity|]. simpl. f_equal. exact IH. Qed.

Lemma items_resize {V : Type} (d : Dict.t V) : Dict.items (Dict.resize d) = Dict.items d.
Proof. unfold Dict.resize, Dict.items. cbn [Dict.entries]. apply omap_id_Some. Qed.

Lemma dict_set_absent {H : Type} (k : string) (h : H) (l : list (string * H)) :
  List.find (fun kv => String.eqb (fst kv) k) l = None ->
  Bus.dict_set k h l = l ++ [(k, h)].
Proof.
  induction l as [|[k0 h0] l IH]; cbn [Bus.dict_set List.find fst app]; [reflexivity|].
  destruct (String.eqb k0 k); [discriminate|]. intros Hn. now rewrite IH.
Qed.

Lemma items_replace_value {H : Type} (k : string) (h : H)
    (es : list (option (string * H))) :
  List.find (fun kv => String.eqb (fst kv) k) (omap id es) <> None ->
  omap id (Dict.replace_value k h es) = Bus.dict_set k h (omap id es).
Proof.
  induction es as [|[[k0 h0]|] es IH]; simpl.
  - congruence.
  - destruct (String.eqb k0 k); simpl; [reflexivity|].
    intros Hn. f_equal. now apply IH.
  - exact IH.
Qed.

(** On the items of the dict, [d[k] = h] is [dict_set] and [del d[k]]
    drops the item of the key. *)
Lemma items_setitem {H : Type} (k : string) (h : H) (d : Dict.t H) :
  Dict.items (Dict.setitem k h d) = Bus.dict_set k h (Dict.items d).
Proof.
  unfold Dict.setitem, Dict.get.
  destruct (List.find _ (Dict.items d)) as [kv|] eqn:E.
  - unfold Dict.items. cbn [Dict.entries]. apply items_replace_value.
    unfold Dict.items in E. congruence.
  - rewrite (dict_set_absent k h _ E).
    unfold Dict.items at 1. cbn [Dict.entries]. rewrite omap_app. simpl. f_equal.
    destruct (Dict.usable d <=? 0); [apply items_resize|reflexivity].
Qed.

Lemma items_delitem {H : Type} (k : string) (d : Dict.t H) :
  Dict.items (Dict.delitem k d)
  = List.filter (fun kv => negb (String.eqb (fst kv) k)) (Dict.items d).
Proof.
  unfold Dict.delitem, Dict.items. cbn [Dict.entries].
  induction (Dict.entries d) as [|[[k0 h0]|] es IH]; simpl; [reflexivity| |exact IH].
  destruct (String.eqb k0 k) eqn:E0; simpl; [exact IH|]. f_equal. exact IH.
Qed.

Lemma filter_absent {H : Type} (k : string) (l : list (string * H)) :
  List.find (fun kv => String.eqb (fst kv) k) l = None ->
  List.filter (fun kv => negb (String.eqb (fst kv) k)) l = l.
Proof.
  induction l as [|[k0 h0] l IH]; cbn [List.find List.filter fst]; [reflexivity|].
  destruct (String.eqb k0 k); [discriminate|]. intros Hn. cbn [negb]. now rewrite IH.
Qed.

Lemma subscribers_register {H : Type} (n : string) (h : H) (b : Bus.MessageBus H) :
  Bus.subscribers (Bus.register n h b) = Bus.dict_set n h (Bus.subscribers b).
Proof.
  unfold Bus.register, Bus.subscribers. cbn [Bus.verbose].
  destruct (Bus.verbose b); cbn [Bus.print Bus.subscribers_dict]; apply items_setitem.
Qed.

Lemma subscribers_unregister {H : Type} (n : string) (b : Bus.MessageBus H) :
  Bus.subscribers (Bus.unregister n b)
  = List.filter (fun kv => negb (String.eqb (fst kv) n)) (Bus.subscribers b).
Proof.
  unfold Bus.unregister, Bus.subscribers, Dict.get.
  destruct (List.find _ (Dict.items (Bus.subscribers_dict b))) as [kv|] eqn:E.
  - cbn [Bus.subscribers_dict]. apply items_delitem.
  - symmetry. now apply filter_absent.
Qed.

(** X30.  The register of the bus works as a dict: after [register] the name
    is looked up to the new handler and every other name as before; after
    [unregister] the name is not found and every other name is as before;
    the names stay distinct; and registering a new name at the end and
    removing it again leaves the subscribers as they were.  Neither call
    touches the message history. *)
Theorem bus_register_lookup {H : Type} (b : Bus.MessageBus H) (n k : string) (h : H) :
  Bus.dict_get k (Bus.subscribers (Bus.register n h b))
  = (if String.eqb n k then Some h else Bus.dict_get k (Bus.subscribers b))
  /\ Bus.dict_get k (Bus.subscribers (Bus.unregister n b))
     = (if String.eqb n k then None else Bus.dict_get k (Bus.subscribers b))
  /\ (List.NoDup (map fst (Bus.subscribers b)) ->
      List.NoDup (map fst (Bus.subscribers (Bus.register n h b)))
      /\ List.NoDup (map fst (Bus.subscribers (Bus.unregister n b))))
  /\ (Bus.dict_get n (Bus.subscribers b) = None ->
      Bus.subscribers (Bus.unregister n (Bus.register n h b)) = Bus.subscribers b)
  /\ Bus.message_history (Bus.register n h b) = Bus.message_history b
  /\ Bus.message_history (Bus.unregister n b) = Bus.message_history b.
Proof.
  pose proof (subscribers_register n h b) as Hreg.
  assert (Hhist : Bus.message_history (Bus.register n h b) = Bus.message_history b).
  { unfold Bus.register. cbn. destruct (Bus.verbose b); reflexivity. }
  assert (Hhist' : Bus.message_history (Bus.unregister n b) = Bus.message_history b).
  { unfold Bus.unregister. destruct (Dict.get n _); reflexivity. }
  rewrite Hreg, !subscribers_unregister, Hreg.
  split; [apply dict_get_set|]. split; [apply dict_get_filter|].
  split; [|split; [|split; [exact Hhist|exact Hhist']]].
  - intros Hnd. split.
    + rewrite dict_keys_set. destruct (existsb _ _) eqn:E; [exact Hnd|].
      apply NoDup_snoc; [exact Hnd|]. intros Hin. apply in_map_iff in Hin.
      destruct Hin as ([k0 h0] & Hk & Hin). cbn in Hk. subst k0.
      assert (Hex : existsb (fun kv : string * H => String.eqb (fst kv) n)
                      (Bus.subscribers b) = true).
      { apply existsb_exists. exists (n, h0). split; [exact Hin|apply String.eqb_refl]. }
      congruence.
    + clear Hreg Hhist Hhist'.
      induction (Bus.subscribers b) as [|[k0 h0] l IH]; cbn [List.filter map fst];
        [constructor|].
      inversion Hnd as [|? ? Hk Hl]; subst.
      destruct (String.eqb k0 n); cbn [negb map fst]; [now apply IH|].
      constructor; [|now apply IH].
      intros Hin. apply Hk. apply in_map_iff in Hin.
      destruct Hin as (kv & Hkv & Hin). apply List.filter_In in Hin.
      apply in_map_iff. exists kv. split; [exact Hkv|apply Hin].
  - intros Hnone.
    clear Hreg Hhist Hhist'. unfold Bus.dict_get in Hnone.
    induction (Bus.subscribers b) as [|[k0 h0] l IH];
      cbn [Bus.dict_set List.filter List.find fst snd] in *.
    + rewrite String.eqb_refl. reflexivity.
    + destruct (String.eqb k0 n) eqn:E0; [discriminate|].
      cbn [List.filter fst]. rewrite E0. cbn [negb]. f_equal. now apply IH.
Qed.
